(** * Airline operations: crew scheduling and the alert pipeline

    A shallow embedding of [crew_optimizer.py] (crew assignment engine,
    conflict detector, summary) and of the alert pipeline of [main.py]
    (component registry, producer loops, alert dispatcher), followed by the
    properties established about them.

    Python dictionaries are finite maps ([gmap]), lists are lists, objects
    that are mutated in place live in an explicit store and are referred to
    by their position in it, and code that reads the clock, draws random
    numbers or may raise runs in a small state-and-exception monad. *)

From stdpp Require Import gmap strings list pretty.
From Stdlib Require Import ZArith Lia Ascii.

Set Warnings "-register-all".

Local Open Scope string_scope.
Local Open Scope Z_scope.
Local Open Scope list_scope.

(** ** Python exceptions and results *)

(** The exception classes that occur; all of them derive from [Exception],
    so an [except Exception] clause catches every one of them. *)
Inductive PyExc :=
| KeyError (key : string)
| TypeError (msg : string)
| AttributeError (attr : string)
| IndexError (msg : string)
| ValueError (msg : string)
| RuntimeError (msg : string).

Inductive PyResult (A : Type) :=
| Ok (a : A)
| Raise (e : PyExc).
Arguments Ok {A} a.
Arguments Raise {A} e.

(** ** Stateful code that may raise

    A computation over a state [S] returns a value or raises, and in both
    cases leaves a state behind: what was mutated before an exception stays
    mutated. *)
Definition Py (S A : Type) : Type := S → PyResult A * S.

#[global] Instance Py_ret {S} : MRet (Py S) := λ A a s, (Ok a, s).
#[global] Instance Py_bind {S} : MBind (Py S) := λ A B f m s,
  match m s with
  | (Ok a, s') => f a s'
  | (Raise e, s') => (Raise e, s')
  end.
#[global] Instance Py_fmap {S} : FMap (Py S) := λ A B f m s,
  match m s with
  | (Ok a, s') => (Ok (f a), s')
  | (Raise e, s') => (Raise e, s')
  end.

Definition raise {S A} (e : PyExc) : Py S A := λ s, (Raise e, s).

(** [try: body  except Exception as e: handler(e)] *)
Definition try_except {S A} (body : Py S A) (handler : PyExc → Py S A)
    : Py S A := λ s,
  match body s with
  | (Ok a, s') => (Ok a, s')
  | (Raise e, s') => handler e s'
  end.

(** [for x in xs: body(x)] *)
Fixpoint for_each {S A} (body : A → Py S unit) (xs : list A) : Py S unit :=
  match xs with
  | [] => mret tt
  | x :: xs' => body x;; for_each body xs'
  end.

(** ** The clock

    Times are microseconds, the resolution of [datetime].  Every call of
    [datetime.now()] returns [clock_now] and then lets the clock advance by
    the next entry of [clock_ticks] (by nothing once the list is used up),
    so readings never go backwards and a list of zeros is a frozen clock.
    This is an assumption about one call: the wall clock does not step
    back while the call runs.  Nothing is assumed from one call to the
    next: a later call starts in a world whose clock is any clock. *)
Record Clock := {
  clock_now : Z;
  clock_ticks : list nat
}.

Definition read_clock (c : Clock) : Z * Clock :=
  (clock_now c,
   {| clock_now := clock_now c + Z.of_nat (hd 0%nat (clock_ticks c));
      clock_ticks := tail (clock_ticks c) |}).

(** * crew_optimizer.py *)
Module CrewOptimizer.

(** ** Data model *)

(** A crew record as built by [_initialize_crew].  Pilots carry
    [license_type] and [flight_hours], attendants carry [type_ratings]. *)
Record CrewMember := {
  crew_id : string;
  name : string;
  role : string;
  license_type : option string;
  flight_hours : option Z;
  type_ratings : option (list string);
  base : string;
  rest_hours : Z;
  next_available : Z;
  assigned_flights : list string
}.

Record Flight := {
  flight_id : string;
  aircraft_id : string
}.

(** The dictionary returned by [_assign_crew_to_flight]. *)
Record Assignment := {
  asg_flight_id : string;
  asg_aircraft_id : string;
  captain : option string;
  first_officer : option string;
  attendants : list string;
  crew_count : nat;
  assignment_time : Z
}.

(** The two shapes of dictionary appended to [issues]. *)
Inductive Issue :=
| DOUBLE_BOOKING (crew : string) (flights : list string) (severity : string)
| CREW_SHORTAGE (flight : string) (missing_role : string) (severity : string).

Record Summary := {
  total_flights_scheduled : nat;
  total_crew_utilized : nat;
  (** [sum(values) / len(values)], kept as numerator and denominator;
      [(0, 1)] stands for the literal [0] of the empty case. *)
  avg_flights_per_crew : nat * nat;
  max_flights_per_crew : nat
}.

Record ScheduleResult := {
  assignments : list Assignment;
  issues : list Issue;
  summary : Summary
}.

(** ** Conflict detector: [_check_schedule_issues] *)

(** [assignment.get(key)] for the two pilot roles. *)
Definition assignment_get (a : Assignment) (key : string) : option string :=
  if bool_decide (key = "captain") then captain a
  else if bool_decide (key = "first_officer") then first_officer a
  else None.

(** Truth value of an optional string: [None] and [''] are false. *)
Definition truthy (v : option string) : bool :=
  match v with
  | None => false
  | Some EmptyString => false
  | Some _ => true
  end.

(** The state of the first loop: the issues so far and [crew_assignments]. *)
Definition DetectorState : Type := list Issue * gmap string string.

(** The body shared by both inner loops: report when the id is already a
    key of [crew_assignments], then store the current flight under it. *)
Definition record_sighting (severity flight crew : string)
    (st : DetectorState) : DetectorState :=
  let '(issues, crew_assignments) := st in
  let issues :=
    match crew_assignments !! crew with
    | Some seen_on => issues ++ [DOUBLE_BOOKING crew [seen_on; flight] severity]
    | None => issues
    end in
  (issues, <[crew := flight]> crew_assignments).

(** [for crew_role in ['captain', 'first_officer']: ...] *)
Definition pilot_role_step (a : Assignment) (st : DetectorState)
    (crew_role : string) : DetectorState :=
  match assignment_get a crew_role with
  | Some crew => if truthy (Some crew)
                 then record_sighting "HIGH" (asg_flight_id a) crew st
                 else st
  | None => st
  end.

(** [for attendant_id in assignment.get('attendants', []): ...] *)
Definition attendant_step (a : Assignment) (st : DetectorState)
    (attendant_id : string) : DetectorState :=
  record_sighting "MEDIUM" (asg_flight_id a) attendant_id st.

(** One iteration of the double-booking loop. *)
Definition double_booking_step (st : DetectorState) (a : Assignment)
    : DetectorState :=
  let st := fold_left (pilot_role_step a) ["captain"; "first_officer"] st in
  fold_left (attendant_step a) (attendants a) st.

(** One iteration of the crew-shortage loop. *)
Definition shortage_step (issues : list Issue) (a : Assignment) : list Issue :=
  if negb (truthy (assignment_get a "captain"))
     || negb (truthy (assignment_get a "first_officer"))
  then issues ++ [CREW_SHORTAGE (asg_flight_id a)
                    (if negb (truthy (assignment_get a "captain"))
                     then "captain" else "first_officer")
                    "CRITICAL"]
  else issues.

Definition _check_schedule_issues (assignments : list Assignment)
    : list Issue :=
  let issues := [] in
  let crew_assignments : gmap string string := ∅ in
  let '(issues, _) :=
    fold_left double_booking_step assignments (issues, crew_assignments) in
  fold_left shortage_step assignments issues.

(** ** Summary: [_generate_summary] *)

Definition count_use (crew_utilization : gmap string nat) (crew : string)
    : gmap string nat :=
  <[crew := (default 0 (crew_utilization !! crew) + 1)%nat]> crew_utilization.

Definition summary_pilot_step (a : Assignment)
    (crew_utilization : gmap string nat) (crew_role : string)
    : gmap string nat :=
  match assignment_get a crew_role with
  | Some crew => if truthy (Some crew) then count_use crew_utilization crew
                 else crew_utilization
  | None => crew_utilization
  end.

Definition summary_step (crew_utilization : gmap string nat) (a : Assignment)
    : gmap string nat :=
  let u := fold_left (summary_pilot_step a) ["captain"; "first_officer"]
             crew_utilization in
  fold_left count_use (attendants a) u.

Definition _generate_summary (assignments : list Assignment) : Summary :=
  let total_assignments := length assignments in
  let crew_utilization := fold_left summary_step assignments ∅ in
  let values := (map_to_list crew_utilization).*2 in
  {| total_flights_scheduled := total_assignments;
     total_crew_utilized := size crew_utilization;
     avg_flights_per_crew :=
       if bool_decide (crew_utilization = ∅) then (0, 1)%nat
       else (foldr Nat.add 0%nat values, size crew_utilization);
     max_flights_per_crew :=
       if bool_decide (crew_utilization = ∅) then 0%nat
       else foldr Nat.max 0%nat values |}.

(** ** The engine's world: roster, clock and random source *)

(** [clock] is the system clock and [rng] the sequence of raw draws the
    random generator will produce.  [crew_members] is [self.crew_members]:
    the records are mutated in place, and a selected member is referred to
    by its position here.  ([self.schedule] is assigned once and never
    read; it is left out.) *)
Record World := {
  clock : Clock;
  rng : list nat;
  crew_members : list CrewMember
}.

Abbreviation M := (Py World).

(** [datetime.now()] *)
Definition datetime_now : M Z := λ w,
  let '(now, c) := read_clock (clock w) in
  (Ok now, {| clock := c; rng := rng w; crew_members := crew_members w |}).

(** [timedelta(hours=h)] *)
Definition timedelta_hours (h : Z) : Z := h * 3600000000.

(** The next raw draw of the generator. *)
Definition random_draw : M nat := λ w,
  (Ok (hd 0%nat (rng w)),
   {| clock := clock w; rng := tail (rng w); crew_members := crew_members w |}).

(** [random.choice(seq)]: some element of [seq]; [IndexError] when empty. *)
Definition random_choice {A} (seq : list A) : M A :=
  match seq with
  | [] => raise (IndexError "Cannot choose from an empty sequence")
  | x :: _ =>
      n ← random_draw;
      mret (default x (seq !! (n `mod` length seq)%nat))
  end.

(** [random.randint(a, b)]: an integer of [a..b]; [ValueError] when empty. *)
Definition random_randint (a b : Z) : M Z :=
  if bool_decide (b < a) then raise (ValueError "empty range for randrange()")
  else n ← random_draw; mret (a + Z.of_nat n `mod` (b - a + 1)).

(** Draw [k] elements at pairwise different positions, one after another:
    each draw picks a position of what is left and removes it. *)
Fixpoint sample_from {A} (pool : list A) (k : nat) : M (list A) :=
  match k with
  | O => mret []
  | S k' =>
      n ← random_draw;
      let i := (n `mod` length pool)%nat in
      match pool !! i with
      | Some x => rest ← sample_from (delete i pool) k'; mret (x :: rest)
      | None => raise (ValueError "Sample larger than population or is negative")
      end
  end.

(** [random.sample(population, k)] *)
Definition random_sample {A} (population : list A) (k : nat) : M (list A) :=
  if bool_decide (length population < k)%nat
  then raise (ValueError "Sample larger than population or is negative")
  else sample_from population k.

(** References to the records of [self.crew_members]. *)
Abbreviation crew_ref := nat.

Definition get_crew_members : M (list CrewMember) := λ w,
  (Ok (crew_members w), w).

Definition set_crew_members (crew : list CrewMember) : M unit := λ w,
  (Ok tt, {| clock := clock w; rng := rng w; crew_members := crew |}).

(** Reading through a reference.  References are only ever taken from
    [self.crew_members]; the failure branch is there to make the function
    total and is shown never to be taken. *)
Definition deref (r : crew_ref) : M CrewMember := λ w,
  match crew_members w !! r with
  | Some c => (Ok c, w)
  | None => (Raise (RuntimeError "dangling crew reference"), w)
  end.

(** Mutating the record behind a reference. *)
Definition update_ref (r : crew_ref) (f : CrewMember → CrewMember) : M unit :=
  λ w, (Ok tt, {| clock := clock w; rng := rng w;
                  crew_members := alter f r (crew_members w) |}).

Definition set_next_available (t : Z) (c : CrewMember) : CrewMember :=
  {| crew_id := crew_id c; name := name c; role := role c;
     license_type := license_type c; flight_hours := flight_hours c;
     type_ratings := type_ratings c; base := base c;
     rest_hours := rest_hours c;
     next_available := t;
     assigned_flights := assigned_flights c |}.

Definition append_assigned_flight (f : string) (c : CrewMember) : CrewMember :=
  {| crew_id := crew_id c; name := name c; role := role c;
     license_type := license_type c; flight_hours := flight_hours c;
     type_ratings := type_ratings c; base := base c;
     rest_hours := rest_hours c;
     next_available := next_available c;
     assigned_flights := assigned_flights c ++ [f] |}.

(** ** Roster: [_initialize_crew] *)

(** [f"{i:03d}"] *)
Definition format_03d (i : nat) : string :=
  let digits := pretty i in
  String.concat "" (replicate (3 - String.length digits) "0") +:+ digits.

Definition new_pilot (i : nat) : M CrewMember :=
  hours ← random_randint 500 5000;
  home ← random_choice ["DEL"; "BOM"; "BLR"];
  now ← datetime_now;
  mret {| crew_id := "P" +:+ format_03d i;
          name := "Captain Pilot " +:+ pretty i;
          role := "pilot";
          license_type := Some "ATPL";
          flight_hours := Some hours;
          type_ratings := None;
          base := home;
          rest_hours := 0;
          next_available := now;
          assigned_flights := [] |}.

Definition new_attendant (i : nat) : M CrewMember :=
  home ← random_choice ["DEL"; "BOM"; "BLR"];
  now ← datetime_now;
  mret {| crew_id := "FA" +:+ format_03d i;
          name := "Flight Attendant " +:+ pretty i;
          role := "attendant";
          license_type := None;
          flight_hours := None;
          type_ratings := Some (if (i `mod` 2 =? 0)%nat
                                then ["A320"; "B737"] else ["B787"; "A350"]);
          base := home;
          rest_hours := 0;
          next_available := now;
          assigned_flights := [] |}.

(** [for x in xs: crew.append(make(x))] *)
Fixpoint append_each {A B} (make : A → M B) (xs : list A) (acc : list B)
    : M (list B) :=
  match xs with
  | [] => mret acc
  | x :: xs' => b ← make x; append_each make xs' (acc ++ [b])
  end.

Definition _initialize_crew : M (list CrewMember) :=
  let crew := [] in
  crew ← append_each new_pilot (seq 1 10) crew;
  crew ← append_each new_attendant (seq 1 20) crew;
  mret crew.

(** [CrewOptimizer.__init__]: the roster is stored in the object. *)
Definition __init__ : M unit :=
  crew ← _initialize_crew;
  set_crew_members crew.

(** ** Assignment engine: [_assign_crew_to_flight], [optimize_schedule] *)

(** The condition of the pilot comprehension.  [and] is short-circuit: the
    clock is read only for members whose role is ['pilot']. *)
Definition pilot_available (c : CrewMember) : M bool :=
  if bool_decide (role c = "pilot") then
    now ← datetime_now;
    mret (bool_decide (next_available c ≤ now)
          && bool_decide (rest_hours c ≤ 8))
  else mret false.

(** The condition of the attendant comprehension. *)
Definition attendant_available (c : CrewMember) : M bool :=
  if bool_decide (role c = "attendant") then
    now ← datetime_now;
    mret (bool_decide (next_available c ≤ now))
  else mret false.

(** [[c for c in members if cond(c)]], as references; [r] is the position
    of the head of [members] in [self.crew_members]. *)
Fixpoint comprehension (cond : CrewMember → M bool) (r : crew_ref)
    (members : list CrewMember) : M (list crew_ref) :=
  match members with
  | [] => mret []
  | c :: members' =>
      keep ← cond c;
      kept ← comprehension cond (S r) members';
      mret (if keep : bool then r :: kept else kept)
  end.

Definition available_pilots : M (list crew_ref) :=
  members ← get_crew_members;
  comprehension pilot_available 0%nat members.

Definition available_attendants : M (list crew_ref) :=
  members ← get_crew_members;
  comprehension attendant_available 0%nat members.

(** The two statements that book a selected member on a flight. *)
Definition book (flight : string) (rest_period : Z) (r : crew_ref) : M unit :=
  now ← datetime_now;
  update_ref r (set_next_available (now + rest_period));;
  update_ref r (append_assigned_flight flight).

(** [[f(x) for x in xs]] *)
Fixpoint map_M {A B} (f : A → M B) (xs : list A) : M (list B) :=
  match xs with
  | [] => mret []
  | x :: xs' => b ← f x; bs ← map_M f xs'; mret (b :: bs)
  end.

(** Everything of [_assign_crew_to_flight] after the two pools are built. *)
Definition select_and_book (flight : Flight)
    (available_pilots available_attendants : list crew_ref) : M Assignment :=
  (* Select crew *)
  captain ← match available_pilots with
            | [] => mret None
            | _ => Some <$> random_choice (take 5 available_pilots)
            end;
  first_officer ← (if bool_decide (5 < length available_pilots)%nat
                   then Some <$> random_choice (drop 5 available_pilots)
                   else mret None);
  attendants ← random_sample available_attendants
                 (4 `min` length available_attendants)%nat;
  (* Update crew availability *)
  flight_duration ← random_randint 1 6;
  let rest_period := timedelta_hours (flight_duration + 10) in
  match captain with
  | Some r => book (flight_id flight) rest_period r
  | None => mret tt
  end;;
  match first_officer with
  | Some r => book (flight_id flight) rest_period r
  | None => mret tt
  end;;
  for_each (book (flight_id flight) rest_period) attendants;;
  captain_id ← match captain with
               | Some r => Some <$> (crew_id <$> deref r)
               | None => mret None
               end;
  first_officer_id ← match first_officer with
                     | Some r => Some <$> (crew_id <$> deref r)
                     | None => mret None
                     end;
  attendant_ids ← map_M (λ r, crew_id <$> deref r) attendants;
  now ← datetime_now;
  mret {| asg_flight_id := flight_id flight;
          asg_aircraft_id := aircraft_id flight;
          captain := captain_id;
          first_officer := first_officer_id;
          attendants := attendant_ids;
          crew_count := (length attendants
                         + match captain with Some _ => 1 | None => 0 end
                         + match first_officer with Some _ => 1 | None => 0 end)%nat;
          assignment_time := now |}.

Definition _assign_crew_to_flight (flight : Flight) : M Assignment :=
  (* Get available crew *)
  pilots ← available_pilots;
  cabin ← available_attendants;
  select_and_book flight pilots cabin.

Definition optimize_schedule (flights_data : list Flight) : M ScheduleResult :=
  assignments ← append_each _assign_crew_to_flight flights_data [];
  (* Check for issues *)
  let issues := _check_schedule_issues assignments in
  mret {| assignments := assignments;
          issues := issues;
          summary := _generate_summary assignments |}.

End CrewOptimizer.

(** * main.py *)
Module Main.

(** ** Python values

    Alerts, predictions, flight data and the configuration are plain
    dictionaries, lists, strings and numbers; a dictionary is kept as its
    items in insertion order.  (Floats do not occur in what is modelled.) *)
Inductive PyVal :=
| VNone
| VBool (b : bool)
| VInt (z : Z)
| VStr (s : string)
| VList (items : list PyVal)
| VDict (items : list (string * PyVal)).

Definition dict_lookup (key : string) (items : list (string * PyVal))
    : option PyVal :=
  snd <$> find (λ kv, bool_decide (kv.1 = key)) items.

(** Truth value of [v]. *)
Definition py_truthy (v : PyVal) : bool :=
  match v with
  | VNone => false
  | VBool b => b
  | VInt z => negb (z =? 0)
  | VStr s => negb (bool_decide (s = ""))
  | VList items => negb (bool_decide (length items = 0%nat))
  | VDict items => negb (bool_decide (length items = 0%nat))
  end.

Fixpoint chars (s : string) : list PyVal :=
  match s with
  | EmptyString => []
  | String a s' => VStr (String a EmptyString) :: chars s'
  end.

(** [iter(v)], run to the end. *)
Definition py_iter (v : PyVal) : PyResult (list PyVal) :=
  match v with
  | VList items => Ok items
  | VDict items => Ok (VStr <$> items.*1)
  | VStr s => Ok (chars s)
  | _ => Raise (TypeError "object is not iterable")
  end.

(** [len(v)] *)
Definition py_len (v : PyVal) : PyResult nat :=
  match v with
  | VList items => Ok (length items)
  | VDict items => Ok (length items)
  | VStr s => Ok (String.length s)
  | _ => Raise (TypeError "object has no len()")
  end.

(** [v.get(key, default)] *)
Definition py_get (v : PyVal) (key : string) (default : PyVal)
    : PyResult PyVal :=
  match v with
  | VDict items => Ok (from_option id default (dict_lookup key items))
  | _ => Raise (AttributeError "get")
  end.

(** [v[key]] for a string key. *)
Definition py_getitem (v : PyVal) (key : string) : PyResult PyVal :=
  match v with
  | VDict items =>
      match dict_lookup key items with
      | Some x => Ok x
      | None => Raise (KeyError key)
      end
  | _ => Raise (TypeError "indices must be integers or object is not subscriptable")
  end.

(** [v > n] for an integer literal [n]. *)
Definition py_gt (v : PyVal) (n : Z) : PyResult bool :=
  match v with
  | VInt z => Ok (n <? z)
  | VBool b => Ok (n <? (if b then 1 else 0))
  | _ => Raise (TypeError "'>' not supported between these instances")
  end.

Definition lower_ascii (a : ascii) : ascii :=
  let n := nat_of_ascii a in
  if (65 <=? n)%nat && (n <=? 90)%nat then ascii_of_nat (n + 32) else a.

Fixpoint str_lower (s : string) : string :=
  match s with
  | EmptyString => EmptyString
  | String a s' => String (lower_ascii a) (str_lower s')
  end.

(** [s.replace(old, new)] for one-character [old] and [new]. *)
Fixpoint str_replace (old new : ascii) (s : string) : string :=
  match s with
  | EmptyString => EmptyString
  | String a s' =>
      String (if bool_decide (a = old) then new else a) (str_replace old new s')
  end.

(** [needle in hay] on strings. *)
Fixpoint str_contains (needle hay : string) : bool :=
  String.prefix needle hay
  || match hay with
     | EmptyString => false
     | String _ hay' => str_contains needle hay'
     end.

(** [v.lower()] *)
Definition py_lower (v : PyVal) : PyResult string :=
  match v with
  | VStr s => Ok (str_lower s)
  | _ => Raise (AttributeError "lower")
  end.

(** [str(v)] as far as messages need it: exact on strings and integers,
    a tag for the other shapes. *)
Definition py_str (v : PyVal) : string :=
  match v with
  | VNone => "None"
  | VBool true => "True"
  | VBool false => "False"
  | VInt z => pretty z
  | VStr s => s
  | VList _ => "[...]"
  | VDict _ => "{...}"
  end.

(** [str(e)] *)
Definition exc_str (e : PyExc) : string :=
  match e with
  | KeyError key => "'" +:+ key +:+ "'"
  | TypeError msg | IndexError msg | ValueError msg | RuntimeError msg => msg
  | AttributeError attr => "object has no attribute '" +:+ attr +:+ "'"
  end.

(** ** Components and the system object *)

(** A bound method: the number of method calls made before it in this run
    (so that a component may answer differently from call to call) and the
    argument, to a result or an exception. *)
Definition Method : Type := nat → PyVal → PyResult PyVal.

(** An instance of one of the component classes. *)
Record Component := {
  instance_of : string;
  methods : gmap string Method
}.

(** A class: its name, the number of parameters of [__init__] besides
    [self], and the instance a well-formed call of it creates. *)
Record PyClass := {
  class_name : string;
  init_params : nat;
  new_instance : Component
}.

(** One invocation of a component method: the key the component was looked
    up under, the method and the argument. *)
Record Call := {
  call_key : string;
  call_method_name : string;
  call_arg : PyVal
}.

(** The [AirlineOperationsSystem] object together with what it acts on:
    the clock, the lines of [logs/critical_flight_alerts.log], the lines
    printed, and the trace of component method invocations. *)
Record System := {
  config : PyVal;
  components : gmap string (option Component);
  flights_data : PyVal;
  alerts_queue : list PyVal;
  is_running : bool;
  sys_clock : Clock;
  critical_log : list (Z * PyVal);
  stdout : list string;
  calls : list Call
}.

Abbreviation IO := (Py System).

Definition lift {A} (r : PyResult A) : IO A := λ s, (r, s).

Definition datetime_now : IO Z := λ s,
  let '(now, c) := read_clock (sys_clock s) in
  (Ok now,
   {| config := config s; components := components s;
      flights_data := flights_data s; alerts_queue := alerts_queue s;
      is_running := is_running s; sys_clock := c;
      critical_log := critical_log s; stdout := stdout s;
      calls := calls s |}).

Definition print (line : string) : IO unit := λ s,
  (Ok tt,
   {| config := config s; components := components s;
      flights_data := flights_data s; alerts_queue := alerts_queue s;
      is_running := is_running s; sys_clock := sys_clock s;
      critical_log := critical_log s; stdout := stdout s ++ [line];
      calls := calls s |}).

Definition set_config (c : PyVal) : IO unit := λ s,
  (Ok tt,
   {| config := c; components := components s;
      flights_data := flights_data s; alerts_queue := alerts_queue s;
      is_running := is_running s; sys_clock := sys_clock s;
      critical_log := critical_log s; stdout := stdout s;
      calls := calls s |}).

Definition set_components (cs : gmap string (option Component)) : IO unit :=
  λ s,
  (Ok tt,
   {| config := config s; components := cs;
      flights_data := flights_data s; alerts_queue := alerts_queue s;
      is_running := is_running s; sys_clock := sys_clock s;
      critical_log := critical_log s; stdout := stdout s;
      calls := calls s |}).

Definition set_flights_data (fd : PyVal) : IO unit := λ s,
  (Ok tt,
   {| config := config s; components := components s;
      flights_data := fd; alerts_queue := alerts_queue s;
      is_running := is_running s; sys_clock := sys_clock s;
      critical_log := critical_log s; stdout := stdout s;
      calls := calls s |}).

Definition set_alerts_queue (q : list PyVal) : IO unit := λ s,
  (Ok tt,
   {| config := config s; components := components s;
      flights_data := flights_data s; alerts_queue := q;
      is_running := is_running s; sys_clock := sys_clock s;
      critical_log := critical_log s; stdout := stdout s;
      calls := calls s |}).

Definition set_is_running (b : bool) : IO unit := λ s,
  (Ok tt,
   {| config := config s; components := components s;
      flights_data := flights_data s; alerts_queue := alerts_queue s;
      is_running := b; sys_clock := sys_clock s;
      critical_log := critical_log s; stdout := stdout s;
      calls := calls s |}).

(** [with open('logs/critical_flight_alerts.log', 'a') as f: f.write(...)] *)
Definition append_critical_log (line : Z * PyVal) : IO unit := λ s,
  (Ok tt,
   {| config := config s; components := components s;
      flights_data := flights_data s; alerts_queue := alerts_queue s;
      is_running := is_running s; sys_clock := sys_clock s;
      critical_log := critical_log s ++ [line]; stdout := stdout s;
      calls := calls s |}).

Definition get_config : IO PyVal := λ s, (Ok (config s), s).
Definition get_flights_data : IO PyVal := λ s, (Ok (flights_data s), s).
Definition get_alerts_queue : IO (list PyVal) := λ s, (Ok (alerts_queue s), s).

(** [self.components[key]] *)
Definition get_component (key : string) : IO (option Component) := λ s,
  match components s !! key with
  | Some c => (Ok c, s)
  | None => (Raise (KeyError key), s)
  end.

(** [self.alerts_queue.put(item)] *)
Definition queue_put (item : PyVal) : IO unit :=
  q ← get_alerts_queue; set_alerts_queue (q ++ [item]).

(** [obj.meth(arg)], for the component stored under [key]. *)
Definition call_method (key : string) (obj : Component) (meth : string)
    (arg : PyVal) : IO PyVal := λ s,
  match methods obj !! meth with
  | None => (Raise (AttributeError meth), s)
  | Some body =>
      (body (length (calls s)) arg,
       {| config := config s; components := components s;
          flights_data := flights_data s; alerts_queue := alerts_queue s;
          is_running := is_running s; sys_clock := sys_clock s;
          critical_log := critical_log s; stdout := stdout s;
          calls := calls s ++ [{| call_key := key; call_method_name := meth;
                                  call_arg := arg |}] |})
  end.

(** ** The component classes and [_initialize_components] *)

(** Calling a class with arguments: binding the arguments to the parameters of [__init__]
    comes first and raises [TypeError] when their numbers differ. *)
Definition instantiate (cls : PyClass) (args : list PyVal) : IO Component :=
  if bool_decide (length args = init_params cls) then mret (new_instance cls)
  else raise (TypeError (class_name cls +:+ ".__init__() takes 1 positional argument but "
                         +:+ pretty (S (length args)) +:+ " were given")).

Section Assembly.

(** What the methods of the component modules compute is not part of this
    development: [method_body cls meth] stands for the method [meth] of
    class [cls]. *)
Variable method_body : string → string → Method.

Definition py_class (cname : string) (params : nat) (names : list string)
    : PyClass :=
  {| class_name := cname;
     init_params := params;
     new_instance :=
       {| instance_of := cname;
          methods := list_to_map ((λ m, (m, method_body cname m)) <$> names) |} |}.

(** Every one of the eight classes declares [def __init__(self)]. *)
Definition LogProcessor : PyClass :=
  py_class "LogProcessor" 0
    ["process_logs"; "_process_single_log"; "_calculate_metrics_summary"].
Definition DelayPredictor : PyClass :=
  py_class "DelayPredictor" 0
    ["predict_delays"; "_predict_single_flight_delay"; "_get_delay_severity"].
Definition CrewOptimizer : PyClass :=
  py_class "CrewOptimizer" 0
    ["_initialize_crew"; "optimize_schedule"; "_assign_crew_to_flight";
     "_check_schedule_issues"; "_generate_summary"].
Definition LoadPredictor : PyClass :=
  py_class "LoadPredictor" 0
    ["predict_load"; "_predict_single_flight_load"; "_calculate_trend";
     "_get_demand_adjustment"; "_analyze_scenarios"; "_get_demand_level";
     "_default_prediction"].
Definition HealthMonitor : PyClass :=
  py_class "HealthMonitor" 0
    ["_setup_logger"; "monitor_health"; "_monitor_single_flight";
     "_check_engine_health"; "_check_cabin_health"; "_log_alert"].
Definition RouteMonitor : PyClass :=
  py_class "RouteMonitor" 0
    ["monitor_routes"; "_monitor_single_route"; "_check_route_weather";
     "_check_destination_weather"; "_suggest_diversion";
     "_simulate_destination_weather"].
Definition Dashboard : PyClass :=
  py_class "Dashboard" 0
    ["display"; "_display_flight_summary"; "_display_delay_predictions";
     "_display_health_alerts"; "_display_load_predictions";
     "_display_crew_status"; "_display_route_alerts"].
Definition Reporter : PyClass :=
  py_class "ReportGenerator" 0
    ["generate_daily_report"; "_write_header"; "_write_executive_summary";
     "_write_delay_analysis"; "_write_health_alerts"; "_write_load_analysis";
     "_write_crew_schedule"; "_write_route_monitoring";
     "_write_recommendations"; "_write_footer"].

Definition component_configs (config : PyVal)
    : list (string * PyClass * PyVal) :=
  [ ("Log Processor", LogProcessor, config);
    ("Delay Predictor", DelayPredictor, config);
    ("Crew Optimizer", CrewOptimizer, config);
    ("Load Predictor", LoadPredictor, config);
    ("Health Monitor", HealthMonitor, config);
    ("Route Monitor", RouteMonitor, config);
    ("Dashboard", Dashboard, config);
    ("Reporter", Reporter, config) ].

(** [name.lower().replace(' ', '_')] *)
Definition component_key (name : string) : string :=
  str_replace " " "_" (str_lower name).

(** The body of the loop of [_initialize_components]. *)
Definition initialize_component
    (components : gmap string (option Component))
    (entry : string * PyClass * PyVal)
    : IO (gmap string (option Component)) :=
  let '(name, component_class, config) := entry in
  try_except
    (c ← instantiate component_class [config];
     print ("  ✓ " +:+ name);;
     mret (<[component_key name := Some c]> components))
    (λ e,
     print ("  ✗ " +:+ name +:+ ": " +:+ exc_str e);;
     mret (<[component_key name := None]> components)).

Fixpoint initialize_each (entries : list (string * PyClass * PyVal))
    (components : gmap string (option Component))
    : IO (gmap string (option Component)) :=
  match entries with
  | [] => mret components
  | entry :: entries' =>
      components ← initialize_component components entry;
      initialize_each entries' components
  end.

Definition _initialize_components : IO (gmap string (option Component)) :=
  config ← get_config;
  initialize_each (component_configs config) ∅.

(** [AirlineOperationsSystem.__init__], from the loaded configuration on
    (reading the configuration file and creating the directories are left
    to the caller of the model).  The closing messages index the
    configuration and raise [KeyError] when an entry is missing. *)
Definition __init__ (config : PyVal) : IO unit :=
  set_config config;;
  components ← _initialize_components;
  set_components components;;
  set_flights_data (VDict []);;
  set_alerts_queue [];;
  set_is_running false;;
  airline ← lift (py_getitem config "airline_name");
  print ("✓ System initialized for " +:+ py_str airline);;
  hub ← lift (py_getitem config "hub_airport");
  print ("✓ Hub Airport: " +:+ py_str hub);;
  fleet ← lift (py_getitem config "aircraft_fleet");
  n ← lift (py_len fleet);
  print ("✓ Fleet Size: " +:+ pretty n +:+ " aircraft types").

End Assembly.

(** ** Producer loops *)

(** One pass through the body of [while self.is_running:] in
    [_monitor_health], up to the [time.sleep]. *)
Definition _monitor_health_iteration : IO unit :=
  try_except
    (health_monitor ← get_component "health_monitor";
     match health_monitor with
     | Some obj =>
         flights_data ← get_flights_data;
         if py_truthy flights_data then
           alerts ← call_method "health_monitor" obj "monitor" flights_data;
           alerts ← lift (py_iter alerts);
           for_each queue_put alerts
         else mret tt
     | None => mret tt
     end)
    (λ e, print ("Health monitoring error: " +:+ exc_str e)).

(** The body of [for prediction in predictions:] in [_predict_delays]. *)
Definition delay_alert (prediction : PyVal) : IO unit :=
  minutes ← lift (py_get prediction "delay_minutes" (VInt 0));
  significant ← lift (py_gt minutes 30);
  if significant : bool then
    flight ← lift (py_getitem prediction "flight_id");
    minutes ← lift (py_getitem prediction "delay_minutes");
    reasons ← lift (py_getitem prediction "reasons");
    now ← datetime_now;
    queue_put (VDict [ ("type", VStr "DELAY_PREDICTION");
                       ("severity", VStr "WARNING");
                       ("flight_id", flight);
                       ("message", VStr ("Predicted delay: " +:+ py_str minutes
                                         +:+ " minutes"));
                       ("details", reasons);
                       ("timestamp", VInt now) ])
  else mret tt.

Definition _predict_delays_iteration : IO unit :=
  try_except
    (delay_predictor ← get_component "delay_predictor";
     match delay_predictor with
     | Some obj =>
         flights_data ← get_flights_data;
         if py_truthy flights_data then
           predictions ← call_method "delay_predictor" obj "predict" flights_data;
           predictions ← lift (py_iter predictions);
           for_each delay_alert predictions
         else mret tt
     | None => mret tt
     end)
    (λ e, print ("Delay prediction error: " +:+ exc_str e)).

(** The body of [for issue in optimizations.get('issues', []):] in
    [_optimize_crew]; [or] evaluates [issue.lower()] a second time only
    when the first test fails. *)
Definition crew_alert (issue : PyVal) : IO unit :=
  lowered ← lift (py_lower issue);
  short ← (if str_contains "shortage" lowered then mret true
           else lowered ← lift (py_lower issue);
                mret (str_contains "unavailable" lowered));
  if short : bool then
    now ← datetime_now;
    queue_put (VDict [ ("type", VStr "CREW_SHORTAGE");
                       ("severity", VStr "CRITICAL");
                       ("message", issue);
                       ("timestamp", VInt now) ])
  else mret tt.

Definition _optimize_crew_iteration : IO unit :=
  try_except
    (crew_optimizer ← get_component "crew_optimizer";
     match crew_optimizer with
     | Some obj =>
         flights_data ← get_flights_data;
         if py_truthy flights_data then
           optimizations ← call_method "crew_optimizer" obj "optimize" flights_data;
           issues ← lift (py_get optimizations "issues" (VList []));
           issues ← lift (py_iter issues);
           for_each crew_alert issues
         else mret tt
     | None => mret tt
     end)
    (λ e, print ("Crew optimization error: " +:+ exc_str e)).

(** [xs[-10:]] *)
Definition last_ten {A} (xs : list A) : list A :=
  drop (length xs - 10) xs.

Definition _update_dashboard_iteration : IO unit :=
  try_except
    (dashboard ← get_component "dashboard";
     match dashboard with
     | Some obj =>
         flights_data ← get_flights_data;
         if py_truthy flights_data then
           flights ← lift (py_get flights_data "flights" (VList []));
           queue ← get_alerts_queue;
           now ← datetime_now;
           let status := VDict [ ("flights", flights);
                                 ("alerts", VList (last_ten queue));
                                 ("timestamp", VInt now) ] in
           call_method "dashboard" obj "update" status;;
           mret tt
         else mret tt
     | None => mret tt
     end)
    (λ e, print ("Dashboard update error: " +:+ exc_str e)).

(** How a thread's loop was left when the observation ends. *)
Inductive LoopEnd :=
| Terminated      (* the loop condition was found false *)
| StillRunning.   (* the observed ticks are used up, the thread lives on *)

(** [while self.is_running: iteration; time.sleep(...)].  The other
    threads act on the shared object while this one sleeps: [others] holds
    one such action per sleep.  Returns how the loop ended and how many
    times its body was entered. *)
Fixpoint while_running (iteration : IO unit) (others : list (System → System))
    (entered : nat) (s : System) : PyResult (LoopEnd * nat) * System :=
  match others with
  | [] => (Ok (if is_running s then StillRunning else Terminated, entered), s)
  | act :: others' =>
      if is_running s then
        match iteration s with
        | (Ok _, s') => while_running iteration others' (S entered) (act s')
        | (Raise e, s') => (Raise e, s')
        end
      else (Ok (Terminated, entered), s)
  end.

Definition _monitor_health others := while_running _monitor_health_iteration others 0.
Definition _predict_delays others := while_running _predict_delays_iteration others 0.
Definition _optimize_crew others := while_running _optimize_crew_iteration others 0.
Definition _update_dashboard others := while_running _update_dashboard_iteration others 0.

(** ** Alert dispatcher: [_process_alerts] *)

(** [alert.get('severity') in ['CRITICAL', 'EMERGENCY']] *)
Definition is_critical (alert : PyVal) : PyResult bool :=
  match alert with
  | VDict items =>
      Ok match dict_lookup "severity" items with
         | Some (VStr sev) =>
             bool_decide (sev = "CRITICAL") || bool_decide (sev = "EMERGENCY")
         | _ => false
         end
  | _ => Raise (AttributeError "get")
  end.

(** The body of [while not self.alerts_queue.empty():] for the event just
    taken from the queue. *)
Definition process_alert (alert : PyVal) : IO unit :=
  (* Send to alert system *)
  alert_system ← get_component "alert_system";
  match alert_system with
  | Some obj => call_method "alert_system" obj "send_alert" alert;; mret tt
  | None => mret tt
  end;;
  (* Log critical alerts *)
  critical ← lift (is_critical alert);
  if critical : bool then
    now ← datetime_now;
    append_critical_log (now, alert)
  else mret tt.

(** The drain loop with at most [n] passes. *)
Fixpoint drain (n : nat) : IO unit :=
  match n with
  | O => mret tt
  | S n' =>
      q ← get_alerts_queue;
      match q with
      | [] => mret tt
      | alert :: q' =>
          set_alerts_queue q';;
          process_alert alert;;
          drain n'
      end
  end.

(** Each pass removes one event and nothing is added during the drain, so
    as many passes as there are queued events empty the queue. *)
Definition _process_alerts : IO unit := λ s,
  drain (length (alerts_queue s)) s.

(** The loop of [run_real_time_monitoring] on the main thread:
    [while self.is_running: time.sleep(1); self._process_alerts()].  Its
    [try] only handles [KeyboardInterrupt], so an exception of the drain
    leaves the loop. *)
Fixpoint dispatcher_loop (others : list (System → System)) (entered : nat)
    (s : System) : PyResult (LoopEnd * nat) * System :=
  match others with
  | [] => (Ok (if is_running s then StillRunning else Terminated, entered), s)
  | act :: others' =>
      if is_running s then
        match _process_alerts (act s) with
        | (Ok _, s') => dispatcher_loop others' (S entered) s'
        | (Raise e, s') => (Raise e, s')
        end
      else (Ok (Terminated, entered), s)
  end.

(** ** Single analysis: [run_single_analysis] *)

Section Analysis.

(** [_generate_sample_data] builds random sample records from the
    configuration; it may raise [KeyError] on an incomplete one. *)
Variable _generate_sample_data : PyVal → PyResult PyVal.

Definition load_sample_data : IO unit :=
  config ← get_config;
  sample_data ← lift (_generate_sample_data config);
  log_processor ← get_component "log_processor";
  match log_processor with
  | Some obj =>
      call_method "log_processor" obj "ingest_logs" sample_data;;
      logs ← call_method "log_processor" obj "get_all_logs" VNone;
      set_flights_data logs;;
      flights ← lift (py_get logs "flights" (VList []));
      n ← lift (py_len flights);
      print ("✓ Loaded " +:+ pretty n +:+ " sample flights");;
      passengers ← lift (py_get logs "passengers" (VList []));
      n ← lift (py_len passengers);
      print ("✓ Generated " +:+ pretty n +:+ " passenger records");;
      crew ← lift (py_get logs "crew" (VList []));
      n ← lift (py_len crew);
      print ("✓ Created " +:+ pretty n +:+ " crew assignments")
  | None => print "✗ Log processor not available"
  end.

(** [[d for d in delays if d.get('delay_minutes', 0) > 0]] *)
Fixpoint delayed_flights (delays : list PyVal) : IO (list PyVal) :=
  match delays with
  | [] => mret []
  | d :: delays' =>
      minutes ← lift (py_get d "delay_minutes" (VInt 0));
      late ← lift (py_gt minutes 0);
      rest ← delayed_flights delays';
      mret (if late : bool then d :: rest else rest)
  end.

Definition generate_daily_report : IO unit :=
  reporter ← get_component "reporter";
  match reporter with
  | Some obj =>
      fd ← get_flights_data;
      flights ← lift (py_get fd "flights" (VList []));
      passengers ← lift (py_get fd "passengers" (VList []));
      crew ← lift (py_get fd "crew" (VList []));
      weather ← lift (py_get fd "weather" (VList []));
      maintenance ← lift (py_get fd "maintenance" (VList []));
      queue ← get_alerts_queue;
      now ← datetime_now;
      let report_data := VDict [ ("flights", flights);
                                 ("passengers", passengers);
                                 ("crew", crew);
                                 ("weather", weather);
                                 ("maintenance", maintenance);
                                 ("alerts", VList queue);
                                 ("timestamp", VInt now) ] in
      report_path ← call_method "reporter" obj "generate_daily_report" report_data;
      print ("✓ Daily report generated: " +:+ py_str report_path);;
      try_except
        (pdf_path ← call_method "reporter" obj "generate_pdf_report" report_data;
         print ("✓ PDF report generated: " +:+ py_str pdf_path))
        (λ _, print "✗ PDF generation not available")
  | None => mret tt
  end.

Definition show_dashboard : IO unit :=
  dashboard ← get_component "dashboard";
  match dashboard with
  | Some obj => call_method "dashboard" obj "display_full" VNone;; mret tt
  | None => mret tt
  end.

Definition run_single_analysis : IO unit :=
  (* 1. Load data *)
  load_sample_data;;
  (* 2. Health Monitoring *)
  health_monitor ← get_component "health_monitor";
  match health_monitor with
  | Some obj =>
      fd ← get_flights_data;
      health_results ← call_method "health_monitor" obj "monitor" fd;
      n ← lift (py_len health_results);
      print ("✓ Health checks completed: " +:+ pretty n +:+ " alerts generated")
  | None => mret tt
  end;;
  (* 3. Delay Prediction *)
  delay_predictor ← get_component "delay_predictor";
  match delay_predictor with
  | Some obj =>
      fd ← get_flights_data;
      delays ← call_method "delay_predictor" obj "predict" fd;
      delays ← lift (py_iter delays);
      delayed ← delayed_flights delays;
      print ("✓ Delay prediction completed: " +:+ pretty (length delayed)
             +:+ " flights with delays")
  | None => mret tt
  end;;
  (* 4. Crew Optimization *)
  crew_optimizer ← get_component "crew_optimizer";
  match crew_optimizer with
  | Some obj =>
      fd ← get_flights_data;
      crew_results ← call_method "crew_optimizer" obj "optimize" fd;
      found ← lift (py_get crew_results "issues" (VList []));
      n ← lift (py_len found);
      print ("✓ Crew optimization completed: " +:+ pretty n +:+ " issues found")
  | None => mret tt
  end;;
  (* 5. Load Prediction *)
  load_predictor ← get_component "load_predictor";
  match load_predictor with
  | Some obj =>
      fd ← get_flights_data;
      load_predictions ← call_method "load_predictor" obj "predict" fd;
      n ← lift (py_len load_predictions);
      print ("✓ Load prediction completed: " +:+ pretty n +:+ " predictions generated")
  | None => mret tt
  end;;
  (* 6. Route Monitoring *)
  route_monitor ← get_component "route_monitor";
  match route_monitor with
  | Some obj =>
      fd ← get_flights_data;
      route_results ← call_method "route_monitor" obj "monitor" fd;
      diversions ← lift (py_get route_results "diversion_suggestions" (VList []));
      n ← lift (py_len diversions);
      print ("✓ Route monitoring completed: " +:+ pretty n +:+ " diversion suggestions")
  | None => mret tt
  end;;
  (* 7. Generate Report *)
  generate_daily_report;;
  (* 8. Show Dashboard *)
  show_dashboard.

End Analysis.

End Main.

(** * Specifications of the conflict detector *)
Module DetectorSpec.
Import CrewOptimizer.

(** One occurrence of a crew id in an assignment: the id, the flight of
    the assignment, and the severity its role gives a double booking. *)
Record Sighting := {
  seen_crew : string;
  seen_flight : string;
  seen_severity : string
}.

Definition pilot_sighting (a : Assignment) (v : option string)
    : list Sighting :=
  match v with
  | Some crew =>
      if truthy v
      then [{| seen_crew := crew; seen_flight := asg_flight_id a;
               seen_severity := "HIGH" |}]
      else []
  | None => []
  end.

(** The sightings of one assignment in crew-role order: captain, first
    officer, then the attendants in list order. *)
Definition sightings_of (a : Assignment) : list Sighting :=
  pilot_sighting a (captain a) ++ pilot_sighting a (first_officer a)
  ++ ((λ crew, {| seen_crew := crew; seen_flight := asg_flight_id a;
                  seen_severity := "MEDIUM" |}) <$> attendants a).

(** All sightings, in assignment order and crew-role order within. *)
Definition sightings (assignments : list Assignment) : list Sighting :=
  assignments ≫= sightings_of.

(** The flight of the most recent of the [earlier] sightings of [crew]. *)
Definition previous_flight (crew : string) (earlier : list Sighting)
    : option string :=
  seen_flight <$> last (filter (λ s, seen_crew s = crew) earlier).

(** The flight of the first of the [earlier] sightings of [crew]. *)
Definition first_flight (crew : string) (earlier : list Sighting)
    : option string :=
  seen_flight <$> head (filter (λ s, seen_crew s = crew) earlier).

(** The issues of an audit that pairs every repeat sighting with the
    flight [paired_with] finds among the sightings before it. *)
Fixpoint audit (paired_with : string → list Sighting → option string)
    (earlier todo : list Sighting) : list Issue :=
  match todo with
  | [] => []
  | s :: todo' =>
      match paired_with (seen_crew s) earlier with
      | Some f => [DOUBLE_BOOKING (seen_crew s) [f; seen_flight s]
                     (seen_severity s)]
      | None => []
      end ++ audit paired_with (earlier ++ [s]) todo'
  end.

(** The double bookings as the specification words them: each repeat is
    paired with the first flight the crew id was seen on. *)
Definition double_bookings_first_seen (assignments : list Assignment)
    : list Issue :=
  audit first_flight [] (sightings assignments).

(** The double bookings with each repeat paired with the flight of the
    sighting just before it. *)
Definition double_bookings_latest_seen (assignments : list Assignment)
    : list Issue :=
  audit previous_flight [] (sightings assignments).

Definition is_double_booking (i : Issue) : bool :=
  match i with DOUBLE_BOOKING _ _ _ => true | CREW_SHORTAGE _ _ _ => false end.

Definition is_crew_shortage (i : Issue) : bool :=
  match i with DOUBLE_BOOKING _ _ _ => false | CREW_SHORTAGE _ _ _ => true end.

(** A role is missing when its entry is [None] or the empty string. *)
Definition missing (v : option string) : bool := negb (truthy v).

(** The shortage report an assignment calls for: none when both pilots
    are there, otherwise one naming the captain first. *)
Definition shortage_of (a : Assignment) : option Issue :=
  if missing (captain a)
  then Some (CREW_SHORTAGE (asg_flight_id a) "captain" "CRITICAL")
  else if missing (first_officer a)
       then Some (CREW_SHORTAGE (asg_flight_id a) "first_officer" "CRITICAL")
       else None.

(** The flight an issue is about: the repeat flight of a double booking,
    the flight of a shortage. *)
Definition issue_flight (i : Issue) : option string :=
  match i with
  | DOUBLE_BOOKING _ flights _ => last flights
  | CREW_SHORTAGE flight _ _ => Some flight
  end.

(** The position of the assignment an issue is about. *)
Definition issue_position (assignments : list Assignment) (i : Issue)
    : option nat :=
  f ← issue_flight i;
  fst <$> list_find (λ a, asg_flight_id a = f) assignments.

(** Issues in assignment order throughout: an issue never comes after one
    about a later assignment. *)
Definition in_assignment_order (assignments : list Assignment)
    (found : list Issue) : Prop :=
  ∀ i j x y p q,
    (i < j)%nat → found !! i = Some x → found !! j = Some y →
    issue_position assignments x = Some p →
    issue_position assignments y = Some q →
    (p ≤ q)%nat.

(** The sighting a double booking reports. *)
Definition reported_sighting (i : Issue) : option Sighting :=
  match i with
  | DOUBLE_BOOKING crew flights severity =>
      f ← last flights;
      Some {| seen_crew := crew; seen_flight := f; seen_severity := severity |}
  | CREW_SHORTAGE _ _ _ => None
  end.

(** The detector's first loop, one sighting at a time. *)
Definition sight_step (st : DetectorState) (s : Sighting) : DetectorState :=
  record_sighting (seen_severity s) (seen_flight s) (seen_crew s) st.

(** [crew_assignments] after the [earlier] sightings. *)
Definition latest_map (earlier : list Sighting) : gmap string string :=
  fold_left (λ m s, <[seen_crew s := seen_flight s]> m) earlier ∅.

(** Three flights with the same captain and nobody else. *)
Definition same_captain_thrice : list Assignment :=
  (λ f, {| asg_flight_id := f; asg_aircraft_id := "VT-AXB";
           captain := Some "P001"; first_officer := None;
           attendants := []; crew_count := 1; assignment_time := 0 |})
  <$> ["F1"; "F2"; "F3"].

(** A first flight without pilots and a fully staffed second flight that
    share one attendant. *)
Definition shortage_then_repeat : list Assignment :=
  [ {| asg_flight_id := "F1"; asg_aircraft_id := "VT-AXB";
       captain := None; first_officer := None;
       attendants := ["FA001"]; crew_count := 1; assignment_time := 0 |};
    {| asg_flight_id := "F2"; asg_aircraft_id := "VT-BXC";
       captain := Some "P001"; first_officer := Some "P006";
       attendants := ["FA001"]; crew_count := 3; assignment_time := 0 |} ].

End DetectorSpec.

(** * Specifications of the assignment engine *)
Module EngineSpec.
Import CrewOptimizer.

(** A clock that stands still: every reading returns the same time. *)
Definition frozen (c : Clock) : Prop :=
  Forall (λ n, n = 0%nat) (clock_ticks c).

(** [c'] is the record [c] at a later moment: same identity, role and rest
    hours, and an availability time that did not move back. *)
Definition member_le (c c' : CrewMember) : Prop :=
  crew_id c = crew_id c' ∧ role c = role c' ∧ rest_hours c = rest_hours c'
  ∧ next_available c ≤ next_available c'.

(** The same roster, member by member, at a later moment. *)
Definition roster_le (w w' : World) : Prop :=
  Forall2 member_le (crew_members w) (crew_members w').

(** The roster is untouched and the clock did not go back; a frozen clock
    stays frozen at the same time. *)
Definition steady (w w' : World) : Prop :=
  crew_members w' = crew_members w
  ∧ clock_now (clock w) ≤ clock_now (clock w')
  ∧ (frozen (clock w) →
     frozen (clock w') ∧ clock_now (clock w') = clock_now (clock w)).

(** The roster moved on member by member and the clock did not go back. *)
Definition evolves (w w' : World) : Prop :=
  roster_le w w'
  ∧ clock_now (clock w) ≤ clock_now (clock w')
  ∧ (frozen (clock w) →
     frozen (clock w') ∧ clock_now (clock w') = clock_now (clock w)).

(** The eligibility tests of the two comprehensions at clock reading [t]. *)
Definition pilot_ok (t : Z) (c : CrewMember) : bool :=
  bool_decide (role c = "pilot")
  && (bool_decide (next_available c ≤ t) && bool_decide (rest_hours c ≤ 8)).

Definition attendant_ok (t : Z) (c : CrewMember) : bool :=
  bool_decide (role c = "attendant") && bool_decide (next_available c ≤ t).

(** The references a comprehension keeps when all its clock readings
    agree: positions from [r] on of the members that pass [p]. *)
Fixpoint keep_refs (p : CrewMember → bool) (r : crew_ref)
    (members : list CrewMember) : list crew_ref :=
  match members with
  | [] => []
  | c :: members' =>
      if p c then r :: keep_refs p (S r) members'
      else keep_refs p (S r) members'
  end.

(** The crew ids behind a list of references. *)
Definition pool_ids (w : World) (pool : list crew_ref) : list string :=
  omap (λ r, (crew_id <$> crew_members w) !! r) pool.

(** [m] run in [w] returns a value and a world that satisfy [Q]. *)
Definition wp {A} (m : M A) (w : World) (Q : A → World → Prop) : Prop :=
  ∃ a w', m w = (Ok a, w') ∧ Q a w'.

(** Processing [f] in world [w]: the two pools that are computed, the
    assignment returned and the world left behind. *)
Definition flight_step (w : World) (f : Flight) (pilots cabin : list crew_ref)
    (a : Assignment) (w' : World) : Prop :=
  ∃ w1 w2,
    available_pilots w = (Ok pilots, w1)
    ∧ available_attendants w1 = (Ok cabin, w2)
    ∧ select_and_book f pilots cabin w2 = (Ok a, w').

(** Processing [f] as the flight that follows the flights [before] in a
    batch started in [w0]; [w] and [w'] are the worlds just before and just
    after it. *)
Definition in_batch (w0 : World) (before : list Flight) (f : Flight)
    (w : World) (pilots cabin : list crew_ref) (a : Assignment) (w' : World)
    : Prop :=
  ∃ earlier,
    append_each _assign_crew_to_flight before [] w0 = (Ok earlier, w)
    ∧ length earlier = length before
    ∧ flight_step w f pilots cabin a w'.

(** What a comprehension returns: positions of [members], in order, whose
    members pass the test at the final clock reading; exactly the members
    that pass when the clock is frozen. *)
Definition kept_by (ok : Z → CrewMember → bool) (r : crew_ref)
    (members : list CrewMember) (w : World) (refs : list crew_ref)
    (w' : World) : Prop :=
  steady w w'
  ∧ refs `sublist_of` seq r (length members)
  ∧ (∀ i, i ∈ refs → ∃ c, members !! (i - r)%nat = Some c
                          ∧ ok (clock_now (clock w')) c = true)
  ∧ (frozen (clock w) → refs = keep_refs (ok (clock_now (clock w))) r members).

(** What the two pool computations return. *)
Definition pool_of (ok : Z → CrewMember → bool) (w : World)
    (refs : list crew_ref) (w' : World) : Prop :=
  steady w w'
  ∧ NoDup refs
  ∧ (∀ i, i ∈ refs → ∃ c, crew_members w !! i = Some c
                          ∧ ok (clock_now (clock w')) c = true)
  ∧ (frozen (clock w) →
     refs = keep_refs (ok (clock_now (clock w))) 0%nat (crew_members w)).

(** Every member behind [refs] is free no later than [rest] after now. *)
Definition due (refs : list crew_ref) (rest : Z) (w : World) : Prop :=
  ∀ r c, r ∈ refs → crew_members w !! r = Some c →
         next_available c ≤ clock_now (clock w) + rest.

(** The crew id behind a reference. *)
Definition id_of (w : World) (r : crew_ref) : option string :=
  (crew_id <$> crew_members w) !! r.

(** What [select_and_book] does in world [w] with the two pools: who is
    selected, what the assignment shows, and that the selected members are
    booked beyond the time the step started at. *)
Definition selected (w : World) (f : Flight) (pilots cabin : list crew_ref)
    (a : Assignment) (w' : World) : Prop :=
  ∃ (cap fo : option crew_ref) (chosen : list crew_ref),
    evolves w w'
    ∧ asg_flight_id a = flight_id f ∧ asg_aircraft_id a = aircraft_id f
    ∧ match pilots with
      | [] => cap = None
      | _ => ∃ r, cap = Some r ∧ r ∈ take 5 pilots
      end
    ∧ (if bool_decide (5 < length pilots)%nat
       then ∃ r, fo = Some r ∧ r ∈ drop 5 pilots
       else fo = None)
    ∧ chosen ⊆+ cabin ∧ length chosen = (4 `min` length cabin)%nat
    ∧ option_Forall2 (λ r i, id_of w r = Some i) cap (captain a)
    ∧ option_Forall2 (λ r i, id_of w r = Some i) fo (first_officer a)
    ∧ attendants a = pool_ids w chosen
    ∧ length (attendants a) = length chosen
    ∧ (∀ r c', r ∈ option_list cap ++ option_list fo ++ chosen →
               crew_members w' !! r = Some c' →
               clock_now (clock w) < next_available c').

(** [flight_step] together with what is known about each of its parts. *)
Definition flight_run (w : World) (f : Flight) (pilots cabin : list crew_ref)
    (a : Assignment) (w' : World) : Prop :=
  ∃ w1 w2,
    available_pilots w = (Ok pilots, w1) ∧ pool_of pilot_ok w pilots w1
    ∧ available_attendants w1 = (Ok cabin, w2)
    ∧ pool_of attendant_ok w1 cabin w2
    ∧ select_and_book f pilots cabin w2 = (Ok a, w')
    ∧ selected w2 f pilots cabin a w'.

Definition is_attendant (c : CrewMember) : bool :=
  bool_decide (role c = "attendant").

(** Every attendant of the roster is booked beyond [t]. *)
Definition cabin_grounded (w : World) (t : Z) : Prop :=
  ∀ r c, crew_members w !! r = Some c → role c = "attendant" →
         t < next_available c.

(** Scenario C as it is worded: two attendants are on every flight of the
    batch, and the detector reports an attendant double booking. *)
Definition attendants_recur (w : World) (flights : list Flight) : Prop :=
  ∃ r w' x y,
    optimize_schedule flights w = (Ok r, w')
    ∧ x ≠ y
    ∧ Forall (λ a, x ∈ attendants a ∧ y ∈ attendants a) (assignments r)
    ∧ ∃ fl, DOUBLE_BOOKING x fl "MEDIUM" ∈ issues r.

(** A world whose roster is two attendants, both free at the clock's time,
    and whose clock stands still. *)
Definition two_attendants : World :=
  let attendant i :=
    {| crew_id := "FA" +:+ format_03d i;
       name := "Flight Attendant " +:+ pretty i;
       role := "attendant"; license_type := None; flight_hours := None;
       type_ratings := Some ["A320"; "B737"]; base := "DEL";
       rest_hours := 0; next_available := 1000; assigned_flights := [] |} in
  {| clock := {| clock_now := 1000; clock_ticks := [] |};
     rng := [5; 7; 11; 2]%nat;
     crew_members := [attendant 1%nat; attendant 2%nat] |}.

Definition three_flights : list Flight :=
  [ {| flight_id := "GA1000"; aircraft_id := "VT-AXB" |};
    {| flight_id := "GA1001"; aircraft_id := "VT-BXC" |};
    {| flight_id := "GA1002"; aircraft_id := "VT-CXD" |} ].

(** [w] with the random source about to produce [draws]. *)
Definition with_rng (draws : list nat) (w : World) : World :=
  {| clock := clock w; rng := draws; crew_members := crew_members w |}.

(** The ids [_initialize_crew] gives the roster, whatever the clock and
    the random draws. *)
Definition roster_ids : list string :=
  ((λ i, "P" +:+ format_03d i) <$> seq 1 10)
  ++ ((λ i, "FA" +:+ format_03d i) <$> seq 1 20).

(** The world a fresh optimizer starts in: the roster of [__init__]
    under a running clock. *)
Definition fresh_world : World :=
  (__init__ {| clock := {| clock_now := 1000; clock_ticks := [3; 0; 2]%nat |};
               rng := [17; 4; 9; 23; 8]%nat;
               crew_members := [] |}).2.

End EngineSpec.

(** * Specifications of the alert pipeline *)
Module MainSpec.
Import Main.

(** The four producer loops. *)
Inductive Producer := Health | Delay | Crew | DashboardRefresh.

Definition iteration (p : Producer) : IO unit :=
  match p with
  | Health => _monitor_health_iteration
  | Delay => _predict_delays_iteration
  | Crew => _optimize_crew_iteration
  | DashboardRefresh => _update_dashboard_iteration
  end.

Definition loop (p : Producer) (others : list (System → System)) (s : System)
    : PyResult (LoopEnd * nat) * System :=
  match p with
  | Health => _monitor_health others s
  | Delay => _predict_delays others s
  | Crew => _optimize_crew others s
  | DashboardRefresh => _update_dashboard others s
  end.

(** The component a producer evaluates with, and the method it calls. *)
Definition producer_key (p : Producer) : string :=
  match p with
  | Health => "health_monitor"
  | Delay => "delay_predictor"
  | Crew => "crew_optimizer"
  | DashboardRefresh => "dashboard"
  end.

Definition producer_method (p : Producer) : string :=
  match p with
  | Health => "monitor"
  | Delay => "predict"
  | Crew => "optimize"
  | DashboardRefresh => "update"
  end.

(** [n] ticks during which no other thread touches the shared object. *)
Definition undisturbed (n : nat) : list (System → System) := replicate n id.

(** The value of [self.is_running] a loop end goes with. *)
Definition flag_at (e : LoopEnd) : bool :=
  match e with Terminated => false | StillRunning => true end.

(** The object [s] later in its life: same configuration and components,
    anything else as given. *)
Definition at_runtime (s : System) (fd : PyVal) (queue : list PyVal)
    (running : bool) (clk : Clock) (log : list (Z * PyVal))
    (out : list string) (made : list Call) : System :=
  {| config := config s; components := components s;
     flights_data := fd; alerts_queue := queue; is_running := running;
     sys_clock := clk; critical_log := log; stdout := out; calls := made |}.

(** The default configuration [_load_config] writes. *)
Definition default_config : PyVal :=
  VDict [ ("airline_name", VStr "Global Airways");
          ("hub_airport", VStr "DEL");
          ("thresholds",
           VDict [ ("weather", VDict [("crosswind_max_knots", VInt 40)]);
                   ("maintenance", VDict []) ]) ].

(** The state of the process before [AirlineOperationsSystem()] runs. *)
Definition before_init : System :=
  {| config := VNone; components := ∅; flights_data := VNone;
     alerts_queue := []; is_running := false;
     sys_clock := {| clock_now := 1000; clock_ticks := [1; 1]%nat |};
     critical_log := []; stdout := []; calls := [] |}.

(** Component methods that return [None] whatever they are given. *)
Definition idle_methods : string → string → Method := λ _ _ _ _, Ok VNone.

(** The assembled system with one critical event waiting in the queue. *)
Definition one_critical_event : System :=
  at_runtime (__init__ idle_methods default_config before_init).2
    (VDict []) [VDict [("type", VStr "ENGINE_VIBRATION");
                       ("severity", VStr "CRITICAL")]]
    true {| clock_now := 2000; clock_ticks := [] |} [] [] [].

(** A health monitor whose [monitor] raises on every call. *)
Definition broken_monitor : Component :=
  {| instance_of := "HealthMonitor";
     methods := {[ "monitor" := λ _ _, Raise (RuntimeError "sensor bus offline") ]} |}.

(** A running system with that monitor and some flight data. *)
Definition with_broken_monitor : System :=
  {| config := default_config;
     components := {[ "health_monitor" := Some broken_monitor ]};
     flights_data := VDict [("flights", VList [])];
     alerts_queue := []; is_running := true;
     sys_clock := {| clock_now := 2000; clock_ticks := [] |};
     critical_log := []; stdout := []; calls := [] |}.

(** The components dictionary with every component missing. *)
Definition no_components : gmap string (option Component) :=
  <["reporter" := None]> (<["dashboard" := None]> (
  <["route_monitor" := None]> (<["health_monitor" := None]> (
  <["load_predictor" := None]> (<["crew_optimizer" := None]> (
  <["delay_predictor" := None]> (<["log_processor" := None]> ∅))))))).

(** [m] leaves the part [proj] of the system as it found it. *)
Definition keeps {A B} (proj : System → B) (m : IO A) : Prop :=
  ∀ s, proj (m s).2 = proj s.

(** With every component missing, [m] calls nothing, enqueues nothing and
    leaves the components missing. *)
Definition idle {A} (m : IO A) : Prop :=
  ∀ s, components s = no_components →
       components (m s).2 = no_components
       ∧ calls (m s).2 = calls s
       ∧ alerts_queue (m s).2 = alerts_queue s.

(** A producer's iteration whose evaluation raised: one call, one line
    printed, and the queue, the flag and the data as before. *)
Definition reported (p : Producer) (s s' : System) : Prop :=
  components s' = components s
  ∧ flights_data s' = flights_data s
  ∧ is_running s' = is_running s
  ∧ alerts_queue s' = alerts_queue s
  ∧ ∃ c line,
      calls s' = calls s ++ [c]
      ∧ call_key c = producer_key p
      ∧ call_method_name c = producer_method p
      ∧ stdout s' = stdout s ++ [line].

End MainSpec.

(** * Vocabulary for the summary and the detector's counts *)
Module SummarySpec.
Import CrewOptimizer DetectorSpec.

(** The crew ids of the filled crew positions of a sequence of
    assignments, one entry per sighting, in order. *)
Definition crew_slots (assignments : list Assignment) : list string :=
  seen_crew <$> sightings assignments.

(** The number of positions a crew id fills. *)
Definition slots_of (crew : string) (slots : list string) : nat :=
  length (filter (crew =.) slots).

(** The number of different crew ids among the positions. *)
Definition distinct (slots : list string) : nat :=
  size (list_to_set (C := gset string) slots).

(** [crew_utilization] after the given positions were counted. *)
Definition tally (slots : list string) : gmap string nat :=
  fold_left count_use slots ∅.

(** [sum(crew_utilization.values())] *)
Definition total (m : gmap string nat) : nat :=
  foldr Nat.add 0%nat (map_to_list m).*2.

End SummarySpec.

(** * Vocabulary for the roster's ledger *)
Module LedgerSpec.
Import CrewOptimizer DetectorSpec EngineSpec.

(** The record of a member after the two booking statements ran at clock
    reading [t]. *)
Definition booked_at (flight : string) (rest t : Z) (c : CrewMember)
    : CrewMember :=
  append_assigned_flight flight (set_next_available (t + rest) c).

(** What booking the members behind [refs] on [flight] does between [w]
    and [w']: each of them is booked once, at a clock reading taken in
    between, and every other record is as it was. *)
Definition books (flight : string) (rest : Z) (refs : list crew_ref)
    (w w' : World) : Prop :=
  clock_now (clock w) ≤ clock_now (clock w')
  ∧ length (crew_members w') = length (crew_members w)
  ∧ ∀ r c, crew_members w !! r = Some c →
      (r ∉ refs → crew_members w' !! r = Some c)
      ∧ (r ∈ refs →
         ∃ t, clock_now (clock w) ≤ t ≤ clock_now (clock w')
              ∧ crew_members w' !! r = Some (booked_at flight rest t c)).

(** The crew ids an assignment names. *)
Definition crew_of (a : Assignment) : list string :=
  option_list (captain a) ++ option_list (first_officer a) ++ attendants a.

(** The references selected for a flight, in booking order. *)
Definition selection (cap fo : option crew_ref) (chosen : list crew_ref)
    : list crew_ref :=
  option_list cap ++ option_list fo ++ chosen.

(** What [select_and_book] does in [w] with the two pools, in full: who
    is selected, the dictionary returned, and the roster left behind;
    [w_b] is the world after the last booking. *)
Definition picked (w : World) (f : Flight) (pilots cabin : list crew_ref)
    (a : Assignment) (w' : World) : Prop :=
  ∃ (cap fo : option crew_ref) (chosen : list crew_ref) (dur : Z)
    (w_a w_b : World),
    match pilots with
    | [] => cap = None
    | _ => ∃ r, cap = Some r ∧ r ∈ take 5 pilots
    end
    ∧ (if bool_decide (5 < length pilots)%nat
       then ∃ r, fo = Some r ∧ r ∈ drop 5 pilots
       else fo = None)
    ∧ chosen ⊆+ cabin ∧ length chosen = (4 `min` length cabin)%nat
    ∧ 1 ≤ dur ≤ 6
    ∧ NoDup (selection cap fo chosen)
    ∧ steady w w_a
    ∧ books (flight_id f) (timedelta_hours (dur + 10))
        (selection cap fo chosen) w_a w_b
    ∧ steady w_b w'
    ∧ a = {| asg_flight_id := flight_id f;
             asg_aircraft_id := aircraft_id f;
             captain := cap ≫= id_of w;
             first_officer := fo ≫= id_of w;
             attendants := pool_ids w chosen;
             crew_count := (length chosen
                            + match cap with Some _ => 1 | None => 0 end
                            + match fo with Some _ => 1 | None => 0 end)%nat;
             assignment_time := clock_now (clock w_b) |}.

(** What processing a flight does between [w] and [w']: the members
    behind [sel] were free when their pool was computed, they are the crew
    of the assignment [a], and they are the ones booked. *)
Definition staffed (w : World) (f : Flight) (a : Assignment) (w' : World)
    : Prop :=
  ∃ (sel : list crew_ref) (dur : Z) (w_a w_b : World),
    1 ≤ dur ≤ 6
    ∧ NoDup sel ∧ (length sel ≤ 6)%nat
    ∧ steady w w_a
    ∧ books (flight_id f) (timedelta_hours (dur + 10)) sel w_a w_b
    ∧ steady w_b w'
    ∧ (∀ r, r ∈ sel → ∃ c, crew_members w !! r = Some c
                           ∧ next_available c ≤ clock_now (clock w_a))
    ∧ crew_of a = pool_ids w sel
    ∧ length (crew_of a) = length sel
    ∧ crew_count a = length sel
    ∧ asg_flight_id a = flight_id f ∧ asg_aircraft_id a = aircraft_id f
    ∧ assignment_time a = clock_now (clock w_b).

(** A batch processed flight by flight: the assignments returned and the
    world left behind. *)
Inductive batch_run : World → list Flight → list Assignment → World → Prop :=
| batch_done w : batch_run w [] [] w
| batch_next w f pilots cabin a w1 flights found w' :
    flight_run w f pilots cabin a w1 →
    batch_run w1 flights found w' →
    batch_run w (f :: flights) (a :: found) w'.

(** The flights a crew id is named on, in assignment order. *)
Definition flights_of (crew : string) (found : list Assignment)
    : list string :=
  asg_flight_id <$> filter (λ a, crew ∈ crew_of a) found.

End LedgerSpec.

(** * Vocabulary for the roster of [_initialize_crew] *)
Module RosterSpec.
Import CrewOptimizer DetectorSpec EngineSpec.

(** A record as [_initialize_crew] creates it, seen at time [t]: of the
    given role, without rest hours or flights, and available. *)
Definition recruit (what : string) (t : Z) (c : CrewMember) : Prop :=
  role c = what ∧ rest_hours c = 0 ∧ assigned_flights c = []
  ∧ next_available c ≤ t.

(** The roster a fresh optimizer holds at time [t]: ten pilots followed
    by twenty attendants. *)
Definition fresh_roster (t : Z) (crew : list CrewMember) : Prop :=
  ∃ pilots cabin,
    crew = pilots ++ cabin
    ∧ length pilots = 10%nat ∧ length cabin = 20%nat
    ∧ Forall (recruit "pilot" t) pilots
    ∧ Forall (recruit "attendant" t) cabin.

(** What a comprehension keeps at least: every member that passes the
    test at the clock reading the comprehension starts at. *)
Definition keeps_free (ok : Z → CrewMember → bool) (r : crew_ref)
    (members : list CrewMember) (w : World) (refs : list crew_ref) : Prop :=
  ∀ i c, members !! i = Some c → ok (clock_now (clock w)) c = true →
         (r + i)%nat ∈ refs.

(** The roster of thirty some time after [t], with nobody free again yet:
    the members behind [pilots_out] and [cabin_out] are booked beyond the
    first rest period after [t], everybody else is as recruited. *)
Definition on_duty (t : Z) (pilots_out cabin_out : gset crew_ref) (w : World)
    : Prop :=
  length (crew_members w) = 30%nat
  ∧ (∀ r, r ∈ pilots_out → (r < 10)%nat)
  ∧ (∀ r, r ∈ cabin_out → (10 ≤ r < 30)%nat)
  ∧ ∀ r c, crew_members w !! r = Some c →
      rest_hours c = 0
      ∧ role c = (if bool_decide (r < 10)%nat then "pilot" else "attendant")
      ∧ (if bool_decide (r ∈ pilots_out ∪ cabin_out)
         then t + timedelta_hours 11 ≤ next_available c
         else next_available c ≤ t).

(** The number of pilots booked once a flight is staffed from a pool that
    had [booked] of the ten pilots out: a captain while a pilot is free,
    a first officer while more than five are. *)
Definition next_pilots (booked : nat) : nat :=
  (booked + (if booked <? 10 then 1 else 0) + (if booked <? 5 then 1 else 0))%nat.

(** The same for the twenty attendants: four a flight while they last. *)
Definition next_cabin (booked : nat) : nat :=
  (booked + 4 `min` (20 - booked))%nat.

(** The optimizer [w] at a later call, when the wall clock shows [c] and
    the random source is about to produce [draws].  The roster is what
    the earlier calls left; the clock is not tied to its earlier
    readings: [datetime.now()] is local wall time, which a correction or
    the end of daylight saving time sets back between two calls. *)
Definition later_call (c : Clock) (draws : list nat) (w : World) : World :=
  {| clock := c; rng := draws; crew_members := crew_members w |}.

(** The process before [CrewOptimizer()] is called. *)
Definition before_crew : World :=
  {| clock := {| clock_now := 1000; clock_ticks := [3; 0; 2]%nat |};
     rng := [17; 4; 9; 23; 8]%nat;
     crew_members := [] |}.

(** A fresh optimizer called when the clock has moved on. *)
Definition called_later : World :=
  later_call {| clock_now := 5000; clock_ticks := [1; 0; 4]%nat |}
    [6; 1; 30; 2]%nat (__init__ before_crew).2.

(** A fresh optimizer called when the clock has been set back to before
    the construction. *)
Definition called_after_step_back : World :=
  later_call {| clock_now := 10; clock_ticks := [1; 0; 4]%nat |}
    [6; 1; 30; 2]%nat (__init__ before_crew).2.

(** Eight flights, more than the pilots of a fresh roster last for. *)
Definition eight_flights : list Flight :=
  (λ i, {| flight_id := "GA" +:+ pretty (1000 + i)%nat;
           aircraft_id := "VT-AXB" |}) <$> seq 0 8.

End RosterSpec.

(** * Vocabulary for the assembled system and its loops *)
Module PipelineSpec.
Import Main MainSpec.

(** The keys [_initialize_components] registers. *)
Definition component_keys : list string :=
  [ "log_processor"; "delay_predictor"; "crew_optimizer"; "load_predictor";
    "health_monitor"; "route_monitor"; "dashboard"; "reporter" ].

(** What the three closing messages of [__init__] evaluate: the result
    when nothing else is looked at. *)
Definition closing_result (config : PyVal) : PyResult unit :=
  match py_getitem config "airline_name" with
  | Raise e => Raise e
  | Ok _ =>
      match py_getitem config "hub_airport" with
      | Raise e => Raise e
      | Ok _ =>
          match py_getitem config "aircraft_fleet" with
          | Raise e => Raise e
          | Ok fleet =>
              match py_len fleet with
              | Raise e => Raise e
              | Ok _ => Ok tt
              end
          end
      end
  end.

(** The three closing messages of [__init__]. *)
Definition closing_messages (config : PyVal) : IO unit :=
  airline ← lift (py_getitem config "airline_name");
  print ("✓ System initialized for " +:+ py_str airline);;
  hub ← lift (py_getitem config "hub_airport");
  print ("✓ Hub Airport: " +:+ py_str hub);;
  fleet ← lift (py_getitem config "aircraft_fleet");
  n ← lift (py_len fleet);
  print ("✓ Fleet Size: " +:+ pretty n +:+ " aircraft types").

(** The dictionary [_load_config] creates when there is no configuration
    file; [thresholds] stands for the nested dictionary of limits. *)
Definition default_config_with (thresholds : PyVal) : PyVal :=
  VDict [ ("airline_name", VStr "Global Airways");
          ("hub_airport", VStr "DEL");
          ("thresholds", thresholds) ].

(** The class whose instance a producer loop expects under its key. *)
Definition producer_class (method_body : string → string → Method)
    (p : Producer) : PyClass :=
  match p with
  | Health => HealthMonitor method_body
  | Delay => DelayPredictor method_body
  | Crew => CrewOptimizer method_body
  | DashboardRefresh => Dashboard method_body
  end.

(** A running system that holds a constructed health monitor and some
    flight data. *)
Definition with_health_monitor : System :=
  {| config := default_config;
     components :=
       {[ "health_monitor" := Some (new_instance (HealthMonitor idle_methods)) ]};
     flights_data := VDict [("flights", VList [])];
     alerts_queue := []; is_running := true;
     sys_clock := {| clock_now := 2000; clock_ticks := [] |};
     critical_log := []; stdout := []; calls := [] |}.

(** A system that holds a constructed log processor. *)
Definition with_log_processor : System :=
  {| config := default_config;
     components :=
       {[ "log_processor" := Some (new_instance (LogProcessor idle_methods)) ]};
     flights_data := VDict [];
     alerts_queue := []; is_running := false;
     sys_clock := {| clock_now := 2000; clock_ticks := [] |};
     critical_log := []; stdout := []; calls := [] |}.

(** ** The dispatcher with an alert system registered *)

(** An event the dispatcher can read: a dictionary. *)
Definition is_event (a : PyVal) : Prop := ∃ items, a = VDict items.

(** Whether the dispatcher writes the event to the critical log. *)
Definition critical (a : PyVal) : bool :=
  match is_critical a with
  | Ok b => b
  | Raise _ => false
  end.

(** The calls the dispatcher makes for [events] when [sink] is what is
    stored under ['alert_system']. *)
Definition sent (sink : option Component) (events : list PyVal) : list Call :=
  match sink with
  | Some _ =>
      (λ a, {| call_key := "alert_system"; call_method_name := "send_alert";
               call_arg := a |}) <$> events
  | None => []
  end.

(** An alert system, if there is one, whose [send_alert] returns. *)
Definition accepts (sink : option Component) : Prop :=
  ∀ obj, sink = Some obj →
    ∃ body, methods obj !! "send_alert" = Some body
            ∧ ∀ k a, ∃ v, body k a = Ok v.

(** What dispatching [events] does between [s] and [s'], the queue
    apart: every event is sent to the alert system in order, the critical
    ones are appended to the critical log in order, each with a clock
    reading taken in between, and nothing else changes. *)
Definition dispatched (sink : option Component) (events : list PyVal)
    (s s' : System) : Prop :=
  config s' = config s ∧ components s' = components s
  ∧ flights_data s' = flights_data s ∧ is_running s' = is_running s
  ∧ stdout s' = stdout s
  ∧ calls s' = calls s ++ sent sink events
  ∧ clock_now (sys_clock s) ≤ clock_now (sys_clock s')
  ∧ ∃ times,
      length times = length (filter (λ a, critical a = true) events)
      ∧ critical_log s'
        = critical_log s ++ zip times (filter (λ a, critical a = true) events)
      ∧ Forall (λ t, clock_now (sys_clock s) ≤ t ≤ clock_now (sys_clock s'))
          times.

(** An alert system that accepts every alert. *)
Definition pager : Component :=
  {| instance_of := "AlertSystem";
     methods := {[ "send_alert" := λ _ _, Ok VNone ]} |}.

Definition engine_alert : PyVal :=
  VDict [("type", VStr "ENGINE_VIBRATION"); ("severity", VStr "CRITICAL")].

Definition delay_warning : PyVal :=
  VDict [("type", VStr "DELAY_PREDICTION"); ("severity", VStr "WARNING")].

(** A system with that alert system and the given events queued. *)
Definition with_pager (queue : list PyVal) : System :=
  {| config := default_config;
     components := {[ "alert_system" := Some pager ]};
     flights_data := VDict [];
     alerts_queue := queue; is_running := true;
     sys_clock := {| clock_now := 2000; clock_ticks := [5; 0; 7]%nat |};
     critical_log := []; stdout := []; calls := [] |}.

(** ** The delay and crew loops with a working component *)

(** [prediction.get('delay_minutes', 0) > 30] where it can be evaluated. *)
Definition significant (prediction : PyVal) : bool :=
  match py_get prediction "delay_minutes" (VInt 0) with
  | Ok minutes =>
      match py_gt minutes 30 with
      | Ok b => b
      | Raise _ => false
      end
  | Raise _ => false
  end.

(** A prediction the loop body gets through: a dictionary whose delay,
    when it has one, compares with a number, and which has a flight id
    and reasons when the delay is significant. *)
Definition well_formed (prediction : PyVal) : Prop :=
  ∃ items minutes b,
    prediction = VDict items
    ∧ py_get prediction "delay_minutes" (VInt 0) = Ok minutes
    ∧ py_gt minutes 30 = Ok b
    ∧ (b = true → is_Some (dict_lookup "flight_id" items)
                  ∧ is_Some (dict_lookup "reasons" items)).

(** [v[key]], [None] standing for a missing entry. *)
Definition field (v : PyVal) (key : string) : PyVal :=
  match py_getitem v key with
  | Ok x => x
  | Raise _ => VNone
  end.

(** The alert built for a significant prediction at clock reading [now]. *)
Definition delay_alert_of (prediction : PyVal) (now : Z) : PyVal :=
  VDict [ ("type", VStr "DELAY_PREDICTION");
          ("severity", VStr "WARNING");
          ("flight_id", field prediction "flight_id");
          ("message", VStr ("Predicted delay: "
                            +:+ py_str (field prediction "delay_minutes")
                            +:+ " minutes"));
          ("details", field prediction "reasons");
          ("timestamp", VInt now) ].

(** ['shortage' in issue.lower() or 'unavailable' in issue.lower()]
    where it can be evaluated. *)
Definition mentions_shortage (issue : PyVal) : bool :=
  match py_lower issue with
  | Ok lowered =>
      str_contains "shortage" lowered || str_contains "unavailable" lowered
  | Raise _ => false
  end.

(** The alert built for such an issue at clock reading [now]. *)
Definition crew_alert_of (issue : PyVal) (now : Z) : PyVal :=
  VDict [ ("type", VStr "CREW_SHORTAGE");
          ("severity", VStr "CRITICAL");
          ("message", issue);
          ("timestamp", VInt now) ].

(** An issue worded as a string. *)
Definition is_text (issue : PyVal) : Prop := ∃ text, issue = VStr text.

(** [s] after the method [meth] of the component under [key] was called
    with [arg]. *)
Definition called (key meth : string) (arg : PyVal) (s : System) : System :=
  {| config := config s; components := components s;
     flights_data := flights_data s; alerts_queue := alerts_queue s;
     is_running := is_running s; sys_clock := sys_clock s;
     critical_log := critical_log s; stdout := stdout s;
     calls := calls s ++ [{| call_key := key; call_method_name := meth;
                             call_arg := arg |}] |}.

(** [alerts] are built from [xs], one each and in order, at clock
    readings between [lo] and [hi]. *)
Definition stamped {A} (build : A → Z → PyVal) (xs : list A) (lo hi : Z)
    (alerts : list PyVal) : Prop :=
  Forall2 (λ x a, ∃ t, lo ≤ t ≤ hi ∧ a = build x t) xs alerts.

(** Between [s] and [s'] the [alerts] were put on the queue and the clock
    was read; nothing else changed. *)
Definition queued (alerts : list PyVal) (s s' : System) : Prop :=
  config s' = config s ∧ components s' = components s
  ∧ flights_data s' = flights_data s ∧ is_running s' = is_running s
  ∧ stdout s' = stdout s ∧ calls s' = calls s
  ∧ critical_log s' = critical_log s
  ∧ clock_now (sys_clock s) ≤ clock_now (sys_clock s')
  ∧ alerts_queue s' = alerts_queue s ++ alerts.

(** The dictionary [_predict_single_flight_delay] returns, whatever the
    values of its entries. *)
Definition prediction_record
    (flight aircraft minutes reasons departure at_time severity : PyVal)
    : PyVal :=
  VDict [ ("flight_id", flight);
          ("aircraft_id", aircraft);
          ("predicted_delay_minutes", minutes);
          ("reasons", reasons);
          ("estimated_departure", departure);
          ("prediction_time", at_time);
          ("severity", severity) ].

(** The dictionaries [_check_schedule_issues] appends to [issues]. *)
Definition issue_to_py (i : CrewOptimizer.Issue) : PyVal :=
  match i with
  | CrewOptimizer.DOUBLE_BOOKING crew flights severity =>
      VDict [ ("type", VStr "DOUBLE_BOOKING");
              ("crew_id", VStr crew);
              ("flights", VList (VStr <$> flights));
              ("severity", VStr severity) ]
  | CrewOptimizer.CREW_SHORTAGE flight missing_role severity =>
      VDict [ ("type", VStr "CREW_SHORTAGE");
              ("flight_id", VStr flight);
              ("missing_role", VStr missing_role);
              ("severity", VStr severity) ]
  end.

(** A component with one method that returns [result] on every call. *)
Definition answering (cname meth : string) (result : PyVal) : Component :=
  {| instance_of := cname; methods := {[ meth := λ _ _, Ok result ]} |}.

(** A running system with [obj] under [key] and some flight data. *)
Definition running_with (key : string) (obj : Component) : System :=
  {| config := default_config;
     components := {[ key := Some obj ]};
     flights_data := VDict [("flights", VList [])];
     alerts_queue := []; is_running := true;
     sys_clock := {| clock_now := 2000; clock_ticks := [5; 0; 7]%nat |};
     critical_log := []; stdout := []; calls := [] |}.

Definition two_predictions : list PyVal :=
  [ VDict [("flight_id", VStr "GA1000"); ("delay_minutes", VInt 30);
           ("reasons", VList [])];
    VDict [("flight_id", VStr "GA1001"); ("delay_minutes", VInt 31);
           ("reasons", VList [VStr "Thunderstorm detected"])] ].

(** A late prediction without a flight id. *)
Definition anonymous_delay : PyVal :=
  VDict [("delay_minutes", VInt 45); ("reasons", VList [])].

Definition two_issues : list PyVal :=
  [ VStr "Crew SHORTAGE on GA1000"; VStr "All crews rested" ].

(** A running system with a health monitor that reports [alerts] and an
    alert system that accepts every alert. *)
Definition monitored (alerts : list PyVal) : System :=
  {| config := default_config;
     components :=
       <["health_monitor" :=
           Some (answering "HealthMonitor" "monitor" (VList alerts))]>
         {[ "alert_system" := Some pager ]};
     flights_data := VDict [("flights", VList [])];
     alerts_queue := [delay_warning]; is_running := true;
     sys_clock := {| clock_now := 2000; clock_ticks := [5; 0; 7]%nat |};
     critical_log := []; stdout := []; calls := [] |}.

(** Another thread putting [alert] on the queue. *)
Definition arrives (alert : PyVal) (s : System) : System :=
  (queue_put alert s).2.

(** A running system with a dashboard whose [update] returns and twelve
    numbered warnings queued. *)
Definition busy_dashboard : System :=
  {| config := default_config;
     components :=
       {[ "dashboard" := Some (answering "Dashboard" "update" VNone) ]};
     flights_data := VDict [("flights", VList [])];
     alerts_queue :=
       (λ i, VDict [("type", VStr "DELAY_PREDICTION");
                    ("severity", VStr "WARNING");
                    ("number", VInt (Z.of_nat i))]) <$> seq 1 12;
     is_running := true;
     sys_clock := {| clock_now := 2000; clock_ticks := [5; 0; 7]%nat |};
     critical_log := []; stdout := []; calls := [] |}.

End PipelineSpec.

(** * Vocabulary for the single analysis *)
Module AnalysisSpec.
Import Main MainSpec PipelineSpec.

(** The component under [key] has a method [meth] that returns [v] on
    every call. *)
Definition serves (s : System) (key meth : string) (v : PyVal) : Prop :=
  ∃ obj body, components s !! key = Some (Some obj)
              ∧ methods obj !! meth = Some body
              ∧ ∀ k a, body k a = Ok v.

(** [d.get(key, [])] *)
Definition entry (key : string) (items : list (string * PyVal)) : PyVal :=
  from_option id (VList []) (dict_lookup key items).

(** [len(d.get(key, []))] can be evaluated. *)
Definition countable (key : string) (items : list (string * PyVal)) : Prop :=
  ∃ n, py_len (entry key items) = Ok n.

(** A delay record whose [d.get('delay_minutes', 0) > 0] can be
    evaluated. *)
Definition readable (d : PyVal) : Prop :=
  ∃ minutes late,
    py_get d "delay_minutes" (VInt 0) = Ok minutes
    ∧ py_gt minutes 0 = Ok late.

Definition call (key meth : string) (arg : PyVal) : Call :=
  {| call_key := key; call_method_name := meth; call_arg := arg |}.

(** The dictionary [generate_daily_report] hands to the reporter. *)
Definition report_data (logs : list (string * PyVal)) (queue : list PyVal)
    (now : Z) : PyVal :=
  VDict [ ("flights", entry "flights" logs);
          ("passengers", entry "passengers" logs);
          ("crew", entry "crew" logs);
          ("weather", entry "weather" logs);
          ("maintenance", entry "maintenance" logs);
          ("alerts", VList queue);
          ("timestamp", VInt now) ].

(** The call the optional PDF step makes on [reporter]: none when the
    object has no [generate_pdf_report]. *)
Definition pdf_call_of (reporter : Component) (report : PyVal) : list Call :=
  match methods reporter !! "generate_pdf_report" with
  | Some _ => [call "reporter" "generate_pdf_report" report]
  | None => []
  end.

Definition pdf_calls (s : System) (report : PyVal) : list Call :=
  match components s !! "reporter" with
  | Some (Some reporter) => pdf_call_of reporter report
  | _ => []
  end.

(** The component calls of one analysis, in order. *)
Definition analysis_calls (s : System) (sample : PyVal)
    (logs : list (string * PyVal)) : list Call :=
  [ call "log_processor" "ingest_logs" sample;
    call "log_processor" "get_all_logs" VNone;
    call "health_monitor" "monitor" (VDict logs);
    call "delay_predictor" "predict" (VDict logs);
    call "crew_optimizer" "optimize" (VDict logs);
    call "load_predictor" "predict" (VDict logs);
    call "route_monitor" "monitor" (VDict logs);
    call "reporter" "generate_daily_report"
      (report_data logs (alerts_queue s) (clock_now (sys_clock s))) ]
  ++ pdf_calls s (report_data logs (alerts_queue s) (clock_now (sys_clock s)))
  ++ [ call "dashboard" "display_full" VNone ].

(** [m] returns from [s], with a result and a state that satisfy [Q]. *)
Definition wpio {A} (m : IO A) (s : System) (Q : A → System → Prop) : Prop :=
  ∃ a s', m s = (Ok a, s') ∧ Q a s'.

(** Where an analysis started in [s0] stands: the data is [fd], the clock
    is [clk], the calls [cs] were made, and configuration, components,
    queue, flag and critical log are those of [s0]. *)
Definition at_stage (s0 : System) (fd : PyVal) (clk : Clock)
    (cs : list Call) (s : System) : Prop :=
  config s = config s0 ∧ components s = components s0
  ∧ alerts_queue s = alerts_queue s0 ∧ is_running s = is_running s0
  ∧ critical_log s = critical_log s0
  ∧ flights_data s = fd ∧ sys_clock s = clk
  ∧ calls s = calls s0 ++ cs.

(** Three flights' worth of logs, as a log processor might return them. *)
Definition sample_logs : list (string * PyVal) :=
  [ ("flights", VList [VStr "GA1000"; VStr "GA1001"; VStr "GA1002"]);
    ("passengers", VList []);
    ("crew", VList []) ].

Definition log_store : Component :=
  {| instance_of := "LogProcessor";
     methods := <["ingest_logs" := λ _ _, Ok VNone]>
                  {[ "get_all_logs" := λ _ _, Ok (VDict sample_logs) ]} |}.

(** A system whose eight components answer the calls of the analysis;
    one warning is queued. *)
Definition cooperative : System :=
  {| config := default_config;
     components :=
       <["log_processor" := Some log_store]>
       (<["health_monitor" :=
            Some (answering "HealthMonitor" "monitor" (VList [engine_alert]))]>
       (<["delay_predictor" :=
            Some (answering "DelayPredictor" "predict" (VList two_predictions))]>
       (<["crew_optimizer" :=
            Some (answering "CrewOptimizer" "optimize"
                    (VDict [("issues", VList [])]))]>
       (<["load_predictor" :=
            Some (answering "LoadPredictor" "predict" (VList []))]>
       (<["route_monitor" :=
            Some (answering "RouteMonitor" "monitor" (VDict []))]>
       (<["reporter" :=
            Some (answering "ReportGenerator" "generate_daily_report"
                    (VStr "reports/daily.txt"))]>
       {[ "dashboard" :=
            Some (answering "Dashboard" "display_full" VNone) ]}))))));
     flights_data := VDict [];
     alerts_queue := [delay_warning]; is_running := false;
     sys_clock := {| clock_now := 2000; clock_ticks := [5; 0; 7]%nat |};
     critical_log := []; stdout := []; calls := [] |}.

End AnalysisSpec.

(** * Properties of the conflict detector *)
Module DetectorFacts.
Import CrewOptimizer DetectorSpec.

Lemma fold_attendants (a : Assignment) (ids : list string) (st : DetectorState) :
  fold_left (attendant_step a) ids st
  = fold_left sight_step
      ((λ crew, {| seen_crew := crew; seen_flight := asg_flight_id a;
                   seen_severity := "MEDIUM" |}) <$> ids) st.
Proof.
  revert st. induction ids as [|x ids IH]; intros st; simpl; [done|].
  by rewrite IH.
Qed.

Lemma pilot_role_step_sighting (a : Assignment) (st : DetectorState) key :
  pilot_role_step a st key
  = fold_left sight_step (pilot_sighting a (assignment_get a key)) st.
Proof.
  unfold pilot_role_step, pilot_sighting.
  destruct (assignment_get a key) as [crew|]; [|done].
  by destruct (truthy (Some crew)).
Qed.

Lemma double_booking_step_sightings (a : Assignment) (st : DetectorState) :
  double_booking_step st a = fold_left sight_step (sightings_of a) st.
Proof.
  unfold double_booking_step, sightings_of.
  rewrite !fold_left_app, fold_attendants. simpl fold_left at 2.
  by rewrite !pilot_role_step_sighting.
Qed.

Lemma fold_double_booking_sightings (asg : list Assignment) (st : DetectorState) :
  fold_left double_booking_step asg st = fold_left sight_step (sightings asg) st.
Proof.
  revert st. induction asg as [|a asg IH]; intros st; [done|].
  unfold sightings. rewrite bind_cons, fold_left_app. simpl.
  by rewrite double_booking_step_sightings, IH.
Qed.

Lemma latest_map_snoc earlier s :
  latest_map (earlier ++ [s]) = <[seen_crew s := seen_flight s]> (latest_map earlier).
Proof. unfold latest_map. by rewrite fold_left_app. Qed.

Lemma latest_map_lookup crew earlier :
  latest_map earlier !! crew = previous_flight crew earlier.
Proof.
  induction earlier as [|s earlier IH] using rev_ind; [done|].
  rewrite latest_map_snoc. unfold previous_flight in *.
  rewrite filter_app, filter_cons, filter_nil.
  destruct (decide (seen_crew s = crew)) as [<-|Hne].
  - by rewrite lookup_insert_eq, last_snoc.
  - by rewrite lookup_insert_ne, app_nil_r.
Qed.

Lemma fold_sight_step_audit todo earlier found :
  fold_left sight_step todo (found, latest_map earlier)
  = (found ++ audit previous_flight earlier todo, latest_map (earlier ++ todo)).
Proof.
  revert earlier found. induction todo as [|s todo IH]; intros earlier found; simpl.
  - by rewrite !app_nil_r.
  - unfold sight_step at 1. unfold record_sighting.
    rewrite latest_map_lookup, <-latest_map_snoc, IH, <-app_assoc. simpl.
    f_equal. destruct (previous_flight _ _); simpl; by rewrite <-?app_assoc.
Qed.

Lemma fold_shortage_step asg found :
  fold_left shortage_step asg found = found ++ omap shortage_of asg.
Proof.
  revert found. induction asg as [|a asg IH]; intros found; simpl.
  - by rewrite app_nil_r.
  - rewrite IH. unfold shortage_step, shortage_of, missing, assignment_get. simpl.
    destruct (truthy (captain a)), (truthy (first_officer a)); simpl;
      by rewrite <-?app_assoc.
Qed.

(** The result of the detector: the double bookings of the first loop
    followed by the shortages of the second. *)
Lemma check_schedule_issues_split asg :
  _check_schedule_issues asg
  = double_bookings_latest_seen asg ++ omap shortage_of asg.
Proof.
  unfold _check_schedule_issues, double_bookings_latest_seen.
  rewrite fold_double_booking_sightings.
  change (∅ : gmap string string) with (latest_map []).
  rewrite fold_sight_step_audit. simpl. apply fold_shortage_step.
Qed.

Lemma audit_double_bookings pw earlier todo :
  Forall (λ i, is_double_booking i = true) (audit pw earlier todo).
Proof.
  revert earlier. induction todo as [|s todo IH]; intros earlier; simpl; [done|].
  apply Forall_app. split; [|done]. destruct (pw _ _); by repeat constructor.
Qed.

Lemma shortages_crew_shortage asg :
  Forall (λ i, is_crew_shortage i = true) (omap shortage_of asg).
Proof.
  induction asg as [|a asg IH]; simpl; [done|].
  unfold shortage_of at 1.
  destruct (missing (captain a)); [by constructor|].
  destruct (missing (first_officer a)); [by constructor|done].
Qed.

Lemma filter_all {A} (p : A → bool) (l : list A) :
  Forall (λ x, p x = true) l → filter (λ x, p x = true) l = l.
Proof.
  induction 1 as [|x l Hx _ IH]; [done|].
  rewrite filter_cons. destruct (decide _); [by rewrite IH|done].
Qed.

Lemma filter_none {A} (p q : A → bool) (l : list A) :
  (∀ x, p x = true → q x = false) →
  Forall (λ x, p x = true) l → filter (λ x, q x = true) l = [].
Proof.
  intros Hpq. induction 1 as [|x l Hx _ IH]; [done|].
  rewrite filter_cons. destruct (decide _) as [Hq|]; [|done].
  rewrite (Hpq _ Hx) in Hq. done.
Qed.


(** C3, as stated, fails: with one captain on three flights the code pairs
    the third flight with the second, the first-seen reading pairs it with
    the first. *)
Lemma double_bookings_not_first_seen :
  filter (λ i, is_double_booking i = true)
    (_check_schedule_issues same_captain_thrice)
  = [DOUBLE_BOOKING "P001" ["F1"; "F2"] "HIGH";
     DOUBLE_BOOKING "P001" ["F2"; "F3"] "HIGH"]
  ∧ double_bookings_first_seen same_captain_thrice
  = [DOUBLE_BOOKING "P001" ["F1"; "F2"] "HIGH";
     DOUBLE_BOOKING "P001" ["F1"; "F3"] "HIGH"]
  ∧ filter (λ i, is_double_booking i = true)
      (_check_schedule_issues same_captain_thrice)
    ≠ double_bookings_first_seen same_captain_thrice.
Proof. split; [|split]; [vm_compute; reflexivity ..|vm_compute; discriminate]. Qed.

(** C3 (amended): the double bookings the detector emits are, in order,
    one for every sighting of a crew id that was sighted before, pairing
    the flight of the most recent earlier sighting with the current
    flight, with severity HIGH for a captain or first officer sighting and
    MEDIUM for an attendant sighting. *)
Theorem double_bookings_pair_latest_sighting (asg : list Assignment) :
  filter (λ i, is_double_booking i = true) (_check_schedule_issues asg)
  = double_bookings_latest_seen asg.
Proof.
  rewrite check_schedule_issues_split, filter_app.
  unfold double_bookings_latest_seen.
  rewrite (filter_all _ _ (audit_double_bookings _ _ _)).
  rewrite (filter_none is_crew_shortage is_double_booking).
  - apply app_nil_r.
  - by intros [].
  - apply shortages_crew_shortage.
Qed.

(** C5, as stated, fails: the shortage of the first flight is reported
    after the double booking found on the second. *)
Lemma issues_not_in_assignment_order :
  _check_schedule_issues shortage_then_repeat
  = [DOUBLE_BOOKING "FA001" ["F1"; "F2"] "MEDIUM";
     CREW_SHORTAGE "F1" "captain" "CRITICAL"]
  ∧ ¬ in_assignment_order shortage_then_repeat
        (_check_schedule_issues shortage_then_repeat).
Proof.
  assert (Heq : _check_schedule_issues shortage_then_repeat
    = [DOUBLE_BOOKING "FA001" ["F1"; "F2"] "MEDIUM";
       CREW_SHORTAGE "F1" "captain" "CRITICAL"]) by (vm_compute; reflexivity).
  split; [exact Heq|]. rewrite Heq. intros Hord.
  specialize (Hord 0%nat 1%nat _ _ 1%nat 0%nat ltac:(lia) eq_refl eq_refl).
  cbv in Hord. specialize (Hord eq_refl eq_refl). lia.
Qed.

Lemma audit_reports_sublist pw earlier todo :
  omap reported_sighting (audit pw earlier todo) `sublist_of` todo.
Proof.
  revert earlier. induction todo as [|s todo IH]; intros earlier; simpl; [done|].
  destruct (pw _ _); simpl.
  - destruct s; simpl. by apply sublist_skip.
  - by apply sublist_cons.
Qed.

Lemma shortage_flights_sublist asg :
  omap issue_flight (omap shortage_of asg) `sublist_of` asg_flight_id <$> asg.
Proof.
  induction asg as [|a asg IH]; simpl; [done|].
  unfold shortage_of at 1.
  destruct (missing (captain a)); simpl; [by apply sublist_skip|].
  destruct (missing (first_officer a)); simpl;
    [by apply sublist_skip|by apply sublist_cons].
Qed.

(** C5 (amended): the issues are all double bookings first and all
    shortages after them; the double bookings follow the order of the
    sightings (assignment order, and captain, first officer, attendants
    within an assignment), the shortages follow assignment order. *)
Theorem issues_double_bookings_then_shortages (asg : list Assignment) :
  ∃ dbs shs,
    _check_schedule_issues asg = dbs ++ shs
    ∧ Forall (λ i, is_double_booking i = true) dbs
    ∧ Forall (λ i, is_crew_shortage i = true) shs
    ∧ omap reported_sighting dbs `sublist_of` sightings asg
    ∧ omap issue_flight shs `sublist_of` asg_flight_id <$> asg.
Proof.
  exists (double_bookings_latest_seen asg), (omap shortage_of asg).
  split; [apply check_schedule_issues_split|].
  split; [apply audit_double_bookings|].
  split; [apply shortages_crew_shortage|].
  split; [apply audit_reports_sublist|apply shortage_flights_sublist].
Qed.

End DetectorFacts.

(** * Properties of the assignment engine *)
Module EngineFacts.
Import CrewOptimizer EngineSpec.

(** ** Weakest preconditions *)

Lemma wp_ret {A} (a : A) w (Q : A → World → Prop) : Q a w → wp (mret a) w Q.
Proof. intros HQ. by exists a, w. Qed.

Lemma wp_bind {A B} (m : M A) (f : A → M B) w (Q : B → World → Prop) :
  wp m w (λ a w', wp (f a) w' Q) → wp (m ≫= f) w Q.
Proof.
  intros (a & w' & Hm & b & w'' & Hf & HQ). exists b, w''. split; [|done].
  unfold mbind, Py_bind. by rewrite Hm.
Qed.

Lemma wp_fmap {A B} (g : A → B) (m : M A) w (Q : B → World → Prop) :
  wp m w (λ a w', Q (g a) w') → wp (g <$> m) w Q.
Proof.
  intros (a & w' & Hm & HQ). exists (g a), w'. split; [|done].
  unfold fmap, Py_fmap. by rewrite Hm.
Qed.

Lemma wp_wand {A} (m : M A) w (Q Q' : A → World → Prop) :
  wp m w Q → (∀ a w', Q a w' → Q' a w') → wp m w Q'.
Proof. intros (a & w' & Hm & HQ) HQQ'. exists a, w'. auto. Qed.

Lemma wp_run {A} (m : M A) w (Q : A → World → Prop) a w' :
  wp m w Q → m w = (Ok a, w') → Q a w'.
Proof. intros (a' & w'' & Hm & HQ) Hrun. congruence. Qed.

(** ** Steps that leave the roster alone *)

Lemma steady_refl w : steady w w.
Proof. repeat split; auto; lia. Qed.

Lemma steady_trans w1 w2 w3 : steady w1 w2 → steady w2 w3 → steady w1 w3.
Proof.
  intros (Hc1 & Ht1 & Hf1) (Hc2 & Ht2 & Hf2). repeat split.
  - congruence.
  - lia.
  - destruct (Hf1 H) as [Hfr _]. by destruct (Hf2 Hfr).
  - destruct (Hf1 H) as [Hfr Heq]. destruct (Hf2 Hfr). lia.
Qed.

Lemma read_clock_le c : clock_now c ≤ clock_now (read_clock c).2.
Proof. simpl. lia. Qed.

Lemma read_clock_frozen c :
  frozen c → frozen (read_clock c).2 ∧ clock_now (read_clock c).2 = clock_now c.
Proof.
  unfold frozen. destruct c as [now [|n ticks]]; simpl; intros Hf.
  - split; [done|lia].
  - inversion Hf; subst. split; [done|]. simpl. lia.
Qed.

Lemma wp_datetime_now w (Q : Z → World → Prop) :
  (∀ w', steady w w' → Q (clock_now (clock w)) w') → wp datetime_now w Q.
Proof.
  intros HQ. eexists _, _. split; [reflexivity|]. apply HQ.
  repeat split; simpl; try lia; by apply read_clock_frozen.
Qed.

Lemma wp_random_draw w (Q : nat → World → Prop) :
  (∀ n w', steady w w' → Q n w') → wp random_draw w Q.
Proof.
  intros HQ. eexists _, _. split; [reflexivity|]. apply HQ.
  repeat split; simpl; auto; lia.
Qed.

Lemma wp_random_choice {A} (seq : list A) w (Q : A → World → Prop) :
  seq ≠ [] →
  (∀ x w', x ∈ seq → steady w w' → Q x w') → wp (random_choice seq) w Q.
Proof.
  intros Hne HQ. destruct seq as [|x0 seq]; [done|].
  unfold random_choice. apply wp_bind, wp_random_draw. intros n w' Hst.
  apply wp_ret, HQ; [|done].
  destruct (lookup_lt_is_Some_2 (x0 :: seq) (n `mod` length (x0 :: seq))%nat)
    as [x Hx].
  { apply Nat.mod_upper_bound. done. }
  rewrite Hx. simpl. by eapply list_elem_of_lookup_2.
Qed.

Lemma wp_random_randint a b w (Q : Z → World → Prop) :
  a ≤ b →
  (∀ z w', a ≤ z ≤ b → steady w w' → Q z w') → wp (random_randint a b) w Q.
Proof.
  intros Hab HQ. unfold random_randint.
  rewrite bool_decide_eq_false_2 by lia.
  apply wp_bind, wp_random_draw. intros n w' Hst. apply wp_ret, HQ; [|done].
  pose proof (Z.mod_pos_bound (Z.of_nat n) (b - a + 1)). lia.
Qed.

Lemma wp_sample_from {A} (pool : list A) k w (Q : list A → World → Prop) :
  (k ≤ length pool)%nat →
  (∀ xs w', xs ⊆+ pool → length xs = k → steady w w' → Q xs w') →
  wp (sample_from pool k) w Q.
Proof.
  revert pool w Q. induction k as [|k IH]; intros pool w Q Hk HQ; simpl.
  - apply wp_ret, HQ; [apply submseteq_nil_l|done|apply steady_refl].
  - apply wp_bind, wp_random_draw. intros n w1 Hst1.
    destruct (lookup_lt_is_Some_2 pool (n `mod` length pool)%nat) as [x Hx].
    { apply Nat.mod_upper_bound. lia. }
    rewrite Hx. apply wp_bind, IH.
    { rewrite length_delete by eauto. lia. }
    intros xs w2 Hsub Hlen Hst2. apply wp_ret, HQ.
    + rewrite (delete_Permutation _ _ _ Hx). by apply submseteq_skip.
    + simpl. by rewrite Hlen.
    + by eapply steady_trans.
Qed.

Lemma wp_random_sample {A} (pool : list A) k w (Q : list A → World → Prop) :
  (k ≤ length pool)%nat →
  (∀ xs w', xs ⊆+ pool → length xs = k → steady w w' → Q xs w') →
  wp (random_sample pool k) w Q.
Proof.
  intros Hk HQ. unfold random_sample.
  rewrite bool_decide_eq_false_2 by lia. by apply wp_sample_from.
Qed.

Lemma wp_get_crew_members w (Q : list CrewMember → World → Prop) :
  Q (crew_members w) w → wp get_crew_members w Q.
Proof. intros HQ. by eexists _, _. Qed.

Lemma wp_deref r c w (Q : CrewMember → World → Prop) :
  crew_members w !! r = Some c → Q c w → wp (deref r) w Q.
Proof. intros Hr HQ. exists c, w. unfold deref. by rewrite Hr. Qed.


(** ** Every outcome of the random functions is an outcome of the model *)

Lemma random_choice_covers {A} (seq : list A) i x w rest :
  seq !! i = Some x →
  random_choice seq (with_rng (i :: rest) w) = (Ok x, with_rng rest w).
Proof.
  intros Hi. destruct seq as [|x0 seq]; [done|].
  unfold random_choice, mbind, Py_bind, random_draw, with_rng. simpl rng.
  cbn [hd tail]. unfold mret, Py_ret. simpl clock. simpl crew_members.
  rewrite Nat.mod_small by (by eapply lookup_lt_Some). by rewrite Hi.
Qed.

Lemma random_randint_covers a b z w rest :
  a ≤ z ≤ b →
  random_randint a b (with_rng (Z.to_nat (z - a) :: rest) w)
  = (Ok z, with_rng rest w).
Proof.
  intros Hz. unfold random_randint. rewrite bool_decide_eq_false_2 by lia.
  unfold mbind, Py_bind, random_draw, with_rng, mret, Py_ret. simpl.
  rewrite Z2Nat.id by lia. rewrite Z.mod_small by lia.
  do 2 f_equal. lia.
Qed.

Lemma sample_from_covers {A} (xs pool : list A) w rest :
  NoDup pool → NoDup xs → (∀ x, x ∈ xs → x ∈ pool) →
  ∃ draws, sample_from pool (length xs) (with_rng (draws ++ rest) w)
           = (Ok xs, with_rng rest w).
Proof.
  revert pool. induction xs as [|x xs IH]; intros pool Hpool Hxs Hin.
  - by exists [].
  - apply NoDup_cons in Hxs as [Hx Hxs].
    destruct (list_elem_of_lookup_1 pool x) as [i Hi]; [apply Hin; by left|].
    destruct (IH (delete i pool)) as [draws Hdraws].
    { eapply sublist_NoDup; [exact Hpool|apply sublist_delete]. }
    { done. }
    { intros y Hy. assert (y ∈ pool) as [j Hj]%list_elem_of_lookup_1
        by (apply Hin; by right).
      assert (j ≠ i).
      { intros ->. assert (x = y) by congruence. by subst. }
      destruct (decide (j < i)%nat).
      - apply (list_elem_of_lookup_2 _ j). by rewrite list_lookup_delete_lt.
      - apply (list_elem_of_lookup_2 _ (j - 1)%nat).
        rewrite list_lookup_delete_ge by lia. by replace (S (j - 1)) with j by lia. }
    exists (i :: draws).
    change (length (x :: xs)) with (S (length xs)). cbn [sample_from].
    unfold mbind at 1. unfold Py_bind at 1.
    change (random_draw (with_rng ((i :: draws) ++ rest) w))
      with (Ok i, with_rng (draws ++ rest) w).
    cbv beta iota zeta.
    rewrite Nat.mod_small by (by eapply lookup_lt_Some). rewrite Hi.
    unfold mbind, Py_bind. by rewrite Hdraws.
Qed.

Lemma random_sample_covers {A} (xs pool : list A) w rest :
  NoDup pool → NoDup xs → (∀ x, x ∈ xs → x ∈ pool) →
  ∃ draws, random_sample pool (length xs) (with_rng (draws ++ rest) w)
           = (Ok xs, with_rng rest w).
Proof.
  intros Hpool Hxs Hin. unfold random_sample.
  rewrite bool_decide_eq_false_2; [by apply sample_from_covers|].
  assert (xs ⊆+ pool) by by apply NoDup_submseteq.
  apply Nat.le_ngt. by apply submseteq_length.
Qed.

(** ** The roster over time *)

Lemma member_le_refl c : member_le c c.
Proof. repeat split; lia. Qed.

Lemma member_le_trans c1 c2 c3 : member_le c1 c2 → member_le c2 c3 → member_le c1 c3.
Proof. intros (?&?&?&?) (?&?&?&?). repeat split; try congruence; lia. Qed.

Lemma roster_le_refl w : roster_le w w.
Proof.
  apply Forall2_same_length_lookup. split; [done|]. intros i c c' H1 H2.
  assert (c = c') as -> by congruence. apply member_le_refl.
Qed.

Lemma roster_le_trans w1 w2 w3 : roster_le w1 w2 → roster_le w2 w3 → roster_le w1 w3.
Proof.
  unfold roster_le. intros H12 H23.
  eapply Forall2_trans; [|exact H12|exact H23].
  intros ???. apply member_le_trans.
Qed.

Lemma roster_le_lookup w w' r c :
  roster_le w w' → crew_members w !! r = Some c →
  ∃ c', crew_members w' !! r = Some c' ∧ member_le c c'.
Proof. intros Hle Hr. by eapply Forall2_lookup_l. Qed.

Lemma roster_le_lookup_r w w' r c' :
  roster_le w w' → crew_members w' !! r = Some c' →
  ∃ c, crew_members w !! r = Some c ∧ member_le c c'.
Proof. intros Hle Hr. by eapply Forall2_lookup_r. Qed.

Lemma roster_le_ids w w' :
  roster_le w w' → crew_id <$> crew_members w = crew_id <$> crew_members w'.
Proof.
  unfold roster_le. induction 1 as [|c c' l l' Hc _ IH]; [done|].
  csimpl. f_equal; [apply Hc|done].
Qed.

Lemma pool_ids_roster_le w w' pool :
  roster_le w w' → pool_ids w pool = pool_ids w' pool.
Proof. intros Hle. unfold pool_ids. by rewrite (roster_le_ids _ _ Hle). Qed.

Lemma steady_evolves w w' : steady w w' → evolves w w'.
Proof.
  intros (Hc & Ht & Hf). split; [|done].
  unfold roster_le. rewrite Hc. apply roster_le_refl.
Qed.

Lemma evolves_refl w : evolves w w.
Proof. apply steady_evolves, steady_refl. Qed.

Lemma evolves_trans w1 w2 w3 : evolves w1 w2 → evolves w2 w3 → evolves w1 w3.
Proof.
  intros (Hc1 & Ht1 & Hf1) (Hc2 & Ht2 & Hf2). repeat split.
  - by eapply roster_le_trans.
  - lia.
  - destruct (Hf1 H) as [Hfr _]. by destruct (Hf2 Hfr).
  - destruct (Hf1 H) as [Hfr Heq]. destruct (Hf2 Hfr). lia.
Qed.

(** ** The comprehensions *)

Lemma wp_pilot_available c w (Q : bool → World → Prop) :
  (∀ b w', steady w w' →
     (b = true → pilot_ok (clock_now (clock w')) c = true) →
     (frozen (clock w) → b = pilot_ok (clock_now (clock w)) c) →
     Q b w') →
  wp (pilot_available c) w Q.
Proof.
  intros HQ. unfold pilot_available, pilot_ok in *.
  destruct (bool_decide (role c = "pilot")) eqn:Hrole; simpl in *.
  - apply wp_bind, wp_datetime_now. intros w' Hst. apply wp_ret, HQ; [done| |done].
    destruct Hst as (_ & Ht & _).
    rewrite !andb_true_iff, !bool_decide_eq_true. intros [??]. split; [lia|done].
  - apply wp_ret, HQ; [apply steady_refl|done|done].
Qed.

Lemma wp_attendant_available c w (Q : bool → World → Prop) :
  (∀ b w', steady w w' →
     (b = true → attendant_ok (clock_now (clock w')) c = true) →
     (frozen (clock w) → b = attendant_ok (clock_now (clock w)) c) →
     Q b w') →
  wp (attendant_available c) w Q.
Proof.
  intros HQ. unfold attendant_available, attendant_ok in *.
  destruct (bool_decide (role c = "attendant")) eqn:Hrole; simpl in *.
  - apply wp_bind, wp_datetime_now. intros w' Hst. apply wp_ret, HQ; [done| |done].
    destruct Hst as (_ & Ht & _).
    rewrite !bool_decide_eq_true. lia.
  - apply wp_ret, HQ; [apply steady_refl|done|done].
Qed.

Lemma wp_comprehension (ok : Z → CrewMember → bool) (cond : CrewMember → M bool) :
  (∀ t t' c, t ≤ t' → ok t c = true → ok t' c = true) →
  (∀ c w (Q : bool → World → Prop),
     (∀ b w', steady w w' →
        (b = true → ok (clock_now (clock w')) c = true) →
        (frozen (clock w) → b = ok (clock_now (clock w)) c) →
        Q b w') →
     wp (cond c) w Q) →
  ∀ members r w (Q : list crew_ref → World → Prop),
    (∀ refs w', kept_by ok r members w refs w' → Q refs w') →
    wp (comprehension cond r members) w Q.
Proof.
  intros Hmono Hcond members.
  induction members as [|c members IH]; intros r w Q HQ; simpl.
  - apply wp_ret, HQ. repeat split; try done; try lia.
    intros i Hi. by apply elem_of_nil in Hi.
  - apply wp_bind, Hcond. intros b w1 Hst1 Hb Hfb.
    apply wp_bind, IH. intros refs w2 (Hst2 & Hsub & Hall & Hfr).
    apply wp_ret, HQ. split; [by eapply steady_trans|].
    assert (Hle : clock_now (clock w1) ≤ clock_now (clock w2)) by apply Hst2.
    split; [|split].
    + destruct b; [by apply sublist_skip|by apply sublist_cons].
    + intros i Hi.
      assert (Hrefs : ∀ j, j ∈ refs →
                 (S r ≤ j)%nat ∧ ∃ c0, (c :: members) !! (j - r)%nat = Some c0
                 ∧ ok (clock_now (clock w2)) c0 = true).
      { intros j Hj. destruct (Hall j Hj) as (c0 & Hc0 & Hok).
        assert (S r ≤ j)%nat as Hge.
        { eapply elem_of_sublist in Hj; [|exact Hsub].
          apply elem_of_seq in Hj. lia. }
        split; [done|]. exists c0. split; [|done].
        replace (j - r)%nat with (S (j - S r)) by lia. done. }
      destruct b.
      * apply elem_of_cons in Hi as [->|Hi]; [|by apply Hrefs].
        exists c. rewrite Nat.sub_diag. split; [done|].
        eapply Hmono; [exact Hle|by apply Hb].
      * by apply Hrefs.
    + intros Hfz. destruct Hst1 as (_ & _ & Hf1). destruct (Hf1 Hfz) as [Hfz1 Heq1].
      rewrite (Hfb Hfz), (Hfr Hfz1), Heq1. done.
Qed.

Lemma elem_of_keep_refs p r members i :
  i ∈ keep_refs p r members ↔
  (r ≤ i)%nat ∧ ∃ c, members !! (i - r)%nat = Some c ∧ p c = true.
Proof.
  revert r. induction members as [|c members IH]; intros r; simpl.
  - split; [by intros ?%elem_of_nil|]. by intros (_ & c & ? & _).
  - assert (Hshift : i ∈ keep_refs p (S r) members ↔
       (S r ≤ i)%nat ∧ ∃ c0, (c :: members) !! (i - r)%nat = Some c0 ∧ p c0 = true).
    { rewrite IH. split.
      - intros (Hge & c0 & Hc0 & Hp). split; [done|]. exists c0. split; [|done].
        replace (i - r)%nat with (S (i - S r)) by lia. done.
      - intros (Hge & c0 & Hc0 & Hp). split; [done|]. exists c0. split; [|done].
        replace (i - r)%nat with (S (i - S r)) in Hc0 by lia. done. }
    destruct (p c) eqn:Hpc.
    + rewrite elem_of_cons, Hshift. split.
      * intros [->|(Hge & Hc0)]; [|split; [lia|done]].
        split; [lia|]. exists c. by rewrite Nat.sub_diag.
      * intros (Hge & c0 & Hc0 & Hp).
        destruct (decide (i = r)) as [->|Hne]; [by left|right].
        split; [lia|]. by exists c0.
    + rewrite Hshift. split.
      * intros (Hge & Hc0). split; [lia|done].
      * intros (Hge & c0 & Hc0 & Hp).
        destruct (decide (i = r)) as [->|Hne].
        { rewrite Nat.sub_diag in Hc0. simpl in Hc0. congruence. }
        split; [lia|]. by exists c0.
Qed.

Lemma kept_by_pool_of ok w refs w' :
  kept_by ok 0%nat (crew_members w) w refs w' → pool_of ok w refs w'.
Proof.
  intros (Hst & Hsub & Hall & Hfr).
  split; [done|]. split; [|split; [|done]].
  - eapply sublist_NoDup; [apply NoDup_seq|exact Hsub].
  - intros i Hi. destruct (Hall i Hi) as (c & Hc & Hok).
    rewrite Nat.sub_0_r in Hc. eauto.
Qed.

Lemma pilot_ok_mono t t' c : t ≤ t' → pilot_ok t c = true → pilot_ok t' c = true.
Proof.
  unfold pilot_ok. rewrite !andb_true_iff, !bool_decide_eq_true.
  intros ? (?&?&?). repeat split; [done|lia|done].
Qed.

Lemma attendant_ok_mono t t' c :
  t ≤ t' → attendant_ok t c = true → attendant_ok t' c = true.
Proof.
  unfold attendant_ok. rewrite !andb_true_iff, !bool_decide_eq_true.
  intros ? (?&?). split; [done|lia].
Qed.

Lemma wp_available_pilots w (Q : list crew_ref → World → Prop) :
  (∀ refs w', pool_of pilot_ok w refs w' → Q refs w') →
  wp available_pilots w Q.
Proof.
  intros HQ. unfold available_pilots. apply wp_bind, wp_get_crew_members.
  apply (wp_comprehension pilot_ok).
  - apply pilot_ok_mono.
  - apply wp_pilot_available.
  - intros refs w' Hk. by apply HQ, kept_by_pool_of.
Qed.

Lemma wp_available_attendants w (Q : list crew_ref → World → Prop) :
  (∀ refs w', pool_of attendant_ok w refs w' → Q refs w') →
  wp available_attendants w Q.
Proof.
  intros HQ. unfold available_attendants. apply wp_bind, wp_get_crew_members.
  apply (wp_comprehension attendant_ok).
  - apply attendant_ok_mono.
  - apply wp_attendant_available.
  - intros refs w' Hk. by apply HQ, kept_by_pool_of.
Qed.

(** ** Booking *)

Lemma roster_alter (crew : list CrewMember) r (g : CrewMember → CrewMember) :
  (∀ c, crew !! r = Some c → member_le c (g c)) →
  Forall2 member_le crew (alter g r crew).
Proof.
  intros Hg. apply Forall2_same_length_lookup. split.
  { by rewrite length_alter. }
  intros i c c' Hc Hc'. destruct (decide (i = r)) as [->|Hne].
  - rewrite list_lookup_alter_eq, Hc in Hc'. simplify_eq/=. by apply Hg.
  - rewrite list_lookup_alter_ne in Hc' by done.
    assert (c = c') as -> by congruence. apply member_le_refl.
Qed.

Lemma alter_twice {A} (g h : A → A) r (l : list A) :
  alter g r (alter h r l) = alter (λ x, g (h x)) r l.
Proof.
  revert r. induction l as [|x l IH]; intros [|r]; simpl; [done..|].
  f_equal. apply IH.
Qed.

Lemma book_run f rest r w :
  book f rest r w
  = (Ok tt,
     {| clock := (read_clock (clock w)).2;
        rng := rng w;
        crew_members :=
          alter (append_assigned_flight f) r
            (alter (set_next_available (clock_now (clock w) + rest)) r
               (crew_members w)) |}).
Proof. reflexivity. Qed.

Lemma wp_book f rest r refs w (Q : unit → World → Prop) :
  0 < rest → r ∈ refs → due refs rest w →
  (∀ w', evolves w w' → due refs rest w' →
         (∀ c', crew_members w' !! r = Some c' →
                clock_now (clock w) < next_available c') →
         Q tt w') →
  wp (book f rest r) w Q.
Proof.
  intros Hrest Hr Hdue HQ. eexists _, _. split; [apply book_run|].
  pose proof (read_clock_le (clock w)) as Hle.
  apply HQ.
  - split; [|split; [done|apply read_clock_frozen]].
    unfold roster_le. simpl. rewrite alter_twice.
    apply roster_alter. intros c Hc. specialize (Hdue r c Hr Hc).
    repeat split; simpl; lia.
  - intros r0 c0 Hr0. simpl crew_members. rewrite alter_twice.
    destruct (decide (r0 = r)) as [->|Hne].
    + rewrite list_lookup_alter_eq. intros Hc0.
      apply fmap_Some in Hc0 as (c & Hc & ->). simpl in *. lia.
    + rewrite list_lookup_alter_ne by done. intros Hc0.
      specialize (Hdue r0 c0 Hr0 Hc0). simpl in *. lia.
  - simpl crew_members. rewrite alter_twice, list_lookup_alter_eq.
    intros c' Hc'. apply fmap_Some in Hc' as (c & Hc & ->). simpl. lia.
Qed.

Lemma evolves_lookup w w' r c' :
  evolves w w' → crew_members w' !! r = Some c' →
  ∃ c, crew_members w !! r = Some c ∧ member_le c c'.
Proof. intros [Hle _]. by apply roster_le_lookup_r. Qed.

Lemma evolves_marked w w' r (t : Z) :
  evolves w w' →
  (∀ c, crew_members w !! r = Some c → t < next_available c) →
  ∀ c', crew_members w' !! r = Some c' → t < next_available c'.
Proof.
  intros Hev Hmark c' Hc'. destruct (evolves_lookup _ _ _ _ Hev Hc') as (c & Hc & Hle).
  specialize (Hmark c Hc). destruct Hle as (_ & _ & _ & ?). lia.
Qed.

Lemma wp_for_each_book f rest chosen refs w (Q : unit → World → Prop) :
  0 < rest → (∀ r, r ∈ chosen → r ∈ refs) → due refs rest w →
  (∀ w', evolves w w' → due refs rest w' →
         (∀ r c', r ∈ chosen → crew_members w' !! r = Some c' →
                  clock_now (clock w) < next_available c') →
         Q tt w') →
  wp (for_each (book f rest) chosen) w Q.
Proof.
  intros Hrest. revert w Q.
  induction chosen as [|r chosen IH]; intros w Q Hin Hdue HQ; simpl.
  - apply wp_ret, HQ; [apply evolves_refl|done|].
    intros r c' Hr. by apply elem_of_nil in Hr.
  - apply wp_bind, (wp_book _ _ _ refs); [done|apply Hin; left|done|].
    intros w1 Hev1 Hdue1 Hmark1.
    apply IH; [intros; apply Hin; by right|done|].
    intros w2 Hev2 Hdue2 Hmark2. apply HQ; [by eapply evolves_trans|done|].
    intros r0 c' [->|Hr0]%elem_of_cons Hc'.
    + by eapply evolves_marked.
    + specialize (Hmark2 r0 c' Hr0 Hc'). destruct Hev1 as (_ & ? & _). lia.
Qed.

(** ** Reading the ids of the selected members *)

Lemma wp_read_id r w (Q : string → World → Prop) :
  (∀ i, id_of w r = Some i → Q i w) → is_Some (crew_members w !! r) →
  wp (crew_id <$> deref r) w Q.
Proof.
  intros HQ [c Hc]. apply wp_fmap, (wp_deref _ c); [done|].
  apply HQ. unfold id_of. by rewrite list_lookup_fmap, Hc.
Qed.

Lemma wp_read_ids refs w (Q : list string → World → Prop) :
  (∀ r, r ∈ refs → is_Some (crew_members w !! r)) →
  (length (pool_ids w refs) = length refs → Q (pool_ids w refs) w) →
  wp (map_M (λ r, crew_id <$> deref r) refs) w Q.
Proof.
  revert Q. induction refs as [|r refs IH]; intros Q Hval HQ; simpl.
  - apply wp_ret. by apply HQ.
  - apply wp_bind, wp_read_id; [|apply Hval; left].
    intros i Hi. apply wp_bind, IH; [intros; apply Hval; by right|].
    intros Hlen. apply wp_ret.
    unfold pool_ids in *. simpl in HQ. fold (id_of w r) in HQ. rewrite Hi in HQ.
    apply HQ. exact (f_equal S Hlen).
Qed.

(** ** Selection and booking for one flight *)

Lemma wp_choose_captain (pilots : list crew_ref) w
    (Q : option crew_ref → World → Prop) :
  (∀ cap w', steady w w' →
     match pilots with
     | [] => cap = None
     | _ => ∃ r, cap = Some r ∧ r ∈ take 5 pilots
     end → Q cap w') →
  wp (match pilots with
      | [] => mret None
      | _ => Some <$> random_choice (take 5 pilots)
      end) w Q.
Proof.
  intros HQ. destruct pilots as [|p pilots].
  - apply wp_ret, HQ; [apply steady_refl|done].
  - apply wp_fmap, wp_random_choice; [done|].
    intros r w' Hr Hst. apply HQ; [done|]. by exists r.
Qed.

Lemma wp_choose_first_officer (pilots : list crew_ref) w
    (Q : option crew_ref → World → Prop) :
  (∀ fo w', steady w w' →
     (if bool_decide (5 < length pilots)%nat
      then ∃ r, fo = Some r ∧ r ∈ drop 5 pilots
      else fo = None) → Q fo w') →
  wp (if bool_decide (5 < length pilots)%nat
      then Some <$> random_choice (drop 5 pilots)
      else mret None) w Q.
Proof.
  intros HQ. destruct (bool_decide (5 < length pilots)%nat) eqn:Hlen.
  - apply bool_decide_eq_true in Hlen.
    apply wp_fmap, wp_random_choice.
    { intros Hnil. apply (f_equal length) in Hnil.
      rewrite length_drop in Hnil. simpl in Hnil. lia. }
    intros r w' Hr Hst. apply HQ; [done|]. by exists r.
  - apply wp_ret, HQ; [apply steady_refl|done].
Qed.

Lemma wp_book_selected f rest (sel : option crew_ref) refs w
    (Q : unit → World → Prop) :
  0 < rest → (∀ r, sel = Some r → r ∈ refs) → due refs rest w →
  (∀ w', evolves w w' → due refs rest w' →
         (∀ r c', sel = Some r → crew_members w' !! r = Some c' →
                  clock_now (clock w) < next_available c') →
         Q tt w') →
  wp (match sel with
      | Some r => book f rest r
      | None => mret tt
      end) w Q.
Proof.
  intros Hrest Hin Hdue HQ. destruct sel as [r|].
  - apply (wp_book _ _ _ refs); [done|by apply Hin|done|].
    intros w' Hev Hdue' Hmark. apply HQ; [done..|].
    intros r0 c' [= <-]. apply Hmark.
  - apply wp_ret, HQ; [apply evolves_refl|done..].
Qed.

Lemma wp_read_selected_id (sel : option crew_ref) w
    (Q : option string → World → Prop) :
  (∀ r, sel = Some r → is_Some (crew_members w !! r)) →
  (∀ i, option_Forall2 (λ r i, id_of w r = Some i) sel i → Q i w) →
  wp (match sel with
      | Some r => Some <$> (crew_id <$> deref r)
      | None => mret None
      end) w Q.
Proof.
  intros Hval HQ. destruct sel as [r|].
  - apply wp_fmap, wp_read_id; [|by apply Hval].
    intros i Hi. apply HQ. by constructor.
  - apply wp_ret, HQ. constructor.
Qed.

Lemma timedelta_hours_pos h : 0 < h → 0 < timedelta_hours h.
Proof. unfold timedelta_hours. lia. Qed.

Lemma due_start refs rest w w1 :
  0 < rest → steady w w1 →
  (∀ r, r ∈ refs → ∃ c, crew_members w !! r = Some c
                        ∧ next_available c ≤ clock_now (clock w)) →
  due refs rest w1.
Proof.
  intros Hrest (Hcrew & Hle & _) Hfree r c Hr Hc. rewrite Hcrew in Hc.
  destruct (Hfree r Hr) as (c0 & Hc0 & Hna). simplify_eq. lia.
Qed.

Lemma wp_select_and_book f pilots cabin w (Q : Assignment → World → Prop) :
  (∀ r, r ∈ pilots ++ cabin →
        ∃ c, crew_members w !! r = Some c
             ∧ next_available c ≤ clock_now (clock w)) →
  (∀ a w', selected w f pilots cabin a w' → Q a w') →
  wp (select_and_book f pilots cabin) w Q.
Proof.
  intros Hfree HQ. unfold select_and_book.
  apply wp_bind, wp_choose_captain. intros cap w1 Hst1 Hcap.
  apply wp_bind, wp_choose_first_officer. intros fo w2 Hst2 Hfo.
  apply wp_bind, wp_random_sample; [apply Nat.le_min_r|].
  intros chosen w3 Hsub Hlen Hst3.
  apply wp_bind, wp_random_randint; [lia|]. intros dur w4 Hdur Hst4.
  assert (Hrest : 0 < timedelta_hours (dur + 10)) by (apply timedelta_hours_pos; lia).
  assert (Hst : steady w w4) by eauto using steady_trans.
  pose proof (due_start _ _ _ _ Hrest Hst Hfree) as Hdue4.
  assert (Hcap_in : ∀ r, cap = Some r → r ∈ pilots ++ cabin).
  { intros r ->. apply elem_of_app. left.
    destruct pilots; [done|]. destruct Hcap as (r' & [= <-] & Hr).
    by eapply elem_of_sublist, sublist_take. }
  assert (Hfo_in : ∀ r, fo = Some r → r ∈ pilots ++ cabin).
  { intros r ->. apply elem_of_app. left.
    destruct (bool_decide _); [|done]. destruct Hfo as (r' & [= <-] & Hr).
    by eapply elem_of_sublist, sublist_drop. }
  assert (Hch_in : ∀ r, r ∈ chosen → r ∈ pilots ++ cabin).
  { intros r Hr. apply elem_of_app. right. by eapply elem_of_submseteq. }
  apply wp_bind, (wp_book_selected _ _ _ (pilots ++ cabin)); [done..|].
  intros w5 Hev5 Hdue5 Hmark5.
  apply wp_bind, (wp_book_selected _ _ _ (pilots ++ cabin)); [done..|].
  intros w6 Hev6 Hdue6 Hmark6.
  apply wp_bind, (wp_for_each_book _ _ _ (pilots ++ cabin)); [done..|].
  intros w7 Hev7 Hdue7 Hmark7.
  assert (Hev : evolves w w7).
  { eapply evolves_trans; [by apply steady_evolves|].
    eauto using evolves_trans. }
  assert (Hvalid : ∀ r, r ∈ pilots ++ cabin → is_Some (crew_members w7 !! r)).
  { intros r Hr. destruct (Hfree r Hr) as (c & Hc & _).
    destruct (roster_le_lookup _ _ _ _ (proj1 Hev) Hc) as (c' & Hc' & _). eauto. }
  assert (Hid : ∀ r, id_of w7 r = id_of w r).
  { intros r. unfold id_of. by rewrite (roster_le_ids _ _ (proj1 Hev)). }
  apply wp_bind, wp_read_selected_id; [by auto|]. intros cap_id Hcap_id.
  apply wp_bind, wp_read_selected_id; [by auto|]. intros fo_id Hfo_id.
  apply wp_bind, wp_read_ids; [by auto|]. intros Hids.
  apply wp_bind, wp_datetime_now. intros w8 Hst8.
  apply wp_ret, HQ. exists cap, fo, chosen.
  assert (Hev8 : evolves w w8).
  { eapply evolves_trans; [exact Hev|by apply steady_evolves]. }
  split; [done|]. simpl.
  do 6 (split; [done|]).
  split; [destruct Hcap_id; constructor; by rewrite <-Hid|].
  split; [destruct Hfo_id; constructor; by rewrite <-Hid|].
  split; [symmetry; apply pool_ids_roster_le, Hev|].
  split; [done|].
  intros r c' Hr Hc'.
  assert (Hle4 : clock_now (clock w) ≤ clock_now (clock w4)) by apply Hst.
  assert (Hle5 : clock_now (clock w4) ≤ clock_now (clock w5)) by apply Hev5.
  assert (Hle6 : clock_now (clock w5) ≤ clock_now (clock w6)) by apply Hev6.
  assert (Hev78 : evolves w7 w8) by by apply steady_evolves.
  rewrite !elem_of_app in Hr. destruct Hr as [Hr|[Hr|Hr]].
  - destruct cap as [r0|]; [|by apply elem_of_nil in Hr].
    apply list_elem_of_singleton in Hr as ->.
    assert (clock_now (clock w4) < next_available c'); [|lia].
    eapply (evolves_marked w5 w8); [eauto using evolves_trans| |exact Hc'].
    intros c Hc. by eapply Hmark5.
  - destruct fo as [r0|]; [|by apply elem_of_nil in Hr].
    apply list_elem_of_singleton in Hr as ->.
    assert (clock_now (clock w5) < next_available c'); [|lia].
    eapply (evolves_marked w6 w8); [eauto using evolves_trans| |exact Hc'].
    intros c Hc. by eapply Hmark6.
  - assert (clock_now (clock w6) < next_available c'); [|lia].
    eapply (evolves_marked w7 w8); [done| |exact Hc'].
    intros c Hc. by eapply Hmark7.
Qed.

(** ** One flight, and a flight inside a batch *)

Lemma pool_free ok w refs w' w'' r :
  (∀ t c, ok t c = true → next_available c ≤ t) →
  pool_of ok w refs w' → steady w' w'' → r ∈ refs →
  ∃ c, crew_members w'' !! r = Some c
       ∧ next_available c ≤ clock_now (clock w'').
Proof.
  intros Hok (Hst & _ & Hall & _) (Hcrew & Hle & _) Hr.
  destruct (Hall r Hr) as (c & Hc & Hokc). exists c.
  destruct Hst as (Hcrew' & _). rewrite Hcrew, Hcrew'. split; [done|].
  apply Hok in Hokc. lia.
Qed.

Lemma pilot_ok_free t c : pilot_ok t c = true → next_available c ≤ t.
Proof.
  unfold pilot_ok. rewrite !andb_true_iff, !bool_decide_eq_true. by intros (?&?&?).
Qed.

Lemma attendant_ok_free t c : attendant_ok t c = true → next_available c ≤ t.
Proof.
  unfold attendant_ok. rewrite !andb_true_iff, !bool_decide_eq_true. by intros (?&?).
Qed.

Lemma flight_run_total w f : ∃ pilots cabin a w', flight_run w f pilots cabin a w'.
Proof.
  destruct (wp_available_pilots w (pool_of pilot_ok w))
    as (pilots & w1 & Hrun1 & Hpool1); [done|].
  destruct (wp_available_attendants w1 (pool_of attendant_ok w1))
    as (cabin & w2 & Hrun2 & Hpool2); [done|].
  destruct (wp_select_and_book f pilots cabin w2 (selected w2 f pilots cabin))
    as (a & w' & Hrun3 & Hsel); [|done|].
  { intros r [Hr|Hr]%elem_of_app.
    - eapply (pool_free pilot_ok); [apply pilot_ok_free|exact Hpool1|apply Hpool2|done].
    - eapply (pool_free attendant_ok);
        [apply attendant_ok_free|exact Hpool2|apply steady_refl|done]. }
  exists pilots, cabin, a, w', w1, w2. done.
Qed.

Lemma flight_run_step w f pilots cabin a w' :
  flight_run w f pilots cabin a w' → flight_step w f pilots cabin a w'.
Proof. intros (w1 & w2 & ? & _ & ? & _ & ? & _). by exists w1, w2. Qed.

Lemma flight_step_assign w f pilots cabin a w' :
  flight_step w f pilots cabin a w' → _assign_crew_to_flight f w = (Ok a, w').
Proof.
  intros (w1 & w2 & H1 & H2 & H3). unfold _assign_crew_to_flight.
  unfold mbind, Py_bind. by rewrite H1, H2.
Qed.

Lemma flight_run_evolves w f pilots cabin a w' :
  flight_run w f pilots cabin a w' → evolves w w'.
Proof.
  intros (w1 & w2 & _ & Hp1 & _ & Hp2 & _ & Hsel).
  destruct Hsel as (? & ? & ? & Hev & _).
  eapply evolves_trans; [apply steady_evolves, Hp1|].
  eapply evolves_trans; [apply steady_evolves, Hp2|done].
Qed.

Lemma append_each_total (flights : list Flight) acc w :
  ∃ found w',
    append_each _assign_crew_to_flight flights acc w = (Ok (acc ++ found), w')
    ∧ length found = length flights ∧ evolves w w'.
Proof.
  revert acc w. induction flights as [|f flights IH]; intros acc w; simpl.
  - exists [], w. rewrite app_nil_r. split; [done|]. split; [done|apply evolves_refl].
  - destruct (flight_run_total w f) as (pilots & cabin & a & w1 & Hrun).
    pose proof (flight_step_assign _ _ _ _ _ _ (flight_run_step _ _ _ _ _ _ Hrun)) as Heq.
    destruct (IH (acc ++ [a]) w1) as (found & w2 & Hrest & Hlen & Hev).
    exists (a :: found), w2. unfold mbind, Py_bind. rewrite Heq, Hrest.
    rewrite <-app_assoc. split; [done|]. split; [simpl; by rewrite Hlen|].
    eapply evolves_trans; [by eapply flight_run_evolves|done].
Qed.

Lemma append_each_app {A B} (g : A → M B) xs ys acc w acc1 w1 :
  append_each g xs acc w = (Ok acc1, w1) →
  append_each g (xs ++ ys) acc w = append_each g ys acc1 w1.
Proof.
  revert acc w. induction xs as [|x xs IH]; intros acc w; simpl.
  - by intros [= -> ->].
  - unfold mbind, Py_bind. destruct (g x w) as [[b|e] w0]; [|done]. apply IH.
Qed.

Lemma optimize_schedule_run flights w found w' :
  append_each _assign_crew_to_flight flights [] w = (Ok found, w') →
  optimize_schedule flights w
  = (Ok {| assignments := found;
           issues := _check_schedule_issues found;
           summary := _generate_summary found |}, w').
Proof. intros Hrun. unfold optimize_schedule, mbind, Py_bind. by rewrite Hrun. Qed.

(** Every flight of every batch is processed by a run of [flight_run], in
    a world the batch's first world has evolved into, and its assignment
    takes the flight's place in the result. *)
Lemma batch_flight w0 before f after :
  ∃ w pilots cabin a w' r w_end,
    in_batch w0 before f w pilots cabin a w'
    ∧ flight_run w f pilots cabin a w'
    ∧ optimize_schedule (before ++ f :: after) w0 = (Ok r, w_end)
    ∧ assignments r !! length before = Some a
    ∧ issues r = _check_schedule_issues (assignments r)
    ∧ evolves w0 w ∧ evolves w' w_end.
Proof.
  destruct (append_each_total before [] w0) as (earlier & w & Hbefore & Hlen & Hev).
  destruct (flight_run_total w f) as (pilots & cabin & a & w' & Hrun).
  pose proof (flight_step_assign _ _ _ _ _ _ (flight_run_step _ _ _ _ _ _ Hrun)) as Heq.
  destruct (append_each_total after (earlier ++ [a]) w') as (later & w_end & Hafter & _ & Hev').
  simpl in Hbefore.
  assert (Hall : append_each _assign_crew_to_flight (before ++ f :: after) [] w0
                 = (Ok ((earlier ++ [a]) ++ later), w_end)).
  { rewrite (append_each_app _ _ _ _ _ _ _ Hbefore). simpl.
    unfold mbind, Py_bind. by rewrite Heq. }
  eexists w, pilots, cabin, a, w', _, w_end.
  split; [|split; [done|]].
  { exists earlier. split; [done|]. split; [done|]. by apply flight_run_step. }
  split; [by apply optimize_schedule_run|]. simpl.
  split; [|done].
  rewrite <-app_assoc, lookup_app_r by lia.
  by rewrite <-Hlen, Nat.sub_diag.
Qed.

(** ** Ids behind references *)

Lemma id_of_inj w r1 r2 i :
  NoDup (crew_id <$> crew_members w) →
  id_of w r1 = Some i → id_of w r2 = Some i → r1 = r2.
Proof. intros Hnd H1 H2. exact (NoDup_lookup _ _ _ _ Hnd H1 H2). Qed.

Lemma NoDup_pool_ids w refs :
  NoDup (crew_id <$> crew_members w) → NoDup refs → NoDup (pool_ids w refs).
Proof.
  intros Hids. unfold pool_ids. induction 1 as [|r refs Hr Hnd IH]; csimpl.
  { constructor. }
  destruct ((crew_id <$> crew_members w) !! r) as [i|] eqn:Hi; [|done].
  constructor; [|done]. intros (r' & Hr' & Hi')%list_elem_of_omap.
  pose proof (NoDup_lookup _ _ _ _ Hids Hi Hi') as ->. done.
Qed.

Lemma elem_of_pool_ids w refs i :
  i ∈ pool_ids w refs ↔ ∃ r, r ∈ refs ∧ id_of w r = Some i.
Proof. apply list_elem_of_omap. Qed.

Lemma submseteq_NoDup {A} (l k : list A) : l ⊆+ k → NoDup k → NoDup l.
Proof.
  intros (l2 & Hsub & Hperm)%submseteq_sublist_l Hk.
  eapply sublist_NoDup; [|exact Hsub]. by rewrite Hperm.
Qed.

Lemma take_drop_disjoint {A} (l : list A) n x y :
  NoDup l → x ∈ take n l → y ∈ drop n l → x ≠ y.
Proof.
  intros Hnd Hx Hy ->. rewrite <-(take_drop n l) in Hnd.
  apply NoDup_app in Hnd as (_ & Hdisj & _). by apply (Hdisj y).
Qed.

Lemma world_ids_evolve w w' :
  evolves w w' → crew_id <$> crew_members w' = crew_id <$> crew_members w.
Proof. intros [Hle _]. symmetry. by apply roster_le_ids. Qed.

Lemma world_ids_steady w w' :
  steady w w' → crew_id <$> crew_members w' = crew_id <$> crew_members w.
Proof. intros Hst. by apply world_ids_evolve, steady_evolves. Qed.

(** The roster of [__init__] has pairwise different ids. *)
Lemma init_ids w : crew_id <$> crew_members (__init__ w).2 = roster_ids.
Proof. vm_compute. reflexivity. Qed.

Lemma init_ids_distinct w : NoDup (crew_id <$> crew_members (__init__ w).2).
Proof.
  rewrite init_ids. refine (bool_decide_eq_true_1 _ _). vm_compute. reflexivity.
Qed.

(** What is known about one flight over a roster with pairwise different
    ids. *)
Lemma flight_run_facts w f pilots cabin a w' :
  NoDup (crew_id <$> crew_members w) →
  flight_run w f pilots cabin a w' →
  (∀ c, captain a = Some c → c ∈ pool_ids w (take 5 pilots))
  ∧ (∀ o, first_officer a = Some o → o ∈ pool_ids w (drop 5 pilots))
  ∧ (∀ c o, captain a = Some c → first_officer a = Some o → c ≠ o)
  ∧ ((length pilots ≤ 5)%nat → first_officer a = None)
  ∧ NoDup (attendants a)
  ∧ (∀ i, i ∈ attendants a → i ∈ pool_ids w cabin)
  ∧ length (attendants a) = (4 `min` length cabin)%nat.
Proof.
  intros Hids (w1 & w2 & _ & Hp1 & _ & Hp2 & _ & Hsel).
  destruct Hsel as (cap & fo & chosen & _ & _ & _ & Hcap & Hfo & Hsub & Hlen
                    & Hcap_id & Hfo_id & Hatt & Hatt_len & _).
  assert (Hw2 : crew_id <$> crew_members w2 = crew_id <$> crew_members w).
  { rewrite (world_ids_steady w1 w2) by apply Hp2.
    apply world_ids_steady, Hp1. }
  assert (Hid : ∀ r, id_of w2 r = id_of w r).
  { intros r. unfold id_of. by rewrite Hw2. }
  assert (Hpool : ∀ refs, pool_ids w2 refs = pool_ids w refs).
  { intros refs. unfold pool_ids. by rewrite Hw2. }
  assert (Hnd_pilots : NoDup pilots) by apply Hp1.
  assert (Hnd_cabin : NoDup cabin) by apply Hp2.
  assert (Hcap_ref : ∀ c, captain a = Some c →
            ∃ r, r ∈ take 5 pilots ∧ id_of w r = Some c).
  { intros c Hc. rewrite Hc in Hcap_id. inversion Hcap_id as [r ? Hr|]; subst.
    exists r. rewrite <-Hid. split; [|done].
    destruct pilots; [done|]. by destruct Hcap as (? & [= <-] & ?). }
  assert (Hfo_ref : ∀ o, first_officer a = Some o →
            ∃ r, r ∈ drop 5 pilots ∧ id_of w r = Some o).
  { intros o Ho. rewrite Ho in Hfo_id. inversion Hfo_id as [r ? Hr|]; subst.
    exists r. rewrite <-Hid. split; [|done].
    destruct (bool_decide _); [|done]. by destruct Hfo as (? & [= <-] & ?). }
  split; [intros c Hc; by apply elem_of_pool_ids, Hcap_ref|].
  split; [intros o Ho; by apply elem_of_pool_ids, Hfo_ref|].
  split.
  { intros c o Hc Ho ->. destruct (Hcap_ref _ Hc) as (r1 & Hr1 & Hi1).
    destruct (Hfo_ref _ Ho) as (r2 & Hr2 & Hi2).
    assert (r1 = r2) by by eapply id_of_inj.
    by eapply (take_drop_disjoint pilots 5 r1 r2). }
  split.
  { intros Hshort. rewrite bool_decide_eq_false_2 in Hfo by lia.
    subst fo. by inversion Hfo_id. }
  rewrite Hatt, Hpool.
  split; [apply NoDup_pool_ids; [done|by eapply submseteq_NoDup]|].
  split.
  { intros i (r & Hr & Hi)%elem_of_pool_ids. apply elem_of_pool_ids.
    exists r. split; [by eapply elem_of_submseteq|done]. }
  rewrite <-Hpool, <-Hatt. congruence.
Qed.

(** C7.  For every flight of every batch over a roster with pairwise
    different crew ids: the captain comes from the first five members of
    the flight's eligible pilot pool and the first officer from the
    members after them, so that the two ids differ whenever both are
    assigned; and a pool of five or fewer leaves the first officer null. *)
Theorem captain_and_first_officer_differ (w0 : World)
    (before : list Flight) (f : Flight) (after : list Flight) :
  NoDup (crew_id <$> crew_members w0) →
  ∃ w pilots cabin a w' r w_end,
    in_batch w0 before f w pilots cabin a w'
    ∧ optimize_schedule (before ++ f :: after) w0 = (Ok r, w_end)
    ∧ assignments r !! length before = Some a
    ∧ (∀ c, captain a = Some c → c ∈ pool_ids w (take 5 pilots))
    ∧ (∀ o, first_officer a = Some o → o ∈ pool_ids w (drop 5 pilots))
    ∧ (∀ c o, captain a = Some c → first_officer a = Some o → c ≠ o)
    ∧ ((length pilots ≤ 5)%nat → first_officer a = None).
Proof.
  intros Hids.
  destruct (batch_flight w0 before f after)
    as (w & pilots & cabin & a & w' & r & w_end
        & Hin & Hrun & Hopt & Hnth & _ & Hev & _).
  exists w, pilots, cabin, a, w', r, w_end. do 3 (split; [done|]).
  rewrite <-(world_ids_evolve _ _ Hev) in Hids.
  destruct (flight_run_facts _ _ _ _ _ _ Hids Hrun) as (?&?&?&?&_). done.
Qed.

(** C9.  A batch returns, and every member's [next_available] after it is
    at least what it was before; around each flight of the batch the value
    does not decrease either: not up to the flight, not by the flight, and
    not from the flight to the end of the batch. *)
Theorem next_available_never_decreases :
  (∀ (w0 : World) (flights : list Flight),
     ∃ r w_end,
       optimize_schedule flights w0 = (Ok r, w_end) ∧ roster_le w0 w_end)
  ∧ (∀ (w0 : World) (before : list Flight) (f : Flight) (after : list Flight),
       ∃ w pilots cabin a w' r w_end,
         in_batch w0 before f w pilots cabin a w'
         ∧ optimize_schedule (before ++ f :: after) w0 = (Ok r, w_end)
         ∧ roster_le w0 w ∧ roster_le w w' ∧ roster_le w' w_end).
Proof.
  split.
  - intros w0 flights.
    destruct (append_each_total flights [] w0) as (found & w_end & Hrun & _ & Hev).
    eexists _, w_end. split; [by apply optimize_schedule_run|apply Hev].
  - intros w0 before f after.
    destruct (batch_flight w0 before f after)
      as (w & pilots & cabin & a & w' & r & w_end
          & Hin & Hrun & Hopt & _ & _ & Hev & Hev').
    exists w, pilots, cabin, a, w', r, w_end. do 2 (split; [done|]).
    split; [apply Hev|]. split; [|apply Hev'].
    by eapply flight_run_evolves.
Qed.

(** ** A frozen clock *)

Lemma keep_refs_ext p q r members :
  (∀ c, c ∈ members → p c = q c) → keep_refs p r members = keep_refs q r members.
Proof.
  revert r. induction members as [|c members IH]; intros r Hpq; simpl; [done|].
  rewrite (Hpq c) by left. rewrite IH; [done|]. intros; apply Hpq; by right.
Qed.

Lemma keep_refs_none p r members :
  (∀ c, c ∈ members → p c = false) → keep_refs p r members = [].
Proof.
  revert r. induction members as [|c members IH]; intros r Hp; simpl; [done|].
  rewrite (Hp c) by left. apply IH. intros; apply Hp; by right.
Qed.

Lemma keep_refs_roles r (l l' : list CrewMember) :
  Forall2 member_le l l' → keep_refs is_attendant r l = keep_refs is_attendant r l'.
Proof.
  intros H. revert r. induction H as [|c c' l l' Hc _ IH]; intros r; simpl; [done|].
  assert (is_attendant c = is_attendant c') as ->.
  { unfold is_attendant. by destruct Hc as (_ & -> & _). }
  by rewrite IH.
Qed.

Lemma cabin_grounded_evolves w w' t :
  evolves w w' → cabin_grounded w t → cabin_grounded w' t.
Proof.
  intros Hev Hg r c' Hc' Hrole.
  destruct (evolves_lookup _ _ _ _ Hev Hc') as (c & Hc & _ & Hr & _ & Hna).
  rewrite <-Hr in Hrole. specialize (Hg r c Hc Hrole). lia.
Qed.

(** With every attendant booked beyond a frozen clock's time, a flight
    finds no attendant eligible and is assigned none. *)
Lemma flight_run_grounded w f pilots cabin a w' :
  frozen (clock w) → cabin_grounded w (clock_now (clock w)) →
  flight_run w f pilots cabin a w' →
  cabin = [] ∧ attendants a = []
  ∧ frozen (clock w') ∧ clock_now (clock w') = clock_now (clock w)
  ∧ cabin_grounded w' (clock_now (clock w)).
Proof.
  intros Hfz Hg Hrun. pose proof (flight_run_evolves _ _ _ _ _ _ Hrun) as Hev.
  destruct Hrun as (w1 & w2 & _ & Hp1 & _ & Hp2 & _ & Hsel).
  destruct Hp1 as ((Hcrew1 & _ & Hfz1) & _). destruct (Hfz1 Hfz) as [Hfz1' Hnow1].
  destruct Hp2 as (_ & _ & _ & Hexact). specialize (Hexact Hfz1').
  assert (Hcabin : cabin = []).
  { rewrite Hexact. apply keep_refs_none. intros c [r Hc]%list_elem_of_lookup.
    unfold attendant_ok. destruct (bool_decide (role c = "attendant")) eqn:Hrole; [|done].
    apply bool_decide_eq_true in Hrole. rewrite Hcrew1 in Hc.
    specialize (Hg r c Hc Hrole). simpl. apply bool_decide_eq_false. lia. }
  split; [done|].
  destruct Hsel as (_ & _ & chosen & _ & _ & _ & _ & _ & Hsub & _ & _ & _ & Hatt & _).
  rewrite Hcabin in Hsub. apply submseteq_nil_r in Hsub. subst chosen.
  split; [done|]. destruct Hev as (Hle & Hclock & Hfz'). destruct (Hfz' Hfz).
  do 2 (split; [done|]). by apply (cabin_grounded_evolves w); [split|].
Qed.

(** With no more than four attendants, all of them free at a frozen
    clock's time, a flight takes every one of them and leaves each booked
    beyond that time. *)
Lemma flight_run_takes_all w f pilots cabin a w' :
  frozen (clock w) →
  (length (keep_refs is_attendant 0 (crew_members w)) ≤ 4)%nat →
  (∀ c, c ∈ crew_members w → role c = "attendant" →
        next_available c ≤ clock_now (clock w)) →
  flight_run w f pilots cabin a w' →
  cabin = keep_refs is_attendant 0 (crew_members w)
  ∧ attendants a ≡ₚ pool_ids w cabin
  ∧ frozen (clock w') ∧ clock_now (clock w') = clock_now (clock w)
  ∧ cabin_grounded w' (clock_now (clock w)).
Proof.
  intros Hfz Hfew Hfree Hrun.
  pose proof (flight_run_evolves _ _ _ _ _ _ Hrun) as Hev.
  destruct Hrun as (w1 & w2 & _ & Hp1 & _ & Hp2 & _ & Hsel).
  destruct Hp1 as ((Hcrew1 & _ & Hfz1) & _). destruct (Hfz1 Hfz) as [Hfz1' Hnow1].
  destruct Hp2 as ((Hcrew2 & _ & Hfz2) & _ & _ & Hexact).
  specialize (Hexact Hfz1'). destruct (Hfz2 Hfz1') as [Hfz2' Hnow2].
  assert (Hcabin : cabin = keep_refs is_attendant 0 (crew_members w)).
  { rewrite Hexact, Hcrew1. apply keep_refs_ext. intros c Hc.
    unfold attendant_ok, is_attendant.
    destruct (bool_decide (role c = "attendant")) eqn:Hrole; [|done].
    apply bool_decide_eq_true in Hrole. simpl. apply bool_decide_eq_true.
    specialize (Hfree c Hc Hrole). lia. }
  split; [done|].
  destruct Hsel as (cap & fo & chosen & _ & _ & _ & _ & _ & Hsub & Hlen & _ & _
                    & Hatt & _ & Hmark).
  assert (Hperm : chosen ≡ₚ cabin).
  { apply submseteq_length_Permutation; [done|]. rewrite Hlen, Hcabin. lia. }
  split.
  { rewrite Hatt. unfold pool_ids. rewrite Hcrew2, Hcrew1.
    by apply omap_Permutation. }
  destruct Hev as (Hle & Hclock & Hfz'). destruct (Hfz' Hfz) as [? ?].
  do 2 (split; [done|]).
  intros r c' Hc' Hrole.
  assert (Hr : r ∈ chosen).
  { rewrite Hperm, Hcabin, (keep_refs_roles _ _ _ Hle).
    apply elem_of_keep_refs. split; [lia|]. exists c'. rewrite Nat.sub_0_r.
    split; [done|]. by apply bool_decide_eq_true. }
  assert (clock_now (clock w2) < next_available c'); [|lia].
  apply (Hmark r); [|done]. rewrite !elem_of_app. by right; right.
Qed.

(** ** No crew id twice within one assignment *)

Lemma pool_roles (ok : Z → CrewMember → bool) (what : string) w refs w' r :
  (∀ t c, ok t c = true → role c = what) →
  pool_of ok w refs w' → r ∈ refs →
  ∃ c, crew_members w !! r = Some c ∧ role c = what.
Proof.
  intros Hok (_ & _ & Hall & _) Hr. destruct (Hall r Hr) as (c & Hc & Hokc).
  exists c. split; [done|]. by eapply Hok.
Qed.

Lemma pilot_ok_role t c : pilot_ok t c = true → role c = "pilot".
Proof.
  unfold pilot_ok. rewrite !andb_true_iff, !bool_decide_eq_true. by intros (?&_).
Qed.

Lemma attendant_ok_role t c : attendant_ok t c = true → role c = "attendant".
Proof.
  unfold attendant_ok. rewrite !andb_true_iff, !bool_decide_eq_true. by intros (?&_).
Qed.

Lemma pool_ids_app w l k : pool_ids w (l ++ k) = pool_ids w l ++ pool_ids w k.
Proof. unfold pool_ids. apply omap_app. Qed.

Lemma pool_ids_selected w sel i :
  option_Forall2 (λ r i, id_of w r = Some i) sel i →
  pool_ids w (option_list sel) = option_list i.
Proof.
  intros [r i' Hi|]; [|done]. unfold pool_ids. simpl.
  unfold id_of in Hi. by rewrite Hi.
Qed.

Lemma flight_run_crew_distinct w f pilots cabin a w' :
  NoDup (crew_id <$> crew_members w) →
  flight_run w f pilots cabin a w' →
  NoDup (option_list (captain a) ++ option_list (first_officer a)
         ++ attendants a).
Proof.
  intros Hids (w1 & w2 & _ & Hp1 & _ & Hp2 & _ & Hsel).
  destruct Hsel as (cap & fo & chosen & _ & _ & _ & Hcap & Hfo & Hsub & _
                    & Hcap_id & Hfo_id & Hatt & _).
  assert (Hcrew1 : crew_members w1 = crew_members w) by apply Hp1.
  assert (Hcrew2 : crew_members w2 = crew_members w1) by apply Hp2.
  assert (Hids2 : NoDup (crew_id <$> crew_members w2)) by by rewrite Hcrew2, Hcrew1.
  rewrite Hatt, <-(pool_ids_selected _ _ _ Hcap_id),
    <-(pool_ids_selected _ _ _ Hfo_id), <-!pool_ids_app.
  apply NoDup_pool_ids; [done|].
  assert (Hcap_in : ∀ r, cap = Some r → r ∈ take 5 pilots).
  { intros r ->. destruct pilots; [done|]. by destruct Hcap as (? & [= <-] & ?). }
  assert (Hfo_in : ∀ r, fo = Some r → r ∈ drop 5 pilots).
  { intros r ->. destruct (bool_decide _); [|done]. by destruct Hfo as (? & [= <-] & ?). }
  assert (Hdisj : ∀ r, r ∈ pilots → r ∉ cabin).
  { intros r Hr1 Hr2.
    destruct (pool_roles pilot_ok "pilot" _ _ _ r pilot_ok_role Hp1 Hr1) as (c & Hc & Hrole).
    destruct (pool_roles attendant_ok "attendant" _ _ _ r attendant_ok_role Hp2 Hr2)
      as (c' & Hc' & Hrole').
    rewrite Hcrew1 in Hc'. simplify_eq. congruence. }
  assert (Hnd_pilots : NoDup pilots) by apply Hp1.
  assert (Hnd_cabin : NoDup cabin) by apply Hp2.
  assert (Hchosen : ∀ r, r ∈ chosen → r ∈ cabin).
  { intros r Hr. by eapply elem_of_submseteq. }
  apply NoDup_app. split; [destruct cap; simpl; [apply NoDup_singleton|constructor]|].
  split.
  { intros r Hr. destruct cap as [r0|]; [|by apply elem_of_nil in Hr].
    apply list_elem_of_singleton in Hr as ->.
    specialize (Hcap_in r0 eq_refl).
    intros [Hr|Hr]%elem_of_app.
    - destruct fo as [r1|]; [|by apply elem_of_nil in Hr].
      apply list_elem_of_singleton in Hr as ->.
      by apply (take_drop_disjoint pilots 5 r1 r1 Hnd_pilots Hcap_in (Hfo_in r1 eq_refl)).
    - apply (Hdisj r0); [|by apply Hchosen].
      by eapply elem_of_sublist, sublist_take. }
  apply NoDup_app. split; [destruct fo; simpl; [apply NoDup_singleton|constructor]|].
  split; [|by eapply submseteq_NoDup].
  intros r Hr. destruct fo as [r0|]; [|by apply elem_of_nil in Hr].
  apply list_elem_of_singleton in Hr as ->. intros Hr.
  apply (Hdisj r0); [|by apply Hchosen].
  eapply elem_of_sublist, sublist_drop. by apply Hfo_in.
Qed.

End EngineFacts.

(** * Scenario C and the engine's reports *)
Module ScenarioFacts.
Import CrewOptimizer DetectorSpec EngineSpec DetectorFacts EngineFacts.

Lemma audit_app pw earlier l1 l2 :
  audit pw earlier (l1 ++ l2)
  = audit pw earlier l1 ++ audit pw (earlier ++ l1) l2.
Proof.
  revert earlier. induction l1 as [|s l1 IH]; intros earlier; simpl.
  - by rewrite app_nil_r.
  - by rewrite IH, <-!app_assoc.
Qed.

Lemma previous_flight_fresh crew earlier :
  crew ∉ seen_crew <$> earlier → previous_flight crew earlier = None.
Proof.
  intros Hfresh. unfold previous_flight.
  assert (filter (λ s, seen_crew s = crew) earlier = []) as ->; [|done].
  induction earlier as [|s earlier IH]; [done|].
  rewrite fmap_cons, not_elem_of_cons in Hfresh. destruct Hfresh as [Hne Hfresh].
  rewrite filter_cons. destruct (decide _) as [Heq|_]; [by subst|by apply IH].
Qed.

(** Sightings of pairwise different crew ids give no double booking. *)
Lemma audit_fresh earlier todo :
  NoDup (seen_crew <$> earlier ++ todo) → audit previous_flight earlier todo = [].
Proof.
  revert earlier. induction todo as [|s todo IH]; intros earlier Hnd; [done|].
  simpl. rewrite IH by by rewrite <-app_assoc.
  rewrite previous_flight_fresh; [done|].
  rewrite fmap_app, fmap_cons in Hnd. apply NoDup_app in Hnd as (_ & Hdisj & _).
  intros Hin. apply (Hdisj _ Hin). by left.
Qed.

(** Pilot sightings give no double booking of severity MEDIUM. *)
Lemma audit_high pw earlier todo crew fl :
  Forall (λ s, seen_severity s = "HIGH") todo →
  DOUBLE_BOOKING crew fl "MEDIUM" ∉ audit pw earlier todo.
Proof.
  intros Hhigh. revert earlier.
  induction Hhigh as [|s todo Hs _ IH]; intros earlier; simpl.
  - by intros ?%elem_of_nil.
  - intros [Hin|Hin]%elem_of_app; [|by eapply IH].
    destruct (pw _ _); [|by apply elem_of_nil in Hin].
    apply list_elem_of_singleton in Hin. rewrite Hs in Hin. congruence.
Qed.

Lemma pilot_sighting_high a v :
  Forall (λ s, seen_severity s = "HIGH") (pilot_sighting a v).
Proof.
  unfold pilot_sighting. destruct v as [crew|]; [|done].
  destruct (truthy _); by repeat constructor.
Qed.

Lemma pilot_sighting_crew a v :
  seen_crew <$> pilot_sighting a v `sublist_of` option_list v.
Proof.
  unfold pilot_sighting. destruct v as [crew|]; [|done].
  destruct (truthy _); simpl; [done|]. by apply sublist_cons.
Qed.

Lemma sightings_of_high a :
  attendants a = [] → Forall (λ s, seen_severity s = "HIGH") (sightings_of a).
Proof.
  intros Hnone. unfold sightings_of. rewrite Hnone. simpl. rewrite app_nil_r.
  apply Forall_app. split; apply pilot_sighting_high.
Qed.

Lemma sightings_of_crew a :
  seen_crew <$> sightings_of a
  `sublist_of` option_list (captain a) ++ option_list (first_officer a)
               ++ attendants a.
Proof.
  unfold sightings_of. rewrite !fmap_app.
  apply sublist_app; [apply pilot_sighting_crew|].
  apply sublist_app; [apply pilot_sighting_crew|].
  rewrite <-list_fmap_compose. simpl.
  assert (seen_crew ∘ (λ crew, {| seen_crew := crew; seen_flight := asg_flight_id a;
                                   seen_severity := "MEDIUM" |}) <$> attendants a
          = attendants a) as ->; [|done].
  induction (attendants a) as [|x l IH]; [done|]. csimpl. by rewrite IH.
Qed.

(** One assignment without repeated crew ids, followed by assignments
    without attendants: no attendant double booking. *)
Lemma no_attendant_double_booking a1 rest crew fl :
  NoDup (option_list (captain a1) ++ option_list (first_officer a1)
         ++ attendants a1) →
  Forall (λ a, attendants a = []) rest →
  DOUBLE_BOOKING crew fl "MEDIUM" ∉ _check_schedule_issues (a1 :: rest).
Proof.
  intros Hnd Hrest. rewrite check_schedule_issues_split.
  intros [Hin|Hin]%elem_of_app.
  - unfold double_bookings_latest_seen, sightings in Hin.
    rewrite bind_cons, audit_app in Hin. simpl in Hin.
    rewrite audit_fresh in Hin.
    2:{ simpl. eapply sublist_NoDup; [exact Hnd|apply sightings_of_crew]. }
    simpl in Hin. revert Hin. apply audit_high.
    induction Hrest as [|a rest Ha _ IH]; [done|].
    rewrite bind_cons. apply Forall_app. split; [by apply sightings_of_high|done].
  - pose proof (shortages_crew_shortage (a1 :: rest)) as Hall.
    rewrite Forall_forall in Hall. by specialize (Hall _ Hin).
Qed.


(** C2, as stated, fails: with two attendants and a frozen clock the
    second and third flights are assigned no attendant, so no attendant id
    recurs and no double booking is reported. *)
Lemma scenario_C_attendants_do_not_recur :
  ¬ attendants_recur two_attendants three_flights.
Proof.
  intros (r & w' & x & y & Hrun & _ & Hall & _).
  assert (Hex : ∃ found w1,
    append_each _assign_crew_to_flight three_flights [] two_attendants
      = (Ok found, w1)
    ∧ attendants <$> found = [["FA002"; "FA001"]; []; []]).
  { eexists _, _. split; [vm_compute; reflexivity|reflexivity]. }
  destruct Hex as (found & w1 & Hfound & Hatt).
  rewrite (optimize_schedule_run _ _ _ _ Hfound) in Hrun.
  injection Hrun as <- _. simpl in Hall.
  destruct found as [|a1 [|a2 found]]; [done..|].
  injection Hatt as _ Ha2 _.
  apply Forall_cons in Hall as [_ Hall]. apply Forall_cons in Hall as [[Hx _] _].
  rewrite Ha2 in Hx. by apply elem_of_nil in Hx.
Qed.

(** C2 (amended).  A roster with pairwise different ids and exactly two
    attendants, both free, and three flights under a frozen clock: both
    attendants are the first flight's eligible pool and its attendants; the
    eligible attendant pools and the attendant lists of the second and the
    third flight are empty, since the first booking lies ahead of the
    frozen time; and the detector reports no double booking of severity
    MEDIUM. *)
Theorem frozen_clock_attendants_fly_once (w0 : World) (f1 f2 f3 : Flight)
    (i j : crew_ref) :
  frozen (clock w0) →
  NoDup (crew_id <$> crew_members w0) →
  keep_refs is_attendant 0 (crew_members w0) = [i; j] →
  (∀ c, c ∈ crew_members w0 → role c = "attendant" →
        next_available c ≤ clock_now (clock w0)) →
  ∃ w1 w2 w3 pilots1 pilots2 pilots3 cabin1 cabin2 cabin3 a1 a2 a3 r,
    in_batch w0 [] f1 w0 pilots1 cabin1 a1 w1
    ∧ in_batch w0 [f1] f2 w1 pilots2 cabin2 a2 w2
    ∧ in_batch w0 [f1; f2] f3 w2 pilots3 cabin3 a3 w3
    ∧ optimize_schedule [f1; f2; f3] w0 = (Ok r, w3)
    ∧ assignments r = [a1; a2; a3]
    ∧ cabin1 = [i; j] ∧ attendants a1 ≡ₚ pool_ids w0 [i; j]
    ∧ cabin2 = [] ∧ attendants a2 = []
    ∧ cabin3 = [] ∧ attendants a3 = []
    ∧ (∀ crew fl, DOUBLE_BOOKING crew fl "MEDIUM" ∉ issues r).
Proof.
  intros Hfz Hids Htwo Hfree.
  destruct (flight_run_total w0 f1) as (pilots1 & cabin1 & a1 & w1 & Hrun1).
  destruct (flight_run_total w1 f2) as (pilots2 & cabin2 & a2 & w2 & Hrun2).
  destruct (flight_run_total w2 f3) as (pilots3 & cabin3 & a3 & w3 & Hrun3).
  pose proof (flight_run_step _ _ _ _ _ _ Hrun1) as Hstep1.
  pose proof (flight_run_step _ _ _ _ _ _ Hrun2) as Hstep2.
  pose proof (flight_run_step _ _ _ _ _ _ Hrun3) as Hstep3.
  pose proof (flight_step_assign _ _ _ _ _ _ Hstep1) as Heq1.
  pose proof (flight_step_assign _ _ _ _ _ _ Hstep2) as Heq2.
  pose proof (flight_step_assign _ _ _ _ _ _ Hstep3) as Heq3.
  destruct (flight_run_takes_all _ _ _ _ _ _ Hfz ltac:(rewrite Htwo; simpl; lia)
              Hfree Hrun1) as (Hcabin1 & Hatt1 & Hfz1 & Hnow1 & Hg1).
  rewrite <-Hnow1 in Hg1.
  destruct (flight_run_grounded _ _ _ _ _ _ Hfz1 Hg1 Hrun2)
    as (Hcabin2 & Hatt2 & Hfz2 & Hnow2 & Hg2).
  rewrite <-Hnow2 in Hg2.
  destruct (flight_run_grounded _ _ _ _ _ _ Hfz2 Hg2 Hrun3)
    as (Hcabin3 & Hatt3 & _).
  assert (Hone : append_each _assign_crew_to_flight [f1] [] w0 = (Ok [a1], w1)).
  { simpl. unfold mbind, Py_bind. by rewrite Heq1. }
  assert (Htwo' : append_each _assign_crew_to_flight [f1; f2] [] w0
                  = (Ok [a1; a2], w2)).
  { simpl. unfold mbind, Py_bind. by rewrite Heq1, Heq2. }
  assert (Hall : append_each _assign_crew_to_flight [f1; f2; f3] [] w0
                 = (Ok [a1; a2; a3], w3)).
  { simpl. unfold mbind, Py_bind. by rewrite Heq1, Heq2, Heq3. }
  eexists w1, w2, w3, pilots1, pilots2, pilots3, cabin1, cabin2, cabin3,
    a1, a2, a3, _.
  split; [by exists []|]. split; [by exists [a1]|]. split; [by exists [a1; a2]|].
  split; [by apply optimize_schedule_run|]. simpl.
  split; [done|]. split; [congruence|].
  split; [by rewrite Hatt1, Hcabin1, Htwo|]. do 4 (split; [done|]).
  intros crew fl. apply no_attendant_double_booking.
  - by eapply flight_run_crew_distinct.
  - by repeat constructor.
Qed.

(** The two-attendant roster under its frozen clock is such a roster, and
    its three flights go as stated. *)
Lemma frozen_clock_attendants_fly_once_witness :
  (frozen (clock two_attendants)
   ∧ NoDup (crew_id <$> crew_members two_attendants)
   ∧ keep_refs is_attendant 0 (crew_members two_attendants) = [0; 1]%nat
   ∧ (∀ c, c ∈ crew_members two_attendants → role c = "attendant" →
           next_available c ≤ clock_now (clock two_attendants)))
  ∧ ∃ w1 w2 w3 pilots1 pilots2 pilots3 cabin1 cabin2 cabin3 a1 a2 a3 r,
      in_batch two_attendants []
        {| flight_id := "GA1000"; aircraft_id := "VT-AXB" |}
        two_attendants pilots1 cabin1 a1 w1
      ∧ in_batch two_attendants [{| flight_id := "GA1000"; aircraft_id := "VT-AXB" |}]
          {| flight_id := "GA1001"; aircraft_id := "VT-BXC" |}
          w1 pilots2 cabin2 a2 w2
      ∧ in_batch two_attendants
          [{| flight_id := "GA1000"; aircraft_id := "VT-AXB" |};
           {| flight_id := "GA1001"; aircraft_id := "VT-BXC" |}]
          {| flight_id := "GA1002"; aircraft_id := "VT-CXD" |}
          w2 pilots3 cabin3 a3 w3
      ∧ optimize_schedule three_flights two_attendants = (Ok r, w3)
      ∧ assignments r = [a1; a2; a3]
      ∧ cabin1 = [0; 1]%nat
      ∧ attendants a1 ≡ₚ pool_ids two_attendants [0; 1]%nat
      ∧ cabin2 = [] ∧ attendants a2 = []
      ∧ cabin3 = [] ∧ attendants a3 = []
      ∧ (∀ crew fl, DOUBLE_BOOKING crew fl "MEDIUM" ∉ issues r).
Proof.
  assert (H1 : frozen (clock two_attendants)) by constructor.
  assert (H2 : NoDup (crew_id <$> crew_members two_attendants)).
  { refine (bool_decide_eq_true_1 _ _). vm_compute. reflexivity. }
  assert (H3 : keep_refs is_attendant 0 (crew_members two_attendants)
               = [0; 1]%nat) by reflexivity.
  assert (H4 : ∀ c, c ∈ crew_members two_attendants → role c = "attendant" →
                    next_available c ≤ clock_now (clock two_attendants)).
  { intros c Hc _. simpl in Hc.
    repeat (apply elem_of_cons in Hc as [->|Hc]; [simpl; lia|]).
    by apply elem_of_nil in Hc. }
  split; [done|].
  exact (frozen_clock_attendants_fly_once two_attendants _ _ _ 0%nat 1%nat
           H1 H2 H3 H4).
Defined.

(** C6.  The shortage reports among the issues are, in assignment order,
    exactly one for each assignment whose captain or first officer is
    missing: CRITICAL, naming the captain when the captain is missing and
    the first officer otherwise.  And a batch always returns: whatever the
    pools are, the issues come back as data of the result and nothing is
    raised. *)
Theorem shortages_reported_not_raised :
  (∀ asg : list Assignment,
     filter (λ i, is_crew_shortage i = true) (_check_schedule_issues asg)
     = omap shortage_of asg)
  ∧ (∀ (w : World) (flights : list Flight),
       ∃ r w',
         optimize_schedule flights w = (Ok r, w')
         ∧ length (assignments r) = length flights
         ∧ issues r = _check_schedule_issues (assignments r)).
Proof.
  split.
  - intros asg. rewrite check_schedule_issues_split, filter_app.
    rewrite (filter_none is_double_booking is_crew_shortage).
    + rewrite (filter_all _ _ (shortages_crew_shortage _)). done.
    + by intros [].
    + apply audit_double_bookings.
  - intros w flights.
    destruct (append_each_total flights [] w) as (found & w' & Hrun & Hlen & _).
    eexists _, w'. split; [by apply optimize_schedule_run|]. done.
Qed.

(** A one-flight batch on the roster of [__init__]: the pilots of its
    assignment are as stated. *)
Lemma captain_and_first_officer_differ_witness :
  NoDup (crew_id <$> crew_members fresh_world)
  ∧ ∃ w pilots cabin a w' r w_end,
      in_batch fresh_world [] {| flight_id := "GA1000"; aircraft_id := "VT-AXB" |}
        w pilots cabin a w'
      ∧ optimize_schedule
          ([] ++ {| flight_id := "GA1000"; aircraft_id := "VT-AXB" |} :: [])
          fresh_world = (Ok r, w_end)
      ∧ assignments r !! length (@nil Flight) = Some a
      ∧ (∀ c, captain a = Some c → c ∈ pool_ids w (take 5 pilots))
      ∧ (∀ o, first_officer a = Some o → o ∈ pool_ids w (drop 5 pilots))
      ∧ (∀ c o, captain a = Some c → first_officer a = Some o → c ≠ o)
      ∧ ((length pilots ≤ 5)%nat → first_officer a = None).
Proof.
  assert (H : NoDup (crew_id <$> crew_members fresh_world))
    by apply init_ids_distinct.
  split; [done|].
  exact (captain_and_first_officer_differ fresh_world [] _ [] H).
Defined.

End ScenarioFacts.

(** * Properties of the alert pipeline *)
Module MainFacts.
Import Main MainSpec.

(** ** What a computation leaves alone *)

Lemma keeps_ret {A B} (proj : System → B) (a : A) : keeps proj (mret a).
Proof. by intros s. Qed.

Lemma keeps_bind {A A' B} (proj : System → B) (m : IO A) (f : A → IO A') :
  keeps proj m → (∀ a, keeps proj (f a)) → keeps proj (m ≫= f).
Proof.
  intros Hm Hf s. unfold mbind, Py_bind. specialize (Hm s).
  destruct (m s) as [[a|e] s']; simpl in *; [|done]. by rewrite Hf.
Qed.

Lemma keeps_try_except {A B} (proj : System → B) (body : IO A)
    (handler : PyExc → IO A) :
  keeps proj body → (∀ e, keeps proj (handler e)) →
  keeps proj (try_except body handler).
Proof.
  intros Hb Hh s. unfold try_except. specialize (Hb s).
  destruct (body s) as [[a|e] s']; simpl in *; [done|]. by rewrite Hh.
Qed.

Lemma keeps_for_each {A B} (proj : System → B) (body : A → IO unit) xs :
  (∀ x, keeps proj (body x)) → keeps proj (for_each body xs).
Proof.
  intros Hb. induction xs as [|x xs IH]; simpl; [apply keeps_ret|].
  apply keeps_bind; [apply Hb|by intros _].
Qed.

Lemma keeps_lift {A B} (proj : System → B) (r : PyResult A) : keeps proj (lift r).
Proof. by intros s. Qed.

Lemma keeps_get_component {B} (proj : System → B) key :
  keeps proj (get_component key).
Proof. intros s. unfold get_component. by destruct (components s !! key). Qed.

(** Splits a goal [keeps proj m] along the structure of [m]; what is left
    is closed by evaluation when [m] does not write [proj]. *)
Ltac keeps_tac :=
  repeat first
    [ apply keeps_ret
    | apply keeps_lift
    | apply keeps_get_component
    | apply keeps_bind; [|intros ?]
    | apply keeps_try_except; [|intros ?]
    | apply keeps_for_each; intros ?
    | match goal with
      | |- keeps _ (match ?x with _ => _ end) => destruct x
      end
    | by intros ?
    | by intros []; unfold datetime_now; simpl ].

Lemma keeps_datetime_now {B} (proj : System → B) :
  (∀ s c, proj {| config := config s; components := components s;
                  flights_data := flights_data s;
                  alerts_queue := alerts_queue s; is_running := is_running s;
                  sys_clock := c; critical_log := critical_log s;
                  stdout := stdout s; calls := calls s |} = proj s) →
  keeps proj datetime_now.
Proof. intros H s. unfold datetime_now. simpl. apply H. Qed.

Lemma keeps_call_method {B} (proj : System → B) key obj meth arg :
  (∀ s c, proj {| config := config s; components := components s;
                  flights_data := flights_data s;
                  alerts_queue := alerts_queue s; is_running := is_running s;
                  sys_clock := sys_clock s; critical_log := critical_log s;
                  stdout := stdout s; calls := c |} = proj s) →
  keeps proj (call_method key obj meth arg).
Proof.
  intros H s. unfold call_method. destruct (methods obj !! meth); [|done].
  simpl. apply H.
Qed.

Lemma iteration_keeps_flag p : keeps is_running (iteration p).
Proof.
  destruct p; unfold iteration, _monitor_health_iteration,
    _predict_delays_iteration, _optimize_crew_iteration,
    _update_dashboard_iteration, delay_alert, crew_alert, queue_put.
  all: keeps_tac.
  all: try (apply keeps_call_method; by intros).
  all: try (apply keeps_datetime_now; by intros).
Qed.


(** ** Iterations and loops *)

Lemma try_except_print (body : IO unit) (line : PyExc → string) s :
  ∃ s', try_except body (λ e, print (line e)) s = (Ok tt, s').
Proof.
  unfold try_except. destruct (body s) as [[[]|e] s']; eauto.
Qed.

Lemma iteration_returns p t :
  ∃ t', iteration p t = (Ok tt, t') ∧ is_running t' = is_running t.
Proof.
  assert (∃ t', iteration p t = (Ok tt, t')) as [t' Ht'].
  { destruct p; apply try_except_print. }
  exists t'. split; [done|].
  pose proof (iteration_keeps_flag p t) as Hflag. by rewrite Ht' in Hflag.
Qed.

Lemma loop_while_running p others s :
  loop p others s = while_running (iteration p) others 0 s.
Proof. by destruct p. Qed.

(** A loop whose iterations end normally ends normally; it has entered
    its body at most once per tick, once per tick when it is still alive,
    and it is over only with the flag found false. *)
Lemma while_running_ends (it : IO unit) others entered s :
  (∀ t, ∃ t', it t = (Ok tt, t')) →
  ∃ ending more s',
    while_running it others entered s = (Ok (ending, (entered + more)%nat), s')
    ∧ match ending with
      | StillRunning => more = length others
      | Terminated => (more ≤ length others)%nat
      end
    ∧ is_running s' = flag_at ending.
Proof.
  intros Hit. revert entered s.
  induction others as [|act others IH]; intros entered s; simpl.
  - destruct (is_running s) eqn:Hrun.
    + exists StillRunning, 0%nat, s. by rewrite Nat.add_0_r.
    + exists Terminated, 0%nat, s. by rewrite Nat.add_0_r.
  - destruct (is_running s) eqn:Hrun.
    + destruct (Hit s) as [s1 Hs1]. rewrite Hs1.
      destruct (IH (S entered) (act s1)) as (ending & more & s' & Hrest & Hmore & Hflag).
      exists ending, (S more), s'. rewrite Hrest.
      replace (entered + S more)%nat with (S entered + more)%nat by lia.
      split; [done|]. split; [|done]. destruct ending; lia.
    + exists Terminated, 0%nat, s. rewrite Nat.add_0_r.
      split; [done|]. split; [lia|done].
Qed.

(** Undisturbed ticks of a loop whose iterations keep an invariant that
    includes the flag being set. *)
Lemma while_running_undisturbed (it : IO unit) (I : nat → System → Prop) :
  (∀ k s, I k s →
     is_running s = true ∧ ∃ s', it s = (Ok tt, s') ∧ I (S k) s') →
  ∀ n k entered s, I k s →
    ∃ s', while_running it (undisturbed n) entered s
          = (Ok (StillRunning, (entered + n)%nat), s')
          ∧ I (k + n)%nat s'.
Proof.
  intros Hstep. induction n as [|n IH]; intros k entered s HI; simpl.
  - destruct (Hstep k s HI) as [-> _]. exists s. by rewrite !Nat.add_0_r.
  - destruct (Hstep k s HI) as (-> & s1 & Hs1 & HI1). rewrite Hs1.
    destruct (IH (S k) (S entered) s1 HI1) as (s' & Hrest & HI').
    exists s'. unfold undisturbed in Hrest. simpl. rewrite Hrest.
    replace (S entered + n)%nat with (entered + S n)%nat by lia.
    replace (S k + n)%nat with (k + S n)%nat in HI' by lia. done.
Qed.

(** ** An evaluation that raises *)

Lemma iteration_reported p s obj body item items :
  components s !! producer_key p = Some (Some obj) →
  methods obj !! producer_method p = Some body →
  (∀ k arg, ∃ e, body k arg = Raise e) →
  flights_data s = VDict (item :: items) →
  ∃ s', iteration p s = (Ok tt, s') ∧ reported p s s'.
Proof.
  intros Hcomp Hmeth Hraise Hfd.
  destruct p; simpl in Hcomp, Hmeth.
  all: unfold iteration, _monitor_health_iteration, _predict_delays_iteration,
         _optimize_crew_iteration, _update_dashboard_iteration,
         try_except, mbind, Py_bind, get_component, get_flights_data.
  all: rewrite Hcomp; simpl; rewrite Hfd; simpl.
  all: unfold call_method; simpl; rewrite Hmeth.
  all: match goal with
       | H : ∀ k arg, ∃ e, ?b k arg = Raise e |- context [?b ?k ?a] =>
           destruct (H k a) as [e ->]
       end; simpl.
  all: eexists; split; [reflexivity|].
  all: unfold reported; simpl; do 4 (split; [done|]).
  all: eexists _, _; simpl; repeat split; reflexivity.
Qed.

(** C10.  For each of the four producer loops: an iteration ends normally
    whatever happens in it and leaves the running flag as it is; the loop
    itself never raises, enters its body once per tick for as long as it
    lives, and is over only with the flag found false; and with an
    evaluator that raises on every call, [n] undisturbed ticks make [n]
    evaluations, print [n] reports and leave the queue as it was. *)
Theorem producer_loops_isolate_failures (p : Producer) (n : nat) (s : System)
    (obj : Component) (body : Method) (item : string * PyVal)
    (items : list (string * PyVal)) :
  components s !! producer_key p = Some (Some obj) →
  methods obj !! producer_method p = Some body →
  (∀ k arg, ∃ e, body k arg = Raise e) →
  flights_data s = VDict (item :: items) →
  is_running s = true →
  (∀ t, ∃ t', iteration p t = (Ok tt, t') ∧ is_running t' = is_running t)
  ∧ (∀ others t, ∃ ending entered t',
       loop p others t = (Ok (ending, entered), t')
       ∧ match ending with
         | StillRunning => entered = length others
         | Terminated => (entered ≤ length others)%nat
         end
       ∧ is_running t' = flag_at ending)
  ∧ ∃ s', loop p (undisturbed n) s = (Ok (StillRunning, n), s')
          ∧ alerts_queue s' = alerts_queue s
          ∧ length (calls s') = (length (calls s) + n)%nat
          ∧ Forall (λ c, call_key c = producer_key p
                         ∧ call_method_name c = producer_method p)
              (drop (length (calls s)) (calls s'))
          ∧ length (stdout s') = (length (stdout s) + n)%nat.
Proof.
  intros Hcomp Hmeth Hraise Hfd Hrun.
  split; [apply iteration_returns|]. split.
  - intros others t. rewrite loop_while_running.
    destruct (while_running_ends (iteration p) others 0 t)
      as (ending & more & t' & Hloop & Hmore & Hflag).
    { intros t0. destruct (iteration_returns p t0) as (t1 & Ht1 & _). eauto. }
    by exists ending, more, t'.
  - rewrite loop_while_running.
    pose (I := λ (k : nat) (t : System),
      is_running t = true
      ∧ components t = components s ∧ flights_data t = flights_data s
      ∧ alerts_queue t = alerts_queue s
      ∧ ∃ made, calls t = calls s ++ made ∧ length made = k
          ∧ Forall (λ c, call_key c = producer_key p
                         ∧ call_method_name c = producer_method p) made
      ∧ length (stdout t) = (length (stdout s) + k)%nat).
    destruct (while_running_undisturbed (iteration p) I) with (n := n) (k := 0%nat)
      (entered := 0%nat) (s := s) as (s' & Hloop & HI).
    + intros k t (Hflag & Hc & Hf & Hq & made & Hmade & Hlen & Hall & Hout).
      split; [done|].
      destruct (iteration_reported p t obj body item items) as (t' & Hit & Hrep);
        [by rewrite Hc|done|done|by rewrite Hf|].
      exists t'. split; [done|].
      destruct Hrep as (Hc' & Hf' & Hflag' & Hq' & c & line & Hcalls & Hkey & Hm & Hline).
      split; [congruence|]. split; [congruence|]. split; [congruence|].
      split; [congruence|]. exists (made ++ [c]).
      split; [by rewrite Hcalls, Hmade, <-app_assoc|].
      split; [rewrite length_app; simpl; lia|].
      split; [apply Forall_app; split; [done|by repeat constructor]|].
      rewrite Hline, length_app. simpl. lia.
    + split; [done|]. do 3 (split; [done|]). exists [].
      rewrite app_nil_r. split; [done|]. split; [done|]. split; [done|lia].
    + exists s'. split; [done|].
      destruct HI as (_ & _ & _ & Hq & made & Hmade & Hlen & Hall & Hout).
      split; [done|]. rewrite Hmade, length_app, drop_app_length.
      split; [lia|]. split; [done|]. simpl in Hout. lia.
Qed.

(** The health loop with a monitor that raises on every call: three
    undisturbed ticks, three evaluations, three reports, an empty queue. *)
Lemma producer_loops_isolate_failures_witness :
  (components with_broken_monitor !! producer_key Health
     = Some (Some broken_monitor)
   ∧ methods broken_monitor !! producer_method Health
     = Some (λ _ _, Raise (RuntimeError "sensor bus offline"))
   ∧ (∀ (k : nat) (arg : PyVal),
        ∃ e, (λ _ _, Raise (RuntimeError "sensor bus offline")) k arg
             = @Raise PyVal e)
   ∧ flights_data with_broken_monitor = VDict [("flights", VList [])]
   ∧ is_running with_broken_monitor = true)
  ∧ ∃ s', loop Health (undisturbed 3) with_broken_monitor
          = (Ok (StillRunning, 3%nat), s')
          ∧ alerts_queue s' = alerts_queue with_broken_monitor
          ∧ length (calls s') = (length (calls with_broken_monitor) + 3)%nat
          ∧ length (stdout s') = (length (stdout with_broken_monitor) + 3)%nat.
Proof.
  assert (H1 : components with_broken_monitor !! producer_key Health
               = Some (Some broken_monitor)) by reflexivity.
  assert (H2 : methods broken_monitor !! producer_method Health
               = Some (λ _ _, Raise (RuntimeError "sensor bus offline")))
    by reflexivity.
  assert (H3 : ∀ (k : nat) (arg : PyVal),
             ∃ e, (λ _ _, Raise (RuntimeError "sensor bus offline")) k arg
                  = @Raise PyVal e) by (intros; eexists; reflexivity).
  assert (H4 : flights_data with_broken_monitor = VDict [("flights", VList [])])
    by reflexivity.
  assert (H5 : is_running with_broken_monitor = true) by reflexivity.
  split; [done|].
  destruct (producer_loops_isolate_failures Health 3 with_broken_monitor
              broken_monitor _ _ _ H1 H2 H3 H4 H5)
    as (_ & _ & s' & Hloop & Hq & Hcalls & _ & Hout).
  by exists s'.
Defined.

(** ** The assembled system *)

Lemma initialize_component_run method_body comps name cname names config s :
  initialize_component comps (name, py_class method_body cname 0 names, config) s
  = (Ok (<[component_key name := None]> comps),
     (print ("  ✗ " +:+ name +:+ ": "
             +:+ exc_str (TypeError (cname +:+ ".__init__() takes 1 positional argument but "
                                     +:+ pretty 2%nat +:+ " were given"))) s).2).
Proof. reflexivity. Qed.

Lemma initialize_components_run method_body s :
  ∃ s', _initialize_components method_body s = (Ok no_components, s').
Proof.
  unfold _initialize_components, mbind, Py_bind, get_config, component_configs,
    LogProcessor, DelayPredictor, CrewOptimizer, LoadPredictor, HealthMonitor,
    RouteMonitor, Dashboard, Reporter.
  cbn [initialize_each]. unfold mbind, Py_bind.
  rewrite !initialize_component_run. eexists. reflexivity.
Qed.

Lemma init_tail_keeps_components config :
  keeps components
    (set_flights_data (VDict []);;
     set_alerts_queue [];;
     set_is_running false;;
     airline ← lift (py_getitem config "airline_name");
     print ("✓ System initialized for " +:+ py_str airline);;
     hub ← lift (py_getitem config "hub_airport");
     print ("✓ Hub Airport: " +:+ py_str hub);;
     fleet ← lift (py_getitem config "aircraft_fleet");
     n ← lift (py_len fleet);
     print ("✓ Fleet Size: " +:+ pretty n +:+ " aircraft types")).
Proof. keeps_tac. Qed.

(** Whatever the configuration, and whether or not the closing messages of
    [__init__] raise, every component of the object is [None]. *)
Lemma assembled_components method_body config s0 :
  components (__init__ method_body config s0).2 = no_components.
Proof.
  unfold __init__. unfold mbind at 1. unfold Py_bind at 1.
  unfold set_config at 1. cbv beta iota.
  unfold mbind at 1. unfold Py_bind at 1.
  destruct (initialize_components_run method_body
    {| config := config; components := components s0;
       flights_data := flights_data s0; alerts_queue := alerts_queue s0;
       is_running := is_running s0; sys_clock := sys_clock s0;
       critical_log := critical_log s0; stdout := stdout s0;
       calls := calls s0 |}) as (s1 & ->).
  unfold mbind at 1. unfold Py_bind at 1.
  unfold set_components at 1. cbv beta iota.
  apply (init_tail_keeps_components config).
Qed.

Lemma no_components_lookup key :
  key ∈ [ "log_processor"; "delay_predictor"; "crew_optimizer";
          "load_predictor"; "health_monitor"; "route_monitor";
          "dashboard"; "reporter" ] →
  no_components !! key = Some None.
Proof.
  intros Hkey. repeat (apply elem_of_cons in Hkey as [->|Hkey]; [by vm_compute|]).
  by apply elem_of_nil in Hkey.
Qed.

Lemma no_alert_system : no_components !! "alert_system" = None.
Proof. by vm_compute. Qed.

(** Without an entry ['alert_system'] the drain stops at the event it
    has just taken off the queue. *)
Lemma process_alerts_raises (s : System) (alert : PyVal) (queue : list PyVal) :
  components s !! "alert_system" = None →
  alerts_queue s = alert :: queue →
  ∃ s', _process_alerts s = (Raise (KeyError "alert_system"), s')
        ∧ alerts_queue s' = queue
        ∧ critical_log s' = critical_log s
        ∧ calls s' = calls s.
Proof.
  intros Hmissing Hqueue. unfold _process_alerts. rewrite Hqueue.
  cbn [length drain]. unfold mbind at 1. unfold Py_bind at 1.
  unfold get_alerts_queue at 1. cbv beta iota. rewrite Hqueue.
  unfold mbind at 1. unfold Py_bind at 1. unfold set_alerts_queue at 1.
  cbv beta iota.
  unfold mbind at 1. unfold Py_bind at 1.
  unfold process_alert. unfold mbind at 1. unfold Py_bind at 1.
  unfold mbind at 1. unfold Py_bind at 1.
  unfold get_component at 1. cbn [components]. rewrite Hmissing.
  eexists. split; [reflexivity|]. done.
Qed.

(** The exception of the drain leaves the loop of the main thread. *)
Lemma dispatcher_loop_raises act others entered s alert queue :
  is_running s = true →
  components (act s) !! "alert_system" = None →
  alerts_queue (act s) = alert :: queue →
  ∃ s', dispatcher_loop (act :: others) entered s
        = (Raise (KeyError "alert_system"), s').
Proof.
  intros Hrun Hmissing Hqueue. simpl. rewrite Hrun.
  destruct (process_alerts_raises _ _ _ Hmissing Hqueue) as (s' & -> & _).
  by exists s'.
Qed.

(** With an empty queue the drain returns at once. *)
Lemma process_alerts_empty (s : System) :
  alerts_queue s = [] → _process_alerts s = (Ok tt, s).
Proof. intros Hq. unfold _process_alerts. by rewrite Hq. Qed.

(** C1, what the code does: the components dictionary has no entry
    ['alert_system'], so the drain takes the first event off the queue and
    raises [KeyError]; the event is neither forwarded nor logged and the
    rest of the queue stays where it is. *)
Theorem drain_raises_at_first_event (s : System) (alert : PyVal)
    (queue : list PyVal) :
  components s !! "alert_system" = None →
  alerts_queue s = alert :: queue →
  ∃ s', _process_alerts s = (Raise (KeyError "alert_system"), s')
        ∧ alerts_queue s' = queue
        ∧ critical_log s' = critical_log s
        ∧ calls s' = calls s.
Proof. apply process_alerts_raises. Qed.

Lemma at_runtime_components s fd queue running clk log out made :
  components (at_runtime s fd queue running clk log out made) = components s.
Proof. reflexivity. Qed.

Lemma one_critical_event_components :
  components one_critical_event !! "alert_system" = None.
Proof.
  unfold one_critical_event.
  rewrite at_runtime_components, assembled_components. apply no_alert_system.
Qed.

(** The assembled system with one critical event in the queue: the drain
    raises and the event is lost. *)
Lemma drain_raises_at_first_event_witness :
  (components one_critical_event !! "alert_system" = None
   ∧ alerts_queue one_critical_event
     = [VDict [("type", VStr "ENGINE_VIBRATION"); ("severity", VStr "CRITICAL")]])
  ∧ ∃ s', _process_alerts one_critical_event
          = (Raise (KeyError "alert_system"), s')
          ∧ alerts_queue s' = []
          ∧ critical_log s' = critical_log one_critical_event
          ∧ calls s' = calls one_critical_event.
Proof.
  split; [split; [exact one_critical_event_components|reflexivity]|].
  exact (drain_raises_at_first_event one_critical_event _ []
           one_critical_event_components eq_refl).
Defined.

(** ** With every component missing *)

Lemma idle_ret {A} (a : A) : idle (mret a).
Proof. by intros s Hs. Qed.

Lemma idle_lift {A} (r : PyResult A) : idle (lift r).
Proof. by intros s Hs. Qed.

Lemma idle_print line : idle (print line).
Proof. by intros s Hs. Qed.

Lemma idle_get_config : idle get_config.
Proof. by intros s Hs. Qed.

Lemma idle_bind {A B} (m : IO A) (f : A → IO B) :
  idle m → (∀ a, idle (f a)) → idle (m ≫= f).
Proof.
  intros Hm Hf s Hs. unfold mbind, Py_bind. destruct (Hm s Hs) as (Hc & Hcalls & Hq).
  destruct (m s) as [[a|e] s']; simpl in *; [|done].
  destruct (Hf a s' Hc) as (? & ? & ?). repeat split; congruence.
Qed.

Lemma idle_get_component {B} key (f : option Component → IO B) :
  no_components !! key = Some None → idle (f None) →
  idle (get_component key ≫= f).
Proof.
  intros Hkey Hf s Hs. unfold mbind, Py_bind, get_component.
  rewrite Hs, Hkey. by apply Hf.
Qed.

Ltac idle_tac :=
  repeat first
    [ apply idle_ret
    | apply idle_lift
    | apply idle_print
    | apply idle_get_config
    | apply idle_get_component; [by vm_compute|cbv beta iota]
    | apply idle_bind; [|intros ?] ].

Lemma crew_iteration_idle t :
  components t !! "crew_optimizer" = Some None →
  _optimize_crew_iteration t = (Ok tt, t).
Proof.
  intros Hnone. unfold _optimize_crew_iteration, try_except, mbind, Py_bind,
    get_component. by rewrite Hnone.
Qed.

Lemma run_single_analysis_idle gen : idle (run_single_analysis gen).
Proof.
  unfold run_single_analysis, load_sample_data, generate_daily_report,
    show_dashboard.
  idle_tac.
Qed.

Lemma while_running_idle (it : IO unit) s :
  it s = (Ok tt, s) →
  ∀ n entered,
    while_running it (undisturbed n) entered s
    = (Ok (if is_running s then (StillRunning, (entered + n)%nat)
           else (Terminated, entered)), s).
Proof.
  intros Hit. induction n as [|n IH]; intros entered; simpl.
  - rewrite Nat.add_0_r. by destruct (is_running s).
  - destruct (is_running s) eqn:Hrun; [|done].
    rewrite Hit. unfold undisturbed in IH. simpl. rewrite IH.
    by replace (S entered + n)%nat with (entered + S n)%nat by lia.
Qed.

(** C4.  In the system [__init__] assembles, whatever the configuration,
    the entry ['crew_optimizer'] of the components is [None]: the class is
    called with the configuration, its [__init__] takes no argument, and
    the [TypeError] is caught.  At any later moment of that system an
    iteration of the crew loop changes nothing, so however many ticks the
    loop runs it calls no component and enqueues nothing; and the single
    analysis calls no component either. *)
Theorem crew_optimizer_is_never_built
    (method_body : string → string → Method)
    (_generate_sample_data : PyVal → PyResult PyVal)
    (config : PyVal) (s0 : System)
    (fd : PyVal) (queue : list PyVal) (running : bool) (clk : Clock)
    (log : list (Z * PyVal)) (out : list string) (made : list Call)
    (n : nat) :
  let s := (__init__ method_body config s0).2 in
  let t := at_runtime s fd queue running clk log out made in
  components s !! "crew_optimizer" = Some None
  ∧ _optimize_crew_iteration t = (Ok tt, t)
  ∧ _optimize_crew (undisturbed n) t
    = (Ok (if running then (StillRunning, n) else (Terminated, 0%nat)), t)
  ∧ calls (run_single_analysis _generate_sample_data t).2 = made
  ∧ alerts_queue (run_single_analysis _generate_sample_data t).2 = queue.
Proof.
  intros s t.
  assert (Hcomp : components s = no_components) by apply assembled_components.
  assert (Ht : components t = components s) by apply at_runtime_components.
  assert (Hrun : is_running t = running) by reflexivity.
  assert (Hmade : calls t = made) by reflexivity.
  assert (Hqueue : alerts_queue t = queue) by reflexivity.
  clearbody t. clearbody s. rewrite Hcomp in Ht.
  assert (Hcrew : no_components !! "crew_optimizer" = Some None) by by vm_compute.
  assert (Hit : _optimize_crew_iteration t = (Ok tt, t)).
  { apply crew_iteration_idle. rewrite Ht. exact Hcrew. }
  split; [rewrite Hcomp; exact Hcrew|]. split; [exact Hit|]. split.
  - unfold _optimize_crew. rewrite (while_running_idle _ _ Hit), Hrun.
    reflexivity.
  - destruct (run_single_analysis_idle _generate_sample_data t Ht) as (_ & Hc & Hq).
    rewrite Hc, Hq. split; [exact Hmade|exact Hqueue].
Qed.

End MainFacts.

(** * Properties of the summary and counts of the detector *)
Module SummaryFacts.
Import CrewOptimizer DetectorSpec SummarySpec.

Lemma summary_pilot_step_slots (a : Assignment) (u : gmap string nat) key :
  summary_pilot_step a u key
  = fold_left count_use
      (seen_crew <$> pilot_sighting a (assignment_get a key)) u.
Proof.
  unfold summary_pilot_step, pilot_sighting.
  destruct (assignment_get a key) as [crew|]; [|done].
  by destruct (truthy (Some crew)).
Qed.

Lemma summary_step_slots (a : Assignment) (u : gmap string nat) :
  summary_step u a = fold_left count_use (seen_crew <$> sightings_of a) u.
Proof.
  unfold summary_step, sightings_of.
  rewrite !fmap_app, !fold_left_app, <-list_fmap_compose. simpl fold_left at 2.
  rewrite !summary_pilot_step_slots.
  replace (_ <$> attendants a) with (attendants a); [done|].
  induction (attendants a) as [|x l IH]; [done|]. simpl. f_equal. exact IH.
Qed.

Lemma fold_summary_step_slots (asg : list Assignment) (u : gmap string nat) :
  fold_left summary_step asg u = fold_left count_use (crew_slots asg) u.
Proof.
  revert u. induction asg as [|a asg IH]; intros u; [done|].
  unfold crew_slots, sightings. rewrite bind_cons, fmap_app, fold_left_app.
  simpl. by rewrite summary_step_slots, IH.
Qed.

Lemma tally_snoc slots crew :
  tally (slots ++ [crew]) = count_use (tally slots) crew.
Proof. unfold tally. by rewrite fold_left_app. Qed.

Lemma slots_of_snoc crew slots x :
  slots_of crew (slots ++ [x])
  = (slots_of crew slots + if decide (crew = x) then 1 else 0)%nat.
Proof.
  unfold slots_of. rewrite filter_app, length_app, filter_cons, filter_nil.
  by destruct (decide (crew = x)).
Qed.

Lemma slots_of_pos crew slots : (0 < slots_of crew slots)%nat ↔ crew ∈ slots.
Proof.
  unfold slots_of. split.
  - intros Hpos. destruct (filter _ slots) as [|y l] eqn:Hf; [simpl in Hpos; lia|].
    assert (Hy : y ∈ filter (crew =.) slots) by (rewrite Hf; left).
    apply list_elem_of_filter in Hy as [-> Hy]. done.
  - intros Hin.
    assert (Hy : crew ∈ filter (crew =.) slots) by by apply list_elem_of_filter.
    destruct (filter _ slots); [by apply elem_of_nil in Hy|simpl; lia].
Qed.

(** The tally holds, for every crew id that fills a position, the number
    of positions it fills, and nothing else. *)
Lemma tally_lookup slots crew :
  tally slots !! crew
  = if decide (crew ∈ slots) then Some (slots_of crew slots) else None.
Proof.
  induction slots as [|x slots IH] using rev_ind.
  - rewrite decide_False by apply not_elem_of_nil. done.
  - rewrite tally_snoc, slots_of_snoc. unfold count_use.
    destruct (decide (crew = x)) as [->|Hne].
    + rewrite lookup_insert_eq, IH.
      rewrite (decide_True (P := x ∈ slots ++ [x]))
        by (apply elem_of_app; right; left).
      destruct (decide (x ∈ slots)) as [Hin|Hout]; simpl; [done|].
      f_equal. destruct (slots_of x slots) as [|n] eqn:Hn; [done|].
      destruct Hout. apply slots_of_pos. lia.
    + rewrite lookup_insert_ne, IH by done.
      destruct (decide (crew ∈ slots)) as [Hin|Hout].
      * rewrite decide_True by (apply elem_of_app; by left). f_equal. lia.
      * rewrite decide_False; [done|].
        intros [?|?%list_elem_of_singleton]%elem_of_app; done.
Qed.

Lemma tally_dom slots : dom (tally slots) = list_to_set slots.
Proof.
  apply set_eq. intros crew. rewrite elem_of_dom, tally_lookup, elem_of_list_to_set.
  destruct (decide (crew ∈ slots)) as [Hin|Hout]; split; intros H';
    first [done | by eexists | by destruct H'].
Qed.

Lemma tally_size slots : size (tally slots) = distinct slots.
Proof. unfold distinct. by rewrite <-tally_dom, size_dom. Qed.

Lemma tally_empty slots : tally slots = ∅ ↔ slots = [].
Proof.
  split; [|by intros ->].
  intros Hempty. destruct slots as [|x slots]; [done|].
  pose proof (tally_lookup (x :: slots) x) as Hx.
  rewrite Hempty, lookup_empty, decide_True in Hx by left. done.
Qed.

Lemma total_perm (l1 l2 : list (string * nat)) :
  l1 ≡ₚ l2 → foldr Nat.add 0%nat l1.*2 = foldr Nat.add 0%nat l2.*2.
Proof. induction 1; rewrite ?fmap_cons; simpl; lia. Qed.

Lemma total_count_use m crew : total (count_use m crew) = S (total m).
Proof.
  unfold total, count_use. destruct (m !! crew) as [n|] eqn:Hm; simpl.
  - rewrite <-insert_delete_eq.
    rewrite (total_perm _ _ (map_to_list_insert _ _ _ (lookup_delete_eq m crew))).
    rewrite <-(total_perm _ _ (map_to_list_delete _ _ _ Hm)).
    rewrite !fmap_cons. simpl. lia.
  - rewrite (total_perm _ _ (map_to_list_insert _ _ _ Hm)).
    rewrite fmap_cons. simpl. lia.
Qed.

Lemma tally_total slots : total (tally slots) = length slots.
Proof.
  induction slots as [|x slots IH] using rev_ind; [done|].
  rewrite tally_snoc, total_count_use, IH, length_app. simpl. lia.
Qed.

Lemma max_list_bound (l : list nat) n : n ∈ l → (n ≤ foldr Nat.max 0 l)%nat.
Proof.
  induction l as [|x l IH]; [by intros ?%elem_of_nil|].
  intros [->|Hin]%elem_of_cons; simpl; [lia|]. specialize (IH Hin). lia.
Qed.

Lemma max_list_attained (l : list nat) : l ≠ [] → foldr Nat.max 0%nat l ∈ l.
Proof.
  induction l as [|x l IH]; [done|]. intros _. simpl.
  destruct l as [|y l]; [simpl; rewrite Nat.max_0_r; left|].
  destruct (Nat.max_spec x (foldr Nat.max 0%nat (y :: l))) as [[_ ->]|[_ ->]].
  - right. by apply IH.
  - left.
Qed.

Lemma tally_values slots n :
  n ∈ (map_to_list (tally slots)).*2
  ↔ ∃ crew, crew ∈ slots ∧ n = slots_of crew slots.
Proof.
  rewrite list_elem_of_fmap. split.
  - intros [[crew k] [-> Hin]]. apply elem_of_map_to_list in Hin.
    rewrite tally_lookup in Hin. exists crew.
    destruct (decide (crew ∈ slots)); [|done]. split; [done|]. simpl. congruence.
  - intros (crew & Hin & ->). exists (crew, slots_of crew slots). split; [done|].
    apply elem_of_map_to_list. by rewrite tally_lookup, decide_True.
Qed.

Lemma distinct_snoc slots crew :
  distinct (slots ++ [crew])
  = (distinct slots + if decide (crew ∈ slots) then 0 else 1)%nat.
Proof.
  unfold distinct. rewrite list_to_set_app_L. simpl. rewrite union_empty_r_L.
  destruct (decide (crew ∈ slots)) as [Hin|Hout].
  - rewrite Nat.add_0_r. f_equal. rewrite (comm_L (∪)).
    apply subseteq_union_1_L, singleton_subseteq_l, elem_of_list_to_set, Hin.
  - rewrite size_union, size_singleton; [done|].
    apply disjoint_singleton_r. by rewrite elem_of_list_to_set.
Qed.

Lemma distinct_NoDup slots : distinct slots = length slots ↔ NoDup slots.
Proof.
  induction slots as [|x slots IH] using rev_ind.
  - split; [constructor|done].
  - rewrite distinct_snoc, length_app, NoDup_app. simpl.
    assert (Hle : (distinct slots ≤ length slots)%nat).
    { clear. induction slots as [|x slots IH] using rev_ind; [done|].
      rewrite distinct_snoc, length_app. simpl. destruct (decide _); lia. }
    destruct (decide (x ∈ slots)) as [Hin|Hout].
    + split; [lia|]. intros (_ & Hdis & _). exfalso.
      apply (Hdis x Hin). left.
    + split.
      * intros Heq. split; [apply IH; lia|]. split; [|apply NoDup_singleton].
        intros y Hy ->%list_elem_of_singleton. done.
      * intros (Hnd & _ & _). apply IH in Hnd. lia.
Qed.

Lemma previous_flight_seen crew earlier :
  is_Some (previous_flight crew earlier) ↔ crew ∈ seen_crew <$> earlier.
Proof.
  unfold previous_flight. rewrite fmap_is_Some, list_elem_of_fmap. split.
  - intros [s Hs]. apply last_Some in Hs as [l Hl].
    assert (Hin : s ∈ filter (λ s, seen_crew s = crew) earlier)
      by (rewrite Hl; apply elem_of_app; right; left).
    apply list_elem_of_filter in Hin as [<- Hin]. by exists s.
  - intros (s & -> & Hin).
    assert (Hf : s ∈ filter (λ s', seen_crew s' = seen_crew s) earlier)
      by by apply list_elem_of_filter.
    destruct (filter _ earlier) as [|y l] using rev_ind;
      [by apply elem_of_nil in Hf|].
    rewrite last_snoc. by eexists.
Qed.

(** Every sighting either meets a crew id for the first time or is
    reported: reports and different ids add up to the sightings. *)
Lemma audit_length earlier todo :
  (length (audit previous_flight earlier todo)
   + distinct (seen_crew <$> earlier ++ todo)
   = length todo + distinct (seen_crew <$> earlier))%nat.
Proof.
  revert earlier. induction todo as [|s todo IH]; intros earlier.
  - rewrite app_nil_r. simpl. lia.
  - simpl. rewrite length_app. specialize (IH (earlier ++ [s])).
    rewrite <-app_assoc in IH. simpl in IH.
    rewrite (fmap_app _ earlier [s]) in IH. simpl in IH.
    rewrite distinct_snoc in IH.
    pose proof (previous_flight_seen (seen_crew s) earlier) as Hseen.
    destruct (previous_flight (seen_crew s) earlier) as [f|].
    + rewrite decide_True in IH by (apply Hseen; by eexists). simpl. lia.
    + rewrite decide_False in IH; [simpl; lia|].
      intros Hin. apply Hseen in Hin as [? ?]. done.
Qed.

Lemma double_bookings_filter asg :
  filter (λ i, is_double_booking i = true) (_check_schedule_issues asg)
  = double_bookings_latest_seen asg.
Proof.
  rewrite DetectorFacts.check_schedule_issues_split, filter_app.
  unfold double_bookings_latest_seen.
  rewrite (DetectorFacts.filter_all _ _ (DetectorFacts.audit_double_bookings _ _ _)).
  rewrite (DetectorFacts.filter_none is_crew_shortage is_double_booking).
  - apply app_nil_r.
  - by intros [].
  - apply DetectorFacts.shortages_crew_shortage.
Qed.

(** X1.  The summary counts the different crew ids of the assignments, and
    its average is the number of filled crew positions over that count
    (0 for a batch without crew). *)
Theorem summary_counts_crew (asg : list Assignment) :
  let s := _generate_summary asg in
  total_flights_scheduled s = length asg
  ∧ total_crew_utilized s = distinct (crew_slots asg)
  ∧ (crew_slots asg = [] → avg_flights_per_crew s = (0, 1)%nat)
  ∧ (crew_slots asg ≠ [] →
       avg_flights_per_crew s
       = (length (crew_slots asg), distinct (crew_slots asg))
       ∧ (0 < distinct (crew_slots asg))%nat).
Proof.
  unfold _generate_summary. simpl. rewrite fold_summary_step_slots.
  fold (tally (crew_slots asg)). fold (total (tally (crew_slots asg))).
  rewrite tally_size, tally_total.
  split; [done|]. split; [done|]. split.
  - intros Hnil. rewrite bool_decide_eq_true_2; [done|by apply tally_empty].
  - intros Hne. rewrite bool_decide_eq_false_2 by by rewrite tally_empty.
    split; [done|]. rewrite <-tally_size.
    destruct (decide (size (tally (crew_slots asg)) = 0%nat)) as [Hz|]; [|lia].
    by apply map_size_empty_iff, tally_empty in Hz.
Qed.

Lemma slots_of_NoDup crew slots : NoDup slots → (slots_of crew slots ≤ 1)%nat.
Proof.
  induction 1 as [|x slots Hx _ IH]; [unfold slots_of; simpl; lia|].
  unfold slots_of in *. rewrite filter_cons.
  destruct (decide (crew = x)) as [->|]; [|exact IH]. simpl.
  destruct (filter (eq x) slots) as [|y l] eqn:Hf; [simpl; lia|].
  assert (Hy : y ∈ filter (eq x) slots) by (rewrite Hf; left).
  apply list_elem_of_filter in Hy as [-> Hy]. done.
Qed.

(** The value of [max_flights_per_crew]. *)
Lemma generate_summary_max (asg : list Assignment) :
  (crew_slots asg = [] → max_flights_per_crew (_generate_summary asg) = 0%nat)
  ∧ (crew_slots asg ≠ [] →
       ∃ crew, crew ∈ crew_slots asg
               ∧ slots_of crew (crew_slots asg)
                 = max_flights_per_crew (_generate_summary asg)).
Proof.
  unfold _generate_summary. simpl. rewrite fold_summary_step_slots.
  fold (tally (crew_slots asg)). split.
  - intros Hnil. rewrite bool_decide_eq_true_2; [done|by apply tally_empty].
  - intros Hne. rewrite bool_decide_eq_false_2 by by rewrite tally_empty.
    assert (Hval : (map_to_list (tally (crew_slots asg))).*2 ≠ []).
    { intros Hnil%fmap_nil_inv%map_to_list_empty_iff. by apply tally_empty in Hnil. }
    apply max_list_attained, tally_values in Hval as (crew & Hin & Heq).
    by exists crew.
Qed.

(** X2.  [max_flights_per_crew] is the largest number of positions one crew
    id fills: no id fills more, some id fills exactly that many, and it is
    0 for a batch without crew. *)
Theorem summary_max_is_busiest_crew (asg : list Assignment) :
  let s := _generate_summary asg in
  (∀ crew, (slots_of crew (crew_slots asg) ≤ max_flights_per_crew s)%nat)
  ∧ (crew_slots asg = [] → max_flights_per_crew s = 0%nat)
  ∧ (crew_slots asg ≠ [] →
       ∃ crew, crew ∈ crew_slots asg
               ∧ slots_of crew (crew_slots asg) = max_flights_per_crew s).
Proof.
  unfold _generate_summary. simpl. rewrite fold_summary_step_slots.
  fold (tally (crew_slots asg)).
  split; [|split].
  - intros crew. destruct (decide (crew ∈ crew_slots asg)) as [Hin|Hout].
    + rewrite bool_decide_eq_false_2.
      * apply max_list_bound, tally_values. by exists crew.
      * rewrite tally_empty. intros Hnil. rewrite Hnil in Hin.
        by apply elem_of_nil in Hin.
    + destruct (slots_of crew (crew_slots asg)) as [|n] eqn:Hn; [lia|].
      destruct Hout. apply slots_of_pos. lia.
  - intros Hnil. rewrite bool_decide_eq_true_2; [done|by apply tally_empty].
  - intros Hne. rewrite bool_decide_eq_false_2 by by rewrite tally_empty.
    destruct (generate_summary_max asg) as [_ Hmax].
    destruct (Hmax Hne) as (crew & Hin & Heq). exists crew. split; [done|].
    rewrite Heq. unfold _generate_summary. simpl.
    rewrite fold_summary_step_slots. fold (tally (crew_slots asg)).
    by rewrite bool_decide_eq_false_2 by by rewrite tally_empty.
Qed.

(** X3.  The double bookings the detector reports and the different crew ids
    the summary counts add up to the filled crew positions; so the
    detector reports none exactly when no crew id fills two positions. *)
Theorem double_bookings_and_crew_add_up (asg : list Assignment) :
  let reported :=
    filter (λ i, is_double_booking i = true) (_check_schedule_issues asg) in
  (length reported + total_crew_utilized (_generate_summary asg)
   = length (crew_slots asg))%nat
  ∧ (reported = [] ↔ NoDup (crew_slots asg)).
Proof.
  simpl. rewrite double_bookings_filter.
  assert (Hsum : (length (double_bookings_latest_seen asg)
                  + distinct (crew_slots asg) = length (crew_slots asg))%nat).
  { pose proof (audit_length [] (sightings asg)) as Hlen.
    rewrite app_nil_l in Hlen. unfold double_bookings_latest_seen, crew_slots.
    rewrite length_fmap. change (distinct (seen_crew <$> [])) with 0%nat in Hlen.
    lia. }
  split.
  - unfold _generate_summary. simpl. rewrite fold_summary_step_slots.
    fold (tally (crew_slots asg)). by rewrite tally_size.
  - rewrite <-distinct_NoDup. split.
    + intros Hnil. rewrite Hnil in Hsum. simpl in Hsum. done.
    + intros Heq. apply length_zero_iff_nil. lia.
Qed.

End SummaryFacts.

(** * The roster's ledger *)
Module LedgerFacts.
Import CrewOptimizer DetectorSpec EngineSpec LedgerSpec.
Import EngineFacts.

(** ** Booking *)

Lemma books_none f rest w w' : steady w w' → books f rest [] w w'.
Proof.
  intros (Hcrew & Hle & _). split; [done|]. split; [by rewrite Hcrew|].
  intros r c Hc. split; [intros _; by rewrite Hcrew|].
  by intros ?%elem_of_nil.
Qed.

Lemma books_steady_l f rest refs w w1 w2 :
  steady w w1 → books f rest refs w1 w2 → books f rest refs w w2.
Proof.
  intros (Hcrew & Hle & _) (Hle' & Hlen & Hall). split; [lia|].
  split; [by rewrite Hlen, Hcrew|]. intros r c Hc. rewrite <-Hcrew in Hc.
  destruct (Hall r c Hc) as [Hout Hin]. split; [done|].
  intros Hr. destruct (Hin Hr) as (t & Ht & Hc'). exists t. split; [lia|done].
Qed.

Lemma books_steady_r f rest refs w w1 w2 :
  books f rest refs w w1 → steady w1 w2 → books f rest refs w w2.
Proof.
  intros (Hle' & Hlen & Hall) (Hcrew & Hle & _). split; [lia|].
  split; [by rewrite Hcrew|]. intros r c Hc. rewrite Hcrew.
  destruct (Hall r c Hc) as [Hout Hin]. split; [done|].
  intros Hr. destruct (Hin Hr) as (t & Ht & Hc'). exists t. split; [lia|done].
Qed.

Lemma books_app f rest l1 l2 w w1 w2 :
  (∀ r, r ∈ l1 → r ∉ l2) →
  books f rest l1 w w1 → books f rest l2 w1 w2 → books f rest (l1 ++ l2) w w2.
Proof.
  intros Hdisj (Hle1 & Hlen1 & Hall1) (Hle2 & Hlen2 & Hall2). split; [lia|].
  split; [congruence|]. intros r c Hc.
  destruct (Hall1 r c Hc) as [Hout1 Hin1].
  destruct (decide (r ∈ l1)) as [Hr1|Hr1].
  - destruct (Hin1 Hr1) as (t & Ht & Hc1).
    destruct (Hall2 r _ Hc1) as [Hout2 _].
    split; [intros Hr; destruct Hr; apply elem_of_app; by left|].
    intros _. exists t. split; [lia|]. apply Hout2. by apply Hdisj.
  - specialize (Hout1 Hr1). destruct (Hall2 r c Hout1) as [Hout2 Hin2]. split.
    + intros Hr. apply Hout2. intros Hr2. apply Hr, elem_of_app. by right.
    + intros [Hr|Hr]%elem_of_app; [done|].
      destruct (Hin2 Hr) as (t & Ht & Hc2). exists t. split; [lia|done].
Qed.

Lemma books_one f rest r w w' :
  book f rest r w = (Ok tt, w') → books f rest [r] w w'.
Proof.
  rewrite book_run. intros [= <-].
  pose proof (read_clock_le (clock w)) as Hle.
  split; [exact Hle|]. simpl crew_members. rewrite alter_twice.
  split; [by rewrite length_alter|]. intros r0 c Hc. split.
  - intros Hr0. rewrite list_lookup_alter_ne; [done|].
    intros ->. apply Hr0. left.
  - intros ->%list_elem_of_singleton. exists (clock_now (clock w)).
    split; [split; [lia|exact Hle]|]. by rewrite list_lookup_alter_eq, Hc.
Qed.

Lemma wp_book_books f rest r w (Q : unit → World → Prop) :
  (∀ w', books f rest [r] w w' → Q tt w') → wp (book f rest r) w Q.
Proof.
  intros HQ. eexists tt, _. split; [apply book_run|].
  apply HQ, books_one, book_run.
Qed.

Lemma wp_for_each_books f rest refs w (Q : unit → World → Prop) :
  NoDup refs →
  (∀ w', books f rest refs w w' → Q tt w') →
  wp (for_each (book f rest) refs) w Q.
Proof.
  intros Hnd. revert w Q. induction Hnd as [|r refs Hr Hnd IH]; intros w Q HQ; simpl.
  - apply wp_ret, HQ, books_none, steady_refl.
  - apply wp_bind, wp_book_books. intros w1 Hb1. apply IH. intros w2 Hb2.
    apply HQ. apply (books_app _ _ [r] refs _ w1); [|done..].
    by intros r0 ->%list_elem_of_singleton.
Qed.

Lemma wp_book_selected_books f rest (sel : option crew_ref) w
    (Q : unit → World → Prop) :
  (∀ w', books f rest (option_list sel) w w' → Q tt w') →
  wp (match sel with
      | Some r => book f rest r
      | None => mret tt
      end) w Q.
Proof.
  intros HQ. destruct sel as [r|]; simpl in HQ.
  - by apply wp_book_books.
  - apply wp_ret, HQ, books_none, steady_refl.
Qed.

(** Booking leaves the ids, names and roles of the roster alone. *)
Lemma books_ids f rest refs w w' :
  books f rest refs w w' →
  crew_id <$> crew_members w' = crew_id <$> crew_members w.
Proof.
  intros (_ & Hlen & Hall). apply list_eq. intros r. rewrite !list_lookup_fmap.
  destruct (crew_members w !! r) as [c|] eqn:Hc.
  - destruct (Hall r c Hc) as [Hout Hin].
    destruct (decide (r ∈ refs)) as [Hr|Hr].
    + destruct (Hin Hr) as (t & _ & ->). done.
    + by rewrite (Hout Hr).
  - apply lookup_ge_None in Hc. rewrite <-Hlen in Hc.
    apply lookup_ge_None in Hc. by rewrite Hc.
Qed.

Lemma books_valid f rest refs w w' r :
  books f rest refs w w' →
  is_Some (crew_members w !! r) → is_Some (crew_members w' !! r).
Proof.
  intros (_ & Hlen & _). rewrite !lookup_lt_is_Some. lia.
Qed.

Lemma steady_id_of w w' r : steady w w' → id_of w' r = id_of w r.
Proof. intros (Hcrew & _). unfold id_of. by rewrite Hcrew. Qed.

Lemma books_id_of f rest refs w w' r :
  books f rest refs w w' → id_of w' r = id_of w r.
Proof. intros Hb. unfold id_of. by rewrite (books_ids _ _ _ _ _ Hb). Qed.

Lemma read_selected_id (sel : option crew_ref) w i :
  option_Forall2 (λ r i, id_of w r = Some i) sel i → i = sel ≫= id_of w.
Proof. destruct 1 as [r i Hi|]; simpl; [by rewrite Hi|done]. Qed.

(** ** One flight, in full *)

Lemma selection_NoDup pilots cabin cap fo chosen :
  NoDup pilots → NoDup cabin → (∀ r, r ∈ pilots → r ∉ cabin) →
  (∀ r, cap = Some r → r ∈ take 5 pilots) →
  (∀ r, fo = Some r → r ∈ drop 5 pilots) →
  chosen ⊆+ cabin →
  NoDup (selection cap fo chosen).
Proof.
  intros Hnd_pilots Hnd_cabin Hdisj Hcap_in Hfo_in Hsub.
  assert (Hchosen : ∀ r, r ∈ chosen → r ∈ cabin).
  { intros r Hr. by eapply elem_of_submseteq. }
  unfold selection.
  apply NoDup_app. split; [destruct cap; simpl; [apply NoDup_singleton|constructor]|].
  split.
  { intros r Hr. destruct cap as [r0|]; [|by apply elem_of_nil in Hr].
    apply list_elem_of_singleton in Hr as ->.
    specialize (Hcap_in r0 eq_refl).
    intros [Hr|Hr]%elem_of_app.
    - destruct fo as [r1|]; [|by apply elem_of_nil in Hr].
      apply list_elem_of_singleton in Hr as ->.
      by apply (take_drop_disjoint pilots 5 r1 r1 Hnd_pilots Hcap_in (Hfo_in r1 eq_refl)).
    - apply (Hdisj r0); [|by apply Hchosen].
      by eapply elem_of_sublist, sublist_take. }
  apply NoDup_app. split; [destruct fo; simpl; [apply NoDup_singleton|constructor]|].
  split; [|by eapply submseteq_NoDup].
  intros r Hr. destruct fo as [r0|]; [|by apply elem_of_nil in Hr].
  apply list_elem_of_singleton in Hr as ->. intros Hr.
  apply (Hdisj r0); [|by apply Hchosen].
  eapply elem_of_sublist, sublist_drop. by apply Hfo_in.
Qed.

Lemma selection_pools pilots cabin cap fo chosen r :
  (∀ r, cap = Some r → r ∈ take 5 pilots) →
  (∀ r, fo = Some r → r ∈ drop 5 pilots) →
  chosen ⊆+ cabin →
  r ∈ selection cap fo chosen → r ∈ pilots ++ cabin.
Proof.
  intros Hcap_in Hfo_in Hsub. unfold selection. rewrite !elem_of_app.
  intros [Hr|[Hr|Hr]].
  - destruct cap as [r0|]; [|by apply elem_of_nil in Hr].
    apply list_elem_of_singleton in Hr as ->. left.
    eapply elem_of_sublist, sublist_take. by apply Hcap_in.
  - destruct fo as [r0|]; [|by apply elem_of_nil in Hr].
    apply list_elem_of_singleton in Hr as ->. left.
    eapply elem_of_sublist, sublist_drop. by apply Hfo_in.
  - right. by eapply elem_of_submseteq.
Qed.

Lemma wp_select_and_book_picked f pilots cabin w
    (Q : Assignment → World → Prop) :
  NoDup pilots → NoDup cabin → (∀ r, r ∈ pilots → r ∉ cabin) →
  (∀ r, r ∈ pilots ++ cabin → is_Some (crew_members w !! r)) →
  (∀ a w', picked w f pilots cabin a w' → Q a w') →
  wp (select_and_book f pilots cabin) w Q.
Proof.
  intros Hnd_pilots Hnd_cabin Hdisj Hvalid HQ. unfold select_and_book.
  apply wp_bind, wp_choose_captain. intros cap w1 Hst1 Hcap.
  apply wp_bind, wp_choose_first_officer. intros fo w2 Hst2 Hfo.
  apply wp_bind, wp_random_sample; [apply Nat.le_min_r|].
  intros chosen w3 Hsub Hlen Hst3.
  apply wp_bind, wp_random_randint; [lia|]. intros dur w4 Hdur Hst4.
  assert (Hst : steady w w4) by eauto using steady_trans.
  assert (Hcap_in : ∀ r, cap = Some r → r ∈ take 5 pilots).
  { intros r ->. destruct pilots; [done|]. by destruct Hcap as (? & [= <-] & ?). }
  assert (Hfo_in : ∀ r, fo = Some r → r ∈ drop 5 pilots).
  { intros r ->. destruct (bool_decide _); [|done]. by destruct Hfo as (? & [= <-] & ?). }
  pose proof (selection_NoDup _ _ _ _ _ Hnd_pilots Hnd_cabin Hdisj Hcap_in Hfo_in Hsub)
    as Hnd.
  assert (Hnd' := Hnd). unfold selection in Hnd'.
  apply NoDup_app in Hnd' as (_ & Hdisj1 & Hnd').
  apply NoDup_app in Hnd' as (_ & Hdisj2 & Hnd_chosen).
  apply wp_bind, wp_book_selected_books. intros w5 Hb5.
  apply wp_bind, wp_book_selected_books. intros w6 Hb6.
  apply wp_bind, wp_for_each_books; [done|]. intros w7 Hb7.
  assert (Hb : books (flight_id f) (timedelta_hours (dur + 10))
                 (selection cap fo chosen) w4 w7).
  { unfold selection. eapply books_app; [done|exact Hb5|].
    eapply books_app; [done|exact Hb6|exact Hb7]. }
  assert (Hid : ∀ r, id_of w7 r = id_of w r).
  { intros r. by rewrite (books_id_of _ _ _ _ _ r Hb), (steady_id_of _ _ r Hst). }
  assert (Hvalid7 : ∀ r, r ∈ pilots ++ cabin → is_Some (crew_members w7 !! r)).
  { intros r Hr. eapply books_valid; [exact Hb|].
    destruct Hst as (-> & _). by apply Hvalid. }
  assert (Hsel_in : ∀ r, r ∈ selection cap fo chosen → r ∈ pilots ++ cabin).
  { intros r. by apply selection_pools. }
  apply wp_bind, wp_read_selected_id.
  { intros r ->. apply Hvalid7, Hsel_in. unfold selection. simpl. left. }
  intros cap_id Hcap_id.
  apply wp_bind, wp_read_selected_id.
  { intros r ->. apply Hvalid7, Hsel_in. unfold selection.
    apply elem_of_app. right. simpl. left. }
  intros fo_id Hfo_id.
  apply wp_bind, wp_read_ids.
  { intros r Hr. apply Hvalid7, Hsel_in. unfold selection.
    rewrite !elem_of_app. auto. }
  intros Hids.
  apply wp_bind, wp_datetime_now. intros w8 Hst8.
  apply wp_ret, HQ. exists cap, fo, chosen, dur, w4, w7.
  do 8 (split; [done|]). split; [done|].
  apply read_selected_id in Hcap_id, Hfo_id. subst cap_id fo_id.
  f_equal.
  - destruct cap; simpl; [apply Hid|done].
  - destruct fo; simpl; [apply Hid|done].
  - unfold pool_ids. by rewrite (books_ids _ _ _ _ _ Hb), (proj1 Hst).
Qed.

Lemma pool_ids_option w (sel : option crew_ref) :
  pool_ids w (option_list sel) = option_list (sel ≫= id_of w).
Proof.
  destruct sel as [r|]; [|done]. unfold pool_ids. simpl.
  fold (id_of w r). by destruct (id_of w r).
Qed.

Lemma pool_ids_length w refs :
  (∀ r, r ∈ refs → is_Some (crew_members w !! r)) →
  length (pool_ids w refs) = length refs.
Proof.
  unfold pool_ids. induction refs as [|r refs IH]; intros Hvalid; [done|].
  simpl. destruct (Hvalid r) as [c Hc]; [left|].
  rewrite list_lookup_fmap, Hc. simpl. f_equal. apply IH.
  intros r' Hr'. apply Hvalid. by right.
Qed.

Lemma flight_run_picked w f pilots cabin a w' :
  flight_run w f pilots cabin a w' →
  ∃ w1 w2,
    available_pilots w = (Ok pilots, w1) ∧ pool_of pilot_ok w pilots w1
    ∧ available_attendants w1 = (Ok cabin, w2)
    ∧ pool_of attendant_ok w1 cabin w2
    ∧ steady w w2
    ∧ (∀ r, r ∈ pilots ++ cabin →
            ∃ c, crew_members w2 !! r = Some c
                 ∧ next_available c ≤ clock_now (clock w2))
    ∧ picked w2 f pilots cabin a w'.
Proof.
  intros (w1 & w2 & Hrun1 & Hp1 & Hrun2 & Hp2 & Hrun & _).
  assert (Hcrew1 : crew_members w1 = crew_members w) by apply Hp1.
  assert (Hfree : ∀ r, r ∈ pilots ++ cabin →
            ∃ c, crew_members w2 !! r = Some c
                 ∧ next_available c ≤ clock_now (clock w2)).
  { intros r [Hr|Hr]%elem_of_app.
    - eapply (pool_free pilot_ok); [apply pilot_ok_free|exact Hp1|apply Hp2|done].
    - eapply (pool_free attendant_ok);
        [apply attendant_ok_free|exact Hp2|apply steady_refl|done]. }
  exists w1, w2. do 4 (split; [done|]).
  split; [eapply steady_trans; [apply Hp1|apply Hp2]|].
  split; [done|].
  refine (wp_run _ _ (picked w2 f pilots cabin) _ _ _ Hrun).
  apply wp_select_and_book_picked; [apply Hp1|apply Hp2| | |done].
  - intros r Hr1 Hr2.
    destruct (pool_roles pilot_ok "pilot" _ _ _ r pilot_ok_role Hp1 Hr1) as (c & Hc & Hrole).
    destruct (pool_roles attendant_ok "attendant" _ _ _ r attendant_ok_role Hp2 Hr2)
      as (c' & Hc' & Hrole').
    rewrite Hcrew1 in Hc'. simplify_eq. congruence.
  - intros r Hr. destruct (Hfree r Hr) as (c & -> & _). by eexists.
Qed.

(** Every flight is processed as [staffed] says. *)
Lemma flight_run_staffed w f pilots cabin a w' :
  flight_run w f pilots cabin a w' → staffed w f a w'.
Proof.
  intros Hrun. destruct (flight_run_picked _ _ _ _ _ _ Hrun)
    as (w1 & w2 & _ & _ & _ & _ & Hst2 & Hfree & Hpick).
  destruct Hpick as (cap & fo & chosen & dur & w_a & w_b & Hcap & Hfo & Hsub
                     & Hlen & Hdur & Hnd & Hst_a & Hb & Hst_b & ->).
  assert (Hcrew2 : crew_members w2 = crew_members w) by apply Hst2.
  assert (Hcap_in : ∀ r, cap = Some r → r ∈ take 5 pilots).
  { intros r ->. destruct pilots; [done|]. by destruct Hcap as (? & [= <-] & ?). }
  assert (Hfo_in : ∀ r, fo = Some r → r ∈ drop 5 pilots).
  { intros r ->. destruct (bool_decide _); [|done]. by destruct Hfo as (? & [= <-] & ?). }
  assert (Hids : crew_of
            {| asg_flight_id := flight_id f; asg_aircraft_id := aircraft_id f;
               captain := cap ≫= id_of w2; first_officer := fo ≫= id_of w2;
               attendants := pool_ids w2 chosen;
               crew_count := (length chosen
                              + match cap with Some _ => 1 | None => 0 end
                              + match fo with Some _ => 1 | None => 0 end)%nat;
               assignment_time := clock_now (clock w_b) |}
          = pool_ids w (selection cap fo chosen)).
  { unfold crew_of, selection. simpl.
    rewrite <-!pool_ids_option, <-!pool_ids_app. unfold pool_ids.
    by rewrite Hcrew2. }
  assert (Hcount : (length chosen
                    + match cap with Some _ => 1 | None => 0 end
                    + match fo with Some _ => 1 | None => 0 end)%nat
                   = length (selection cap fo chosen)).
  { unfold selection. rewrite !length_app. destruct cap, fo; simpl; lia. }
  exists (selection cap fo chosen), dur, w_a, w_b.
  split; [done|]. split; [done|]. split; [rewrite <-Hcount; destruct cap, fo; lia|].
  split; [by eapply steady_trans|]. split; [done|]. split; [done|].
  split.
  { intros r Hr. apply (selection_pools pilots cabin) in Hr; [|done..].
    destruct (Hfree r Hr) as (c & Hc & Hna). exists c. rewrite <-Hcrew2.
    split; [done|]. destruct Hst_a as (_ & ? & _). lia. }
  split; [done|]. split.
  { rewrite Hids. apply pool_ids_length. intros r Hr.
    apply (selection_pools pilots cabin) in Hr; [|done..].
    destruct (Hfree r Hr) as (c & Hc & _). rewrite <-Hcrew2. by eexists. }
  split; [|done]. exact Hcount.
Qed.

(** ** Batches *)

Lemma append_each_batch (flights : list Flight) acc w :
  ∃ found w',
    append_each _assign_crew_to_flight flights acc w = (Ok (acc ++ found), w')
    ∧ batch_run w flights found w'.
Proof.
  revert acc w. induction flights as [|f flights IH]; intros acc w; simpl.
  - exists [], w. rewrite app_nil_r. split; [done|constructor].
  - destruct (flight_run_total w f) as (pilots & cabin & a & w1 & Hrun).
    pose proof (flight_step_assign _ _ _ _ _ _ (flight_run_step _ _ _ _ _ _ Hrun)) as Heq.
    destruct (IH (acc ++ [a]) w1) as (found & w2 & Hrest & Hbatch).
    exists (a :: found), w2. unfold mbind, Py_bind. rewrite Heq, Hrest.
    rewrite <-app_assoc. split; [done|]. by econstructor.
Qed.

Lemma optimize_schedule_batch (flights : list Flight) w :
  ∃ found w',
    optimize_schedule flights w
    = (Ok {| assignments := found;
             issues := _check_schedule_issues found;
             summary := _generate_summary found |}, w')
    ∧ batch_run w flights found w'.
Proof.
  destruct (append_each_batch flights [] w) as (found & w' & Hrun & Hbatch).
  exists found, w'. split; [by apply optimize_schedule_run|done].
Qed.

Lemma staffed_clock w f a w' :
  staffed w f a w' →
  clock_now (clock w) ≤ assignment_time a ≤ clock_now (clock w').
Proof.
  intros (sel & dur & w_a & w_b & _ & _ & _ & Hst_a & Hb & Hst_b & _ & _ & _ & _
          & _ & _ & ->).
  destruct Hst_a as (_ & ? & _), Hb as (? & _), Hst_b as (_ & ? & _). lia.
Qed.

Lemma staffed_ids w f a w' :
  staffed w f a w' →
  crew_id <$> crew_members w' = crew_id <$> crew_members w.
Proof.
  intros (sel & dur & w_a & w_b & _ & _ & _ & Hst_a & Hb & Hst_b & _).
  destruct Hst_a as (Ha & _), Hst_b as (Hb' & _).
  by rewrite Hb', (books_ids _ _ _ _ _ Hb), Ha.
Qed.

(** Over a roster with pairwise different ids the crew ids of the
    assignment are those of the members selected. *)
Lemma pool_ids_member w sel r c :
  NoDup (crew_id <$> crew_members w) →
  crew_members w !! r = Some c →
  crew_id c ∈ pool_ids w sel ↔ r ∈ sel.
Proof.
  intros Hids Hc.
  assert (Hid : id_of w r = Some (crew_id c)).
  { unfold id_of. by rewrite list_lookup_fmap, Hc. }
  rewrite elem_of_pool_ids. split.
  - intros (r' & Hr' & Hid'). by rewrite (id_of_inj _ _ _ _ Hids Hid Hid').
  - intros Hr. by exists r.
Qed.

(** The effect of one flight on each record of the roster. *)
Lemma staffed_ledger w f a w' :
  NoDup (crew_id <$> crew_members w) →
  staffed w f a w' →
  ∃ dur, 1 ≤ dur ≤ 6 ∧
    ∀ r c, crew_members w !! r = Some c →
      (crew_id c ∉ crew_of a → crew_members w' !! r = Some c)
      ∧ (crew_id c ∈ crew_of a →
         ∃ t, clock_now (clock w) ≤ t ∧ next_available c ≤ t
              ∧ t ≤ assignment_time a
              ∧ crew_members w' !! r
                = Some (booked_at (flight_id f) (timedelta_hours (dur + 10)) t c)).
Proof.
  intros Hids (sel & dur & w_a & w_b & Hdur & _ & _ & Hst_a & Hb & Hst_b & Hfree
               & Hcrew & _ & _ & _ & _ & ->).
  exists dur. split; [done|]. intros r c Hc.
  pose proof (pool_ids_member w sel r c Hids Hc) as Hmem. rewrite Hcrew.
  destruct Hst_a as (Hcrew_a & Hle_a & _), Hst_b as (Hcrew_b & _).
  destruct Hb as (_ & _ & Hall). rewrite <-Hcrew_a in Hc.
  destruct (Hall r c Hc) as [Hout Hin]. rewrite Hcrew_b. split.
  - intros Hr. apply Hout. by rewrite <-Hmem.
  - intros Hr%Hmem. destruct (Hin Hr) as (t & Ht & Hc').
    destruct (Hfree r Hr) as (c0 & Hc0 & Hna). rewrite <-Hcrew_a in Hc0.
    simplify_eq. exists t. repeat split; [lia..|done].
Qed.

Lemma batch_run_ids w flights found w' :
  batch_run w flights found w' →
  crew_id <$> crew_members w' = crew_id <$> crew_members w.
Proof.
  induction 1 as [|w f pilots cabin a w1 flights found w' Hrun _ IH]; [done|].
  rewrite IH. eapply staffed_ids, flight_run_staffed, Hrun.
Qed.

Lemma batch_shape w flights found w' :
  batch_run w flights found w' →
  clock_now (clock w) ≤ clock_now (clock w')
  ∧ asg_flight_id <$> found = flight_id <$> flights
  ∧ asg_aircraft_id <$> found = aircraft_id <$> flights
  ∧ Forall (λ a, crew_count a = length (crew_of a) ∧ (crew_count a ≤ 6)%nat
                 ∧ clock_now (clock w) ≤ assignment_time a ≤ clock_now (clock w'))
      found
  ∧ (∀ i j a b, (i < j)%nat → found !! i = Some a → found !! j = Some b →
                assignment_time a ≤ assignment_time b).
Proof.
  induction 1 as [|w f pilots cabin a w1 flights found w' Hrun _ IH].
  { split; [lia|]. split; [done|]. split; [done|]. split; [constructor|].
    intros i j a b _ Hi. by rewrite lookup_nil in Hi. }
  destruct IH as (Hle & Hfl & Hac & Hall & Hsorted).
  apply flight_run_staffed in Hrun.
  pose proof (staffed_clock _ _ _ _ Hrun) as Ha.
  destruct Hrun as (sel & dur & w_a & w_b & _ & _ & Hsix & _ & _ & _ & _ & _
                    & Hlen & Hcount & Hfid & Haid & _).
  split; [lia|]. split; [by rewrite !fmap_cons, Hfid, Hfl|].
  split; [by rewrite !fmap_cons, Haid, Hac|].
  split.
  - constructor; [split; [congruence|split; [lia|lia]]|].
    eapply Forall_impl; [exact Hall|]. simpl. intros b (? & ? & ?).
    split; [done|]. split; [done|lia].
  - intros [|i] [|j] x y Hij Hx Hy; [lia| |lia|].
    + simpl in Hx, Hy. simplify_eq.
      apply (Forall_lookup_1 _ _ _ _ Hall) in Hy. simpl in Hy. lia.
    + simpl in Hx, Hy. apply (Hsorted i j); [lia|done..].
Qed.

Lemma flights_of_cons crew a found :
  flights_of crew (a :: found)
  = (if decide (crew ∈ crew_of a) then [asg_flight_id a] else [])
    ++ flights_of crew found.
Proof.
  unfold flights_of. rewrite filter_cons. by destruct (decide _).
Qed.

(** The effect of a batch on each record of the roster. *)
Lemma batch_ledger w flights found w' :
  batch_run w flights found w' →
  NoDup (crew_id <$> crew_members w) →
  ∀ r c, crew_members w !! r = Some c →
    ∃ c', crew_members w' !! r = Some c'
          ∧ crew_id c' = crew_id c ∧ name c' = name c ∧ role c' = role c
          ∧ base c' = base c ∧ rest_hours c' = rest_hours c
          ∧ assigned_flights c'
            = assigned_flights c ++ flights_of (crew_id c) found
          ∧ (flights_of (crew_id c) found = [] → c' = c).
Proof.
  induction 1 as [|w f pilots cabin a w1 flights found w' Hrun Hrest IH];
    intros Hids r c Hc.
  { exists c. rewrite app_nil_r. done. }
  apply flight_run_staffed in Hrun.
  assert (Hids1 : NoDup (crew_id <$> crew_members w1))
    by by rewrite (staffed_ids _ _ _ _ Hrun).
  assert (Hfid : asg_flight_id a = flight_id f).
  { by destruct Hrun as (? & ? & ? & ? & _ & _ & _ & _ & _ & _ & _ & _ & _ & _
                         & ? & _). }
  destruct (staffed_ledger _ _ _ _ Hids Hrun) as (dur & _ & Hall).
  destruct (Hall r c Hc) as [Hout Hin].
  rewrite flights_of_cons.
  destruct (decide (crew_id c ∈ crew_of a)) as [Hmem|Hmem].
  - destruct (Hin Hmem) as (t & _ & _ & _ & Hc1).
    destruct (IH Hids1 r _ Hc1) as (c' & Hc' & Hi & Hn & Hr & Hb & Hh & Hf & _).
    exists c'. simpl in *. rewrite Hf, Hfid, <-app_assoc.
    repeat split; done.
  - destruct (IH Hids1 r c (Hout Hmem)) as (c' & Hc' & ?). by exists c'.
Qed.

(** The crew ids the detector and the summary see are among those the
    assignments name. *)
Lemma crew_slots_sublist found :
  SummarySpec.crew_slots found `sublist_of` found ≫= crew_of.
Proof.
  unfold SummarySpec.crew_slots, sightings.
  induction found as [|a found IH]; [done|].
  rewrite !bind_cons, fmap_app. apply sublist_app; [|done].
  apply ScenarioFacts.sightings_of_crew.
Qed.

(** While a batch takes less than the shortest rest period, nobody is
    selected twice. *)
Lemma batch_crew_once w flights found w' :
  batch_run w flights found w' →
  NoDup (crew_id <$> crew_members w) →
  clock_now (clock w') < clock_now (clock w) + timedelta_hours 11 →
  NoDup (found ≫= crew_of)
  ∧ ∀ r c, crew_members w !! r = Some c → crew_id c ∈ found ≫= crew_of →
           next_available c ≤ clock_now (clock w').
Proof.
  induction 1 as [|w f pilots cabin a w1 flights found w' Hrun Hrest IH];
    intros Hids Hquick.
  { split; [constructor|]. intros r c _ Hin. by apply elem_of_nil in Hin. }
  apply flight_run_staffed in Hrun.
  assert (Hids1 : NoDup (crew_id <$> crew_members w1))
    by by rewrite (staffed_ids _ _ _ _ Hrun).
  pose proof (staffed_clock _ _ _ _ Hrun) as Ha.
  pose proof (batch_shape _ _ _ _ Hrest) as (Hle & _).
  destruct IH as [Hnd Hfree]; [done|lia|].
  destruct (staffed_ledger _ _ _ _ Hids Hrun) as (dur & Hdur & Hall).
  assert (Hcrew : NoDup (crew_of a)).
  { destruct Hrun as (sel & ? & ? & ? & _ & Hsel & _ & _ & _ & _ & _ & -> & _).
    by apply NoDup_pool_ids. }
  assert (Hlate : ∀ r c c1, crew_members w !! r = Some c →
            crew_members w1 !! r = Some c1 →
            crew_id c1 = crew_id c ∧ next_available c ≤ next_available c1).
  { intros r c c1 Hc Hc1. destruct (Hall r c Hc) as [Hout Hin].
    destruct (decide (crew_id c ∈ crew_of a)) as [Hmem|Hmem].
    - destruct (Hin Hmem) as (t & _ & Hna & _ & Hc1'). simplify_eq. simpl.
      unfold timedelta_hours. split; [done|lia].
    - rewrite (Hout Hmem) in Hc1. simplify_eq. split; [done|lia]. }
  rewrite bind_cons. split.
  - apply NoDup_app. split; [done|]. split; [|done].
    intros i Hi Hi'.
    assert (∃ r c, crew_members w !! r = Some c ∧ crew_id c = i) as (r & c & Hc & <-).
    { destruct Hrun as (sel & ? & ? & ? & _ & _ & _ & _ & _ & _ & Hsel & Hcr & _).
      rewrite Hcr in Hi. apply elem_of_pool_ids in Hi as (r & Hr & Hid).
      destruct (Hsel r Hr) as (c & Hc & _). exists r, c. split; [done|].
      unfold id_of in Hid. rewrite list_lookup_fmap, Hc in Hid. by simplify_eq/=. }
    destruct (Hall r c Hc) as [_ Hin].
    destruct (Hin Hi) as (t & Ht & _ & _ & Hc1).
    specialize (Hfree r _ Hc1 Hi'). simpl in Hfree.
    unfold timedelta_hours in *. lia.
  - intros r c Hc [Hi|Hi]%elem_of_app.
    + destruct (Hall r c Hc) as [_ Hin].
      destruct (Hin Hi) as (t & _ & Hna & Ht & _). lia.
    + destruct (Hall r c Hc) as [Hout Hin].
      assert (∃ c1, crew_members w1 !! r = Some c1) as [c1 Hc1].
      { destruct (decide (crew_id c ∈ crew_of a)) as [Hmem|Hmem].
        - destruct (Hin Hmem) as (t & _ & _ & _ & ?). by eexists.
        - eexists. by apply Hout. }
      destruct (Hlate r c c1 Hc Hc1) as [Hid Hna].
      rewrite <-Hid in Hi. specialize (Hfree r c1 Hc1 Hi). lia.
Qed.

(** X4.  [optimize_schedule] returns one assignment per flight, in flight
    order and with the flight's two ids; [crew_count] is the number of
    crew ids the assignment names and at most 6; the assignment times lie
    between the clock at the start and at the end of the batch and never
    step back from one assignment to the next; and the summary's
    [total_flights_scheduled] is the number of flights. *)
Theorem assignments_mirror_flights (w0 : World) (flights : list Flight) :
  ∃ r w',
    optimize_schedule flights w0 = (Ok r, w')
    ∧ asg_flight_id <$> assignments r = flight_id <$> flights
    ∧ asg_aircraft_id <$> assignments r = aircraft_id <$> flights
    ∧ Forall (λ a, crew_count a = length (crew_of a) ∧ (crew_count a ≤ 6)%nat
                   ∧ clock_now (clock w0) ≤ assignment_time a
                     ≤ clock_now (clock w'))
        (assignments r)
    ∧ (∀ i j a b, (i < j)%nat →
         assignments r !! i = Some a → assignments r !! j = Some b →
         assignment_time a ≤ assignment_time b)
    ∧ total_flights_scheduled (summary r) = length flights.
Proof.
  destruct (optimize_schedule_batch flights w0) as (found & w' & Hrun & Hbatch).
  destruct (batch_shape _ _ _ _ Hbatch) as (_ & Hfl & Hac & Hall & Hsorted).
  eexists _, w'. split; [exact Hrun|]. simpl.
  do 4 (split; [done|]).
  by rewrite <-(length_fmap asg_flight_id), Hfl, length_fmap.
Qed.

(** X5.  Processing a flight changes the records of exactly the members its
    assignment names: each of them is booked once, at a clock reading [t]
    of the flight at which the member was free and that is not after the
    assignment time, which appends the flight to [assigned_flights] and
    sets [next_available] to [t] plus 11 to 16 hours; every other record
    of the roster is left as it was. *)
Theorem flight_books_exactly_its_crew (w0 : World)
    (before : list Flight) (f : Flight) (after : list Flight) :
  NoDup (crew_id <$> crew_members w0) →
  ∃ w pilots cabin a w' r w_end dur,
    in_batch w0 before f w pilots cabin a w'
    ∧ optimize_schedule (before ++ f :: after) w0 = (Ok r, w_end)
    ∧ assignments r !! length before = Some a
    ∧ 1 ≤ dur ≤ 6
    ∧ ∀ i c, crew_members w !! i = Some c →
        (crew_id c ∉ crew_of a → crew_members w' !! i = Some c)
        ∧ (crew_id c ∈ crew_of a →
           ∃ t, clock_now (clock w) ≤ t ∧ next_available c ≤ t
                ∧ t ≤ assignment_time a
                ∧ crew_members w' !! i
                  = Some (booked_at (flight_id f)
                            (timedelta_hours (dur + 10)) t c)).
Proof.
  intros Hids.
  destruct (batch_flight w0 before f after)
    as (w & pilots & cabin & a & w' & r & w_end
        & Hin & Hrun & Hopt & Hlook & _ & Hev & _).
  assert (Hids' : NoDup (crew_id <$> crew_members w))
    by by rewrite (world_ids_evolve _ _ Hev).
  destruct (staffed_ledger _ _ _ _ Hids' (flight_run_staffed _ _ _ _ _ _ Hrun))
    as (dur & Hdur & Hall).
  by exists w, pilots, cabin, a, w', r, w_end, dur.
Qed.

(** A one-flight batch on the roster of [__init__]. *)
Lemma flight_books_exactly_its_crew_witness :
  NoDup (crew_id <$> crew_members fresh_world)
  ∧ ∃ w pilots cabin a w' r w_end dur,
      in_batch fresh_world [] {| flight_id := "GA1000"; aircraft_id := "VT-AXB" |}
        w pilots cabin a w'
      ∧ optimize_schedule
          ([] ++ {| flight_id := "GA1000"; aircraft_id := "VT-AXB" |} :: [])
          fresh_world = (Ok r, w_end)
      ∧ assignments r !! length (@nil Flight) = Some a
      ∧ 1 ≤ dur ≤ 6
      ∧ ∀ i c, crew_members w !! i = Some c →
          (crew_id c ∉ crew_of a → crew_members w' !! i = Some c)
          ∧ (crew_id c ∈ crew_of a →
             ∃ t, clock_now (clock w) ≤ t ∧ next_available c ≤ t
                  ∧ t ≤ assignment_time a
                  ∧ crew_members w' !! i
                    = Some (booked_at "GA1000"
                              (timedelta_hours (dur + 10)) t c)).
Proof.
  assert (H : NoDup (crew_id <$> crew_members fresh_world))
    by apply init_ids_distinct.
  split; [done|].
  exact (flight_books_exactly_its_crew fresh_world [] _ [] H).
Defined.

(** X6.  After a batch, every member's [assigned_flights] is what it was
    followed by the flights of the batch whose assignment names the
    member, in order; identity, name, role, base and rest hours are
    unchanged, and a member no assignment names is unchanged altogether. *)
Theorem assigned_flights_match_assignments (w0 : World)
    (flights : list Flight) :
  NoDup (crew_id <$> crew_members w0) →
  ∃ r w',
    optimize_schedule flights w0 = (Ok r, w')
    ∧ length (crew_members w') = length (crew_members w0)
    ∧ ∀ i c, crew_members w0 !! i = Some c →
        ∃ c', crew_members w' !! i = Some c'
              ∧ crew_id c' = crew_id c ∧ name c' = name c ∧ role c' = role c
              ∧ base c' = base c ∧ rest_hours c' = rest_hours c
              ∧ assigned_flights c'
                = assigned_flights c ++ flights_of (crew_id c) (assignments r)
              ∧ (flights_of (crew_id c) (assignments r) = [] → c' = c).
Proof.
  intros Hids.
  destruct (optimize_schedule_batch flights w0) as (found & w' & Hrun & Hbatch).
  eexists _, w'. split; [exact Hrun|]. simpl. split.
  - by rewrite <-(length_fmap crew_id), (batch_run_ids _ _ _ _ Hbatch), length_fmap.
  - exact (batch_ledger _ _ _ _ Hbatch Hids).
Qed.

(** Three flights on the roster of [__init__]. *)
Lemma assigned_flights_match_assignments_witness :
  NoDup (crew_id <$> crew_members fresh_world)
  ∧ ∃ r w',
      optimize_schedule three_flights fresh_world = (Ok r, w')
      ∧ length (crew_members w') = length (crew_members fresh_world)
      ∧ ∀ i c, crew_members fresh_world !! i = Some c →
          ∃ c', crew_members w' !! i = Some c'
                ∧ crew_id c' = crew_id c ∧ name c' = name c ∧ role c' = role c
                ∧ base c' = base c ∧ rest_hours c' = rest_hours c
                ∧ assigned_flights c'
                  = assigned_flights c ++ flights_of (crew_id c) (assignments r)
                ∧ (flights_of (crew_id c) (assignments r) = [] → c' = c).
Proof.
  assert (H : NoDup (crew_id <$> crew_members fresh_world))
    by apply init_ids_distinct.
  split; [done|].
  exact (assigned_flights_match_assignments fresh_world three_flights H).
Defined.

(** X7.  A batch that ends less than 11 hours (the shortest rest period) after
    it started names nobody twice: the crew ids of all its assignments are
    pairwise different, the detector reports no double booking, and the
    summary's [max_flights_per_crew] is at most 1. *)
Theorem nobody_flies_twice_within_rest_period (w0 : World)
    (flights : list Flight) :
  NoDup (crew_id <$> crew_members w0) →
  ∃ r w',
    optimize_schedule flights w0 = (Ok r, w')
    ∧ (clock_now (clock w') < clock_now (clock w0) + timedelta_hours 11 →
       NoDup (assignments r ≫= crew_of)
       ∧ filter (λ i, is_double_booking i = true) (issues r) = []
       ∧ (max_flights_per_crew (summary r) ≤ 1)%nat).
Proof.
  intros Hids.
  destruct (optimize_schedule_batch flights w0) as (found & w' & Hrun & Hbatch).
  eexists _, w'. split; [exact Hrun|]. cbn [assignments issues summary].
  intros Hquick.
  destruct (batch_crew_once _ _ _ _ Hbatch Hids Hquick) as [Hnd _].
  assert (Hslots : NoDup (SummarySpec.crew_slots found)).
  { eapply sublist_NoDup; [exact Hnd|apply crew_slots_sublist]. }
  split; [done|]. split.
  - rewrite SummaryFacts.double_bookings_filter.
    apply ScenarioFacts.audit_fresh. exact Hslots.
  - destruct (SummaryFacts.generate_summary_max found) as [Hnone Hsome].
    destruct (decide (SummarySpec.crew_slots found = [])) as [Hnil|Hne].
    + rewrite (Hnone Hnil). lia.
    + destruct (Hsome Hne) as (crew & _ & <-).
      by apply SummaryFacts.slots_of_NoDup.
Qed.

(** Three flights on the roster of [__init__], under a clock that
    advances by a few microseconds: the batch ends well within 11 hours. *)
Lemma nobody_flies_twice_within_rest_period_witness :
  NoDup (crew_id <$> crew_members fresh_world)
  ∧ clock_now (clock (optimize_schedule three_flights fresh_world).2)
    < clock_now (clock fresh_world) + timedelta_hours 11
  ∧ ∃ r w',
      optimize_schedule three_flights fresh_world = (Ok r, w')
      ∧ (clock_now (clock w') < clock_now (clock fresh_world) + timedelta_hours 11 →
         NoDup (assignments r ≫= crew_of)
         ∧ filter (λ i, is_double_booking i = true) (issues r) = []
         ∧ (max_flights_per_crew (summary r) ≤ 1)%nat).
Proof.
  assert (H : NoDup (crew_id <$> crew_members fresh_world))
    by apply init_ids_distinct.
  split; [done|]. split; [vm_compute; reflexivity|].
  exact (nobody_flies_twice_within_rest_period fresh_world three_flights H).
Defined.

End LedgerFacts.

(** * The roster of a fresh optimizer *)
Module RosterFacts.
Import CrewOptimizer DetectorSpec EngineSpec LedgerSpec RosterSpec.
Import EngineFacts.

Lemma recruit_mono what t t' c : t ≤ t' → recruit what t c → recruit what t' c.
Proof. intros Hle (? & ? & ? & ?). repeat split; [done..|lia]. Qed.

Lemma wp_new_pilot i w (Q : CrewMember → World → Prop) :
  (∀ c w', steady w w' → recruit "pilot" (clock_now (clock w')) c → Q c w') →
  wp (new_pilot i) w Q.
Proof.
  intros HQ. unfold new_pilot.
  apply wp_bind, wp_random_randint; [lia|]. intros hours w1 _ Hst1.
  apply wp_bind, wp_random_choice; [done|]. intros home w2 _ Hst2.
  apply wp_bind, wp_datetime_now. intros w3 Hst3.
  apply wp_ret, HQ; [eauto using steady_trans|].
  repeat split; simpl; [done..|]. apply Hst3.
Qed.

Lemma wp_new_attendant i w (Q : CrewMember → World → Prop) :
  (∀ c w', steady w w' → recruit "attendant" (clock_now (clock w')) c → Q c w') →
  wp (new_attendant i) w Q.
Proof.
  intros HQ. unfold new_attendant.
  apply wp_bind, wp_random_choice; [done|]. intros home w2 _ Hst2.
  apply wp_bind, wp_datetime_now. intros w3 Hst3.
  apply wp_ret, HQ; [eauto using steady_trans|].
  repeat split; simpl; [done..|]. apply Hst3.
Qed.

Lemma wp_append_each_recruits (what : string) (make : nat → M CrewMember) :
  (∀ i w (Q : CrewMember → World → Prop),
     (∀ c w', steady w w' → recruit what (clock_now (clock w')) c → Q c w') →
     wp (make i) w Q) →
  ∀ xs acc w (Q : list CrewMember → World → Prop),
    (∀ found w', steady w w' → length found = length xs →
                 Forall (recruit what (clock_now (clock w'))) found →
                 Q (acc ++ found) w') →
    wp (append_each make xs acc) w Q.
Proof.
  intros Hmake xs. induction xs as [|x xs IH]; intros acc w Q HQ; simpl.
  - apply wp_ret. rewrite <-(app_nil_r acc).
    apply HQ; [apply steady_refl|done|constructor].
  - apply wp_bind, Hmake. intros c w1 Hst1 Hc.
    apply IH. intros found w2 Hst2 Hlen Hall.
    rewrite <-app_assoc. apply HQ; [by eapply steady_trans|simpl; by rewrite Hlen|].
    constructor; [|done]. eapply recruit_mono; [|exact Hc]. apply Hst2.
Qed.

(** [__init__] returns, whatever the clock and the random source, and
    leaves the roster of ten pilots and twenty attendants, all available
    by the time it returns. *)
Lemma init_fresh_roster w :
  ∃ w0, __init__ w = (Ok tt, w0)
        ∧ fresh_roster (clock_now (clock w0)) (crew_members w0).
Proof.
  assert (Hwp : wp __init__ w
            (λ _ w0, fresh_roster (clock_now (clock w0)) (crew_members w0))).
  { unfold __init__, _initialize_crew.
    apply wp_bind, wp_bind, (wp_append_each_recruits "pilot"); [apply wp_new_pilot|].
    intros pilots w1 Hst1 Hlen1 Hall1.
    apply wp_bind, (wp_append_each_recruits "attendant"); [apply wp_new_attendant|].
    intros cabin w2 Hst2 Hlen2 Hall2. apply wp_ret.
    eexists tt, _. split; [reflexivity|]. simpl.
    exists pilots, cabin. split; [done|]. split; [done|]. split; [done|].
    split; [|done]. eapply Forall_impl; [exact Hall1|].
    intros c. apply recruit_mono, Hst2. }
  destruct Hwp as ([] & w0 & Hrun & Hfresh). exists w0.
  split; [exact Hrun|exact Hfresh].
Qed.

(** ** Pools hold at least the members that are free *)

Lemma wp_pilot_available_now c w (Q : bool → World → Prop) :
  (∀ w', steady w w' → Q (pilot_ok (clock_now (clock w)) c) w') →
  wp (pilot_available c) w Q.
Proof.
  intros HQ. unfold pilot_available, pilot_ok in *.
  destruct (bool_decide (role c = "pilot")) eqn:Hrole; simpl in *.
  - apply wp_bind, wp_datetime_now. intros w' Hst. by apply wp_ret, HQ.
  - apply wp_ret, HQ, steady_refl.
Qed.

Lemma wp_attendant_available_now c w (Q : bool → World → Prop) :
  (∀ w', steady w w' → Q (attendant_ok (clock_now (clock w)) c) w') →
  wp (attendant_available c) w Q.
Proof.
  intros HQ. unfold attendant_available, attendant_ok in *.
  destruct (bool_decide (role c = "attendant")) eqn:Hrole; simpl in *.
  - apply wp_bind, wp_datetime_now. intros w' Hst. by apply wp_ret, HQ.
  - apply wp_ret, HQ, steady_refl.
Qed.

Lemma wp_comprehension_keeps_free (ok : Z → CrewMember → bool)
    (cond : CrewMember → M bool) :
  (∀ t t' c, t ≤ t' → ok t c = true → ok t' c = true) →
  (∀ c w (Q : bool → World → Prop),
     (∀ w', steady w w' → Q (ok (clock_now (clock w)) c) w') →
     wp (cond c) w Q) →
  ∀ members r w (Q : list crew_ref → World → Prop),
    (∀ refs w', steady w w' → keeps_free ok r members w refs → Q refs w') →
    wp (comprehension cond r members) w Q.
Proof.
  intros Hmono Hcond members.
  induction members as [|c members IH]; intros r w Q HQ; simpl.
  - apply wp_ret, HQ; [apply steady_refl|]. intros i c Hc. by rewrite lookup_nil in Hc.
  - apply wp_bind, Hcond. intros w1 Hst1.
    apply wp_bind, IH. intros refs w2 Hst2 Hkeep.
    apply wp_ret, HQ; [by eapply steady_trans|].
    intros [|i] c0 Hc0 Hok; simpl in Hc0.
    + simplify_eq. rewrite Hok, Nat.add_0_r. left.
    + assert (Hin : (S r + i)%nat ∈ refs).
      { apply (Hkeep i c0 Hc0). eapply Hmono; [|exact Hok]. apply Hst1. }
      replace (r + S i)%nat with (S r + i)%nat by lia.
      destruct (ok _ c); [by right|done].
Qed.

Lemma available_pilots_keeps_free w pilots w1 :
  available_pilots w = (Ok pilots, w1) →
  keeps_free pilot_ok 0 (crew_members w) w pilots.
Proof.
  intros Hrun.
  refine (wp_run _ _ (λ refs _, keeps_free pilot_ok 0 (crew_members w) w refs)
            _ _ _ Hrun).
  unfold available_pilots. apply wp_bind, wp_get_crew_members.
  apply (wp_comprehension_keeps_free pilot_ok);
    [apply pilot_ok_mono|apply wp_pilot_available_now|done].
Qed.

Lemma available_attendants_keeps_free w cabin w1 :
  available_attendants w = (Ok cabin, w1) →
  keeps_free attendant_ok 0 (crew_members w) w cabin.
Proof.
  intros Hrun.
  refine (wp_run _ _ (λ refs _, keeps_free attendant_ok 0 (crew_members w) w refs)
            _ _ _ Hrun).
  unfold available_attendants. apply wp_bind, wp_get_crew_members.
  apply (wp_comprehension_keeps_free attendant_ok);
    [apply attendant_ok_mono|apply wp_attendant_available_now|done].
Qed.

(** ** The first flight of a fresh optimizer *)

Lemma fresh_roster_lookup t crew :
  fresh_roster t crew →
  (∀ i, (i < 10)%nat → ∃ c, crew !! i = Some c ∧ recruit "pilot" t c)
  ∧ (∀ i, (10 ≤ i < 30)%nat → ∃ c, crew !! i = Some c ∧ recruit "attendant" t c).
Proof.
  intros (pilots & cabin & -> & Hlen1 & Hlen2 & Hall1 & Hall2). split.
  - intros i Hi. destruct (lookup_lt_is_Some_2 pilots i) as [c Hc]; [lia|].
    exists c. split; [by apply lookup_app_l_Some|].
    by apply (Forall_lookup_1 _ _ _ _ Hall1 Hc).
  - intros i Hi. destruct (lookup_lt_is_Some_2 cabin (i - 10)) as [c Hc]; [lia|].
    exists c. split; [rewrite lookup_app_r, Hlen1 by lia; done|].
    by apply (Forall_lookup_1 _ _ _ _ Hall2 Hc).
Qed.

Lemma recruit_pilot_ok t c : recruit "pilot" t c → pilot_ok t c = true.
Proof.
  intros (Hrole & Hrest & _ & Hna). unfold pilot_ok.
  rewrite !andb_true_iff, !bool_decide_eq_true. split; [done|]. split; lia.
Qed.

Lemma recruit_attendant_ok t c : recruit "attendant" t c → attendant_ok t c = true.
Proof.
  intros (Hrole & _ & _ & Hna). unfold attendant_ok.
  rewrite !andb_true_iff, !bool_decide_eq_true. done.
Qed.

Lemma pool_holds (pool : list crew_ref) (lo n : nat) :
  NoDup pool → (∀ i, (lo ≤ i < lo + n)%nat → i ∈ pool) → (n ≤ length pool)%nat.
Proof.
  intros Hnd Hin. assert (Hsub : seq lo n ⊆+ pool).
  { apply NoDup_submseteq; [apply NoDup_seq|].
    intros i Hi%elem_of_seq. by apply Hin. }
  apply submseteq_length in Hsub. by rewrite length_seq in Hsub.
Qed.

Lemma roster_ids_truthy i : i ∈ roster_ids → truthy (Some i) = true.
Proof.
  assert (Hall : Forall (λ i, truthy (Some i) = true) roster_ids).
  { refine (bool_decide_eq_true_1 _ _). vm_compute. reflexivity. }
  rewrite Forall_forall in Hall. apply Hall.
Qed.

Lemma id_of_roster w r i :
  id_of w r = Some i → i ∈ crew_id <$> crew_members w.
Proof. unfold id_of. apply list_elem_of_lookup_2. Qed.

Lemma world_ids_same (w w' : World) :
  crew_members w' = crew_members w →
  crew_id <$> crew_members w = crew_id <$> crew_members w'.
Proof. by intros ->. Qed.

Lemma later_call_roster c draws w :
  crew_members (later_call c draws w) = crew_members w.
Proof. reflexivity. Qed.

Lemma fresh_roster_at t t' crew :
  fresh_roster t crew → Forall (λ c, next_available c ≤ t') crew →
  fresh_roster t' crew.
Proof.
  intros (pilots & cabin & -> & Hlp & Hlc & Hp & Hc) Hall.
  apply Forall_app in Hall as [Hall1 Hall2].
  rewrite Forall_forall in Hp, Hc, Hall1, Hall2.
  exists pilots, cabin. do 3 (split; [done|]).
  split; apply Forall_forall; intros c Hin.
  - destruct (Hp c Hin) as (? & ? & ? & _). repeat split; auto.
  - destruct (Hc c Hin) as (? & ? & ? & _). repeat split; auto.
Qed.

(** The roster of a fresh optimizer at a later call whose clock is not
    before the times recorded at construction. *)
Lemma later_fresh w w1 :
  crew_members w1 = crew_members (__init__ w).2 →
  Forall (λ c, next_available c ≤ clock_now (clock w1)) (crew_members w1) →
  (__init__ w).1 = Ok tt
  ∧ fresh_roster (clock_now (clock w1)) (crew_members w1)
  ∧ crew_id <$> crew_members w1 = roster_ids.
Proof.
  intros Hcrew Hfree. destruct (init_fresh_roster w) as (w0 & Hinit & Hfresh).
  pose proof (init_ids w) as Hids. rewrite Hinit in Hcrew, Hids |- *.
  simpl in Hcrew, Hids. split; [reflexivity|]. rewrite Hcrew in Hfree |- *.
  split; [|exact Hids]. exact (fresh_roster_at _ _ _ Hfresh Hfree).
Qed.

(** X8.  A fresh optimizer, called when the clock is not before the times
    recorded at construction, staffs the first flight it is given in
    full, whatever the clock did in between and whatever the random
    draws: the batch returns, the first assignment has a captain, a first
    officer and four attendants, its [crew_count] is 6 and it calls for
    no shortage report; a batch of that one flight has no issues at all.
    Between construction and the call the clock is free; within the call
    it does not step back. *)
Theorem fresh_optimizer_staffs_first_flight (w w1 : World) (f : Flight)
    (later : list Flight) :
  crew_members w1 = crew_members (__init__ w).2 →
  Forall (λ c, next_available c ≤ clock_now (clock w1)) (crew_members w1) →
  ∃ r w' a rest,
    (__init__ w).1 = Ok tt
    ∧ optimize_schedule (f :: later) w1 = (Ok r, w')
    ∧ assignments r = a :: rest
    ∧ is_Some (captain a) ∧ is_Some (first_officer a)
    ∧ length (attendants a) = 4%nat
    ∧ crew_count a = 6%nat
    ∧ shortage_of a = None
    ∧ (later = [] → issues r = []).
Proof.
  intros Hcrew Hfree.
  destruct (later_fresh _ _ Hcrew Hfree) as (Hinit & Hfresh & Hids).
  assert (Hnd : NoDup (crew_id <$> crew_members w1)).
  { rewrite <-(world_ids_same _ _ Hcrew). apply init_ids_distinct. }
  clear Hcrew Hfree. revert Hinit. generalize (__init__ w).1. intros res Hinit.
  rename w1 into w0.
  destruct (LedgerFacts.optimize_schedule_batch (f :: later) w0)
    as (found & w' & Hopt & Hbatch).
  inversion Hbatch as [|? ? pilots cabin a w1 ? rest ? Hrun Hrest]; subst.
  eexists _, w', a, rest. split; [reflexivity|]. split; [exact Hopt|].
  cbn [assignments issues]. split; [done|].
  pose proof (LedgerFacts.flight_run_staffed _ _ _ _ _ _ Hrun) as Hstaffed.
  pose proof (flight_run_crew_distinct _ _ _ _ _ _ Hnd Hrun) as Hcrew.
  destruct Hrun as (w1' & w2 & Hrun1 & Hp1 & Hrun2 & Hp2 & _ & Hsel).
  destruct (fresh_roster_lookup _ _ Hfresh) as [Hpilots Hcabin].
  assert (Hlen1 : (10 ≤ length pilots)%nat).
  { apply (pool_holds pilots 0 10); [apply Hp1|]. intros i Hi.
    destruct (Hpilots i) as (c & Hc & Hrec); [lia|].
    apply (available_pilots_keeps_free _ _ _ Hrun1 i c Hc).
    by apply recruit_pilot_ok. }
  assert (Hlen2 : (20 ≤ length cabin)%nat).
  { apply (pool_holds cabin 10 20); [apply Hp2|]. intros i Hi.
    destruct (Hcabin i) as (c & Hc & Hrec); [lia|].
    destruct Hp1 as ((Hcrew1 & Hle1 & _) & _).
    apply (available_attendants_keeps_free _ _ _ Hrun2 i c); [by rewrite Hcrew1|].
    apply recruit_attendant_ok. by eapply recruit_mono. }
  destruct Hsel as (cap & fo & chosen & Hev & _ & _ & Hcap & Hfo & _ & Hchosen
                    & Hcap_id & Hfo_id & _ & Hatt & _).
  assert (Hid2 : ∀ r i, id_of w2 r = Some i → i ∈ roster_ids).
  { intros r i Hi. apply id_of_roster in Hi.
    destruct Hp1 as ((Hcrew1 & _) & _), Hp2 as ((Hcrew2 & _) & _).
    by rewrite Hcrew2, Hcrew1, Hids in Hi. }
  destruct pilots as [|p0 pilots]; [simpl in Hlen1; lia|].
  destruct Hcap as (rc & -> & _).
  rewrite bool_decide_eq_true_2 in Hfo by lia. destruct Hfo as (ro & -> & _).
  inversion Hcap_id as [? ic Hic Hc1 Hc2|]; subst.
  inversion Hfo_id as [? io Hio Ho1 Ho2|]; subst.
  assert (Hfour : length (attendants a) = 4%nat) by lia.
  assert (Hshort : shortage_of a = None).
  { unfold shortage_of, missing. rewrite <-Hc2, <-Ho2.
    by rewrite (roster_ids_truthy ic (Hid2 _ _ Hic)),
      (roster_ids_truthy io (Hid2 _ _ Hio)). }
  split; [done|]. split; [done|]. split; [done|].
  split.
  { destruct Hstaffed as (sel & ? & ? & ? & _ & _ & _ & _ & _ & _ & _ & _
                          & Hl & Hc & _).
    rewrite Hc, <-Hl. unfold crew_of. rewrite <-Hc2, <-Ho2. simpl. lia. }
  split; [done|]. intros ->. inversion Hrest; subst.
  rewrite DetectorFacts.check_schedule_issues_split. simpl. rewrite Hshort.
  unfold double_bookings_latest_seen. rewrite ScenarioFacts.audit_fresh; [done|].
  eapply sublist_NoDup; [|apply (LedgerFacts.crew_slots_sublist [a])].
  rewrite bind_cons. change ([] ≫= crew_of) with (@nil string).
  rewrite app_nil_r. exact Hcrew.
Qed.

(** A fresh optimizer called after the clock has moved on: the first
    flight of a one-flight batch is staffed in full. *)
Lemma fresh_optimizer_staffs_first_flight_witness :
  (crew_members called_later = crew_members (__init__ before_crew).2
   ∧ Forall (λ c, next_available c ≤ clock_now (clock called_later))
       (crew_members called_later))
  ∧ ∃ r w' a rest,
      (__init__ before_crew).1 = Ok tt
      ∧ optimize_schedule
          [{| flight_id := "GA1000"; aircraft_id := "VT-AXB" |}] called_later
        = (Ok r, w')
      ∧ assignments r = a :: rest
      ∧ is_Some (captain a) ∧ is_Some (first_officer a)
      ∧ length (attendants a) = 4%nat
      ∧ crew_count a = 6%nat
      ∧ shortage_of a = None
      ∧ issues r = [].
Proof.
  assert (H1 : crew_members called_later
               = crew_members (__init__ before_crew).2)
    by (unfold called_later; exact (later_call_roster _ _ _)).
  assert (H2 : Forall (λ c, next_available c ≤ clock_now (clock called_later))
                 (crew_members called_later))
    by (refine (bool_decide_eq_true_1 _ _); vm_compute; reflexivity).
  split; [split; [exact H1|exact H2]|].
  destruct (fresh_optimizer_staffs_first_flight before_crew called_later
              {| flight_id := "GA1000"; aircraft_id := "VT-AXB" |} [] H1 H2)
    as (r & w' & a & rest & Hinit & Hopt & Hasg & Hcap & Hfo & Hatt & Hcount
        & Hshort & Hissues).
  exists r, w', a, rest.
  split; [exact Hinit|]. split; [exact Hopt|]. split; [exact Hasg|].
  split; [exact Hcap|]. split; [exact Hfo|]. split; [exact Hatt|].
  split; [exact Hcount|]. split; [exact Hshort|]. exact (Hissues eq_refl).
Defined.

(** ** How many flights a roster staffs within the first rest period *)

Lemma pool_length (pool : list crew_ref) (lo n : nat) (out : gset crew_ref) :
  NoDup pool → (∀ r, r ∈ out → (lo ≤ r < lo + n)%nat) →
  (∀ r, r ∈ pool ↔ (lo ≤ r < lo + n)%nat ∧ r ∉ out) →
  length pool = (n - size out)%nat.
Proof.
  intros Hnd Hout Hin.
  rewrite <-(size_list_to_set (C := gset nat)) by done.
  assert (list_to_set pool = (set_seq lo n : gset nat) ∖ out) as ->.
  { apply set_eq. intros r.
    rewrite elem_of_list_to_set, elem_of_difference, elem_of_set_seq. apply Hin. }
  rewrite size_difference, size_set_seq; [done|].
  intros r Hr. apply elem_of_set_seq. by apply Hout.
Qed.

Lemma booked_size (out : gset crew_ref) (picked : list crew_ref) :
  NoDup picked → (∀ r, r ∈ picked → r ∉ out) →
  size (out ∪ list_to_set picked) = (size out + length picked)%nat.
Proof.
  intros Hnd Hnew. rewrite size_union, size_list_to_set; [done..|].
  intros r Hr Hr'. apply elem_of_list_to_set in Hr'. by apply (Hnew r).
Qed.

Lemma timedelta_hours_rest dur : 1 ≤ dur → timedelta_hours 11 ≤ timedelta_hours (dur + 10).
Proof. unfold timedelta_hours. lia. Qed.

(** One flight on such a roster: who is assigned is decided by how many
    pilots and attendants are out. *)
Lemma flight_on_duty t pilots_out cabin_out w f pilots cabin a w' :
  on_duty t pilots_out cabin_out w →
  t ≤ clock_now (clock w) →
  clock_now (clock w') < t + timedelta_hours 11 →
  flight_run w f pilots cabin a w' →
  ∃ pilots_out' cabin_out',
    on_duty t pilots_out' cabin_out' w'
    ∧ size pilots_out' = next_pilots (size pilots_out)
    ∧ size cabin_out' = next_cabin (size cabin_out)
    ∧ (is_Some (captain a) ↔ (size pilots_out < 10)%nat)
    ∧ (is_Some (first_officer a) ↔ (size pilots_out < 5)%nat)
    ∧ length (attendants a) = (4 `min` (20 - size cabin_out))%nat.
Proof.
  intros (Hlen & Hpo & Hco & Hall) Ht Hend Hrun.
  destruct (LedgerFacts.flight_run_picked _ _ _ _ _ _ Hrun)
    as (w1 & w2 & Hrun1 & Hp1 & Hrun2 & Hp2 & Hst2 & Hfree & Hpick).
  destruct Hpick as (cap & fo & chosen & dur & w_a & w_b & Hcap & Hfo & Hsub
                     & Hlenc & Hdur & Hnd & Hst_a & Hb & Hst_b & ->).
  assert (Hcrew1 : crew_members w1 = crew_members w) by apply Hp1.
  assert (Hcrew2 : crew_members w2 = crew_members w) by apply Hst2.
  assert (Hcrew_a : crew_members w_a = crew_members w2) by apply Hst_a.
  assert (Hcrew' : crew_members w' = crew_members w_b) by apply Hst_b.
  assert (Hle1 : clock_now (clock w) ≤ clock_now (clock w1)) by apply Hp1.
  assert (Hle2 : clock_now (clock w1) ≤ clock_now (clock w2)) by apply Hp2.
  assert (Hle_a : clock_now (clock w2) ≤ clock_now (clock w_a)) by apply Hst_a.
  assert (Hle_b : clock_now (clock w_a) ≤ clock_now (clock w_b)) by apply Hb.
  assert (Hle' : clock_now (clock w_b) ≤ clock_now (clock w')) by apply Hst_b.
  assert (Hvalid : ∀ r, (r < 30)%nat → ∃ c, crew_members w !! r = Some c).
  { intros r Hr. apply lookup_lt_is_Some. lia. }
  assert (Hfresh : ∀ r c, crew_members w !! r = Some c →
            r ∉ pilots_out → r ∉ cabin_out → next_available c ≤ t).
  { intros r c Hc Hr1 Hr2. destruct (Hall r c Hc) as (_ & _ & Hna).
    rewrite bool_decide_eq_false_2 in Hna; [done|].
    by intros [?|?]%elem_of_union. }
  assert (Hbusy : ∀ r c, crew_members w !! r = Some c →
            r ∈ pilots_out ∪ cabin_out → t + timedelta_hours 11 ≤ next_available c).
  { intros r c Hc Hr. destruct (Hall r c Hc) as (_ & _ & Hna).
    by rewrite bool_decide_eq_true_2 in Hna. }
  assert (Hpil : ∀ r, r ∈ pilots ↔ (0 ≤ r < 0 + 10)%nat ∧ r ∉ pilots_out).
  { intros r. split.
    - intros Hr. destruct Hp1 as (_ & _ & Hok & _).
      destruct (Hok r Hr) as (c & Hc & Hokc).
      destruct (Hall r c Hc) as (_ & Hrole & _).
      pose proof (pilot_ok_role _ _ Hokc) as Hpilot.
      pose proof (pilot_ok_free _ _ Hokc) as Hna.
      split.
      + case_bool_decide; [lia|congruence].
      + intros Hout. pose proof (Hbusy r c Hc ltac:(apply elem_of_union; by left)). lia.
    - intros [Hr Hout]. destruct (Hvalid r) as [c Hc]; [lia|].
      destruct (Hall r c Hc) as (Hrest & Hrole & _).
      rewrite bool_decide_eq_true_2 in Hrole by lia.
      apply (available_pilots_keeps_free _ _ _ Hrun1 r c Hc).
      unfold pilot_ok. rewrite !andb_true_iff, !bool_decide_eq_true.
      split; [done|]. split; [|lia].
      assert (next_available c ≤ t); [|lia].
      apply (Hfresh r c Hc Hout). intros Hr'%Hco. lia. }
  assert (Hcab : ∀ r, r ∈ cabin ↔ (10 ≤ r < 10 + 20)%nat ∧ r ∉ cabin_out).
  { intros r. split.
    - intros Hr. destruct Hp2 as (_ & _ & Hok & _).
      destruct (Hok r Hr) as (c & Hc & Hokc). rewrite Hcrew1 in Hc.
      destruct (Hall r c Hc) as (_ & Hrole & _).
      pose proof (attendant_ok_role _ _ Hokc) as Hatt.
      pose proof (attendant_ok_free _ _ Hokc) as Hna.
      assert (r < 30)%nat by (apply lookup_lt_Some in Hc; lia).
      split.
      + case_bool_decide; [congruence|lia].
      + intros Hout. pose proof (Hbusy r c Hc ltac:(apply elem_of_union; by right)). lia.
    - intros [Hr Hout]. destruct (Hvalid r) as [c Hc]; [lia|].
      destruct (Hall r c Hc) as (Hrest & Hrole & _).
      rewrite bool_decide_eq_false_2 in Hrole by lia.
      apply (available_attendants_keeps_free _ _ _ Hrun2 r c); [by rewrite Hcrew1|].
      unfold attendant_ok. rewrite !andb_true_iff, !bool_decide_eq_true.
      split; [done|].
      assert (next_available c ≤ t); [|lia].
      apply (Hfresh r c Hc); [|done]. intros Hr'%Hpo. lia. }
  assert (Hlenp : length pilots = (10 - size pilots_out)%nat).
  { apply (pool_length pilots 0 10); [apply Hp1| |done]. intros r Hr%Hpo. lia. }
  assert (Hlencab : length cabin = (20 - size cabin_out)%nat).
  { apply (pool_length cabin 10 20); [apply Hp2| |done]. intros r Hr%Hco. lia. }
  assert (Hcap_in : ∀ r, cap = Some r → r ∈ pilots).
  { intros r ->. destruct pilots; [done|]. destruct Hcap as (? & [= <-] & Hr).
    by eapply elem_of_sublist, sublist_take. }
  assert (Hfo_in : ∀ r, fo = Some r → r ∈ pilots).
  { intros r ->. destruct (bool_decide _); [|done]. destruct Hfo as (? & [= <-] & Hr).
    by eapply elem_of_sublist, sublist_drop. }
  assert (Hch_in : ∀ r, r ∈ chosen → r ∈ cabin).
  { intros r Hr. by eapply elem_of_submseteq. }
  assert (Hcap_n : length (option_list cap)
                   = if (size pilots_out <? 10)%nat then 1%nat else 0%nat).
  { destruct pilots as [|p0 pilots'].
    - subst cap. simpl in Hlenp. rewrite (proj2 (Nat.ltb_ge _ _)) by lia. done.
    - destruct Hcap as (r & -> & _). simpl in Hlenp.
      rewrite (proj2 (Nat.ltb_lt _ _)) by lia. done. }
  assert (Hfo_n : length (option_list fo)
                  = if (size pilots_out <? 5)%nat then 1%nat else 0%nat).
  { case_bool_decide as H5.
    - destruct Hfo as (r & -> & _). rewrite (proj2 (Nat.ltb_lt _ _)) by lia. done.
    - subst fo. rewrite (proj2 (Nat.ltb_ge _ _)) by lia. done. }
  assert (Hnd' := Hnd). unfold selection in Hnd'. rewrite app_assoc in Hnd'.
  apply NoDup_app in Hnd' as (Hnd_p & _ & Hnd_c).
  assert (Hsel : ∀ r, r ∈ selection cap fo chosen
                      ↔ r ∈ option_list cap ++ option_list fo ∨ r ∈ chosen).
  { intros r. unfold selection. rewrite app_assoc, elem_of_app. done. }
  assert (Hpicked_p : ∀ r, r ∈ option_list cap ++ option_list fo → r ∈ pilots).
  { intros r [Hr|Hr]%elem_of_app.
    - destruct cap as [r0|]; [|by apply elem_of_nil in Hr].
      apply list_elem_of_singleton in Hr as ->. by apply Hcap_in.
    - destruct fo as [r0|]; [|by apply elem_of_nil in Hr].
      apply list_elem_of_singleton in Hr as ->. by apply Hfo_in. }
  exists (pilots_out ∪ list_to_set (option_list cap ++ option_list fo)),
         (cabin_out ∪ list_to_set chosen).
  split; [|split; [|split; [|split; [|split]]]].
  - split; [|split; [|split]].
    + rewrite Hcrew'. destruct Hb as (_ & -> & _). by rewrite Hcrew_a, Hcrew2.
    + intros r [Hr|Hr%elem_of_list_to_set]%elem_of_union; [by apply Hpo|].
      apply Hpicked_p, Hpil in Hr. lia.
    + intros r [Hr|Hr%elem_of_list_to_set]%elem_of_union; [by apply Hco|].
      apply Hch_in, Hcab in Hr. lia.
    + intros r c' Hc'. rewrite Hcrew' in Hc'.
      assert (Hr30 : (r < 30)%nat).
      { apply lookup_lt_Some in Hc'. destruct Hb as (_ & Hl & _).
        rewrite Hl, Hcrew_a, Hcrew2 in Hc'. lia. }
      destruct (Hvalid r Hr30) as [c Hc].
      destruct (Hall r c Hc) as (Hrest & Hrole & Hna).
      destruct Hb as (_ & _ & Hbooks).
      destruct (Hbooks r c) as [Hout Hin]; [by rewrite Hcrew_a, Hcrew2|].
      destruct (decide (r ∈ selection cap fo chosen)) as [Hr|Hr].
      * destruct (Hin Hr) as (tb & Htb & Hcb). rewrite Hcb in Hc'.
        injection Hc' as <-. simpl. split; [done|]. split; [done|].
        rewrite bool_decide_eq_true_2.
        { pose proof (timedelta_hours_rest dur ltac:(lia)). lia. }
        apply Hsel in Hr as [Hr|Hr].
        -- apply elem_of_union. left. apply elem_of_union. right.
           by apply elem_of_list_to_set.
        -- apply elem_of_union. right. apply elem_of_union. right.
           by apply elem_of_list_to_set.
      * rewrite (Hout Hr) in Hc'. injection Hc' as <-.
        split; [done|]. split; [done|].
        assert (Hiff : r ∈ pilots_out ∪ list_to_set (option_list cap ++ option_list fo)
                         ∪ (cabin_out ∪ list_to_set chosen)
                       ↔ r ∈ pilots_out ∪ cabin_out).
        { rewrite !elem_of_union, !elem_of_list_to_set. split.
          - intros [[?|Hx]|[?|Hx]]; [by left| |by right|].
            + destruct Hr. apply Hsel. by left.
            + destruct Hr. apply Hsel. by right.
          - intros [?|?]; [left; by left|right; by left]. }
        destruct (bool_decide (r ∈ pilots_out ∪ cabin_out)) eqn:Hbd.
        -- apply bool_decide_eq_true in Hbd.
           rewrite bool_decide_eq_true_2 by by apply Hiff. done.
        -- apply bool_decide_eq_false in Hbd.
           rewrite bool_decide_eq_false_2 by by rewrite Hiff. done.
  - rewrite booked_size; [|done|].
    + unfold next_pilots. rewrite length_app, Hcap_n, Hfo_n. lia.
    + intros r Hr. by apply Hpicked_p, Hpil in Hr as [_ ?].
  - rewrite booked_size; [|done|].
    + unfold next_cabin. by rewrite Hlenc, Hlencab.
    + intros r Hr. by apply Hch_in, Hcab in Hr as [_ ?].
  - simpl. destruct cap as [rc|]; simpl in *.
    + destruct (Hfree rc) as (c & Hc & _).
      { apply elem_of_app. left. by apply Hcap_in. }
      unfold id_of. rewrite list_lookup_fmap, Hc. simpl.
      destruct (size pilots_out <? 10)%nat eqn:Hlt; [|done].
      apply Nat.ltb_lt in Hlt. split; [done|by eexists].
    + destruct (size pilots_out <? 10)%nat eqn:Hlt; [done|].
      apply Nat.ltb_ge in Hlt. split; [by intros [? ?]|lia].
  - simpl. destruct fo as [ro|]; simpl in *.
    + destruct (Hfree ro) as (c & Hc & _).
      { apply elem_of_app. left. by apply Hfo_in. }
      unfold id_of. rewrite list_lookup_fmap, Hc. simpl.
      destruct (size pilots_out <? 5)%nat eqn:Hlt; [|done].
      apply Nat.ltb_lt in Hlt. split; [done|by eexists].
    + destruct (size pilots_out <? 5)%nat eqn:Hlt; [done|].
      apply Nat.ltb_ge in Hlt. split; [by intros [? ?]|lia].
  - simpl. rewrite LedgerFacts.pool_ids_length, Hlenc, Hlencab; [done|].
    intros r Hr. destruct (Hfree r) as (c & Hc & _); [|by eexists].
    apply elem_of_app. right. by apply Hch_in.
Qed.

Lemma batch_on_duty w flights found w' :
  batch_run w flights found w' →
  ∀ t pilots_out cabin_out,
    on_duty t pilots_out cabin_out w →
    t ≤ clock_now (clock w) →
    clock_now (clock w') < t + timedelta_hours 11 →
    ∀ k a, found !! k = Some a →
      (is_Some (captain a)
       ↔ (Nat.iter k next_pilots (size pilots_out) < 10)%nat)
      ∧ (is_Some (first_officer a)
         ↔ (Nat.iter k next_pilots (size pilots_out) < 5)%nat)
      ∧ length (attendants a)
        = (4 `min` (20 - Nat.iter k next_cabin (size cabin_out)))%nat.
Proof.
  induction 1 as [|w f pilots cabin a0 w1 flights found w' Hrun Hrest IH];
    intros t pilots_out cabin_out Hduty Ht Hend k a Hk.
  { by rewrite lookup_nil in Hk. }
  pose proof (LedgerFacts.batch_shape _ _ _ _ Hrest) as (Hle1 & _).
  assert (Hle : clock_now (clock w) ≤ clock_now (clock w1))
    by apply (flight_run_evolves _ _ _ _ _ _ Hrun).
  assert (Hend1 : clock_now (clock w1) < t + timedelta_hours 11) by lia.
  assert (Ht1 : t ≤ clock_now (clock w1)) by lia.
  destruct (flight_on_duty t pilots_out cabin_out _ _ _ _ _ _ Hduty Ht Hend1 Hrun)
    as (po' & co' & Hduty' & Hp & Hc & Hcap & Hfo & Hatt).
  destruct k as [|k]; simpl in Hk.
  - injection Hk as <-. done.
  - rewrite !Nat.iter_succ_r, <-Hp, <-Hc.
    apply (IH t po' co' Hduty' Ht1 Hend k a Hk).
Qed.

Lemma pilots_out_after k :
  Nat.iter k next_pilots 0%nat
  = if (k <=? 3)%nat then (2 * k)%nat else (10 `min` (k + 3))%nat.
Proof.
  induction k as [|k IH]; [done|]. rewrite Nat.iter_succ, IH. unfold next_pilots.
  destruct (Nat.leb_spec k 3), (Nat.leb_spec (S k) 3);
    repeat match goal with
           | |- context [(?x <? ?y)%nat] => destruct (Nat.ltb_spec x y)
           end; lia.
Qed.

Lemma cabin_out_after k :
  Nat.iter k next_cabin 0%nat = (20 `min` (4 * k))%nat.
Proof.
  induction k as [|k IH]; [done|]. rewrite Nat.iter_succ, IH. unfold next_cabin. lia.
Qed.

Lemma fresh_on_duty w :
  fresh_roster (clock_now (clock w)) (crew_members w) →
  on_duty (clock_now (clock w)) ∅ ∅ w.
Proof.
  intros Hfresh. destruct (fresh_roster_lookup _ _ Hfresh) as [Hpilots Hcabin].
  destruct Hfresh as (ps & cs & Hcrew & Hlen1 & Hlen2 & _).
  assert (Hlen : length (crew_members w) = 30%nat).
  { rewrite Hcrew, length_app. lia. }
  split; [done|]. split; [by intros r ?%elem_of_empty|].
  split; [by intros r ?%elem_of_empty|].
  intros r c Hc. pose proof (lookup_lt_Some _ _ _ Hc) as Hr.
  rewrite (bool_decide_eq_false_2 (r ∈ (∅ : gset crew_ref) ∪ ∅))
    by (intros [?%elem_of_empty|?%elem_of_empty]%elem_of_union; done).
  case_bool_decide as Hten.
  - destruct (Hpilots r Hten) as (c0 & Hc0 & Hrole & Hrest & _ & Hna).
    by simplify_eq.
  - destruct (Hcabin r) as (c0 & Hc0 & Hrole & Hrest & _ & Hna); [lia|].
    by simplify_eq.
Qed.

Lemma batch_crew_known w flights found w' :
  batch_run w flights found w' →
  ∀ a i, a ∈ found → i ∈ crew_of a → i ∈ crew_id <$> crew_members w.
Proof.
  induction 1 as [|w f pilots cabin a0 w1 flights found w' Hrun Hrest IH];
    intros a i Ha Hi.
  { by apply elem_of_nil in Ha. }
  pose proof (LedgerFacts.flight_run_staffed _ _ _ _ _ _ Hrun) as Hstaffed.
  apply elem_of_cons in Ha as [->|Ha].
  - destruct Hstaffed as (sel & ? & ? & ? & _ & _ & _ & _ & _ & _ & _ & Hcrew & _).
    rewrite Hcrew in Hi. apply elem_of_pool_ids in Hi as (r & _ & Hid).
    by eapply id_of_roster.
  - rewrite <-(LedgerFacts.staffed_ids _ _ _ _ Hstaffed). by eapply IH.
Qed.

Lemma option_list_length {A} (o : option A) (b : bool) :
  (is_Some o ↔ b = true) →
  length (option_list o) = if b then 1%nat else 0%nat.
Proof.
  intros Hb. destruct o as [x|], b; simpl; try done.
  - destruct Hb as [Hb _]. by discriminate Hb.
  - destruct Hb as [_ Hb]. by destruct Hb.
Qed.

Lemma truthy_when (o : option string) (b : bool) :
  (is_Some o ↔ b = true) →
  (∀ i, o = Some i → truthy (Some i) = true) →
  truthy o = b.
Proof.
  intros Hb Hknown. destruct o as [i|].
  - rewrite (Hknown i eq_refl). symmetry. by apply Hb.
  - destruct b; [|done]. destruct Hb as [_ Hb]. by destruct Hb.
Qed.

(** X9.  How far the roster of a fresh optimizer goes, when it is called
    with the clock not before the times recorded at construction.  In a
    batch that ends less than 11 hours after it started, whatever the
    random draws: the first three flights get a captain, a first officer
    and four attendants; the fourth flight gets no first officer although
    four pilots are still free, because a first officer is only drawn
    from the pilots after the fifth; flights four to seven get a captain
    only, later flights no pilot; attendants last for five flights.
    [crew_count] and the shortage each assignment calls for follow.
    Between construction and the call the clock is free; within the call
    it does not step back. *)
Theorem fresh_optimizer_capacity (w w1 : World) (flights : list Flight) :
  crew_members w1 = crew_members (__init__ w).2 →
  Forall (λ c, next_available c ≤ clock_now (clock w1)) (crew_members w1) →
  ∃ r w',
    optimize_schedule flights w1 = (Ok r, w')
    ∧ (clock_now (clock w') < clock_now (clock w1) + timedelta_hours 11 →
       ∀ k a, assignments r !! k = Some a →
         (is_Some (captain a) ↔ (k < 7)%nat)
         ∧ (is_Some (first_officer a) ↔ (k < 3)%nat)
         ∧ length (attendants a) = (if (k <? 5)%nat then 4 else 0)%nat
         ∧ crew_count a
           = ((if (k <? 7)%nat then 1 else 0) + (if (k <? 3)%nat then 1 else 0)
              + (if (k <? 5)%nat then 4 else 0))%nat
         ∧ shortage_of a
           = if (k <? 3)%nat then None
             else Some (CREW_SHORTAGE (asg_flight_id a)
                          (if (k <? 7)%nat then "first_officer" else "captain")
                          "CRITICAL")).
Proof.
  intros Hcrew Hfree.
  destruct (later_fresh _ _ Hcrew Hfree) as (_ & Hfresh & Hids).
  clear Hcrew Hfree. rename w1 into w0.
  destruct (LedgerFacts.optimize_schedule_batch flights w0)
    as (found & w' & Hopt & Hbatch).
  eexists _, w'. split; [exact Hopt|].
  cbn [assignments]. intros Hquick k a Hk.
  assert (Hnow : clock_now (clock w0) ≤ clock_now (clock w0)) by lia.
  destruct (batch_on_duty _ _ _ _ Hbatch _ ∅ ∅ (fresh_on_duty _ Hfresh)
              Hnow Hquick k a Hk) as (Hcap & Hfo & Hatt).
  rewrite size_empty, pilots_out_after in Hcap, Hfo.
  rewrite size_empty, cabin_out_after in Hatt.
  assert (Hcap' : is_Some (captain a) ↔ (k < 7)%nat).
  { rewrite Hcap. destruct (Nat.leb_spec k 3); lia. }
  assert (Hfo' : is_Some (first_officer a) ↔ (k < 3)%nat).
  { rewrite Hfo. destruct (Nat.leb_spec k 3); lia. }
  assert (Hatt' : length (attendants a) = (if (k <? 5)%nat then 4 else 0)%nat).
  { rewrite Hatt. destruct (Nat.ltb_spec k 5); lia. }
  assert (Hknown : ∀ i, i ∈ crew_of a → truthy (Some i) = true).
  { intros i Hi. apply roster_ids_truthy. rewrite <-Hids.
    eapply batch_crew_known; [exact Hbatch| |exact Hi].
    by eapply list_elem_of_lookup_2. }
  pose proof (LedgerFacts.batch_shape _ _ _ _ Hbatch) as (_ & _ & _ & Hall & _).
  apply (Forall_lookup_1 _ _ _ _ Hall) in Hk as (Hcount & _).
  assert (Hcap_b : is_Some (captain a) ↔ (k <? 7)%nat = true)
    by by rewrite Hcap', Nat.ltb_lt.
  assert (Hfo_b : is_Some (first_officer a) ↔ (k <? 3)%nat = true)
    by by rewrite Hfo', Nat.ltb_lt.
  assert (Hcap_t : truthy (captain a) = (k <? 7)%nat).
  { apply truthy_when; [done|]. intros i Hi. apply Hknown. unfold crew_of.
    rewrite Hi. left. }
  assert (Hfo_t : truthy (first_officer a) = (k <? 3)%nat).
  { apply truthy_when; [done|]. intros i Hi. apply Hknown. unfold crew_of.
    rewrite Hi. apply elem_of_app. right. left. }
  split; [done|]. split; [done|]. split; [done|]. split.
  - rewrite Hcount. unfold crew_of.
    by rewrite !length_app, Hatt', (option_list_length _ _ Hcap_b),
      (option_list_length _ _ Hfo_b), Nat.add_assoc.
  - unfold shortage_of, missing. rewrite Hcap_t, Hfo_t.
    destruct (Nat.ltb_spec k 7), (Nat.ltb_spec k 3); try lia; reflexivity.
Qed.

(** A fresh optimizer called after the clock has moved on, with eight
    flights in a batch that takes no time to speak of. *)
Lemma fresh_optimizer_capacity_witness :
  (crew_members called_later = crew_members (__init__ before_crew).2
   ∧ Forall (λ c, next_available c ≤ clock_now (clock called_later))
       (crew_members called_later))
  ∧ clock_now (clock (optimize_schedule eight_flights called_later).2)
    < clock_now (clock called_later) + timedelta_hours 11
  ∧ ∃ r w',
      optimize_schedule eight_flights called_later = (Ok r, w')
      ∧ (clock_now (clock w') < clock_now (clock called_later) + timedelta_hours 11 →
         ∀ k a, assignments r !! k = Some a →
           (is_Some (captain a) ↔ (k < 7)%nat)
           ∧ (is_Some (first_officer a) ↔ (k < 3)%nat)
           ∧ length (attendants a) = (if (k <? 5)%nat then 4 else 0)%nat
           ∧ crew_count a
             = ((if (k <? 7)%nat then 1 else 0)
                + (if (k <? 3)%nat then 1 else 0)
                + (if (k <? 5)%nat then 4 else 0))%nat
           ∧ shortage_of a
             = if (k <? 3)%nat then None
               else Some (CREW_SHORTAGE (asg_flight_id a)
                            (if (k <? 7)%nat then "first_officer"
                             else "captain")
                            "CRITICAL")).
Proof.
  assert (H1 : crew_members called_later
               = crew_members (__init__ before_crew).2)
    by (unfold called_later; exact (later_call_roster _ _ _)).
  assert (H2 : Forall (λ c, next_available c ≤ clock_now (clock called_later))
                 (crew_members called_later))
    by (refine (bool_decide_eq_true_1 _ _); vm_compute; reflexivity).
  split; [split; [exact H1|exact H2]|].
  split; [vm_compute; reflexivity|].
  exact (fresh_optimizer_capacity before_crew called_later eight_flights H1 H2).
Defined.

Lemma books_nobody f rest w w' :
  books f rest [] w w' → crew_members w' = crew_members w.
Proof.
  intros (_ & Hlen & Hrec). apply list_eq. intros r.
  destruct (crew_members w !! r) as [c|] eqn:Hc.
  - destruct (Hrec r c Hc) as [Hkeep _]. apply Hkeep. apply not_elem_of_nil.
  - apply lookup_ge_None. rewrite Hlen. by apply lookup_ge_None.
Qed.

(** A flight all of whose clock readings lie before every member's
    [next_available]: both pools are empty and nobody is booked. *)
Lemma flight_nobody_free w f pilots cabin a w' :
  flight_run w f pilots cabin a w' →
  Forall (λ c, clock_now (clock w') < next_available c) (crew_members w) →
  crew_members w' = crew_members w
  ∧ captain a = None ∧ first_officer a = None ∧ attendants a = []
  ∧ crew_count a = 0%nat.
Proof.
  intros Hrun Hlate. rewrite Forall_forall in Hlate.
  destruct (LedgerFacts.flight_run_picked _ _ _ _ _ _ Hrun)
    as (w1 & w2 & _ & Hp1 & _ & Hp2 & Hst & _ & Hpick).
  destruct Hpick as (cap & fo & chosen & dur & w_a & w_b & Hcap & Hfo & Hsub
                     & _ & _ & _ & Hst_a & Hbooks & Hst_b & ->).
  destruct Hst as (Hcrew2 & Hclk2 & _).
  destruct Hst_a as (Hcrew_a & Hclk_a & _).
  destruct Hst_b as (Hcrew_b & Hclk_b & _).
  pose proof Hbooks as (Hclk_ab & _).
  destruct Hp1 as ((Hcrew1 & Hclk1 & _) & _ & Hin1 & _).
  destruct Hp2 as ((_ & Hclk12 & _) & _ & Hin2 & _).
  assert (Hpilots : pilots = []).
  { destruct pilots as [|p ps]; [done|]. exfalso.
    destruct (Hin1 p) as (c & Hc & Hok); [left|].
    apply pilot_ok_free in Hok.
    pose proof (Hlate c (list_elem_of_lookup_2 _ _ _ Hc)). lia. }
  assert (Hcabin : cabin = []).
  { destruct cabin as [|p ps]; [done|]. exfalso.
    destruct (Hin2 p) as (c & Hc & Hok); [left|].
    apply attendant_ok_free in Hok. rewrite Hcrew1 in Hc.
    pose proof (Hlate c (list_elem_of_lookup_2 _ _ _ Hc)). lia. }
  subst pilots cabin. simpl in Hcap, Hfo. subst cap fo.
  apply submseteq_nil_r in Hsub. subst chosen.
  cbn [captain first_officer attendants crew_count].
  split; [|done].
  rewrite Hcrew_b, (books_nobody _ _ _ _ Hbooks), Hcrew_a. exact Hcrew2.
Qed.

Lemma batch_nobody_free w flights found w' :
  batch_run w flights found w' →
  Forall (λ c, clock_now (clock w') < next_available c) (crew_members w) →
  crew_members w' = crew_members w
  ∧ ∀ a, a ∈ found →
      captain a = None ∧ first_officer a = None ∧ attendants a = []
      ∧ crew_count a = 0%nat.
Proof.
  induction 1 as [w|w f pilots cabin a w1 flights found w' Hrun Hrest IH];
    intros Hlate.
  - split; [done|]. intros a Ha. by apply elem_of_nil in Ha.
  - pose proof (LedgerFacts.batch_shape _ _ _ _ Hrest) as (Hclk & _).
    destruct (flight_nobody_free _ _ _ _ _ _ Hrun) as (Hsame & Hnone).
    { eapply Forall_impl; [exact Hlate|]. simpl. intros c Hc. lia. }
    rewrite <-Hsame in Hlate. destruct (IH Hlate) as (Hsame' & Hall).
    split; [congruence|].
    intros b [->|Hb]%elem_of_cons; [exact Hnone|by apply Hall].
Qed.

(** X25.  The eligibility test is against the clock of the call: a batch
    whose clock, to its end, is before every member's [next_available]
    staffs nobody.  Every flight gets an assignment without captain,
    first officer or attendants, which calls for a CRITICAL shortage
    report naming the captain, and the roster is left as it was.  This is
    what happens to a fresh optimizer when the wall clock has been set
    back to before its construction. *)
Theorem early_clock_staffs_nobody (w : World) (flights : list Flight) :
  ∃ r w',
    optimize_schedule flights w = (Ok r, w')
    ∧ (Forall (λ c, clock_now (clock w') < next_available c) (crew_members w) →
       crew_members w' = crew_members w
       ∧ length (assignments r) = length flights
       ∧ ∀ a, a ∈ assignments r →
           captain a = None ∧ first_officer a = None ∧ attendants a = []
           ∧ crew_count a = 0%nat
           ∧ shortage_of a
             = Some (CREW_SHORTAGE (asg_flight_id a) "captain" "CRITICAL")).
Proof.
  destruct (LedgerFacts.optimize_schedule_batch flights w)
    as (found & w' & Hopt & Hbatch).
  eexists _, w'. split; [exact Hopt|]. cbn [assignments]. intros Hlate.
  destruct (batch_nobody_free _ _ _ _ Hbatch Hlate) as (Hsame & Hall).
  split; [exact Hsame|]. split.
  { pose proof (LedgerFacts.batch_shape _ _ _ _ Hbatch) as (_ & Hids & _).
    apply (f_equal length) in Hids. by rewrite !length_fmap in Hids. }
  intros a Ha. destruct (Hall a Ha) as (Hcap & Hfo & Hatt & Hcount).
  do 4 (split; [done|]). unfold shortage_of, missing. by rewrite Hcap.
Qed.

(** A fresh optimizer called after the clock was set back to before its
    construction: three flights, nobody assigned. *)
Lemma early_clock_staffs_nobody_witness :
  Forall (λ c, clock_now
                 (clock (optimize_schedule three_flights
                           called_after_step_back).2)
               < next_available c)
    (crew_members called_after_step_back)
  ∧ ∃ r w',
      optimize_schedule three_flights called_after_step_back = (Ok r, w')
      ∧ crew_members w' = crew_members called_after_step_back
      ∧ length (assignments r) = 3%nat
      ∧ ∀ a, a ∈ assignments r →
          captain a = None ∧ first_officer a = None ∧ attendants a = []
          ∧ crew_count a = 0%nat
          ∧ shortage_of a
            = Some (CREW_SHORTAGE (asg_flight_id a) "captain" "CRITICAL").
Proof.
  assert (H : Forall (λ c, clock_now
                             (clock (optimize_schedule three_flights
                                       called_after_step_back).2)
                           < next_available c)
                (crew_members called_after_step_back))
    by (refine (bool_decide_eq_true_1 _ _); vm_compute; reflexivity).
  split; [exact H|].
  destruct (early_clock_staffs_nobody called_after_step_back three_flights)
    as (r & w' & Hopt & Hnobody).
  exists r, w'. split; [exact Hopt|]. apply Hnobody.
  assert (Hw : w' = (optimize_schedule three_flights
                       called_after_step_back).2) by (by rewrite Hopt).
  rewrite Hw. exact H.
Defined.

End RosterFacts.

(** * The attendants of a flight and the pool they are drawn from *)
Module CabinFacts.
Import CrewOptimizer DetectorSpec EngineSpec LedgerSpec RosterSpec.
Import EngineFacts.

Lemma in_batch_first w0 f w pilots cabin a w' :
  in_batch w0 [] f w pilots cabin a w' → w = w0.
Proof. intros (earlier & Happ & _). simpl in Happ. by injection Happ. Qed.

(** The attendant pool of a flight started in [w]: it holds every
    attendant that is free when the flight starts and only attendants
    that are free by the reading [t] at which the pool is complete, each
    once; with a clock that stands still it is exactly the free
    attendants, in roster order. *)
Lemma flight_run_cabin w f pilots cabin a w' :
  flight_run w f pilots cabin a w' →
  NoDup cabin
  ∧ (∃ t, clock_now (clock w) ≤ t ≤ assignment_time a
          ∧ ∀ i, i ∈ cabin →
              ∃ c, crew_members w !! i = Some c
                   ∧ role c = "attendant" ∧ next_available c ≤ t)
  ∧ (∀ i c, crew_members w !! i = Some c → role c = "attendant" →
            next_available c ≤ clock_now (clock w) → i ∈ cabin)
  ∧ (frozen (clock w) →
     cabin = keep_refs (attendant_ok (clock_now (clock w))) 0%nat
               (crew_members w)).
Proof.
  intros Hrun.
  destruct (LedgerFacts.flight_run_picked _ _ _ _ _ _ Hrun)
    as (w1 & w2 & _ & Hp1 & Hrun2 & Hp2 & Hst & _ & Hpick).
  destruct Hpick as (cap & fo & chosen & dur & w_a & w_b & _ & _ & _ & _ & _
                     & _ & Hst_a & Hbooks & _ & ->).
  destruct Hst as (_ & Hclk2 & _). destruct Hst_a as (_ & Hclk_a & _).
  destruct Hbooks as (Hclk_ab & _).
  destruct Hp1 as ((Hcrew1 & Hclk1 & Hfrozen1) & _).
  destruct Hp2 as (_ & Hnd & Hin & Hexact).
  split; [exact Hnd|]. split; [|split].
  - exists (clock_now (clock w2)). cbn [assignment_time].
    split; [lia|]. intros i Hi. destruct (Hin i Hi) as (c & Hc & Hok).
    exists c. rewrite <-Hcrew1. split; [exact Hc|].
    split; [by eapply attendant_ok_role|by apply attendant_ok_free].
  - intros i c Hc Hrole Hfree.
    apply (RosterFacts.available_attendants_keeps_free _ _ _ Hrun2 i c).
    + by rewrite Hcrew1.
    + unfold attendant_ok.
      rewrite (bool_decide_eq_true_2 _ Hrole), bool_decide_eq_true_2; [done|lia].
  - intros Hfrozen. destruct (Hfrozen1 Hfrozen) as (Hfrozen' & Hnow).
    rewrite (Hexact Hfrozen'), Hnow, Hcrew1. reflexivity.
Qed.

(** C8.  For every flight of every batch over a roster with pairwise
    different crew ids.  The eligible attendant pool [cabin] the flight
    computes holds, each once, every attendant whose [next_available] is
    not after the clock at the start of the flight, and only attendants
    whose [next_available] is not after the reading [t] at which the pool
    is complete (with a clock that stands still: exactly the free
    attendants).  The attendant list of the assignment has no
    duplicates, every id in it is the id of a member of that pool, and
    its length is the minimum of 4 and the size of the pool; so with [n]
    attendants free at the start of the flight at least [min 4 n] are
    assigned. *)
Theorem attendants_distinct_from_pool (w0 : World)
    (before : list Flight) (f : Flight) (after : list Flight) :
  NoDup (crew_id <$> crew_members w0) →
  ∃ w pilots cabin a w' r w_end,
    in_batch w0 before f w pilots cabin a w'
    ∧ optimize_schedule (before ++ f :: after) w0 = (Ok r, w_end)
    ∧ assignments r !! length before = Some a
    ∧ NoDup cabin
    ∧ (∃ t, clock_now (clock w) ≤ t ≤ assignment_time a
            ∧ ∀ i, i ∈ cabin →
                ∃ c, crew_members w !! i = Some c
                     ∧ role c = "attendant" ∧ next_available c ≤ t)
    ∧ (∀ i c, crew_members w !! i = Some c → role c = "attendant" →
              next_available c ≤ clock_now (clock w) → i ∈ cabin)
    ∧ (frozen (clock w) →
       cabin = keep_refs (attendant_ok (clock_now (clock w))) 0%nat
                 (crew_members w))
    ∧ NoDup (attendants a)
    ∧ (∀ i, i ∈ attendants a → i ∈ pool_ids w cabin)
    ∧ length (attendants a) = (4 `min` length cabin)%nat
    ∧ (∀ free, NoDup free →
         (∀ i, i ∈ free →
               ∃ c, crew_members w !! i = Some c ∧ role c = "attendant"
                    ∧ next_available c ≤ clock_now (clock w)) →
         (4 `min` length free ≤ length (attendants a))%nat).
Proof.
  intros Hids.
  destruct (batch_flight w0 before f after)
    as (w & pilots & cabin & a & w' & r & w_end
        & Hin & Hrun & Hopt & Hnth & _ & Hev & _).
  exists w, pilots, cabin, a, w', r, w_end. do 3 (split; [done|]).
  rewrite <-(world_ids_evolve _ _ Hev) in Hids.
  destruct (flight_run_facts _ _ _ _ _ _ Hids Hrun)
    as (_ & _ & _ & _ & Hnda & Hfrom & Hlen).
  destruct (flight_run_cabin _ _ _ _ _ _ Hrun)
    as (Hnd & Hsound & Hcomplete & Hexact).
  do 7 (split; [done|]). intros free Hndf Hfree.
  assert (Hsub : free ⊆+ cabin).
  { apply NoDup_submseteq; [exact Hndf|]. intros i Hi.
    destruct (Hfree i Hi) as (c & Hc & Hrole & Hle). by eapply Hcomplete. }
  apply submseteq_length in Hsub. lia.
Qed.

(** The twenty attendants of a fresh roster are free at the clock the
    constructor leaves. *)
Lemma fresh_cabin_free w i :
  (10 ≤ i < 30)%nat →
  ∃ c, crew_members (__init__ w).2 !! i = Some c ∧ role c = "attendant"
       ∧ next_available c ≤ clock_now (clock (__init__ w).2).
Proof.
  intros Hi. destruct (RosterFacts.init_fresh_roster w) as (w0 & Hinit & Hfresh).
  rewrite Hinit. cbn [snd].
  destruct (RosterFacts.fresh_roster_lookup _ _ Hfresh) as [_ Hc].
  destruct (Hc i Hi) as (c & Hlook & Hrole & _ & _ & Hle). exists c.
  split; [exact Hlook|]. split; [exact Hrole|exact Hle].
Qed.

(** A one-flight batch on the roster of [__init__]: all twenty attendants
    are in the pool and four of them are assigned. *)
Lemma attendants_distinct_from_pool_witness :
  NoDup (crew_id <$> crew_members fresh_world)
  ∧ ∃ w pilots cabin a w' r w_end,
      in_batch fresh_world [] {| flight_id := "GA1000"; aircraft_id := "VT-AXB" |}
        w pilots cabin a w'
      ∧ optimize_schedule
          ([] ++ {| flight_id := "GA1000"; aircraft_id := "VT-AXB" |} :: [])
          fresh_world = (Ok r, w_end)
      ∧ assignments r !! length (@nil Flight) = Some a
      ∧ NoDup cabin
      ∧ (20 ≤ length cabin)%nat
      ∧ NoDup (attendants a)
      ∧ (∀ i, i ∈ attendants a → i ∈ pool_ids w cabin)
      ∧ length (attendants a) = 4%nat.
Proof.
  assert (H : NoDup (crew_id <$> crew_members fresh_world))
    by apply init_ids_distinct.
  split; [exact H|].
  destruct (attendants_distinct_from_pool fresh_world []
              {| flight_id := "GA1000"; aircraft_id := "VT-AXB" |} [] H)
    as (w & pilots & cabin & a & w' & r & w_end & Hin & Hopt & Hnth & Hnd
        & _ & Hcomplete & _ & Hnda & Hfrom & Hlen & _).
  assert (Hw : w = fresh_world) by exact (in_batch_first _ _ _ _ _ _ _ Hin).
  assert (Hall : (20 ≤ length cabin)%nat).
  { apply (RosterFacts.pool_holds cabin 10 20 Hnd). intros i Hi.
    assert (Hi' : (10 ≤ i < 30)%nat) by lia.
    destruct (fresh_cabin_free before_crew i Hi') as (c & Hc & Hrole & Hle).
    apply (Hcomplete i c); [rewrite Hw; exact Hc|exact Hrole|].
    rewrite Hw. exact Hle. }
  exists w, pilots, cabin, a, w', r, w_end.
  split; [exact Hin|]. split; [exact Hopt|]. split; [exact Hnth|].
  split; [exact Hnd|]. split; [exact Hall|]. split; [exact Hnda|].
  split; [exact Hfrom|]. rewrite Hlen. lia.
Defined.

End CabinFacts.

(** * The assembled system and its loops *)
Module PipelineFacts.
Import Main MainSpec PipelineSpec.
Import MainFacts.

(** ** The constructor *)

Lemma keeps_print {B} (proj : System → B) line :
  (∀ s out, proj {| config := config s; components := components s;
                    flights_data := flights_data s;
                    alerts_queue := alerts_queue s; is_running := is_running s;
                    sys_clock := sys_clock s; critical_log := critical_log s;
                    stdout := out; calls := calls s |} = proj s) →
  keeps proj (print line).
Proof. intros H s. apply H. Qed.

Lemma initialize_component_keeps {B} (proj : System → B) method_body comps
    name cname names (cfg : PyVal) :
  (∀ s out, proj {| config := config s; components := components s;
                    flights_data := flights_data s;
                    alerts_queue := alerts_queue s; is_running := is_running s;
                    sys_clock := sys_clock s; critical_log := critical_log s;
                    stdout := out; calls := calls s |} = proj s) →
  keeps proj
    (initialize_component comps (name, py_class method_body cname 0 names, cfg)).
Proof. intros Hproj s. rewrite initialize_component_run. apply Hproj. Qed.

Lemma initialize_components_keeps {B} (proj : System → B) method_body :
  (∀ s out, proj {| config := config s; components := components s;
                    flights_data := flights_data s;
                    alerts_queue := alerts_queue s; is_running := is_running s;
                    sys_clock := sys_clock s; critical_log := critical_log s;
                    stdout := out; calls := calls s |} = proj s) →
  keeps proj (_initialize_components method_body).
Proof.
  intros Hproj.
  unfold _initialize_components, component_configs,
    LogProcessor, DelayPredictor, CrewOptimizer, LoadPredictor, HealthMonitor,
    RouteMonitor, Dashboard, Reporter.
  apply keeps_bind; [by intros ?|]. intros cfg. cbn [initialize_each].
  repeat (apply keeps_bind; [by apply initialize_component_keeps|intros ?]).
  apply keeps_ret.
Qed.

Lemma closing_messages_result cfg s :
  (closing_messages cfg s).1 = closing_result cfg.
Proof.
  unfold closing_messages, closing_result, mbind, Py_bind, lift, print.
  destruct (py_getitem cfg "airline_name"); [|done].
  destruct (py_getitem cfg "hub_airport"); [|done].
  destruct (py_getitem cfg "aircraft_fleet") as [fleet|]; [|done].
  by destruct (py_len fleet).
Qed.

Lemma closing_messages_keeps {B} (proj : System → B) cfg :
  (∀ s out, proj {| config := config s; components := components s;
                    flights_data := flights_data s;
                    alerts_queue := alerts_queue s; is_running := is_running s;
                    sys_clock := sys_clock s; critical_log := critical_log s;
                    stdout := out; calls := calls s |} = proj s) →
  keeps proj (closing_messages cfg).
Proof.
  intros Hproj. unfold closing_messages.
  repeat first [ apply keeps_lift
               | apply keeps_print, Hproj
               | apply keeps_bind; [|intros ?] ].
Qed.

(** [__init__] up to its closing messages: the state they start in. *)
Lemma init_split method_body cfg s0 :
  ∃ s2, __init__ method_body cfg s0 = closing_messages cfg s2
        ∧ components s2 = no_components ∧ config s2 = cfg
        ∧ flights_data s2 = VDict [] ∧ alerts_queue s2 = []
        ∧ is_running s2 = false
        ∧ calls s2 = calls s0 ∧ critical_log s2 = critical_log s0
        ∧ sys_clock s2 = sys_clock s0.
Proof.
  set (s0' := {| config := cfg; components := components s0;
                 flights_data := flights_data s0; alerts_queue := alerts_queue s0;
                 is_running := is_running s0; sys_clock := sys_clock s0;
                 critical_log := critical_log s0; stdout := stdout s0;
                 calls := calls s0 |}).
  destruct (initialize_components_run method_body s0') as (s1 & Hs1).
  pose proof (initialize_components_keeps config method_body
                ltac:(by intros) s0') as Hcfg.
  pose proof (initialize_components_keeps calls method_body
                ltac:(by intros) s0') as Hcalls.
  pose proof (initialize_components_keeps critical_log method_body
                ltac:(by intros) s0') as Hlog.
  pose proof (initialize_components_keeps sys_clock method_body
                ltac:(by intros) s0') as Hclock.
  rewrite Hs1 in Hcfg, Hcalls, Hlog, Hclock. cbn [snd] in *.
  exists {| config := config s1; components := no_components;
            flights_data := VDict []; alerts_queue := [];
            is_running := false; sys_clock := sys_clock s1;
            critical_log := critical_log s1; stdout := stdout s1;
            calls := calls s1 |}.
  split; [|by repeat split].
  unfold __init__. unfold mbind at 1. unfold Py_bind at 1.
  unfold set_config at 1. cbv beta iota. fold s0'.
  unfold mbind at 1. unfold Py_bind at 1. rewrite Hs1.
  reflexivity.
Qed.

Lemma init_result method_body cfg s0 :
  (__init__ method_body cfg s0).1 = closing_result cfg.
Proof.
  destruct (init_split method_body cfg s0) as (s2 & -> & _).
  apply closing_messages_result.
Qed.

Lemma no_components_lookup_other key :
  key ∉ component_keys → no_components !! key = None.
Proof.
  unfold component_keys. rewrite !not_elem_of_cons. intros (?&?&?&?&?&?&?&?&_).
  unfold no_components. by rewrite !lookup_insert_ne, lookup_empty by done.
Qed.

Lemma instantiate_rejects method_body cname names (cfg : PyVal) s :
  ∃ msg, instantiate (py_class method_body cname 0 names) [cfg] s
         = (Raise (TypeError msg), s).
Proof. eexists. reflexivity. Qed.

(** X10.  The constructor, for every configuration and whatever the component
    modules do: each of the eight classes rejects the configuration
    argument with [TypeError]; the components dictionary has exactly the
    eight keys, each with [None]; data, queue and flag are the initial
    ones, and no component method was called; whether the constructor
    returns or raises is decided by the three closing messages alone. *)
Theorem constructor_outcome (method_body : string → string → Method)
    (cfg : PyVal) (s0 : System) :
  let r := __init__ method_body cfg s0 in
  Forall (λ entry, ∃ msg, instantiate entry.1.2 [entry.2] s0
                          = (Raise (TypeError msg), s0))
    (component_configs method_body cfg)
  ∧ (∀ key, components r.2 !! key
            = if bool_decide (key ∈ component_keys) then Some None else None)
  ∧ config r.2 = cfg ∧ flights_data r.2 = VDict []
  ∧ alerts_queue r.2 = [] ∧ is_running r.2 = false
  ∧ calls r.2 = calls s0 ∧ critical_log r.2 = critical_log s0
  ∧ sys_clock r.2 = sys_clock s0
  ∧ r.1 = closing_result cfg.
Proof.
  intros r. split.
  { unfold component_configs. repeat constructor; apply instantiate_rejects. }
  assert (Hres : r.1 = closing_result cfg) by apply init_result.
  destruct (init_split method_body cfg s0)
    as (s2 & Hrun & Hcomp & Hcfg & Hfd & Hq & Hflag & Hcalls & Hlog & Hclock).
  assert (Hr : r = closing_messages cfg s2) by exact Hrun.
  clearbody r. subst r.
  split.
  { intros key.
    rewrite (closing_messages_keeps components cfg ltac:(by intros) s2), Hcomp.
    destruct (bool_decide (key ∈ component_keys)) eqn:Hkey.
    - apply bool_decide_eq_true in Hkey. by apply no_components_lookup.
    - apply bool_decide_eq_false in Hkey. by apply no_components_lookup_other. }
  rewrite (closing_messages_keeps config cfg ltac:(by intros) s2).
  rewrite (closing_messages_keeps flights_data cfg ltac:(by intros) s2).
  rewrite (closing_messages_keeps alerts_queue cfg ltac:(by intros) s2).
  rewrite (closing_messages_keeps is_running cfg ltac:(by intros) s2).
  rewrite (closing_messages_keeps calls cfg ltac:(by intros) s2).
  rewrite (closing_messages_keeps critical_log cfg ltac:(by intros) s2).
  rewrite (closing_messages_keeps sys_clock cfg ltac:(by intros) s2).
  by repeat split.
Qed.

(** X11.  With the configuration [_load_config] creates when there is no
    configuration file the constructor raises [KeyError]: the dictionary
    has no ['aircraft_fleet'] entry for the third closing message. *)
Theorem default_configuration_is_rejected
    (method_body : string → string → Method) (thresholds : PyVal)
    (s0 : System) :
  (__init__ method_body (default_config_with thresholds) s0).1
  = Raise (KeyError "aircraft_fleet").
Proof. rewrite init_result. reflexivity. Qed.

(** ** Instances of the component classes *)

Lemma producer_class_lacks_method method_body p :
  methods (new_instance (producer_class method_body p)) !! producer_method p
  = None.
Proof. destruct p; vm_compute; reflexivity. Qed.

Lemma call_method_missing key obj meth arg s :
  methods obj !! meth = None →
  call_method key obj meth arg s = (Raise (AttributeError meth), s).
Proof. intros Hm. unfold call_method. unfold Method in *. by rewrite Hm. Qed.

Lemma get_component_run key c s :
  components s !! key = Some c → get_component key s = (Ok c, s).
Proof. intros Hc. unfold get_component. by rewrite Hc. Qed.

(** X12.  Even with an instance of its class under its key, a producer loop
    evaluates nothing: the method it calls ([monitor], [predict],
    [optimize], [update]) is not one the class defines, the
    [AttributeError] is caught and reported, and the iteration ends with
    the queue as it was and without any component method having run. *)
Theorem producer_calls_undefined_method
    (method_body : string → string → Method) (p : Producer) (s : System) :
  components s !! producer_key p
  = Some (Some (new_instance (producer_class method_body p))) →
  py_truthy (flights_data s) = true →
  ∃ s' line,
    iteration p s = (Ok tt, s')
    ∧ stdout s' = stdout s ++ [line]
    ∧ alerts_queue s' = alerts_queue s
    ∧ calls s' = calls s
    ∧ components s' = components s
    ∧ flights_data s' = flights_data s
    ∧ is_running s' = is_running s
    ∧ critical_log s' = critical_log s.
Proof.
  intros Hobj Hfd.
  pose proof (producer_class_lacks_method method_body p) as Hm.
  set (obj := new_instance (producer_class method_body p)) in *. clearbody obj.
  destruct p; cbn [iteration producer_key producer_method] in *.
  - unfold _monitor_health_iteration, try_except, mbind, Py_bind.
    rewrite (get_component_run _ _ _ Hobj). cbn [get_flights_data].
    unfold get_flights_data. rewrite Hfd, (call_method_missing _ _ _ _ _ Hm).
    eexists _, _. split; [reflexivity|]. by repeat split.
  - unfold _predict_delays_iteration, try_except, mbind, Py_bind.
    rewrite (get_component_run _ _ _ Hobj).
    unfold get_flights_data. rewrite Hfd, (call_method_missing _ _ _ _ _ Hm).
    eexists _, _. split; [reflexivity|]. by repeat split.
  - unfold _optimize_crew_iteration, try_except, mbind, Py_bind.
    rewrite (get_component_run _ _ _ Hobj).
    unfold get_flights_data. rewrite Hfd, (call_method_missing _ _ _ _ _ Hm).
    eexists _, _. split; [reflexivity|]. by repeat split.
  - unfold _update_dashboard_iteration, try_except, mbind, Py_bind.
    rewrite (get_component_run _ _ _ Hobj).
    unfold get_flights_data. rewrite Hfd. unfold lift.
    destruct (py_get (flights_data s) "flights" (VList [])) as [flights|e].
    + unfold get_alerts_queue, datetime_now. cbn [read_clock fst snd].
      rewrite (call_method_missing _ _ _ _ _ Hm).
      eexists _, _. split; [reflexivity|]. by repeat split.
    + eexists _, _. split; [reflexivity|]. by repeat split.
Qed.

(** A running system with an instance of [HealthMonitor] and some data. *)
Lemma producer_calls_undefined_method_witness :
  (components with_health_monitor !! producer_key Health
   = Some (Some (new_instance (producer_class idle_methods Health)))
   ∧ py_truthy (flights_data with_health_monitor) = true)
  ∧ ∃ s' line,
      iteration Health with_health_monitor = (Ok tt, s')
      ∧ stdout s' = stdout with_health_monitor ++ [line]
      ∧ alerts_queue s' = alerts_queue with_health_monitor
      ∧ calls s' = calls with_health_monitor
      ∧ components s' = components with_health_monitor
      ∧ flights_data s' = flights_data with_health_monitor
      ∧ is_running s' = is_running with_health_monitor
      ∧ critical_log s' = critical_log with_health_monitor.
Proof.
  assert (H1 : components with_health_monitor !! producer_key Health
               = Some (Some (new_instance (producer_class idle_methods Health))))
    by reflexivity.
  assert (H2 : py_truthy (flights_data with_health_monitor) = true)
    by reflexivity.
  split; [done|].
  exact (producer_calls_undefined_method idle_methods Health
           with_health_monitor H1 H2).
Defined.

(** X13.  With an instance of [LogProcessor] under its key, loading the sample
    data raises [AttributeError]: the class has no [ingest_logs].  Nothing
    catches it, so the single analysis ends there: no component method
    has run, and data, queue, flag and components are as they were. *)
Theorem analysis_stops_at_loading
    (method_body : string → string → Method)
    (_generate_sample_data : PyVal → PyResult PyVal) (s : System)
    (sample : PyVal) :
  components s !! "log_processor"
  = Some (Some (new_instance (LogProcessor method_body))) →
  _generate_sample_data (config s) = Ok sample →
  ∃ s1 s2,
    load_sample_data _generate_sample_data s
    = (Raise (AttributeError "ingest_logs"), s1)
    ∧ run_single_analysis _generate_sample_data s
      = (Raise (AttributeError "ingest_logs"), s2)
    ∧ calls s2 = calls s ∧ flights_data s2 = flights_data s
    ∧ alerts_queue s2 = alerts_queue s ∧ is_running s2 = is_running s
    ∧ components s2 = components s.
Proof.
  intros Hobj Hgen.
  assert (Hm : methods (new_instance (LogProcessor method_body)) !! "ingest_logs"
               = None) by (vm_compute; reflexivity).
  set (obj := new_instance (LogProcessor method_body)) in *. clearbody obj.
  assert (Hload : load_sample_data _generate_sample_data s
                  = (Raise (AttributeError "ingest_logs"), s)).
  { unfold load_sample_data, mbind, Py_bind, get_config, lift.
    rewrite Hgen, (get_component_run _ _ _ Hobj).
    by rewrite (call_method_missing _ _ _ _ _ Hm). }
  exists s, s. split; [exact Hload|].
  split; [|repeat split; reflexivity].
  unfold run_single_analysis. unfold mbind at 1. unfold Py_bind at 1.
  by rewrite Hload.
Qed.

(** A system with an instance of [LogProcessor]; the sample generator
    returns an empty record. *)
Lemma analysis_stops_at_loading_witness :
  (components with_log_processor !! "log_processor"
   = Some (Some (new_instance (LogProcessor idle_methods)))
   ∧ (λ _ : PyVal, Ok (VDict [])) (config with_log_processor) = Ok (VDict []))
  ∧ ∃ s1 s2,
      load_sample_data (λ _, Ok (VDict [])) with_log_processor
      = (Raise (AttributeError "ingest_logs"), s1)
      ∧ run_single_analysis (λ _, Ok (VDict [])) with_log_processor
        = (Raise (AttributeError "ingest_logs"), s2)
      ∧ calls s2 = [] ∧ flights_data s2 = VDict [].
Proof.
  assert (H1 : components with_log_processor !! "log_processor"
               = Some (Some (new_instance (LogProcessor idle_methods))))
    by reflexivity.
  assert (H2 : (λ _ : PyVal, @Ok PyVal (VDict [])) (config with_log_processor)
               = Ok (VDict [])) by reflexivity.
  split; [done|].
  destruct (analysis_stops_at_loading idle_methods (λ _, Ok (VDict []))
              with_log_processor (VDict []) H1 H2)
    as (s1 & s2 & Hload & Hrun & Hcalls & Hdata & _).
  exists s1, s2. split; [exact Hload|]. split; [exact Hrun|].
  split; [exact Hcalls|exact Hdata].
Defined.

(** ** The dispatcher with an alert system registered *)

Lemma dispatched_refl sink s s' :
  config s' = config s → components s' = components s →
  flights_data s' = flights_data s → is_running s' = is_running s →
  stdout s' = stdout s → calls s' = calls s → sys_clock s' = sys_clock s →
  critical_log s' = critical_log s →
  dispatched sink [] s s'.
Proof.
  intros ? ? ? ? ? Hcalls Hclock Hlog. do 5 (split; [done|]).
  split; [rewrite Hcalls; destruct sink; simpl; by rewrite app_nil_r|].
  split; [rewrite Hclock; lia|]. exists []. rewrite Hlog, app_nil_r. done.
Qed.

Lemma sent_app sink l1 l2 : sent sink (l1 ++ l2) = sent sink l1 ++ sent sink l2.
Proof. destruct sink; simpl; [apply fmap_app|done]. Qed.

Lemma zip_app_same {A B} (l1 l2 : list A) (k1 k2 : list B) :
  length l1 = length k1 → zip (l1 ++ l2) (k1 ++ k2) = zip l1 k1 ++ zip l2 k2.
Proof.
  revert k1. induction l1 as [|x l1 IH]; intros [|y k1] Hlen; try done.
  simpl in *. f_equal. apply IH. lia.
Qed.

Lemma dispatched_trans sink ev1 ev2 s s1 s2 :
  dispatched sink ev1 s s1 → dispatched sink ev2 s1 s2 →
  dispatched sink (ev1 ++ ev2) s s2.
Proof.
  intros (Hc1 & Hk1 & Hf1 & Hr1 & Ho1 & Hcalls1 & Hle1 & t1 & Hlen1 & Hlog1 & Ht1)
         (Hc2 & Hk2 & Hf2 & Hr2 & Ho2 & Hcalls2 & Hle2 & t2 & Hlen2 & Hlog2 & Ht2).
  split; [congruence|]. split; [congruence|]. split; [congruence|].
  split; [congruence|]. split; [congruence|].
  split; [by rewrite Hcalls2, Hcalls1, sent_app, app_assoc|].
  split; [lia|]. exists (t1 ++ t2). rewrite filter_app.
  split; [rewrite !length_app; lia|].
  split; [by rewrite Hlog2, Hlog1, zip_app_same, app_assoc|].
  apply Forall_app. split.
  - eapply Forall_impl; [exact Ht1|]. simpl. intros; lia.
  - eapply Forall_impl; [exact Ht2|]. simpl. intros; lia.
Qed.

Lemma bind_run {A B} (m : IO A) (f : A → IO B) s a s' :
  m s = (Ok a, s') → (m ≫= f) s = f a s'.
Proof. intros Hm. unfold mbind, Py_bind. by rewrite Hm. Qed.

Lemma bind_raise {A B} (m : IO A) (f : A → IO B) s e s' :
  m s = (Raise e, s') → (m ≫= f) s = (Raise e, s').
Proof. intros Hm. unfold mbind, Py_bind. by rewrite Hm. Qed.

Lemma critical_event items :
  is_critical (VDict items) = Ok (critical (VDict items)).
Proof. reflexivity. Qed.

(** One pass of the loop body for an event that is a dictionary. *)
Lemma process_alert_run sink items s :
  components s !! "alert_system" = Some sink → accepts sink →
  ∃ s', process_alert (VDict items) s = (Ok tt, s')
        ∧ alerts_queue s' = alerts_queue s
        ∧ dispatched sink [VDict items] s s'.
Proof.
  intros Hsink Hacc. unfold process_alert. unfold mbind at 1. unfold Py_bind at 1.
  rewrite (get_component_run _ _ _ Hsink).
  assert (Hlog : ∀ t : System,
    ∃ t', (critical ← lift (is_critical (VDict items));
           if critical : bool then
             now ← datetime_now; append_critical_log (now, VDict items)
           else mret tt) t = (Ok tt, t')
          ∧ alerts_queue t' = alerts_queue t
          ∧ dispatched None [VDict items] t t').
  { intros t. unfold mbind at 1. unfold Py_bind at 1. unfold lift.
    rewrite critical_event. unfold dispatched.
    rewrite filter_cons, filter_nil.
    destruct (critical (VDict items)) eqn:Hcrit.
    - rewrite decide_True by done.
      eexists. split; [reflexivity|]. split; [done|]. do 6 (split; [by rewrite ?app_nil_r|]).
      split; [simpl; lia|]. exists [clock_now (sys_clock t)].
      split; [done|]. split; [done|]. constructor; [simpl; lia|constructor].
    - rewrite decide_False by done.
      exists t. split; [reflexivity|]. split; [done|].
      do 6 (split; [by rewrite ?app_nil_r|]). split; [lia|]. exists [].
      by rewrite app_nil_r. }
  destruct sink as [obj|].
  - destruct (Hacc obj eq_refl) as (body & Hbody & Htotal).
    destruct (Htotal (length (calls s)) (VDict items)) as [v Hv].
    assert (Hcall : call_method "alert_system" obj "send_alert" (VDict items) s
              = (Ok v,
                 {| config := config s; components := components s;
                    flights_data := flights_data s;
                    alerts_queue := alerts_queue s; is_running := is_running s;
                    sys_clock := sys_clock s; critical_log := critical_log s;
                    stdout := stdout s;
                    calls := calls s ++ [{| call_key := "alert_system";
                                            call_method_name := "send_alert";
                                            call_arg := VDict items |}] |})).
    { unfold call_method. unfold Method in *. rewrite Hbody. cbv beta iota.
      by rewrite Hv. }
    rewrite (bind_run _ _ _ _ _ (bind_run _ _ _ _ _ Hcall)).
    unfold mret at 1. unfold Py_ret at 1.
    match goal with |- ∃ s', ?m ?t = _ ∧ _ =>
      destruct (Hlog t) as (t' & Hrun & Hq & Hd) end.
    exists t'. split; [exact Hrun|]. split; [exact Hq|].
    destruct Hd as (Hc & Hk & Hf & Hr & Ho & Hcalls & Hle & times & Hlen & Hl & Ht).
    do 5 (split; [done|]). split; [by rewrite Hcalls, app_nil_r|].
    split; [done|]. by exists times.
  - rewrite (bind_run _ _ _ _ _ (eq_refl : (mret tt : IO unit) s = (Ok tt, s))).
    destruct (Hlog s) as (t' & Hrun & Hq & Hd).
    exists t'. done.
Qed.

(** The drain loop over a queue that starts with readable events. *)
Lemma drain_events sink events : ∀ s n rest,
  alerts_queue s = events ++ rest →
  components s !! "alert_system" = Some sink → accepts sink →
  Forall is_event events →
  ∃ s1, alerts_queue s1 = rest ∧ dispatched sink events s s1
        ∧ drain (length events + n) s = drain n s1.
Proof.
  induction events as [|a events IH]; intros s n rest Hq Hsink Hacc Hev.
  { exists s. split; [done|]. split; [by apply dispatched_refl|done]. }
  apply Forall_cons in Hev as [[items ->] Hev].
  set (s0 := {| config := config s; components := components s;
                flights_data := flights_data s; alerts_queue := events ++ rest;
                is_running := is_running s; sys_clock := sys_clock s;
                critical_log := critical_log s; stdout := stdout s;
                calls := calls s |}).
  destruct (process_alert_run sink items s0 Hsink Hacc) as (s1 & Hrun & Hq1 & Hd1).
  destruct (IH s1 n rest) as (s2 & Hq2 & Hd2 & Hdrain); [done| |done|done|].
  { destruct Hd1 as (_ & -> & _). exact Hsink. }
  exists s2. split; [done|]. split.
  - change (VDict items :: events) with ([VDict items] ++ events).
    eapply dispatched_trans; [|exact Hd2].
    destruct Hd1 as (? & ? & ? & ? & ? & ? & ? & ?). by repeat split.
  - rewrite <-Hdrain. simpl drain. unfold mbind at 1. unfold Py_bind at 1.
    unfold get_alerts_queue. rewrite Hq. simpl.
    unfold mbind at 1. unfold Py_bind at 1. unfold set_alerts_queue. fold s0.
    unfold mbind at 1. unfold Py_bind at 1. by rewrite Hrun.
Qed.

Lemma drain_empty n s : alerts_queue s = [] → drain n s = (Ok tt, s).
Proof.
  intros Hq. destruct n; [done|]. simpl. unfold mbind, Py_bind, get_alerts_queue.
  by rewrite Hq.
Qed.

(** X14.  With something registered under ['alert_system'], even [None], a
    queue of dictionaries is drained to the end: every event is handed to
    the alert system (when there is one) in queue order, exactly the
    events of severity CRITICAL or EMERGENCY are appended to the critical
    log, in queue order and stamped with a clock reading of the drain, and
    nothing else changes. *)
Theorem dispatcher_forwards_and_logs (sink : option Component) (s : System) :
  components s !! "alert_system" = Some sink →
  accepts sink →
  Forall is_event (alerts_queue s) →
  ∃ s', _process_alerts s = (Ok tt, s')
        ∧ alerts_queue s' = []
        ∧ dispatched sink (alerts_queue s) s s'.
Proof.
  intros Hsink Hacc Hev.
  destruct (drain_events sink (alerts_queue s) s 0 [])
    as (s1 & Hq1 & Hd & Hdrain); [by rewrite app_nil_r|done..|].
  exists s1. split; [|done]. unfold _process_alerts.
  rewrite Nat.add_0_r in Hdrain. by rewrite Hdrain.
Qed.

(** An alert system that accepts everything, one critical event and one
    warning in the queue. *)
Lemma dispatcher_forwards_and_logs_witness :
  (components (with_pager [engine_alert; delay_warning]) !! "alert_system"
   = Some (Some pager)
   ∧ accepts (Some pager)
   ∧ Forall is_event (alerts_queue (with_pager [engine_alert; delay_warning])))
  ∧ ∃ s', _process_alerts (with_pager [engine_alert; delay_warning]) = (Ok tt, s')
          ∧ alerts_queue s' = []
          ∧ dispatched (Some pager) [engine_alert; delay_warning]
              (with_pager [engine_alert; delay_warning]) s'.
Proof.
  assert (H1 : components (with_pager [engine_alert; delay_warning])
               !! "alert_system" = Some (Some pager)) by reflexivity.
  assert (H2 : accepts (Some pager)).
  { intros obj [= <-]. eexists. split; [reflexivity|]. intros. by eexists. }
  assert (H3 : Forall is_event
                 (alerts_queue (with_pager [engine_alert; delay_warning]))).
  { repeat constructor; eexists; reflexivity. }
  split; [done|].
  exact (dispatcher_forwards_and_logs (Some pager)
           (with_pager [engine_alert; delay_warning]) H1 H2 H3).
Defined.

Lemma process_alert_unreadable sink bad s :
  components s !! "alert_system" = Some sink → accepts sink →
  ¬ is_event bad →
  ∃ s', process_alert bad s = (Raise (AttributeError "get"), s')
        ∧ alerts_queue s' = alerts_queue s
        ∧ dispatched sink [bad] s s'.
Proof.
  intros Hsink Hacc Hbad. unfold process_alert. unfold mbind at 1. unfold Py_bind at 1.
  rewrite (get_component_run _ _ _ Hsink).
  assert (Hcrit : is_critical bad = Raise (AttributeError "get")).
  { destruct bad; try done. destruct Hbad. by eexists. }
  assert (Hno : filter (λ a, critical a = true) [bad] = []).
  { rewrite filter_cons, filter_nil. unfold critical. by rewrite Hcrit. }
  destruct sink as [obj|].
  - destruct (Hacc obj eq_refl) as (body & Hbody & Htotal).
    destruct (Htotal (length (calls s)) bad) as [v Hv].
    assert (Hcall : call_method "alert_system" obj "send_alert" bad s
              = (Ok v,
                 {| config := config s; components := components s;
                    flights_data := flights_data s;
                    alerts_queue := alerts_queue s; is_running := is_running s;
                    sys_clock := sys_clock s; critical_log := critical_log s;
                    stdout := stdout s;
                    calls := calls s ++ [{| call_key := "alert_system";
                                            call_method_name := "send_alert";
                                            call_arg := bad |}] |})).
    { unfold call_method. unfold Method in *. rewrite Hbody. cbv beta iota.
      by rewrite Hv. }
    rewrite (bind_run _ _ _ _ _ (bind_run _ _ _ _ _ Hcall)).
    unfold mret at 1. unfold Py_ret at 1.
    unfold mbind, Py_bind, lift. rewrite Hcrit.
    eexists. split; [reflexivity|]. split; [done|].
    do 6 (split; [done|]). split; [simpl; lia|]. exists []. rewrite Hno.
    by rewrite app_nil_r.
  - rewrite (bind_run _ _ _ _ _ (eq_refl : (mret tt : IO unit) s = (Ok tt, s))).
    unfold mbind, Py_bind, lift. rewrite Hcrit.
    exists s. split; [reflexivity|]. split; [done|].
    do 5 (split; [done|]). split; [by rewrite app_nil_r|]. split; [lia|].
    exists []. rewrite Hno. by rewrite app_nil_r.
Qed.

(** X15.  The drain ends at the first queued item that is not a dictionary:
    the events before it are dispatched as usual, the item itself is taken
    off the queue and handed to the alert system, reading its severity
    raises [AttributeError], and the items behind it stay queued. *)
Theorem dispatcher_stops_at_unreadable_event (sink : option Component)
    (s : System) (good : list PyVal) (bad : PyVal) (rest : list PyVal) :
  components s !! "alert_system" = Some sink →
  accepts sink →
  alerts_queue s = good ++ bad :: rest →
  Forall is_event good →
  ¬ is_event bad →
  ∃ s', _process_alerts s = (Raise (AttributeError "get"), s')
        ∧ alerts_queue s' = rest
        ∧ dispatched sink (good ++ [bad]) s s'.
Proof.
  intros Hsink Hacc Hq Hgood Hbad.
  destruct (drain_events sink good s (S (length rest)) (bad :: rest))
    as (s1 & Hq1 & Hd & Hdrain); [done..|].
  set (s0 := {| config := config s1; components := components s1;
                flights_data := flights_data s1; alerts_queue := rest;
                is_running := is_running s1; sys_clock := sys_clock s1;
                critical_log := critical_log s1; stdout := stdout s1;
                calls := calls s1 |}).
  assert (Hsink0 : components s0 !! "alert_system" = Some sink).
  { destruct Hd as (_ & Hk & _). simpl. by rewrite Hk. }
  destruct (process_alert_unreadable sink bad s0 Hsink0 Hacc Hbad)
    as (s2 & Hrun & Hq2 & Hd2).
  exists s2. split; [|split; [done|]].
  - unfold _process_alerts. rewrite Hq, length_app. simpl length.
    rewrite Hdrain. simpl drain. unfold mbind at 1. unfold Py_bind at 1.
    unfold get_alerts_queue. rewrite Hq1. simpl.
    unfold mbind at 1. unfold Py_bind at 1. unfold set_alerts_queue. fold s0.
    by rewrite (bind_raise _ _ _ _ _ Hrun).
  - eapply dispatched_trans; [exact Hd|].
    destruct Hd2 as (? & ? & ? & ? & ? & ? & ? & ?). by repeat split.
Qed.

(** A string between two events. *)
Lemma dispatcher_stops_at_unreadable_event_witness :
  (components (with_pager [engine_alert; VStr "engine"; delay_warning])
     !! "alert_system" = Some (Some pager)
   ∧ accepts (Some pager)
   ∧ alerts_queue (with_pager [engine_alert; VStr "engine"; delay_warning])
     = [engine_alert] ++ VStr "engine" :: [delay_warning]
   ∧ Forall is_event [engine_alert]
   ∧ ¬ is_event (VStr "engine"))
  ∧ ∃ s', _process_alerts (with_pager [engine_alert; VStr "engine"; delay_warning])
          = (Raise (AttributeError "get"), s')
          ∧ alerts_queue s' = [delay_warning]
          ∧ dispatched (Some pager) ([engine_alert] ++ [VStr "engine"])
              (with_pager [engine_alert; VStr "engine"; delay_warning]) s'.
Proof.
  assert (H1 : components (with_pager [engine_alert; VStr "engine"; delay_warning])
               !! "alert_system" = Some (Some pager)) by reflexivity.
  assert (H2 : accepts (Some pager)).
  { intros obj [= <-]. eexists. split; [reflexivity|]. intros. by eexists. }
  assert (H3 : alerts_queue (with_pager [engine_alert; VStr "engine"; delay_warning])
               = [engine_alert] ++ VStr "engine" :: [delay_warning])
    by reflexivity.
  assert (H4 : Forall is_event [engine_alert]).
  { repeat constructor; eexists; reflexivity. }
  assert (H5 : ¬ is_event (VStr "engine")) by (intros [items Hitems]; discriminate).
  split; [done|].
  exact (dispatcher_stops_at_unreadable_event (Some pager)
           (with_pager [engine_alert; VStr "engine"; delay_warning])
           [engine_alert] (VStr "engine") [delay_warning] H1 H2 H3 H4 H5).
Defined.

(** ** Loops that put alerts on the queue *)

Lemma queued_refl s : queued [] s s.
Proof. repeat split; first [done | lia | by rewrite app_nil_r]. Qed.

Lemma queued_trans a1 a2 s s1 s2 :
  queued a1 s s1 → queued a2 s1 s2 → queued (a1 ++ a2) s s2.
Proof.
  intros (? & ? & ? & ? & ? & ? & ? & ? & Hq1) (? & ? & ? & ? & ? & ? & ? & ? & Hq2).
  repeat split; first [congruence | lia | by rewrite Hq2, Hq1, app_assoc].
Qed.

Lemma stamped_weaken {A} (build : A → Z → PyVal) xs lo hi lo' hi' alerts :
  lo' ≤ lo → hi ≤ hi' → stamped build xs lo hi alerts →
  stamped build xs lo' hi' alerts.
Proof.
  intros Hlo Hhi Hst. eapply Forall2_impl; [exact Hst|]. simpl.
  intros x a (t & Ht & ->). exists t. split; [lia|done].
Qed.

Lemma stamped_app {A} (build : A → Z → PyVal) xs ys lo mid hi a1 a2 :
  lo ≤ mid ≤ hi →
  stamped build xs lo mid a1 → stamped build ys mid hi a2 →
  stamped build (xs ++ ys) lo hi (a1 ++ a2).
Proof.
  intros Hmid H1 H2. apply Forall2_app.
  - eapply stamped_weaken; [| |exact H1]; lia.
  - eapply stamped_weaken; [| |exact H2]; lia.
Qed.

(** The body of a loop that, for each item, either does nothing or
    builds an alert at a clock reading and enqueues it. *)
Lemma for_each_queued {A} (body : A → IO unit) (keep : A → bool)
    (build : A → Z → PyVal) (ok : A → Prop) :
  (∀ x s, ok x →
     ∃ s' alerts, body x s = (Ok tt, s') ∧ queued alerts s s'
       ∧ stamped build (filter (λ x, keep x = true) [x])
           (clock_now (sys_clock s)) (clock_now (sys_clock s')) alerts) →
  ∀ xs s, Forall ok xs →
    ∃ s' alerts, for_each body xs s = (Ok tt, s') ∧ queued alerts s s'
      ∧ stamped build (filter (λ x, keep x = true) xs)
          (clock_now (sys_clock s)) (clock_now (sys_clock s')) alerts.
Proof.
  intros Hbody xs. induction xs as [|x xs IH]; intros s Hok.
  { exists s, []. split; [done|]. split; [apply queued_refl|constructor]. }
  apply Forall_cons in Hok as [Hx Hok].
  destruct (Hbody x s Hx) as (s1 & a1 & Hrun1 & Hq1 & Hst1).
  destruct (IH s1 Hok) as (s2 & a2 & Hrun2 & Hq2 & Hst2).
  exists s2, (a1 ++ a2). split; [|split].
  - simpl. by rewrite (bind_run _ _ _ _ _ Hrun1).
  - by eapply queued_trans.
  - change (x :: xs) with ([x] ++ xs). rewrite filter_app.
    eapply stamped_app; [|exact Hst1|exact Hst2].
    destruct Hq1 as (_ & _ & _ & _ & _ & _ & _ & ? & _).
    destruct Hq2 as (_ & _ & _ & _ & _ & _ & _ & ? & _). lia.
Qed.

Lemma significant_present items minutes :
  py_get (VDict items) "delay_minutes" (VInt 0) = Ok minutes →
  py_gt minutes 30 = Ok true →
  dict_lookup "delay_minutes" items = Some minutes.
Proof.
  unfold py_get. destruct (dict_lookup "delay_minutes" items) as [x|]; simpl.
  - by intros [= ->].
  - intros [= <-]. simpl. discriminate.
Qed.

Lemma delay_alert_run p s :
  well_formed p →
  ∃ s' alerts,
    delay_alert p s = (Ok tt, s') ∧ queued alerts s s'
    ∧ stamped delay_alert_of (filter (λ p, significant p = true) [p])
        (clock_now (sys_clock s)) (clock_now (sys_clock s')) alerts.
Proof.
  intros (items & minutes & b & -> & Hget & Hgt & Hfields).
  assert (Hsig : significant (VDict items) = b).
  { unfold significant. by rewrite Hget, Hgt. }
  rewrite filter_cons, filter_nil, Hsig.
  unfold delay_alert, mbind, Py_bind, lift. rewrite Hget, Hgt.
  destruct b.
  - destruct (Hfields eq_refl) as [[f Hf] [r Hr]].
    pose proof (significant_present _ _ Hget Hgt) as Hm.
    unfold py_getitem. rewrite Hf, Hm, Hr.
    pose proof (EngineFacts.read_clock_le (sys_clock s)) as Hle.
    eexists _, [delay_alert_of (VDict items) (clock_now (sys_clock s))].
    split; [|split].
    + reflexivity.
    + unfold queued, delay_alert_of, field, py_getitem. rewrite Hf, Hm, Hr.
      repeat split; first [done | exact Hle].
    + rewrite decide_True by done. constructor; [|constructor].
      exists (clock_now (sys_clock s)). split; [|done]. split; [lia|exact Hle].
  - exists s, []. split; [done|]. split; [apply queued_refl|].
    rewrite decide_False by done. constructor.
Qed.

Lemma delay_alert_of_warning p t : is_critical (delay_alert_of p t) = Ok false.
Proof. reflexivity. Qed.

Lemma stamped_all {A} (build : A → Z → PyVal) (P : PyVal → Prop) xs lo hi alerts :
  (∀ x t, P (build x t)) → stamped build xs lo hi alerts → Forall P alerts.
Proof.
  intros HP Hst. induction Hst as [|x a xs alerts (t & _ & ->) _ IH]; constructor;
    [apply HP|done].
Qed.

Lemma call_method_run key obj meth body arg v s :
  methods obj !! meth = Some body → body (length (calls s)) arg = Ok v →
  call_method key obj meth arg s = (Ok v, called key meth arg s).
Proof.
  intros Hbody Hv. unfold call_method. unfold Method in *. rewrite Hbody.
  cbv beta iota. by rewrite Hv.
Qed.

Lemma for_each_app {A} (body : A → IO unit) xs ys s s1 :
  for_each body xs s = (Ok tt, s1) →
  for_each body (xs ++ ys) s = for_each body ys s1.
Proof.
  revert s. induction xs as [|x xs IH]; intros s; simpl.
  - by intros [= ->].
  - unfold mbind, Py_bind. destruct (body x s) as [[[]|e] s0]; [|done]. apply IH.
Qed.

(** ** The delay loop *)

Lemma predict_delays_iteration_run obj body preds s :
  components s !! "delay_predictor" = Some (Some obj) →
  methods obj !! "predict" = Some body →
  body (length (calls s)) (flights_data s) = Ok (VList preds) →
  py_truthy (flights_data s) = true →
  _predict_delays_iteration s
  = try_except (for_each delay_alert preds)
      (λ e, print ("Delay prediction error: " +:+ exc_str e))
      (called "delay_predictor" "predict" (flights_data s) s).
Proof.
  intros Hobj Hbody Hv Hfd. unfold _predict_delays_iteration, try_except.
  rewrite (bind_run _ _ _ _ _ (get_component_run _ _ _ Hobj)). cbv beta iota.
  rewrite (bind_run _ _ _ _ _ (eq_refl : get_flights_data s = (Ok (flights_data s), s))).
  rewrite Hfd.
  rewrite (bind_run _ _ _ _ _ (call_method_run _ _ _ _ _ _ _ Hbody Hv)).
  unfold lift. simpl py_iter.
  rewrite (bind_run (λ s, (Ok preds, s)) _ _ preds _ eq_refl). reflexivity.
Qed.

(** X16.  With a delay predictor whose [predict] returns a list of
    predictions the loop body gets through, an iteration enqueues one
    alert for every prediction whose [delay_minutes] is above 30 (an
    absent entry counts as 0, and 30 itself is not above), in order; the
    alerts are warnings, which the dispatcher does not log as critical;
    one method call is made and nothing is printed. *)
Theorem delay_loop_alerts_late_flights (s : System) (obj : Component)
    (body : Method) (preds : list PyVal) :
  components s !! "delay_predictor" = Some (Some obj) →
  methods obj !! "predict" = Some body →
  body (length (calls s)) (flights_data s) = Ok (VList preds) →
  py_truthy (flights_data s) = true →
  Forall well_formed preds →
  ∃ s' alerts,
    _predict_delays_iteration s = (Ok tt, s')
    ∧ alerts_queue s' = alerts_queue s ++ alerts
    ∧ stamped delay_alert_of (filter (λ p, significant p = true) preds)
        (clock_now (sys_clock s)) (clock_now (sys_clock s')) alerts
    ∧ Forall (λ a, is_critical a = Ok false) alerts
    ∧ calls s' = calls s ++ [{| call_key := "delay_predictor";
                                call_method_name := "predict";
                                call_arg := flights_data s |}]
    ∧ stdout s' = stdout s ∧ critical_log s' = critical_log s
    ∧ components s' = components s ∧ flights_data s' = flights_data s
    ∧ is_running s' = is_running s.
Proof.
  intros Hobj Hbody Hv Hfd Hwf.
  rewrite (predict_delays_iteration_run _ _ _ _ Hobj Hbody Hv Hfd).
  destruct (for_each_queued delay_alert significant delay_alert_of well_formed
              delay_alert_run preds
              (called "delay_predictor" "predict" (flights_data s) s) Hwf)
    as (s' & alerts & Hrun & Hq & Hst).
  exists s', alerts. unfold try_except. rewrite Hrun.
  destruct Hq as (? & ? & ? & ? & ? & ? & ? & ? & ?).
  split; [done|]. split; [done|]. split; [done|].
  split; [eapply stamped_all; [|exact Hst]; apply delay_alert_of_warning|].
  by repeat split.
Qed.

(** A predictor that returns a delay of 30 and one of 31 minutes. *)
Lemma delay_loop_alerts_late_flights_witness :
  (components (running_with "delay_predictor"
                 (answering "DelayPredictor" "predict" (VList two_predictions)))
     !! "delay_predictor"
   = Some (Some (answering "DelayPredictor" "predict" (VList two_predictions)))
   ∧ methods (answering "DelayPredictor" "predict" (VList two_predictions))
       !! "predict" = Some (λ _ _, Ok (VList two_predictions))
   ∧ py_truthy (VDict [("flights", VList [])]) = true
   ∧ Forall well_formed two_predictions)
  ∧ ∃ s' alerts,
      _predict_delays_iteration
        (running_with "delay_predictor"
           (answering "DelayPredictor" "predict" (VList two_predictions)))
      = (Ok tt, s')
      ∧ alerts_queue s' = [] ++ alerts
      ∧ stamped delay_alert_of
          (filter (λ p, significant p = true) two_predictions)
          2000 (clock_now (sys_clock s')) alerts
      ∧ Forall (λ a, is_critical a = Ok false) alerts.
Proof.
  set (obj := answering "DelayPredictor" "predict" (VList two_predictions)).
  assert (H1 : components (running_with "delay_predictor" obj) !! "delay_predictor"
               = Some (Some obj)) by reflexivity.
  assert (H2 : methods obj !! "predict" = Some (λ _ _, Ok (VList two_predictions)))
    by reflexivity.
  assert (H3 : py_truthy (VDict [("flights", VList [])]) = true) by reflexivity.
  assert (H4 : Forall well_formed two_predictions).
  { repeat constructor.
    - eexists _, _, false. do 3 (split; [reflexivity|]). discriminate.
    - eexists _, _, true. do 3 (split; [reflexivity|]).
      intros _. split; by eexists. }
  split; [done|].
  destruct (delay_loop_alerts_late_flights (running_with "delay_predictor" obj)
              obj _ two_predictions H1 H2 eq_refl H3 H4)
    as (s' & alerts & Hrun & Hq & Hst & Hwarn & _).
  by exists s', alerts.
Defined.

Lemma delay_alert_anonymous items s :
  significant (VDict items) = true →
  dict_lookup "flight_id" items = None →
  delay_alert (VDict items) s = (Raise (KeyError "flight_id"), s).
Proof.
  intros Hsig Hf. unfold significant in Hsig. unfold delay_alert, mbind, Py_bind, lift.
  destruct (py_get (VDict items) "delay_minutes" (VInt 0)) as [minutes|]; [|done].
  destruct (py_gt minutes 30) as [[]|]; try done.
  unfold py_getitem. by rewrite Hf.
Qed.

(** X17.  One significant prediction without a flight id ends the loop: the
    [KeyError] is caught and reported, the alerts of the predictions
    before it stay on the queue, and the predictions behind it are not
    looked at, however late they are. *)
Theorem delay_loop_drops_what_follows_a_bad_prediction (s : System)
    (obj : Component) (body : Method) (good : list PyVal)
    (items : list (string * PyVal)) (rest : list PyVal) :
  components s !! "delay_predictor" = Some (Some obj) →
  methods obj !! "predict" = Some body →
  body (length (calls s)) (flights_data s)
  = Ok (VList (good ++ VDict items :: rest)) →
  py_truthy (flights_data s) = true →
  Forall well_formed good →
  significant (VDict items) = true →
  dict_lookup "flight_id" items = None →
  ∃ s' alerts,
    _predict_delays_iteration s = (Ok tt, s')
    ∧ alerts_queue s' = alerts_queue s ++ alerts
    ∧ stamped delay_alert_of (filter (λ p, significant p = true) good)
        (clock_now (sys_clock s)) (clock_now (sys_clock s')) alerts
    ∧ stdout s' = stdout s ++ ["Delay prediction error: 'flight_id'"].
Proof.
  intros Hobj Hbody Hv Hfd Hwf Hsig Hf.
  rewrite (predict_delays_iteration_run _ _ _ _ Hobj Hbody Hv Hfd).
  destruct (for_each_queued delay_alert significant delay_alert_of well_formed
              delay_alert_run good
              (called "delay_predictor" "predict" (flights_data s) s) Hwf)
    as (s1 & alerts & Hrun & Hq & Hst).
  unfold try_except. rewrite (for_each_app _ _ _ _ _ Hrun). simpl for_each.
  rewrite (bind_raise _ _ _ _ _ (delay_alert_anonymous items s1 Hsig Hf)).
  destruct Hq as (? & ? & ? & ? & Hout & ? & ? & ? & ?).
  eexists _, alerts. split; [reflexivity|]. split; [done|]. split; [done|].
  simpl. by rewrite Hout.
Qed.

(** A predictor that returns a delay of 31 minutes, a delay of 45 minutes
    without a flight id, and another delay of 31 minutes. *)
Lemma delay_loop_drops_what_follows_a_bad_prediction_witness :
  (Forall well_formed (drop 1 two_predictions)
   ∧ significant anonymous_delay = true
   ∧ dict_lookup "flight_id" [("delay_minutes", VInt 45); ("reasons", VList [])]
     = None)
  ∧ ∃ s' alerts,
      _predict_delays_iteration
        (running_with "delay_predictor"
           (answering "DelayPredictor" "predict"
              (VList (drop 1 two_predictions ++ anonymous_delay
                      :: drop 1 two_predictions))))
      = (Ok tt, s')
      ∧ alerts_queue s' = [] ++ alerts
      ∧ stamped delay_alert_of
          (filter (λ p, significant p = true) (drop 1 two_predictions))
          2000 (clock_now (sys_clock s')) alerts
      ∧ stdout s' = [] ++ ["Delay prediction error: 'flight_id'"].
Proof.
  assert (H1 : Forall well_formed (drop 1 two_predictions)).
  { repeat constructor. eexists _, _, true. do 3 (split; [reflexivity|]).
    intros _. split; by eexists. }
  assert (H2 : significant anonymous_delay = true) by reflexivity.
  assert (H3 : dict_lookup "flight_id"
                 [("delay_minutes", VInt 45); ("reasons", VList [])] = None)
    by reflexivity.
  split; [done|].
  exact (delay_loop_drops_what_follows_a_bad_prediction
           (running_with "delay_predictor"
              (answering "DelayPredictor" "predict"
                 (VList (drop 1 two_predictions ++ anonymous_delay
                         :: drop 1 two_predictions))))
           (answering "DelayPredictor" "predict"
              (VList (drop 1 two_predictions ++ anonymous_delay
                      :: drop 1 two_predictions)))
           (λ _ _, Ok (VList (drop 1 two_predictions ++ anonymous_delay
                              :: drop 1 two_predictions)))
           (drop 1 two_predictions) _ (drop 1 two_predictions)
           eq_refl eq_refl eq_refl eq_refl H1 H2 H3).
Defined.

Lemma prediction_record_well_formed f a m r d t v :
  well_formed (prediction_record f a m r d t v)
  ∧ significant (prediction_record f a m r d t v) = false.
Proof.
  split; [|reflexivity].
  eexists _, (VInt 0), false. do 3 (split; [reflexivity|]). discriminate.
Qed.

Lemma filter_nothing {A} (keep : A → bool) (xs : list A) :
  Forall (λ x, keep x = false) xs → filter (λ x, keep x = true) xs = [].
Proof.
  induction 1 as [|x xs Hx _ IH]; [done|].
  rewrite filter_cons, decide_False by by rewrite Hx. done.
Qed.

(** X18.  The dictionaries [_predict_single_flight_delay] builds carry the
    delay under ['predicted_delay_minutes']; the loop reads
    ['delay_minutes'], finds none and takes 0.  So a predictor that
    returns such records never makes the loop enqueue anything, whatever
    the delays are. *)
Theorem predictor_records_never_alert (s : System) (obj : Component)
    (body : Method) (records : list PyVal) :
  components s !! "delay_predictor" = Some (Some obj) →
  methods obj !! "predict" = Some body →
  body (length (calls s)) (flights_data s) = Ok (VList records) →
  py_truthy (flights_data s) = true →
  Forall (λ p, ∃ f a m r d t v, p = prediction_record f a m r d t v) records →
  ∃ s',
    _predict_delays_iteration s = (Ok tt, s')
    ∧ alerts_queue s' = alerts_queue s
    ∧ stdout s' = stdout s.
Proof.
  intros Hobj Hbody Hv Hfd Hrec.
  rewrite (predict_delays_iteration_run _ _ _ _ Hobj Hbody Hv Hfd).
  assert (Hwf : Forall well_formed records).
  { eapply Forall_impl; [exact Hrec|]. intros p (f & a & m & r & d & t & v & ->).
    apply prediction_record_well_formed. }
  assert (Hnone : filter (λ p, significant p = true) records = []).
  { apply filter_nothing. eapply Forall_impl; [exact Hrec|].
    intros p (f & a & m & r & d & t & v & ->). apply prediction_record_well_formed. }
  destruct (for_each_queued delay_alert significant delay_alert_of well_formed
              delay_alert_run records
              (called "delay_predictor" "predict" (flights_data s) s) Hwf)
    as (s' & alerts & Hrun & Hq & Hst).
  rewrite Hnone in Hst. apply Forall2_nil_inv_l in Hst as ->.
  exists s'. unfold try_except. rewrite Hrun.
  destruct Hq as (? & ? & ? & ? & ? & ? & ? & ? & Hqueue).
  split; [done|]. split; [by rewrite Hqueue, app_nil_r|done].
Qed.

(** A predictor that returns one record with a delay of 240 minutes. *)
Lemma predictor_records_never_alert_witness :
  Forall (λ p, ∃ f a m r d t v, p = prediction_record f a m r d t v)
    [prediction_record (VStr "GA1000") (VStr "VT-AXB") (VInt 240)
       (VList [VStr "Thunderstorm detected"]) VNone VNone (VStr "SEVERE")]
  ∧ ∃ s',
      _predict_delays_iteration
        (running_with "delay_predictor"
           (answering "DelayPredictor" "predict"
              (VList [prediction_record (VStr "GA1000") (VStr "VT-AXB") (VInt 240)
                        (VList [VStr "Thunderstorm detected"]) VNone VNone
                        (VStr "SEVERE")])))
      = (Ok tt, s')
      ∧ alerts_queue s' = []
      ∧ stdout s' = [].
Proof.
  assert (H : Forall (λ p, ∃ f a m r d t v, p = prediction_record f a m r d t v)
                [prediction_record (VStr "GA1000") (VStr "VT-AXB") (VInt 240)
                   (VList [VStr "Thunderstorm detected"]) VNone VNone
                   (VStr "SEVERE")]).
  { repeat constructor. by eexists _, _, _, _, _, _, _. }
  split; [done|].
  exact (predictor_records_never_alert
           (running_with "delay_predictor"
              (answering "DelayPredictor" "predict"
                 (VList [prediction_record (VStr "GA1000") (VStr "VT-AXB")
                           (VInt 240) (VList [VStr "Thunderstorm detected"])
                           VNone VNone (VStr "SEVERE")])))
           (answering "DelayPredictor" "predict"
              (VList [prediction_record (VStr "GA1000") (VStr "VT-AXB")
                        (VInt 240) (VList [VStr "Thunderstorm detected"])
                        VNone VNone (VStr "SEVERE")]))
           (λ _ _, Ok (VList [prediction_record (VStr "GA1000") (VStr "VT-AXB")
                                (VInt 240) (VList [VStr "Thunderstorm detected"])
                                VNone VNone (VStr "SEVERE")]))
           _ eq_refl eq_refl eq_refl eq_refl H).
Defined.

(** ** The crew loop *)

Lemma optimize_crew_iteration_run obj body optimizations issues s :
  components s !! "crew_optimizer" = Some (Some obj) →
  methods obj !! "optimize" = Some body →
  body (length (calls s)) (flights_data s) = Ok optimizations →
  py_get optimizations "issues" (VList []) = Ok (VList issues) →
  py_truthy (flights_data s) = true →
  _optimize_crew_iteration s
  = try_except (for_each crew_alert issues)
      (λ e, print ("Crew optimization error: " +:+ exc_str e))
      (called "crew_optimizer" "optimize" (flights_data s) s).
Proof.
  intros Hobj Hbody Hv Hissues Hfd. unfold _optimize_crew_iteration, try_except.
  rewrite (bind_run _ _ _ _ _ (get_component_run _ _ _ Hobj)). cbv beta iota.
  rewrite (bind_run _ _ _ _ _ (eq_refl : get_flights_data s = (Ok (flights_data s), s))).
  rewrite Hfd.
  rewrite (bind_run _ _ _ _ _ (call_method_run _ _ _ _ _ _ _ Hbody Hv)).
  unfold lift. rewrite Hissues.
  rewrite (bind_run (λ s, (Ok (VList issues), s)) _ _ (VList issues) _ eq_refl).
  simpl py_iter.
  rewrite (bind_run (λ s, (Ok issues, s)) _ _ issues _ eq_refl). reflexivity.
Qed.

Lemma crew_alert_run issue s :
  is_text issue →
  ∃ s' alerts,
    crew_alert issue s = (Ok tt, s') ∧ queued alerts s s'
    ∧ stamped crew_alert_of (filter (λ i, mentions_shortage i = true) [issue])
        (clock_now (sys_clock s)) (clock_now (sys_clock s')) alerts.
Proof.
  intros [text ->]. rewrite filter_cons, filter_nil.
  unfold mentions_shortage, crew_alert, mbind, Py_bind, lift. simpl py_lower.
  pose proof (EngineFacts.read_clock_le (sys_clock s)) as Hle.
  assert (Hput : ∃ s',
    (now ← datetime_now;
     queue_put (VDict [ ("type", VStr "CREW_SHORTAGE");
                        ("severity", VStr "CRITICAL");
                        ("message", VStr text);
                        ("timestamp", VInt now) ])) s = (Ok tt, s')
    ∧ queued [crew_alert_of (VStr text) (clock_now (sys_clock s))] s s'
    ∧ clock_now (sys_clock s) ≤ clock_now (sys_clock s')).
  { eexists. split; [reflexivity|]. split; [|exact Hle].
    repeat split; first [done | exact Hle]. }
  destruct Hput as (s' & Hrun & Hq & Hle').
  unfold mbind, Py_bind in Hrun.
  destruct (str_contains "shortage" (str_lower text)); cbn [orb].
  - rewrite decide_True by done.
    exists s', [crew_alert_of (VStr text) (clock_now (sys_clock s))].
    split; [exact Hrun|]. split; [done|].
    constructor; [|constructor]. exists (clock_now (sys_clock s)). split; [lia|done].
  - destruct (str_contains "unavailable" (str_lower text)) eqn:Hun.
    + rewrite decide_True by done.
      exists s', [crew_alert_of (VStr text) (clock_now (sys_clock s))].
      split; [rewrite <-Hrun; simpl; rewrite Hun; reflexivity|]. split; [done|].
      constructor; [|constructor]. exists (clock_now (sys_clock s)). split; [lia|done].
    + rewrite decide_False by done. exists s, [].
      split; [simpl; rewrite Hun; reflexivity|].
      split; [apply queued_refl|constructor].
Qed.

Lemma crew_alert_of_critical issue t : is_critical (crew_alert_of issue t) = Ok true.
Proof. reflexivity. Qed.

(** X19.  With a crew optimizer whose [optimize] returns its issues as
    strings, an iteration enqueues one alert for every issue that
    mentions a shortage or unavailability in any letter case, in order and
    with the issue as its message; the alerts are of severity CRITICAL,
    so the dispatcher logs them; one method call is made and nothing is
    printed. *)
Theorem crew_loop_alerts_on_shortage_texts (s : System) (obj : Component)
    (body : Method) (optimizations : PyVal) (issues : list PyVal) :
  components s !! "crew_optimizer" = Some (Some obj) →
  methods obj !! "optimize" = Some body →
  body (length (calls s)) (flights_data s) = Ok optimizations →
  py_get optimizations "issues" (VList []) = Ok (VList issues) →
  py_truthy (flights_data s) = true →
  Forall is_text issues →
  ∃ s' alerts,
    _optimize_crew_iteration s = (Ok tt, s')
    ∧ alerts_queue s' = alerts_queue s ++ alerts
    ∧ stamped crew_alert_of (filter (λ i, mentions_shortage i = true) issues)
        (clock_now (sys_clock s)) (clock_now (sys_clock s')) alerts
    ∧ Forall (λ a, is_critical a = Ok true) alerts
    ∧ calls s' = calls s ++ [{| call_key := "crew_optimizer";
                                call_method_name := "optimize";
                                call_arg := flights_data s |}]
    ∧ stdout s' = stdout s ∧ critical_log s' = critical_log s
    ∧ components s' = components s ∧ flights_data s' = flights_data s
    ∧ is_running s' = is_running s.
Proof.
  intros Hobj Hbody Hv Hissues Hfd Htext.
  rewrite (optimize_crew_iteration_run _ _ _ _ _ Hobj Hbody Hv Hissues Hfd).
  destruct (for_each_queued crew_alert mentions_shortage crew_alert_of is_text
              crew_alert_run issues
              (called "crew_optimizer" "optimize" (flights_data s) s) Htext)
    as (s' & alerts & Hrun & Hq & Hst).
  exists s', alerts. unfold try_except. rewrite Hrun.
  destruct Hq as (? & ? & ? & ? & ? & ? & ? & ? & ?).
  split; [done|]. split; [done|]. split; [done|].
  split; [eapply stamped_all; [|exact Hst]; apply crew_alert_of_critical|].
  by repeat split.
Qed.

(** An optimizer that reports one shortage and one remark. *)
Lemma crew_loop_alerts_on_shortage_texts_witness :
  (py_get (VDict [("issues", VList two_issues)]) "issues" (VList [])
   = Ok (VList two_issues)
   ∧ Forall is_text two_issues)
  ∧ ∃ s' alerts,
      _optimize_crew_iteration
        (running_with "crew_optimizer"
           (answering "CrewOptimizer" "optimize"
              (VDict [("issues", VList two_issues)])))
      = (Ok tt, s')
      ∧ alerts_queue s' = [] ++ alerts
      ∧ stamped crew_alert_of
          (filter (λ i, mentions_shortage i = true) two_issues)
          2000 (clock_now (sys_clock s')) alerts
      ∧ Forall (λ a, is_critical a = Ok true) alerts.
Proof.
  assert (H1 : py_get (VDict [("issues", VList two_issues)]) "issues" (VList [])
               = Ok (VList two_issues)) by reflexivity.
  assert (H2 : Forall is_text two_issues).
  { repeat constructor; by eexists. }
  split; [done|].
  destruct (crew_loop_alerts_on_shortage_texts
              (running_with "crew_optimizer"
                 (answering "CrewOptimizer" "optimize"
                    (VDict [("issues", VList two_issues)])))
              (answering "CrewOptimizer" "optimize"
                 (VDict [("issues", VList two_issues)]))
              (λ _ _, Ok (VDict [("issues", VList two_issues)]))
              (VDict [("issues", VList two_issues)]) two_issues
              eq_refl eq_refl eq_refl H1 eq_refl H2)
    as (s' & alerts & Hrun & Hq & Hst & Hcrit & _).
  by exists s', alerts.
Defined.

Lemma crew_alert_record i s :
  crew_alert (issue_to_py i) s = (Raise (AttributeError "lower"), s).
Proof. by destruct i. Qed.

(** X20.  The issues [_check_schedule_issues] reports are dictionaries, and the
    loop calls [lower()] on each issue.  So with an optimizer that returns
    its issues in that shape, the first issue raises [AttributeError], the
    iteration reports it and enqueues nothing: no shortage the detector
    finds becomes an alert. *)
Theorem optimizer_issues_never_alert (s : System) (obj : Component)
    (body : Method) (optimizations : PyVal)
    (first : CrewOptimizer.Issue) (found : list CrewOptimizer.Issue) :
  components s !! "crew_optimizer" = Some (Some obj) →
  methods obj !! "optimize" = Some body →
  body (length (calls s)) (flights_data s) = Ok optimizations →
  py_get optimizations "issues" (VList [])
  = Ok (VList (issue_to_py <$> first :: found)) →
  py_truthy (flights_data s) = true →
  ∃ s',
    _optimize_crew_iteration s = (Ok tt, s')
    ∧ alerts_queue s' = alerts_queue s
    ∧ (∃ detail,
         stdout s' = stdout s ++ ["Crew optimization error: " +:+ detail])
    ∧ calls s' = calls s ++ [{| call_key := "crew_optimizer";
                                call_method_name := "optimize";
                                call_arg := flights_data s |}].
Proof.
  intros Hobj Hbody Hv Hissues Hfd.
  rewrite (optimize_crew_iteration_run _ _ _ _ _ Hobj Hbody Hv Hissues Hfd).
  unfold try_except. rewrite fmap_cons. simpl for_each.
  rewrite (bind_raise _ _ _ _ _ (crew_alert_record first _)).
  eexists. split; [reflexivity|].
  split; [done|]. split; [|done].
  by exists (exc_str (AttributeError "lower")).
Qed.

(** An optimizer that returns the issues of the detector for a flight
    without pilots. *)
Lemma optimizer_issues_never_alert_witness :
  py_get (VDict [("issues",
                  VList (issue_to_py <$>
                           CrewOptimizer._check_schedule_issues
                             (take 1 DetectorSpec.shortage_then_repeat)))])
    "issues" (VList [])
  = Ok (VList (issue_to_py <$>
                 [CrewOptimizer.CREW_SHORTAGE "F1" "captain" "CRITICAL"]))
  ∧ ∃ s',
      _optimize_crew_iteration
        (running_with "crew_optimizer"
           (answering "CrewOptimizer" "optimize"
              (VDict [("issues",
                       VList (issue_to_py <$>
                                CrewOptimizer._check_schedule_issues
                                  (take 1 DetectorSpec.shortage_then_repeat)))])))
      = (Ok tt, s')
      ∧ alerts_queue s' = []
      ∧ ∃ detail, stdout s' = [] ++ ["Crew optimization error: " +:+ detail].
Proof.
  assert (H : py_get (VDict [("issues",
                  VList (issue_to_py <$>
                           CrewOptimizer._check_schedule_issues
                             (take 1 DetectorSpec.shortage_then_repeat)))])
                "issues" (VList [])
              = Ok (VList (issue_to_py <$>
                      [CrewOptimizer.CREW_SHORTAGE "F1" "captain" "CRITICAL"])))
    by (vm_compute; reflexivity).
  split; [exact H|].
  destruct (optimizer_issues_never_alert
              (running_with "crew_optimizer"
                 (answering "CrewOptimizer" "optimize"
                    (VDict [("issues",
                             VList (issue_to_py <$>
                                      CrewOptimizer._check_schedule_issues
                                        (take 1 DetectorSpec.shortage_then_repeat)))])))
              (answering "CrewOptimizer" "optimize"
                 (VDict [("issues",
                          VList (issue_to_py <$>
                                   CrewOptimizer._check_schedule_issues
                                     (take 1 DetectorSpec.shortage_then_repeat)))]))
              (λ _ _, Ok (VDict [("issues",
                          VList (issue_to_py <$>
                                   CrewOptimizer._check_schedule_issues
                                     (take 1 DetectorSpec.shortage_then_repeat)))]))
              _ (CrewOptimizer.CREW_SHORTAGE "F1" "captain" "CRITICAL") []
              eq_refl eq_refl eq_refl H eq_refl)
    as (s' & Hrun & Hq & Hout & _).
  by exists s'.
Defined.

(** ** The dashboard loop *)

Lemma last_ten_length {A} (xs : list A) :
  length (last_ten xs) = (10 `min` length xs)%nat.
Proof. unfold last_ten. rewrite length_drop. lia. Qed.

Lemma last_ten_suffix {A} (xs : list A) :
  xs = take (length xs - 10) xs ++ last_ten xs.
Proof. unfold last_ten. by rewrite take_drop. Qed.

(** X21.  With a dashboard that has an [update] method, an iteration calls it
    once, with the flights of the data, the clock reading, and the alerts
    at the back of the queue: the last ten, or all of them when there are
    fewer, in queue order.  The queue itself is left as it was, and the
    iteration returns whether or not [update] raises. *)
Theorem dashboard_is_shown_last_ten_alerts (s : System) (obj : Component)
    (body : Method) (item : string * PyVal) (items : list (string * PyVal)) :
  components s !! "dashboard" = Some (Some obj) →
  methods obj !! "update" = Some body →
  flights_data s = VDict (item :: items) →
  ∃ s' older recent,
    _update_dashboard_iteration s = (Ok tt, s')
    ∧ alerts_queue s' = alerts_queue s
    ∧ alerts_queue s = older ++ recent
    ∧ length recent = (10 `min` length (alerts_queue s))%nat
    ∧ calls s'
      = calls s
        ++ [{| call_key := "dashboard"; call_method_name := "update";
               call_arg :=
                 VDict [ ("flights",
                          from_option id (VList [])
                            (dict_lookup "flights" (item :: items)));
                         ("alerts", VList recent);
                         ("timestamp", VInt (clock_now (sys_clock s))) ] |}]
    ∧ critical_log s' = critical_log s
    ∧ flights_data s' = flights_data s.
Proof.
  intros Hobj Hbody Hfd.
  set (arg := VDict [ ("flights",
                       from_option id (VList [])
                         (dict_lookup "flights" (item :: items)));
                      ("alerts", VList (last_ten (alerts_queue s)));
                      ("timestamp", VInt (clock_now (sys_clock s))) ]).
  assert (Hstart : ∀ k : PyVal → IO unit,
    try_except
      (dashboard ← get_component "dashboard";
       match dashboard with
       | Some obj =>
           flights_data ← get_flights_data;
           if py_truthy flights_data then
             flights ← lift (py_get flights_data "flights" (VList []));
             queue ← get_alerts_queue;
             now ← datetime_now;
             let status := VDict [ ("flights", flights);
                                   ("alerts", VList (last_ten queue));
                                   ("timestamp", VInt now) ] in
             call_method "dashboard" obj "update" status ≫= k
           else mret tt
       | None => mret tt
       end)
      (λ e, print ("Dashboard update error: " +:+ exc_str e)) s
    = try_except (call_method "dashboard" obj "update" arg ≫= k)
        (λ e, print ("Dashboard update error: " +:+ exc_str e))
        (datetime_now s).2).
  { intros k. unfold try_except.
    rewrite (bind_run _ _ _ _ _ (get_component_run _ _ _ Hobj)). cbv beta iota.
    rewrite (bind_run _ _ _ _ _
               (eq_refl : get_flights_data s = (Ok (flights_data s), s))).
    rewrite Hfd.
    change (py_truthy (VDict (item :: items))) with true. cbv beta iota.
    rewrite (bind_run (lift (py_get (VDict (item :: items)) "flights" (VList [])))
               _ s _ s eq_refl).
    rewrite (bind_run get_alerts_queue _ s _ s eq_refl).
    rewrite (bind_run datetime_now _ s (clock_now (sys_clock s))
               (datetime_now s).2 eq_refl).
    reflexivity. }
  exists (_update_dashboard_iteration s).2,
    (take (length (alerts_queue s) - 10) (alerts_queue s)),
    (last_ten (alerts_queue s)).
  unfold _update_dashboard_iteration. rewrite Hstart. unfold try_except.
  destruct (body (length (calls (datetime_now s).2)) arg) as [v|e] eqn:Hv.
  - rewrite (bind_run _ _ _ _ _ (call_method_run _ _ _ _ _ _ _ Hbody Hv)).
    split; [reflexivity|]. split; [reflexivity|].
    split; [apply last_ten_suffix|]. split; [apply last_ten_length|].
    split; [reflexivity|]. split; reflexivity.
  - assert (Hcall : call_method "dashboard" obj "update" arg (datetime_now s).2
              = (Raise e, called "dashboard" "update" arg (datetime_now s).2)).
    { unfold call_method. unfold Method in *. rewrite Hbody. cbv beta iota.
      by rewrite Hv. }
    rewrite (bind_raise _ _ _ _ _ Hcall).
    split; [reflexivity|]. split; [reflexivity|].
    split; [apply last_ten_suffix|]. split; [apply last_ten_length|].
    split; [reflexivity|]. split; reflexivity.
Qed.

(** Twelve warnings are queued: the dashboard is shown the last ten, and
    all twelve stay queued. *)
Lemma dashboard_is_shown_last_ten_alerts_witness :
  ∃ s' (older recent : list PyVal),
    _update_dashboard_iteration busy_dashboard = (Ok tt, s')
    ∧ alerts_queue s' = alerts_queue busy_dashboard
    ∧ alerts_queue busy_dashboard = older ++ recent
    ∧ length older = 2%nat ∧ length recent = 10%nat
    ∧ calls s'
      = [{| call_key := "dashboard"; call_method_name := "update";
            call_arg := VDict [ ("flights", VList []);
                                ("alerts", VList recent);
                                ("timestamp", VInt 2000) ] |}].
Proof.
  destruct (dashboard_is_shown_last_ten_alerts busy_dashboard
              (answering "Dashboard" "update" VNone) (λ _ _, Ok VNone)
              ("flights", VList []) [] eq_refl eq_refl eq_refl)
    as (s' & older & recent & Hrun & Hq & Hsplit & Hlen & Hcalls & _).
  exists s', older, recent.
  split; [exact Hrun|]. split; [exact Hq|]. split; [exact Hsplit|].
  assert (Htwelve : length (alerts_queue busy_dashboard) = 12%nat)
    by reflexivity.
  assert (Hten : length recent = 10%nat) by (rewrite Hlen, Htwelve; reflexivity).
  split; [|split; [exact Hten|exact Hcalls]].
  rewrite Hsplit, length_app, Hten in Htwelve. lia.
Defined.

(** ** From the health loop to the dispatcher *)

Lemma monitor_health_iteration_run obj body alerts s :
  components s !! "health_monitor" = Some (Some obj) →
  methods obj !! "monitor" = Some body →
  body (length (calls s)) (flights_data s) = Ok (VList alerts) →
  py_truthy (flights_data s) = true →
  _monitor_health_iteration s
  = try_except (for_each queue_put alerts)
      (λ e, print ("Health monitoring error: " +:+ exc_str e))
      (called "health_monitor" "monitor" (flights_data s) s).
Proof.
  intros Hobj Hbody Hv Hfd. unfold _monitor_health_iteration, try_except.
  rewrite (bind_run _ _ _ _ _ (get_component_run _ _ _ Hobj)). cbv beta iota.
  rewrite (bind_run _ _ _ _ _ (eq_refl : get_flights_data s = (Ok (flights_data s), s))).
  rewrite Hfd.
  rewrite (bind_run _ _ _ _ _ (call_method_run _ _ _ _ _ _ _ Hbody Hv)).
  unfold lift. simpl py_iter.
  rewrite (bind_run (λ s, (Ok alerts, s)) _ _ alerts _ eq_refl). reflexivity.
Qed.

Lemma for_each_queue_put alerts s :
  ∃ s', for_each queue_put alerts s = (Ok tt, s')
        ∧ queued alerts s s' ∧ sys_clock s' = sys_clock s.
Proof.
  revert s. induction alerts as [|a alerts IH]; intros s.
  { exists s. split; [done|]. split; [apply queued_refl|done]. }
  set (s1 := (queue_put a s).2).
  destruct (IH s1) as (s' & Hrun & Hq & Hclock).
  exists s'. split; [|split].
  - simpl. by rewrite (bind_run _ _ _ _ _ (eq_refl : queue_put a s = (Ok tt, s1))).
  - change (a :: alerts) with ([a] ++ alerts).
    eapply queued_trans; [|exact Hq].
    repeat split; first [done | simpl; lia].
  - by rewrite Hclock.
Qed.

(** X22.  A health monitor's alerts travel to the alert system in order: an
    iteration of the health loop puts them behind what is already queued,
    in the order [monitor] returned them, and the next drain hands every
    queued event to the alert system in that order, logs the critical ones
    and leaves the queue empty. *)
Theorem health_alerts_reach_the_alert_system (s : System) (obj : Component)
    (body : Method) (alerts : list PyVal) (sink : option Component) :
  components s !! "health_monitor" = Some (Some obj) →
  methods obj !! "monitor" = Some body →
  body (length (calls s)) (flights_data s) = Ok (VList alerts) →
  py_truthy (flights_data s) = true →
  components s !! "alert_system" = Some sink →
  accepts sink →
  Forall is_event (alerts_queue s ++ alerts) →
  ∃ s1 s2,
    _monitor_health_iteration s = (Ok tt, s1)
    ∧ alerts_queue s1 = alerts_queue s ++ alerts
    ∧ stdout s1 = stdout s
    ∧ _process_alerts s1 = (Ok tt, s2)
    ∧ alerts_queue s2 = []
    ∧ dispatched sink (alerts_queue s ++ alerts) s1 s2.
Proof.
  intros Hobj Hbody Hv Hfd Hsink Hacc Hev.
  rewrite (monitor_health_iteration_run _ _ _ _ Hobj Hbody Hv Hfd).
  destruct (for_each_queue_put alerts
              (called "health_monitor" "monitor" (flights_data s) s))
    as (s1 & Hrun & Hq & _).
  destruct Hq as (_ & Hcomp & _ & _ & Hout & _ & _ & _ & Hqueue).
  simpl in Hcomp, Hqueue, Hout.
  destruct (drain_events sink (alerts_queue s1) s1 0 [])
    as (s2 & Hq2 & Hd & Hdrain);
    [by rewrite app_nil_r|by rewrite Hcomp|done|by rewrite Hqueue|].
  exists s1, s2. unfold try_except. rewrite Hrun.
  split; [done|]. split; [done|]. split; [done|].
  split; [|split; [done|by rewrite <-Hqueue]].
  unfold _process_alerts. rewrite Nat.add_0_r in Hdrain. by rewrite Hdrain.
Qed.

(** A monitor that reports one critical alert while a warning waits. *)
Lemma health_alerts_reach_the_alert_system_witness :
  (accepts (Some pager)
   ∧ Forall is_event (alerts_queue (monitored [engine_alert]) ++ [engine_alert]))
  ∧ ∃ s1 s2,
      _monitor_health_iteration (monitored [engine_alert]) = (Ok tt, s1)
      ∧ alerts_queue s1 = [delay_warning] ++ [engine_alert]
      ∧ stdout s1 = []
      ∧ _process_alerts s1 = (Ok tt, s2)
      ∧ alerts_queue s2 = []
      ∧ dispatched (Some pager) ([delay_warning] ++ [engine_alert]) s1 s2.
Proof.
  assert (H1 : accepts (Some pager)).
  { intros obj [= <-]. eexists. split; [reflexivity|]. intros. by eexists. }
  assert (H2 : Forall is_event
                 (alerts_queue (monitored [engine_alert]) ++ [engine_alert])).
  { repeat constructor; eexists; reflexivity. }
  split; [done|].
  exact (health_alerts_reach_the_alert_system (monitored [engine_alert])
           (answering "HealthMonitor" "monitor" (VList [engine_alert]))
           (λ _ _, Ok (VList [engine_alert])) [engine_alert] (Some pager)
           eq_refl eq_refl eq_refl eq_refl eq_refl H1 H2).
Defined.

(** ** The loop of the main thread *)

Lemma dispatcher_loop_quiet n entered s :
  is_running s = true → alerts_queue s = [] →
  ∀ later, dispatcher_loop (undisturbed n ++ later) entered s
           = dispatcher_loop later (entered + n)%nat s.
Proof.
  intros Hrun Hq later. revert entered.
  induction n as [|n IH]; intros entered; simpl.
  - by rewrite Nat.add_0_r.
  - rewrite Hrun. unfold id at 1.
    rewrite (process_alerts_empty s Hq), IH. f_equal. lia.
Qed.

(** X23.  Without an alert system registered, monitoring lasts as long as the
    queue is empty: the main thread goes through any number of ticks with
    nothing queued, and at the first tick that finds an event it takes the
    event off the queue and raises [KeyError], which ends its loop; the
    event is neither forwarded nor logged. *)
Theorem monitoring_ends_at_first_event (quiet : nat) (act : System → System)
    (later : list (System → System)) (s : System) (alert : PyVal)
    (queue : list PyVal) :
  is_running s = true →
  alerts_queue s = [] →
  components (act s) !! "alert_system" = None →
  alerts_queue (act s) = alert :: queue →
  (∀ others, dispatcher_loop (undisturbed quiet ++ others) 0 s
             = dispatcher_loop others quiet s)
  ∧ dispatcher_loop (undisturbed quiet) 0 s = (Ok (StillRunning, quiet), s)
  ∧ ∃ s', dispatcher_loop (undisturbed quiet ++ act :: later) 0 s
          = (Raise (KeyError "alert_system"), s')
          ∧ alerts_queue s' = queue
          ∧ critical_log s' = critical_log (act s)
          ∧ calls s' = calls (act s).
Proof.
  intros Hrun Hq Hmissing Hqueue.
  assert (Hquiet : ∀ others, dispatcher_loop (undisturbed quiet ++ others) 0 s
                             = dispatcher_loop others quiet s).
  { intros others. by rewrite (dispatcher_loop_quiet quiet 0 s Hrun Hq). }
  split; [exact Hquiet|]. split.
  - rewrite <-(app_nil_r (undisturbed quiet)), Hquiet. simpl. by rewrite Hrun.
  - rewrite Hquiet. simpl. rewrite Hrun.
    destruct (process_alerts_raises _ _ _ Hmissing Hqueue)
      as (s' & -> & Hq' & Hlog & Hcalls).
    by exists s'.
Qed.

(** Three quiet ticks, then a critical alert arrives. *)
Lemma monitoring_ends_at_first_event_witness :
  (is_running (running_with "health_monitor" pager) = true
   ∧ alerts_queue (running_with "health_monitor" pager) = []
   ∧ components (arrives engine_alert (running_with "health_monitor" pager))
       !! "alert_system" = None
   ∧ alerts_queue (arrives engine_alert (running_with "health_monitor" pager))
     = engine_alert :: [])
  ∧ ∃ s', dispatcher_loop (undisturbed 3 ++ arrives engine_alert :: [])
            0 (running_with "health_monitor" pager)
          = (Raise (KeyError "alert_system"), s')
          ∧ alerts_queue s' = []
          ∧ critical_log s' = [].
Proof.
  assert (H1 : is_running (running_with "health_monitor" pager) = true)
    by reflexivity.
  assert (H2 : alerts_queue (running_with "health_monitor" pager) = [])
    by reflexivity.
  assert (H3 : components (arrives engine_alert
                             (running_with "health_monitor" pager))
               !! "alert_system" = None) by reflexivity.
  assert (H4 : alerts_queue (arrives engine_alert
                               (running_with "health_monitor" pager))
               = engine_alert :: []) by reflexivity.
  split; [done|].
  destruct (monitoring_ends_at_first_event 3 (arrives engine_alert) []
              (running_with "health_monitor" pager) engine_alert []
              H1 H2 H3 H4) as (_ & _ & s' & Hrun & Hq & Hlog & _).
  by exists s'.
Defined.

End PipelineFacts.

(** * The single analysis with cooperating components *)
Module AnalysisFacts.
Import Main MainSpec PipelineSpec AnalysisSpec.
Import MainFacts PipelineFacts.

Lemma wpio_ret {A} (a : A) s (Q : A → System → Prop) :
  Q a s → wpio (mret a) s Q.
Proof. intros HQ. by exists a, s. Qed.

Lemma wpio_bind {A B} (m : IO A) (k : A → IO B) s (Q : B → System → Prop) :
  wpio m s (λ a s', wpio (k a) s' Q) → wpio (m ≫= k) s Q.
Proof.
  intros (a & s' & Hm & b & s'' & Hk & HQ). exists b, s''.
  split; [|exact HQ]. by rewrite (bind_run _ _ _ _ _ Hm).
Qed.

Lemma wpio_lift {A} (r : PyResult A) a s (Q : A → System → Prop) :
  r = Ok a → Q a s → wpio (lift r) s Q.
Proof. intros -> HQ. by exists a, s. Qed.

Lemma wpio_print s0 fd clk cs line s (Q : unit → System → Prop) :
  at_stage s0 fd clk cs s →
  (∀ s', at_stage s0 fd clk cs s' → Q tt s') →
  wpio (print line) s Q.
Proof.
  intros Hst HQ. eexists tt, _. split; [reflexivity|]. apply HQ. exact Hst.
Qed.

Lemma wpio_get_config s0 fd clk cs s (Q : PyVal → System → Prop) :
  at_stage s0 fd clk cs s → Q (config s0) s → wpio get_config s Q.
Proof.
  intros Hst HQ. exists (config s), s. split; [reflexivity|].
  destruct Hst as (-> & _). exact HQ.
Qed.

Lemma wpio_get_flights_data s0 fd clk cs s (Q : PyVal → System → Prop) :
  at_stage s0 fd clk cs s → Q fd s → wpio get_flights_data s Q.
Proof.
  intros Hst HQ. exists (flights_data s), s. split; [reflexivity|].
  destruct Hst as (_ & _ & _ & _ & _ & -> & _). exact HQ.
Qed.

Lemma wpio_get_alerts_queue s0 fd clk cs s
    (Q : list PyVal → System → Prop) :
  at_stage s0 fd clk cs s → Q (alerts_queue s0) s → wpio get_alerts_queue s Q.
Proof.
  intros Hst HQ. exists (alerts_queue s), s. split; [reflexivity|].
  destruct Hst as (_ & _ & -> & _). exact HQ.
Qed.

Lemma wpio_set_flights_data s0 fd clk cs fd' s (Q : unit → System → Prop) :
  at_stage s0 fd clk cs s →
  (∀ s', at_stage s0 fd' clk cs s' → Q tt s') →
  wpio (set_flights_data fd') s Q.
Proof.
  intros Hst HQ. eexists tt, _. split; [reflexivity|]. apply HQ.
  destruct Hst as (? & ? & ? & ? & ? & ? & ? & ?). by repeat split.
Qed.

Lemma wpio_datetime_now s0 fd clk cs s (Q : Z → System → Prop) :
  at_stage s0 fd clk cs s →
  (∀ s', at_stage s0 fd (read_clock clk).2 cs s' → Q (clock_now clk) s') →
  wpio datetime_now s Q.
Proof.
  intros Hst HQ. destruct Hst as (? & ? & ? & ? & ? & ? & Hclk & ?).
  eexists _, _. split; [reflexivity|]. simpl. rewrite Hclk. apply HQ.
  by repeat split.
Qed.

Lemma wpio_get_component s0 fd clk cs key c s
    (Q : option Component → System → Prop) :
  at_stage s0 fd clk cs s → components s0 !! key = Some c →
  Q c s → wpio (get_component key) s Q.
Proof.
  intros Hst Hc HQ. exists c, s. split; [|exact HQ].
  apply get_component_run. destruct Hst as (_ & -> & _). exact Hc.
Qed.

Lemma wpio_call s0 fd clk cs key obj meth body arg v s
    (Q : PyVal → System → Prop) :
  methods obj !! meth = Some body → (∀ k a, body k a = Ok v) →
  at_stage s0 fd clk cs s →
  (∀ s', at_stage s0 fd clk (cs ++ [call key meth arg]) s' → Q v s') →
  wpio (call_method key obj meth arg) s Q.
Proof.
  intros Hm Hv Hst HQ. exists v, (called key meth arg s). split.
  - exact (call_method_run _ _ _ _ _ _ _ Hm (Hv _ _)).
  - apply HQ. destruct Hst as (? & ? & ? & ? & ? & ? & ? & Hc).
    repeat split; try done. simpl. rewrite Hc. by rewrite <-app_assoc.
Qed.

Lemma wpio_delayed_flights delays s (Q : list PyVal → System → Prop) :
  Forall readable delays → (∀ l, Q l s) → wpio (delayed_flights delays) s Q.
Proof.
  intros Hall. revert Q. induction Hall as [|d delays Hd _ IH]; intros Q HQ.
  - by apply wpio_ret.
  - destruct Hd as (minutes & late & Hget & Hgt). simpl.
    apply wpio_bind, (wpio_lift _ _ _ _ Hget).
    apply wpio_bind, (wpio_lift _ _ _ _ Hgt).
    apply wpio_bind, IH. intros l. apply wpio_ret, HQ.
Qed.

(** The optional PDF step returns whatever the reporter does. *)
Lemma wpio_pdf s0 fd clk cs reporter report (line : PyVal → string)
    (fallback : string) s (Q : unit → System → Prop) :
  at_stage s0 fd clk cs s →
  (∀ s', at_stage s0 fd clk (cs ++ pdf_call_of reporter report) s' → Q tt s') →
  wpio (try_except
          (pdf_path ← call_method "reporter" reporter "generate_pdf_report"
                        report;
           print (line pdf_path))
          (λ _, print fallback)) s Q.
Proof.
  intros Hst HQ. unfold pdf_call_of in HQ. unfold wpio, try_except.
  cbv beta.
  destruct (methods reporter !! "generate_pdf_report") as [body|] eqn:Hm.
  - destruct (body (length (calls s)) report) as [v|e] eqn:Hv.
    + rewrite (bind_run _ _ _ _ _ (call_method_run _ _ _ _ _ _ _ Hm Hv)).
      eexists tt, _. split; [reflexivity|]. apply HQ.
      destruct Hst as (? & ? & ? & ? & ? & ? & ? & Hc).
      repeat split; try done. simpl. rewrite Hc. by rewrite <-app_assoc.
    + assert (Hcall : call_method "reporter" reporter "generate_pdf_report"
                        report s
                      = (Raise e, called "reporter" "generate_pdf_report"
                                    report s)).
      { unfold call_method. unfold Method in *. rewrite Hm.
        cbv beta iota. by rewrite Hv. }
      rewrite (bind_raise _ _ _ _ _ Hcall).
      eexists tt, _. split; [reflexivity|]. apply HQ.
      destruct Hst as (? & ? & ? & ? & ? & ? & ? & Hc).
      repeat split; try done. simpl. rewrite Hc. by rewrite <-app_assoc.
  - rewrite (bind_raise _ _ _ _ _ (call_method_missing _ _ _ _ _ Hm)).
    eexists tt, _. split; [reflexivity|]. apply HQ.
    rewrite app_nil_r. exact Hst.
Qed.

Lemma at_stage_start s : at_stage s (flights_data s) (sys_clock s) [] s.
Proof. repeat split. by rewrite app_nil_r. Qed.

Ltac io_next := cbv beta iota zeta; repeat apply wpio_bind.

Ltac io_print :=
  io_next;
  match goal with
  | H : at_stage _ _ _ _ ?s |- wpio (print _) ?s _ =>
      refine (wpio_print _ _ _ _ _ _ _ H _); clear H; intros ? H
  end.

Ltac io_call Hm Hv :=
  io_next;
  match goal with
  | H : at_stage _ _ _ _ ?s |- wpio (call_method _ _ _ _) ?s _ =>
      refine (wpio_call _ _ _ _ _ _ _ _ _ _ _ _ Hm Hv H _); clear H; intros ? H
  end.

Ltac io_component Hc :=
  io_next;
  match goal with
  | H : at_stage _ _ _ _ ?s |- wpio (get_component _) ?s _ =>
      refine (wpio_get_component _ _ _ _ _ _ _ _ H Hc _)
  end.

Ltac io_data :=
  io_next;
  match goal with
  | H : at_stage _ _ _ _ ?s |- wpio get_flights_data ?s _ =>
      refine (wpio_get_flights_data _ _ _ _ _ _ H _)
  end.

Ltac io_lift Hr :=
  io_next; refine (wpio_lift _ _ _ _ Hr _).

(** X24.  With components that answer, a single analysis runs to the end
    and calls them in one fixed order: the log processor takes the sample
    and returns the logs, which become the flight data and are what every
    analysis component is given; the reporter gets the logs' five
    sections, the whole alert queue and the clock reading; the PDF step
    is tried when the reporter has one and its failure is ignored; the
    dashboard comes last.  The queue is only read: no result of the
    analysis is put on it. *)
Theorem single_analysis_call_order
    (_generate_sample_data : PyVal → PyResult PyVal) (s : System)
    (sample ingested : PyVal) (logs : list (string * PyVal))
    (health delays : list PyVal) (crew_results : list (string * PyVal))
    (loads : list PyVal) (routes : list (string * PyVal))
    (path shown : PyVal) :
  _generate_sample_data (config s) = Ok sample →
  serves s "log_processor" "ingest_logs" ingested →
  serves s "log_processor" "get_all_logs" (VDict logs) →
  countable "flights" logs → countable "passengers" logs →
  countable "crew" logs →
  serves s "health_monitor" "monitor" (VList health) →
  serves s "delay_predictor" "predict" (VList delays) →
  Forall readable delays →
  serves s "crew_optimizer" "optimize" (VDict crew_results) →
  countable "issues" crew_results →
  serves s "load_predictor" "predict" (VList loads) →
  serves s "route_monitor" "monitor" (VDict routes) →
  countable "diversion_suggestions" routes →
  serves s "reporter" "generate_daily_report" path →
  serves s "dashboard" "display_full" shown →
  ∃ s', run_single_analysis _generate_sample_data s = (Ok tt, s')
        ∧ flights_data s' = VDict logs
        ∧ calls s' = calls s ++ analysis_calls s sample logs
        ∧ alerts_queue s' = alerts_queue s
        ∧ critical_log s' = critical_log s
        ∧ components s' = components s
        ∧ is_running s' = is_running s.
Proof.
  intros Hgen (lp & b_in & Hlp & Hm_in & Hv_in)
    (lp' & b_all & Hlp' & Hm_all & Hv_all)
    (n_f & Hn_f) (n_p & Hn_p) (n_c & Hn_c)
    (hm & b_hm & Hhm & Hm_hm & Hv_hm)
    (dp & b_dp & Hdp & Hm_dp & Hv_dp) Hread
    (co & b_co & Hco & Hm_co & Hv_co) (n_i & Hn_i)
    (ld & b_ld & Hld & Hm_ld & Hv_ld)
    (rm & b_rm & Hrm & Hm_rm & Hv_rm) (n_d & Hn_d)
    (rp & b_rp & Hrp & Hm_rp & Hv_rp)
    (db & b_db & Hdb & Hm_db & Hv_db).
  rewrite Hlp in Hlp'. injection Hlp' as <-.
  cut (wpio (run_single_analysis _generate_sample_data) s
         (λ _ s', at_stage s (VDict logs) (read_clock (sys_clock s)).2
                    (analysis_calls s sample logs) s')).
  { intros ([] & s' & Hrun & Hst). exists s'. split; [exact Hrun|].
    destruct Hst as (? & ? & ? & ? & ? & ? & ? & ?). by repeat split. }
  pose proof (at_stage_start s) as Hst.
  unfold run_single_analysis, load_sample_data, generate_daily_report,
    show_dashboard.
  (* load_sample_data *)
  io_next. refine (wpio_get_config _ _ _ _ _ _ Hst _).
  io_lift Hgen.
  io_component Hlp.
  io_call Hm_in Hv_in.
  io_call Hm_all Hv_all.
  io_next.
  refine (wpio_set_flights_data _ _ _ _ _ _ _ Hst _); clear Hst; intros ? Hst.
  io_lift (eq_refl : py_get (VDict logs) "flights" (VList [])
                     = Ok (entry "flights" logs)).
  io_lift Hn_f. io_print.
  io_lift (eq_refl : py_get (VDict logs) "passengers" (VList [])
                     = Ok (entry "passengers" logs)).
  io_lift Hn_p. io_print.
  io_lift (eq_refl : py_get (VDict logs) "crew" (VList [])
                     = Ok (entry "crew" logs)).
  io_lift Hn_c. io_print.
  (* health monitoring *)
  io_component Hhm. io_data. io_call Hm_hm Hv_hm.
  io_lift (eq_refl : py_len (VList health) = Ok (length health)). io_print.
  (* delay prediction *)
  io_component Hdp. io_data. io_call Hm_dp Hv_dp.
  io_lift (eq_refl : py_iter (VList delays) = Ok delays).
  io_next. refine (wpio_delayed_flights _ _ _ Hread _). intros delayed.
  io_print.
  (* crew optimization *)
  io_component Hco. io_data. io_call Hm_co Hv_co.
  io_lift (eq_refl : py_get (VDict crew_results) "issues" (VList [])
                     = Ok (entry "issues" crew_results)).
  io_lift Hn_i. io_print.
  (* load prediction *)
  io_component Hld. io_data. io_call Hm_ld Hv_ld.
  io_lift (eq_refl : py_len (VList loads) = Ok (length loads)). io_print.
  (* route monitoring *)
  io_component Hrm. io_data. io_call Hm_rm Hv_rm.
  io_lift (eq_refl : py_get (VDict routes) "diversion_suggestions" (VList [])
                     = Ok (entry "diversion_suggestions" routes)).
  io_lift Hn_d. io_print.
  (* the report *)
  io_component Hrp. io_data.
  io_lift (eq_refl : py_get (VDict logs) "flights" (VList [])
                     = Ok (entry "flights" logs)).
  io_lift (eq_refl : py_get (VDict logs) "passengers" (VList [])
                     = Ok (entry "passengers" logs)).
  io_lift (eq_refl : py_get (VDict logs) "crew" (VList [])
                     = Ok (entry "crew" logs)).
  io_lift (eq_refl : py_get (VDict logs) "weather" (VList [])
                     = Ok (entry "weather" logs)).
  io_lift (eq_refl : py_get (VDict logs) "maintenance" (VList [])
                     = Ok (entry "maintenance" logs)).
  io_next. refine (wpio_get_alerts_queue _ _ _ _ _ _ Hst _).
  io_next.
  refine (wpio_datetime_now _ _ _ _ _ _ Hst _); clear Hst; intros ? Hst.
  io_call Hm_rp Hv_rp. io_print.
  io_next. refine (wpio_pdf _ _ _ _ _ _ _ _ _ _ Hst _); clear Hst; intros ? Hst.
  (* the dashboard *)
  io_component Hdb. io_call Hm_db Hv_db.
  io_next. apply wpio_ret.
  destruct Hst as (? & ? & ? & ? & ? & ? & ? & Hc). repeat split; try done.
  rewrite Hc. f_equal. unfold analysis_calls, pdf_calls, report_data.
  rewrite Hrp. simpl. reflexivity.
Qed.

(** The cooperating system: nine calls, the reporter having no PDF step;
    the queued warning is in the report and still queued afterwards. *)
Lemma single_analysis_call_order_witness :
  (serves cooperative "log_processor" "ingest_logs" VNone
   ∧ serves cooperative "log_processor" "get_all_logs" (VDict sample_logs)
   ∧ serves cooperative "health_monitor" "monitor" (VList [engine_alert])
   ∧ serves cooperative "delay_predictor" "predict" (VList two_predictions)
   ∧ Forall readable two_predictions
   ∧ serves cooperative "crew_optimizer" "optimize"
       (VDict [("issues", VList [])])
   ∧ serves cooperative "load_predictor" "predict" (VList [])
   ∧ serves cooperative "route_monitor" "monitor" (VDict [])
   ∧ serves cooperative "reporter" "generate_daily_report"
       (VStr "reports/daily.txt")
   ∧ serves cooperative "dashboard" "display_full" VNone)
  ∧ ∃ s',
      run_single_analysis (λ _, Ok (VDict [])) cooperative = (Ok tt, s')
      ∧ flights_data s' = VDict sample_logs
      ∧ calls s'
        = [ call "log_processor" "ingest_logs" (VDict []);
            call "log_processor" "get_all_logs" VNone;
            call "health_monitor" "monitor" (VDict sample_logs);
            call "delay_predictor" "predict" (VDict sample_logs);
            call "crew_optimizer" "optimize" (VDict sample_logs);
            call "load_predictor" "predict" (VDict sample_logs);
            call "route_monitor" "monitor" (VDict sample_logs);
            call "reporter" "generate_daily_report"
              (report_data sample_logs [delay_warning] 2000);
            call "dashboard" "display_full" VNone ]
      ∧ alerts_queue s' = [delay_warning].
Proof.
  assert (H1 : serves cooperative "log_processor" "ingest_logs" VNone).
  { exists log_store, (λ _ _, Ok VNone).
    split; [vm_compute; reflexivity|]. split; [vm_compute; reflexivity|].
    reflexivity. }
  assert (H2 : serves cooperative "log_processor" "get_all_logs"
                 (VDict sample_logs)).
  { exists log_store, (λ _ _, Ok (VDict sample_logs)).
    split; [vm_compute; reflexivity|]. split; [vm_compute; reflexivity|].
    reflexivity. }
  assert (Hans : ∀ key cname meth v,
             components cooperative !! key
             = Some (Some (answering cname meth v)) →
             serves cooperative key meth v).
  { intros key cname meth v Hkey. exists (answering cname meth v), (λ _ _, Ok v).
    split; [exact Hkey|]. split; [apply lookup_singleton_eq|reflexivity]. }
  assert (H3 : serves cooperative "health_monitor" "monitor"
                 (VList [engine_alert]))
    by (apply (Hans _ "HealthMonitor"); vm_compute; reflexivity).
  assert (H4 : serves cooperative "delay_predictor" "predict"
                 (VList two_predictions))
    by (apply (Hans _ "DelayPredictor"); vm_compute; reflexivity).
  assert (H5 : Forall readable two_predictions).
  { repeat constructor.
    - by exists (VInt 30), true.
    - by exists (VInt 31), true. }
  assert (H6 : serves cooperative "crew_optimizer" "optimize"
                 (VDict [("issues", VList [])]))
    by (apply (Hans _ "CrewOptimizer"); vm_compute; reflexivity).
  assert (H7 : serves cooperative "load_predictor" "predict" (VList []))
    by (apply (Hans _ "LoadPredictor"); vm_compute; reflexivity).
  assert (H8 : serves cooperative "route_monitor" "monitor" (VDict []))
    by (apply (Hans _ "RouteMonitor"); vm_compute; reflexivity).
  assert (H9 : serves cooperative "reporter" "generate_daily_report"
                 (VStr "reports/daily.txt"))
    by (apply (Hans _ "ReportGenerator"); vm_compute; reflexivity).
  assert (H10 : serves cooperative "dashboard" "display_full" VNone)
    by (apply (Hans _ "Dashboard"); vm_compute; reflexivity).
  split; [repeat split; assumption|].
  destruct (single_analysis_call_order (λ _, Ok (VDict [])) cooperative
              (VDict []) VNone sample_logs [engine_alert] two_predictions
              [("issues", VList [])] [] [] (VStr "reports/daily.txt") VNone
              eq_refl H1 H2
              (ex_intro _ 3%nat eq_refl) (ex_intro _ 0%nat eq_refl)
              (ex_intro _ 0%nat eq_refl)
              H3 H4 H5 H6 (ex_intro _ 0%nat eq_refl) H7 H8
              (ex_intro _ 0%nat eq_refl) H9 H10)
    as (s' & Hrun & Hdata & Hcalls & Hqueue & _).
  exists s'. split; [exact Hrun|]. split; [exact Hdata|].
  split; [|exact Hqueue].
  rewrite Hcalls. vm_compute. reflexivity.
Defined.

End AnalysisFacts.
